(** * USLM document model: detection, accessors and codecs

    A shallow embedding of the Go package [uslm] (United States Legislative
    Markup): the byte-level document type detector, the struct declarations
    of the document tree with their accessor methods, and the tag-driven
    JSON and XML encodings the package obtains from [encoding/json] and
    [encoding/xml].

    Go strings and byte slices are sequences of bytes: they are modelled
    as [string], whose characters are the 256 byte values. *)

From Stdlib Require Import String Ascii List Bool Arith NArith Lia DecimalString.
Import ListNotations.
Open Scope string_scope.
Open Scope list_scope.


(** ** Package [strings]: the functions the detector calls *)

Module strings.

(** [strings.HasPrefix(s, prefix)]. *)
Fixpoint HasPrefix (s prefix : string) {struct prefix} : bool :=
  match prefix with
  | EmptyString => true
  | String p prefix' =>
      match s with
      | EmptyString => false
      | String c s' => Ascii.eqb c p && HasPrefix s' prefix'
      end
  end.

(** [strings.Contains(s, substr)]: [substr] starts at some index of [s]. *)
Fixpoint Contains (s substr : string) : bool :=
  HasPrefix s substr ||
  match s with
  | EmptyString => false
  | String _ s' => Contains s' substr
  end.

(** The six ASCII white-space bytes of [asciiSpace]:
    tab, line feed, vertical tab, form feed, carriage return, space. *)
Definition asciiSpace (c : ascii) : bool :=
  let n := nat_of_ascii c in
  ((9 <=? n) && (n <=? 13) || (n =? 32))%nat.

(** The white-space runes above U+007F ([unicode.IsSpace]), by their UTF-8
    encodings: U+0085 and U+00A0 on two bytes; U+1680, U+2000..U+200A,
    U+2028, U+2029, U+202F, U+205F and U+3000 on three. *)
Definition space2 (a b : ascii) : bool :=
  let a := nat_of_ascii a in
  let b := nat_of_ascii b in
  ((a =? 194) && ((b =? 133) || (b =? 160)))%nat.

Definition space3 (a b c : ascii) : bool :=
  let a := nat_of_ascii a in
  let b := nat_of_ascii b in
  let c := nat_of_ascii c in
  ((a =? 225) && (b =? 154) && (c =? 128)
   || (a =? 226) && (b =? 128)
      && ((128 <=? c) && (c <=? 138) || (c =? 168) || (c =? 169) || (c =? 175))
   || (a =? 226) && (b =? 129) && (c =? 159)
   || (a =? 227) && (b =? 128) && (c =? 128))%nat.

(** Leading white space removed, rune by rune ([strings.TrimLeftFunc] with
    [unicode.IsSpace]); a byte that starts no white-space rune stops it. *)
Fixpoint trimLeft (s : string) : string :=
  match s with
  | EmptyString => EmptyString
  | String a s1 =>
      if asciiSpace a then trimLeft s1 else
      match s1 with
      | EmptyString => s
      | String b s2 =>
          if space2 a b then trimLeft s2 else
          match s2 with
          | EmptyString => s
          | String c s3 => if space3 a b c then trimLeft s3 else s
          end
      end
  end.

Fixpoint rev (s acc : string) : string :=
  match s with
  | EmptyString => acc
  | String c s' => rev s' (String c acc)
  end.

(** Trailing white space removed: the same runes, read from the end
    ([utf8.DecodeLastRuneInString] steps back to the lead byte). *)
Fixpoint trimLeftRev (r : string) : string :=
  match r with
  | EmptyString => EmptyString
  | String c r1 =>
      if asciiSpace c then trimLeftRev r1 else
      match r1 with
      | EmptyString => r
      | String b r2 =>
          if space2 b c then trimLeftRev r2 else
          match r2 with
          | EmptyString => r
          | String a r3 => if space3 a b c then trimLeftRev r3 else r
          end
      end
  end.

Definition trimRight (s : string) : string :=
  rev (trimLeftRev (rev s EmptyString)) EmptyString.

(** [strings.TrimSpace(s)]. *)
Definition TrimSpace (s : string) : string := trimRight (trimLeft s).

End strings.

(** ** Document type detection (parser.go) *)

(** [type DocumentType string] and its five constants. *)
Definition DocumentType := string.

Definition DocumentTypeBill : DocumentType := "bill".
Definition DocumentTypeResolution : DocumentType := "resolution".
Definition DocumentTypeAmendment : DocumentType := "amendment".
Definition DocumentTypeEngrossedAmendment : DocumentType := "engrossedAmendment".
Definition DocumentTypeUnknown : DocumentType := "unknown".

(** [DetectDocumentType(data)]: four tests in sequence, each a substring
    search over the whole content.  In Go [&&] binds tighter than [||]. *)
Definition DetectDocumentType (data : string) : DocumentType :=
  let content := data in
  if strings.Contains content "<bill "
     || strings.HasPrefix (strings.TrimSpace content) "<?xml"
        && strings.Contains content "<bill"
  then DocumentTypeBill
  else if strings.Contains content "<resolution "
          || strings.Contains content "<resolution>"
  then DocumentTypeResolution
  else if strings.Contains content "<engrossedAmendment "
          || strings.Contains content "<engrossedAmendment>"
  then DocumentTypeEngrossedAmendment
  else if strings.Contains content "<amendment "
          || strings.Contains content "<amendment>"
  then DocumentTypeAmendment
  else DocumentTypeUnknown.


(** ** Package [encoding/xml]: names and the declaration header *)

Module xml.

(** [type Name struct { Space, Local string }]. *)
Record Name : Type := mkName { Space : string; Local : string }.

End xml.

(** ** The document tree (common.go, preface.go, content.go, metadata.go,
    bill.go, resolution.go, amendment.go)

    One record per Go struct, fields in declaration order.  A pointer field
    [*T] is an [option T] ([None] is [nil]); a slice field [[]T] is a
    [list T], the empty list standing for the [nil] slice, which is the
    only empty slice the decoders of this package leave in a field.
    [Ref] refers to itself through [InnerRef]; the section hierarchy and
    the content nodes that quote it form one mutually recursive family. *)

Scheme All for option.
Scheme All for list.

Record Inline : Type := mkInline {
    Inline_XMLName : xml.Name;
    Inline_Class   : string;
    Inline_Role    : string;
    Inline_Text    : string
  }.

Record Italic : Type := mkItalic {
    Italic_XMLName : xml.Name;
    Italic_Text    : string
  }.

Record Bold : Type := mkBold {
    Bold_XMLName : xml.Name;
    Bold_Text    : string
  }.

Record Sup : Type := mkSup {
    Sup_XMLName : xml.Name;
    Sup_Text    : string
  }.

Record Sub : Type := mkSub {
    Sub_XMLName : xml.Name;
    Sub_Text    : string
  }.

Record Term : Type := mkTerm {
    Term_XMLName : xml.Name;
    Term_Text    : string
  }.

Inductive Ref : Type := mkRef {
    Ref_XMLName  : xml.Name;
    Ref_Href     : string;
    Ref_Text     : string;
    Ref_InnerRef : option Ref
  }.

Record P : Type := mkP {
    P_XMLName : xml.Name;
    P_Class   : string;
    P_Text    : string
  }.

Record MixedContent : Type := mkMixedContent {
    MixedContent_Text   : string;
    MixedContent_Inline : list Inline;
    MixedContent_I      : list Italic;
    MixedContent_B      : list Bold;
    MixedContent_Sup    : list Sup;
    MixedContent_Sub    : list Sub;
    MixedContent_Term   : list Term;
    MixedContent_Ref    : list Ref;
    MixedContent_P      : list P
  }.

Record ShortTitle : Type := mkShortTitle {
    ShortTitle_XMLName : xml.Name;
    ShortTitle_Role    : string;
    ShortTitle_Text    : string
  }.

Record QuotedText : Type := mkQuotedText {
    QuotedText_XMLName : xml.Name;
    QuotedText_Text    : string
  }.

Record AmendingAction : Type := mkAmendingAction {
    AmendingAction_XMLName : xml.Name;
    AmendingAction_Type    : string;
    AmendingAction_Text    : string
  }.

Record Num : Type := mkNum {
    Num_XMLName : xml.Name;
    Num_Value   : string;
    Num_Text    : string
  }.

Record Heading : Type := mkHeading {
    Heading_XMLName : xml.Name;
    Heading_Class   : string;
    Heading_Text    : string;
    Heading_Inline  : list Inline
  }.

Record Chapeau : Type := mkChapeau {
    Chapeau_XMLName        : xml.Name;
    Chapeau_Class          : string;
    Chapeau_Text           : string;
    Chapeau_Inline         : list Inline;
    Chapeau_Ref            : list Ref;
    Chapeau_AmendingAction : list AmendingAction
  }.

Inductive Content : Type := mkContent {
    Content_XMLName          : xml.Name;
    Content_Class            : string;
    Content_Text             : string;
    Content_Inline           : list Inline;
    Content_I                : list Italic;
    Content_Ref              : list Ref;
    Content_ShortTitle       : list ShortTitle;
    Content_QuotedText       : list QuotedText;
    Content_AmendingAction   : list AmendingAction;
    Content_QuotedContent    : list QuotedContent;
    Content_AmendmentContent : list AmendmentContent
  }
with QuotedContent : Type := mkQuotedContent {
    QuotedContent_XMLName    : xml.Name;
    QuotedContent_ID         : string;
    QuotedContent_StyleType  : string;
    QuotedContent_Paragraph  : list Paragraph;
    QuotedContent_Subsection : list Subsection;
    QuotedContent_Section    : list Section
  }
with AmendmentContent : Type := mkAmendmentContent {
    AmendmentContent_XMLName   : xml.Name;
    AmendmentContent_Class     : string;
    AmendmentContent_Changed   : string;
    AmendmentContent_StyleType : string;
    AmendmentContent_Section   : list Section
  }
with Section : Type := mkSection {
    Section_XMLName     : xml.Name;
    Section_ID          : string;
    Section_Identifier  : string;
    Section_Role        : string;
    Section_Class       : string;
    Section_Num         : option Num;
    Section_Heading     : option Heading;
    Section_Chapeau     : option Chapeau;
    Section_Content     : option Content;
    Section_Paragraphs  : list Paragraph;
    Section_Subsections : list Subsection
  }
with Subsection : Type := mkSubsection {
    Subsection_XMLName    : xml.Name;
    Subsection_ID         : string;
    Subsection_Identifier : string;
    Subsection_Class      : string;
    Subsection_Num        : option Num;
    Subsection_Heading    : option Heading;
    Subsection_Chapeau    : option Chapeau;
    Subsection_Content    : option Content;
    Subsection_Paragraphs : list Paragraph
  }
with Paragraph : Type := mkParagraph {
    Paragraph_XMLName       : xml.Name;
    Paragraph_ID            : string;
    Paragraph_Identifier    : string;
    Paragraph_Class         : string;
    Paragraph_Role          : string;
    Paragraph_Num           : option Num;
    Paragraph_Heading       : option Heading;
    Paragraph_Chapeau       : option Chapeau;
    Paragraph_Content       : option Content;
    Paragraph_Subparagraphs : list Subparagraph
  }
with Subparagraph : Type := mkSubparagraph {
    Subparagraph_XMLName    : xml.Name;
    Subparagraph_ID         : string;
    Subparagraph_Identifier : string;
    Subparagraph_Class      : string;
    Subparagraph_Num        : option Num;
    Subparagraph_Chapeau    : option Chapeau;
    Subparagraph_Content    : option Content;
    Subparagraph_Clauses    : list Clause
  }
with Clause : Type := mkClause {
    Clause_XMLName    : xml.Name;
    Clause_ID         : string;
    Clause_Identifier : string;
    Clause_Class      : string;
    Clause_Num        : option Num;
    Clause_Content    : option Content;
    Clause_Subclauses : list Subclause
  }
with Subclause : Type := mkSubclause {
    Subclause_XMLName    : xml.Name;
    Subclause_ID         : string;
    Subclause_Identifier : string;
    Subclause_Class      : string;
    Subclause_Num        : option Num;
    Subclause_Content    : option Content
  }.

Record DistributionCode : Type := mkDistributionCode {
    DistributionCode_XMLName : xml.Name;
    DistributionCode_Display : string;
    DistributionCode_Text    : string
  }.

Record CongressElement : Type := mkCongressElement {
    CongressElement_XMLName : xml.Name;
    CongressElement_Value   : string;
    CongressElement_Text    : string
  }.

Record SessionElement : Type := mkSessionElement {
    SessionElement_XMLName : xml.Name;
    SessionElement_Value   : string;
    SessionElement_Text    : string
  }.

Record CurrentChamber : Type := mkCurrentChamber {
    CurrentChamber_XMLName : xml.Name;
    CurrentChamber_Value   : string;
    CurrentChamber_Text    : string
  }.

Record ActionDate : Type := mkActionDate {
    ActionDate_XMLName : xml.Name;
    ActionDate_Date    : string;
    ActionDate_Text    : string;
    ActionDate_Inline  : list Inline
  }.

Record Sponsor : Type := mkSponsor {
    Sponsor_XMLName  : xml.Name;
    Sponsor_SenateID : string;
    Sponsor_HouseID  : string;
    Sponsor_Text     : string;
    Sponsor_Inline   : list Inline
  }.

Record Cosponsor : Type := mkCosponsor {
    Cosponsor_XMLName  : xml.Name;
    Cosponsor_SenateID : string;
    Cosponsor_HouseID  : string;
    Cosponsor_Text     : string;
    Cosponsor_Inline   : list Inline
  }.

Record Committee : Type := mkCommittee {
    Committee_XMLName     : xml.Name;
    Committee_CommitteeID : string;
    Committee_Text        : string
  }.

Record ActionDescription : Type := mkActionDescription {
    ActionDescription_XMLName    : xml.Name;
    ActionDescription_Text       : string;
    ActionDescription_Sponsors   : list Sponsor;
    ActionDescription_Cosponsors : list Cosponsor;
    ActionDescription_Committees : list Committee;
    ActionDescription_Inline     : list Inline
  }.

Record Action : Type := mkAction {
    Action_XMLName           : xml.Name;
    Action_ActionStage       : string;
    Action_Date              : option ActionDate;
    Action_ActionDescription : option ActionDescription;
    Action_ActionInstruction : string
  }.

Record Preface : Type := mkPreface {
    Preface_XMLName          : xml.Name;
    Preface_SlugLine         : string;
    Preface_DistributionCode : option DistributionCode;
    Preface_Congress         : option CongressElement;
    Preface_Session          : option SessionElement;
    Preface_DCType           : string;
    Preface_DocNumber        : string;
    Preface_DCTitle          : string;
    Preface_CurrentChamber   : option CurrentChamber;
    Preface_Actions          : list Action
  }.

Record AmendPreface : Type := mkAmendPreface {
    AmendPreface_XMLName        : xml.Name;
    AmendPreface_SlugLine       : string;
    AmendPreface_CurrentChamber : option CurrentChamber;
    AmendPreface_Actions        : list Action
  }.

Record LongTitle : Type := mkLongTitle {
    LongTitle_XMLName       : xml.Name;
    LongTitle_DocTitle      : string;
    LongTitle_OfficialTitle : string
  }.

Record EnactingFormula : Type := mkEnactingFormula {
    EnactingFormula_XMLName : xml.Name;
    EnactingFormula_Text    : string;
    EnactingFormula_I       : list Italic
  }.

Record ReferenceItem : Type := mkReferenceItem {
    ReferenceItem_XMLName    : xml.Name;
    ReferenceItem_Role       : string;
    ReferenceItem_Designator : string;
    ReferenceItem_Label      : string
  }.

Record TOC : Type := mkTOC {
    TOC_XMLName       : xml.Name;
    TOC_ReferenceItem : list ReferenceItem
  }.

Record Recital : Type := mkRecital {
    Recital_XMLName    : xml.Name;
    Recital_Text       : string;
    Recital_P          : list P;
    Recital_Paragraphs : list Paragraph
  }.

Record ResolvingClause : Type := mkResolvingClause {
    ResolvingClause_XMLName : xml.Name;
    ResolvingClause_Class   : string;
    ResolvingClause_Text    : string;
    ResolvingClause_I       : list Italic
  }.

Record Preamble : Type := mkPreamble {
    Preamble_XMLName         : xml.Name;
    Preamble_Recitals        : list Recital;
    Preamble_ResolvingClause : option ResolvingClause
  }.

Record Title : Type := mkTitle {
    Title_XMLName  : xml.Name;
    Title_ID       : string;
    Title_Num      : option Num;
    Title_Heading  : option Heading;
    Title_Sections : list Section
  }.

Record Main : Type := mkMain {
    Main_XMLName         : xml.Name;
    Main_StyleType       : string;
    Main_LongTitle       : option LongTitle;
    Main_EnactingFormula : option EnactingFormula;
    Main_TOC             : option TOC;
    Main_Preamble        : option Preamble;
    Main_Sections        : list Section;
    Main_Titles          : list Title;
    Main_EndMarker       : string
  }.

Record AmendmentInstruction : Type := mkAmendmentInstruction {
    AmendmentInstruction_XMLName : xml.Name;
    AmendmentInstruction_Num     : option Num;
    AmendmentInstruction_Content : option Content
  }.

Record Notation : Type := mkNotation {
    Notation_XMLName : xml.Name;
    Notation_Type    : string;
    Notation_Text    : string
  }.

Record Signature : Type := mkSignature {
    Signature_XMLName  : xml.Name;
    Signature_Notation : option Notation;
    Signature_Role     : string;
    Signature_Text     : string
  }.

Record Signatures : Type := mkSignatures {
    Signatures_XMLName   : xml.Name;
    Signatures_Signature : list Signature
  }.

Record Endorsement : Type := mkEndorsement {
    Endorsement_XMLName     : xml.Name;
    Endorsement_Orientation : string;
    Endorsement_Congress    : option CongressElement;
    Endorsement_Session     : option SessionElement;
    Endorsement_DCType      : string;
    Endorsement_DocNumber   : string;
    Endorsement_DocTitle    : string
  }.

Record AmendMain : Type := mkAmendMain {
    AmendMain_XMLName                           : xml.Name;
    AmendMain_AmendmentInstructionLineNumbering : string;
    AmendMain_ResolvingClause                   : option ResolvingClause;
    AmendMain_Sections                          : list Section;
    AmendMain_DocTitle                          : string;
    AmendMain_AmendmentInstructions             : list AmendmentInstruction;
    AmendMain_Signatures                        : option Signatures;
    AmendMain_Endorsement                       : option Endorsement
  }.

Record RelatedDocument : Type := mkRelatedDocument {
    RelatedDocument_XMLName : xml.Name;
    RelatedDocument_Role    : string;
    RelatedDocument_Href    : string;
    RelatedDocument_Text    : string
  }.

Record Meta : Type := mkMeta {
    Meta_XMLName          : xml.Name;
    Meta_DCTitle          : string;
    Meta_DCType           : string;
    Meta_DCCreator        : string;
    Meta_DCPublisher      : string;
    Meta_DCFormat         : string;
    Meta_DCLanguage       : string;
    Meta_DCRights         : string;
    Meta_DocNumber        : string;
    Meta_CitableAs        : list string;
    Meta_DocStage         : string;
    Meta_CurrentChamber   : string;
    Meta_Congress         : string;
    Meta_Session          : string;
    Meta_PublicPrivate    : string;
    Meta_ProcessedBy      : string;
    Meta_ProcessedDate    : string;
    Meta_RelatedDocuments : list RelatedDocument;
    Meta_PopularName      : string
  }.

Record AmendMeta : Type := mkAmendMeta {
    AmendMeta_XMLName        : xml.Name;
    AmendMeta_DCTitle        : string;
    AmendMeta_DCType         : string;
    AmendMeta_DCCreator      : string;
    AmendMeta_DCPublisher    : string;
    AmendMeta_DCFormat       : string;
    AmendMeta_DCLanguage     : string;
    AmendMeta_DCRights       : string;
    AmendMeta_DocNumber      : string;
    AmendMeta_CitableAs      : list string;
    AmendMeta_DocStage       : string;
    AmendMeta_CurrentChamber : string;
    AmendMeta_AmendDegree    : string;
    AmendMeta_Congress       : string;
    AmendMeta_Session        : string;
    AmendMeta_PublicPrivate  : string;
    AmendMeta_ProcessedBy    : string;
    AmendMeta_ProcessedDate  : string
  }.

Record Bill : Type := mkBill {
    Bill_XMLName           : xml.Name;
    Bill_XMLNS             : string;
    Bill_XMLNSDC           : string;
    Bill_XMLNSHTML         : string;
    Bill_XMLNSUSLM         : string;
    Bill_XMLNSXSI          : string;
    Bill_XSISchemaLocation : string;
    Bill_XMLLang           : string;
    Bill_Meta              : option Meta;
    Bill_Preface           : option Preface;
    Bill_Main              : option Main;
    Bill_EndMarker         : string
  }.

Record Resolution : Type := mkResolution {
    Resolution_XMLName           : xml.Name;
    Resolution_XMLNS             : string;
    Resolution_XMLNSDC           : string;
    Resolution_XMLNSHTML         : string;
    Resolution_XMLNSUSLM         : string;
    Resolution_XMLNSXSI          : string;
    Resolution_XSISchemaLocation : string;
    Resolution_XMLLang           : string;
    Resolution_Meta              : option Meta;
    Resolution_Preface           : option Preface;
    Resolution_Main              : option Main;
    Resolution_EndMarker         : string
  }.

Record EngrossedAmendment : Type := mkEngrossedAmendment {
    EngrossedAmendment_XMLName           : xml.Name;
    EngrossedAmendment_XMLNS             : string;
    EngrossedAmendment_XMLNSDC           : string;
    EngrossedAmendment_XMLNSHTML         : string;
    EngrossedAmendment_XMLNSUSLM         : string;
    EngrossedAmendment_XMLNSXSI          : string;
    EngrossedAmendment_StyleType         : string;
    EngrossedAmendment_XSISchemaLocation : string;
    EngrossedAmendment_XMLLang           : string;
    EngrossedAmendment_AmendMeta         : option AmendMeta;
    EngrossedAmendment_AmendPreface      : option AmendPreface;
    EngrossedAmendment_AmendMain         : option AmendMain;
    EngrossedAmendment_Signatures        : option Signatures;
    EngrossedAmendment_Endorsement       : option Endorsement
  }.

Record Amendment : Type := mkAmendment {
    Amendment_XMLName           : xml.Name;
    Amendment_XMLNS             : string;
    Amendment_XMLNSDC           : string;
    Amendment_XMLNSHTML         : string;
    Amendment_XMLNSUSLM         : string;
    Amendment_XMLNSXSI          : string;
    Amendment_XSISchemaLocation : string;
    Amendment_XMLLang           : string;
    Amendment_AmendMeta         : option AmendMeta;
    Amendment_AmendPreface      : option AmendPreface;
    Amendment_AmendMain         : option AmendMain
  }.

(** ** Accessor methods *)

(** Method [Heading.GetText]: returns the text content of the heading. *)
Definition Heading_GetText (h : Heading) : string :=
  Heading_Text h.

(** Method [Sponsor.GetID]: returns the sponsor's official ID (Senate or House). *)
Definition Sponsor_GetID (s : Sponsor) : string :=
  if negb (String.eqb (Sponsor_SenateID s) "") then Sponsor_SenateID s
  else Sponsor_HouseID s.

(** Method [Sponsor.GetName]: returns the sponsor's name text. *)
Definition Sponsor_GetName (s : Sponsor) : string :=
  Sponsor_Text s.

(** Method [Cosponsor.GetID]: returns the cosponsor's official ID (Senate or House). *)
Definition Cosponsor_GetID (c : Cosponsor) : string :=
  if negb (String.eqb (Cosponsor_SenateID c) "") then Cosponsor_SenateID c
  else Cosponsor_HouseID c.

(** Method [Cosponsor.GetName]: returns the cosponsor's name text. *)
Definition Cosponsor_GetName (c : Cosponsor) : string :=
  Cosponsor_Text c.

(** Method [Committee.GetID]: returns the committee's official ID. *)
Definition Committee_GetID (c : Committee) : string :=
  Committee_CommitteeID c.

(** Method [Committee.GetName]: returns the committee's name. *)
Definition Committee_GetName (c : Committee) : string :=
  Committee_Text c.

(** Method [Section.GetID]: returns the section's unique ID. *)
Definition Section_GetID (s : Section) : string :=
  Section_ID s.

(** Method [Section.GetIdentifier]: returns the section's logical identifier. *)
Definition Section_GetIdentifier (s : Section) : string :=
  Section_Identifier s.

(** Method [Section.GetNum]: returns the section's number text. *)
Definition Section_GetNum (s : Section) : string :=
  match Section_Num s with
  | Some num => Num_Text num
  | None => ""
  end.

(** Method [Section.GetNumValue]: returns the section's normalized number value. *)
Definition Section_GetNumValue (s : Section) : string :=
  match Section_Num s with
  | Some num => Num_Value num
  | None => ""
  end.

(** Method [Section.GetHeading]: returns the section's heading text. *)
Definition Section_GetHeading (s : Section) : string :=
  match Section_Heading s with
  | Some heading => Heading_GetText heading
  | None => ""
  end.

(** Method [Section.GetContent]: returns the section's content text. *)
Definition Section_GetContent (s : Section) : string :=
  match Section_Content s with
  | Some content => Content_Text content
  | None => ""
  end.

(** Method [Section.GetChapeau]: returns the section's chapeau text. *)
Definition Section_GetChapeau (s : Section) : string :=
  match Section_Chapeau s with
  | Some chapeau => Chapeau_Text chapeau
  | None => ""
  end.

(** Method [Bill.GetDocumentNumber]: returns the bill number. *)
Definition Bill_GetDocumentNumber (b : Bill) : string :=
  match Bill_Meta b with
  | Some meta => Meta_DocNumber meta
  | None => ""
  end.

(** Method [Bill.GetDocumentType]: returns the document type. *)
Definition Bill_GetDocumentType (b : Bill) : string :=
  match Bill_Meta b with
  | Some meta => Meta_DCType meta
  | None => ""
  end.

(** Method [Bill.GetCongress]: returns the congress number. *)
Definition Bill_GetCongress (b : Bill) : string :=
  match Bill_Meta b with
  | Some meta => Meta_Congress meta
  | None => ""
  end.

(** Method [Bill.GetSession]: returns the session number. *)
Definition Bill_GetSession (b : Bill) : string :=
  match Bill_Meta b with
  | Some meta => Meta_Session meta
  | None => ""
  end.

(** Method [Bill.GetTitle]: returns the document title. *)
Definition Bill_GetTitle (b : Bill) : string :=
  match Bill_Meta b with
  | Some meta => Meta_DCTitle meta
  | None => ""
  end.

(** Method [Bill.GetStage]: returns the document stage. *)
Definition Bill_GetStage (b : Bill) : string :=
  match Bill_Meta b with
  | Some meta => Meta_DocStage meta
  | None => ""
  end.

(** Method [Bill.GetChamber]: returns the current chamber. *)
Definition Bill_GetChamber (b : Bill) : string :=
  match Bill_Meta b with
  | Some meta => Meta_CurrentChamber meta
  | None => ""
  end.

(** Method [Bill.IsPublic]: returns true if this is a public bill. *)
Definition Bill_IsPublic (b : Bill) : bool :=
  match Bill_Meta b with
  | Some meta => String.eqb (Meta_PublicPrivate meta) "public"
  | None => false
  end.

(** Method [Bill.GetCitations]: returns all citable forms. *)
Definition Bill_GetCitations (b : Bill) : list string :=
  match Bill_Meta b with
  | Some meta => Meta_CitableAs meta
  | None => []
  end.

(** Method [Bill.GetSponsors]: returns all primary sponsors. *)
Definition Bill_GetSponsors (b : Bill) : list Sponsor :=
  match Bill_Preface b with
  | Some preface =>
      fold_left
        (fun sponsors action =>
           match Action_ActionDescription action with
           | Some description => sponsors ++ ActionDescription_Sponsors description
           | None => sponsors
           end)
        (Preface_Actions preface) []
  | None => []
  end.

(** Method [Bill.GetCosponsors]: returns all cosponsors. *)
Definition Bill_GetCosponsors (b : Bill) : list Cosponsor :=
  match Bill_Preface b with
  | Some preface =>
      fold_left
        (fun cosponsors action =>
           match Action_ActionDescription action with
           | Some description => cosponsors ++ ActionDescription_Cosponsors description
           | None => cosponsors
           end)
        (Preface_Actions preface) []
  | None => []
  end.

(** Method [Bill.GetActions]: returns all legislative actions. *)
Definition Bill_GetActions (b : Bill) : list Action :=
  match Bill_Preface b with
  | Some preface => Preface_Actions preface
  | None => []
  end.

(** Method [Bill.GetCommittees]: returns all referenced committees. *)
Definition Bill_GetCommittees (b : Bill) : list Committee :=
  match Bill_Preface b with
  | Some preface =>
      fold_left
        (fun committees action =>
           match Action_ActionDescription action with
           | Some description => committees ++ ActionDescription_Committees description
           | None => committees
           end)
        (Preface_Actions preface) []
  | None => []
  end.

(** Method [Bill.GetSections]: returns all top-level sections. *)
Definition Bill_GetSections (b : Bill) : list Section :=
  match Bill_Main b with
  | Some main => Main_Sections main
  | None => []
  end.

(** Method [Bill.GetCreator]: returns the document creator. *)
Definition Bill_GetCreator (b : Bill) : string :=
  match Bill_Meta b with
  | Some meta => Meta_DCCreator meta
  | None => ""
  end.

(** Method [Bill.GetPublisher]: returns the publisher. *)
Definition Bill_GetPublisher (b : Bill) : string :=
  match Bill_Meta b with
  | Some meta => Meta_DCPublisher meta
  | None => ""
  end.

(** Method [Bill.GetLanguage]: returns the language code. *)
Definition Bill_GetLanguage (b : Bill) : string :=
  match Bill_Meta b with
  | Some meta => Meta_DCLanguage meta
  | None => ""
  end.

(** Method [Bill.GetRights]: returns the rights statement. *)
Definition Bill_GetRights (b : Bill) : string :=
  match Bill_Meta b with
  | Some meta => Meta_DCRights meta
  | None => ""
  end.

(** Method [Bill.GetProcessedBy]: returns the processing tool. *)
Definition Bill_GetProcessedBy (b : Bill) : string :=
  match Bill_Meta b with
  | Some meta => Meta_ProcessedBy meta
  | None => ""
  end.

(** Method [Bill.GetProcessedDate]: returns the processing date. *)
Definition Bill_GetProcessedDate (b : Bill) : string :=
  match Bill_Meta b with
  | Some meta => Meta_ProcessedDate meta
  | None => ""
  end.

(** Method [Resolution.GetDocumentNumber]: returns the resolution number. *)
Definition Resolution_GetDocumentNumber (r : Resolution) : string :=
  match Resolution_Meta r with
  | Some meta => Meta_DocNumber meta
  | None => ""
  end.

(** Method [Resolution.GetDocumentType]: returns the document type. *)
Definition Resolution_GetDocumentType (r : Resolution) : string :=
  match Resolution_Meta r with
  | Some meta => Meta_DCType meta
  | None => ""
  end.

(** Method [Resolution.GetCongress]: returns the congress number. *)
Definition Resolution_GetCongress (r : Resolution) : string :=
  match Resolution_Meta r with
  | Some meta => Meta_Congress meta
  | None => ""
  end.

(** Method [Resolution.GetSession]: returns the session number. *)
Definition Resolution_GetSession (r : Resolution) : string :=
  match Resolution_Meta r with
  | Some meta => Meta_Session meta
  | None => ""
  end.

(** Method [Resolution.GetTitle]: returns the document title. *)
Definition Resolution_GetTitle (r : Resolution) : string :=
  match Resolution_Meta r with
  | Some meta => Meta_DCTitle meta
  | None => ""
  end.

(** Method [Resolution.GetStage]: returns the document stage. *)
Definition Resolution_GetStage (r : Resolution) : string :=
  match Resolution_Meta r with
  | Some meta => Meta_DocStage meta
  | None => ""
  end.

(** Method [Resolution.GetChamber]: returns the current chamber. *)
Definition Resolution_GetChamber (r : Resolution) : string :=
  match Resolution_Meta r with
  | Some meta => Meta_CurrentChamber meta
  | None => ""
  end.

(** Method [Resolution.IsPublic]: returns true if this is a public resolution. *)
Definition Resolution_IsPublic (r : Resolution) : bool :=
  match Resolution_Meta r with
  | Some meta => String.eqb (Meta_PublicPrivate meta) "public"
  | None => false
  end.

(** Method [Resolution.GetCitations]: returns all citable forms. *)
Definition Resolution_GetCitations (r : Resolution) : list string :=
  match Resolution_Meta r with
  | Some meta => Meta_CitableAs meta
  | None => []
  end.

(** Method [Resolution.GetSponsors]: returns all primary sponsors. *)
Definition Resolution_GetSponsors (r : Resolution) : list Sponsor :=
  match Resolution_Preface r with
  | Some preface =>
      fold_left
        (fun sponsors action =>
           match Action_ActionDescription action with
           | Some description => sponsors ++ ActionDescription_Sponsors description
           | None => sponsors
           end)
        (Preface_Actions preface) []
  | None => []
  end.

(** Method [Resolution.GetCosponsors]: returns all cosponsors. *)
Definition Resolution_GetCosponsors (r : Resolution) : list Cosponsor :=
  match Resolution_Preface r with
  | Some preface =>
      fold_left
        (fun cosponsors action =>
           match Action_ActionDescription action with
           | Some description => cosponsors ++ ActionDescription_Cosponsors description
           | None => cosponsors
           end)
        (Preface_Actions preface) []
  | None => []
  end.

(** Method [Resolution.GetActions]: returns all legislative actions. *)
Definition Resolution_GetActions (r : Resolution) : list Action :=
  match Resolution_Preface r with
  | Some preface => Preface_Actions preface
  | None => []
  end.

(** Method [Resolution.GetCommittees]: returns all referenced committees. *)
Definition Resolution_GetCommittees (r : Resolution) : list Committee :=
  match Resolution_Preface r with
  | Some preface =>
      fold_left
        (fun committees action =>
           match Action_ActionDescription action with
           | Some description => committees ++ ActionDescription_Committees description
           | None => committees
           end)
        (Preface_Actions preface) []
  | None => []
  end.

(** Method [Resolution.GetSections]: returns all top-level sections. *)
Definition Resolution_GetSections (r : Resolution) : list Section :=
  match Resolution_Main r with
  | Some main => Main_Sections main
  | None => []
  end.

(** Method [Resolution.GetCreator]: returns the document creator. *)
Definition Resolution_GetCreator (r : Resolution) : string :=
  match Resolution_Meta r with
  | Some meta => Meta_DCCreator meta
  | None => ""
  end.

(** Method [Resolution.GetPublisher]: returns the publisher. *)
Definition Resolution_GetPublisher (r : Resolution) : string :=
  match Resolution_Meta r with
  | Some meta => Meta_DCPublisher meta
  | None => ""
  end.

(** Method [Resolution.GetLanguage]: returns the language code. *)
Definition Resolution_GetLanguage (r : Resolution) : string :=
  match Resolution_Meta r with
  | Some meta => Meta_DCLanguage meta
  | None => ""
  end.

(** Method [Resolution.GetRights]: returns the rights statement. *)
Definition Resolution_GetRights (r : Resolution) : string :=
  match Resolution_Meta r with
  | Some meta => Meta_DCRights meta
  | None => ""
  end.

(** Method [Resolution.GetProcessedBy]: returns the processing tool. *)
Definition Resolution_GetProcessedBy (r : Resolution) : string :=
  match Resolution_Meta r with
  | Some meta => Meta_ProcessedBy meta
  | None => ""
  end.

(** Method [Resolution.GetProcessedDate]: returns the processing date. *)
Definition Resolution_GetProcessedDate (r : Resolution) : string :=
  match Resolution_Meta r with
  | Some meta => Meta_ProcessedDate meta
  | None => ""
  end.

(** Method [EngrossedAmendment.GetDocumentNumber]: returns the amendment document number. *)
Definition EngrossedAmendment_GetDocumentNumber (e : EngrossedAmendment) : string :=
  match EngrossedAmendment_AmendMeta e with
  | Some amendMeta => AmendMeta_DocNumber amendMeta
  | None => ""
  end.

(** Method [EngrossedAmendment.GetDocumentType]: returns the document type. *)
Definition EngrossedAmendment_GetDocumentType (e : EngrossedAmendment) : string :=
  match EngrossedAmendment_AmendMeta e with
  | Some amendMeta => AmendMeta_DCType amendMeta
  | None => ""
  end.

(** Method [EngrossedAmendment.GetCongress]: returns the congress number. *)
Definition EngrossedAmendment_GetCongress (e : EngrossedAmendment) : string :=
  match EngrossedAmendment_AmendMeta e with
  | Some amendMeta => AmendMeta_Congress amendMeta
  | None => ""
  end.

(** Method [EngrossedAmendment.GetSession]: returns the session number. *)
Definition EngrossedAmendment_GetSession (e : EngrossedAmendment) : string :=
  match EngrossedAmendment_AmendMeta e with
  | Some amendMeta => AmendMeta_Session amendMeta
  | None => ""
  end.

(** Method [EngrossedAmendment.GetTitle]: returns the document title. *)
Definition EngrossedAmendment_GetTitle (e : EngrossedAmendment) : string :=
  match EngrossedAmendment_AmendMeta e with
  | Some amendMeta => AmendMeta_DCTitle amendMeta
  | None => ""
  end.

(** Method [EngrossedAmendment.GetStage]: returns the document stage. *)
Definition EngrossedAmendment_GetStage (e : EngrossedAmendment) : string :=
  match EngrossedAmendment_AmendMeta e with
  | Some amendMeta => AmendMeta_DocStage amendMeta
  | None => ""
  end.

(** Method [EngrossedAmendment.GetChamber]: returns the current chamber. *)
Definition EngrossedAmendment_GetChamber (e : EngrossedAmendment) : string :=
  match EngrossedAmendment_AmendMeta e with
  | Some amendMeta => AmendMeta_CurrentChamber amendMeta
  | None => ""
  end.

(** Method [EngrossedAmendment.IsPublic]: returns true if this is a public amendment. *)
Definition EngrossedAmendment_IsPublic (e : EngrossedAmendment) : bool :=
  match EngrossedAmendment_AmendMeta e with
  | Some amendMeta => String.eqb (AmendMeta_PublicPrivate amendMeta) "public"
  | None => false
  end.

(** Method [EngrossedAmendment.GetCitations]: returns all citable forms. *)
Definition EngrossedAmendment_GetCitations (e : EngrossedAmendment) : list string :=
  match EngrossedAmendment_AmendMeta e with
  | Some amendMeta => AmendMeta_CitableAs amendMeta
  | None => []
  end.

(** Method [EngrossedAmendment.GetAmendmentDegree]: returns the degree of amendment. *)
Definition EngrossedAmendment_GetAmendmentDegree (e : EngrossedAmendment) : string :=
  match EngrossedAmendment_AmendMeta e with
  | Some amendMeta => AmendMeta_AmendDegree amendMeta
  | None => ""
  end.

(** Method [EngrossedAmendment.GetActions]: returns all legislative actions. *)
Definition EngrossedAmendment_GetActions (e : EngrossedAmendment) : list Action :=
  match EngrossedAmendment_AmendPreface e with
  | Some amendPreface => AmendPreface_Actions amendPreface
  | None => []
  end.

(** Method [EngrossedAmendment.GetCreator]: returns the document creator. *)
Definition EngrossedAmendment_GetCreator (e : EngrossedAmendment) : string :=
  match EngrossedAmendment_AmendMeta e with
  | Some amendMeta => AmendMeta_DCCreator amendMeta
  | None => ""
  end.

(** Method [EngrossedAmendment.GetPublisher]: returns the publisher. *)
Definition EngrossedAmendment_GetPublisher (e : EngrossedAmendment) : string :=
  match EngrossedAmendment_AmendMeta e with
  | Some amendMeta => AmendMeta_DCPublisher amendMeta
  | None => ""
  end.

(** Method [EngrossedAmendment.GetLanguage]: returns the language code. *)
Definition EngrossedAmendment_GetLanguage (e : EngrossedAmendment) : string :=
  match EngrossedAmendment_AmendMeta e with
  | Some amendMeta => AmendMeta_DCLanguage amendMeta
  | None => ""
  end.

(** Method [EngrossedAmendment.GetRights]: returns the rights statement. *)
Definition EngrossedAmendment_GetRights (e : EngrossedAmendment) : string :=
  match EngrossedAmendment_AmendMeta e with
  | Some amendMeta => AmendMeta_DCRights amendMeta
  | None => ""
  end.

(** Method [EngrossedAmendment.GetProcessedBy]: returns the processing tool. *)
Definition EngrossedAmendment_GetProcessedBy (e : EngrossedAmendment) : string :=
  match EngrossedAmendment_AmendMeta e with
  | Some amendMeta => AmendMeta_ProcessedBy amendMeta
  | None => ""
  end.

(** Method [EngrossedAmendment.GetProcessedDate]: returns the processing date. *)
Definition EngrossedAmendment_GetProcessedDate (e : EngrossedAmendment) : string :=
  match EngrossedAmendment_AmendMeta e with
  | Some amendMeta => AmendMeta_ProcessedDate amendMeta
  | None => ""
  end.

(** Method [Amendment.GetDocumentNumber]: returns the amendment document number. *)
Definition Amendment_GetDocumentNumber (a : Amendment) : string :=
  match Amendment_AmendMeta a with
  | Some amendMeta => AmendMeta_DocNumber amendMeta
  | None => ""
  end.

(** Method [Amendment.GetDocumentType]: returns the document type. *)
Definition Amendment_GetDocumentType (a : Amendment) : string :=
  match Amendment_AmendMeta a with
  | Some amendMeta => AmendMeta_DCType amendMeta
  | None => ""
  end.

(** Method [Amendment.GetCongress]: returns the congress number. *)
Definition Amendment_GetCongress (a : Amendment) : string :=
  match Amendment_AmendMeta a with
  | Some amendMeta => AmendMeta_Congress amendMeta
  | None => ""
  end.

(** Method [Amendment.GetSession]: returns the session number. *)
Definition Amendment_GetSession (a : Amendment) : string :=
  match Amendment_AmendMeta a with
  | Some amendMeta => AmendMeta_Session amendMeta
  | None => ""
  end.

(** Method [Amendment.GetTitle]: returns the document title. *)
Definition Amendment_GetTitle (a : Amendment) : string :=
  match Amendment_AmendMeta a with
  | Some amendMeta => AmendMeta_DCTitle amendMeta
  | None => ""
  end.

(** Method [Amendment.GetStage]: returns the document stage. *)
Definition Amendment_GetStage (a : Amendment) : string :=
  match Amendment_AmendMeta a with
  | Some amendMeta => AmendMeta_DocStage amendMeta
  | None => ""
  end.

(** Method [Amendment.GetChamber]: returns the current chamber. *)
Definition Amendment_GetChamber (a : Amendment) : string :=
  match Amendment_AmendMeta a with
  | Some amendMeta => AmendMeta_CurrentChamber amendMeta
  | None => ""
  end.

(** Method [Amendment.IsPublic]: returns true if this is a public amendment. *)
Definition Amendment_IsPublic (a : Amendment) : bool :=
  match Amendment_AmendMeta a with
  | Some amendMeta => String.eqb (AmendMeta_PublicPrivate amendMeta) "public"
  | None => false
  end.

(** Method [Amendment.GetCitations]: returns all citable forms. *)
Definition Amendment_GetCitations (a : Amendment) : list string :=
  match Amendment_AmendMeta a with
  | Some amendMeta => AmendMeta_CitableAs amendMeta
  | None => []
  end.

(** Method [Amendment.GetAmendmentDegree]: returns the degree of amendment. *)
Definition Amendment_GetAmendmentDegree (a : Amendment) : string :=
  match Amendment_AmendMeta a with
  | Some amendMeta => AmendMeta_AmendDegree amendMeta
  | None => ""
  end.

(** Method [Amendment.GetActions]: returns all legislative actions. *)
Definition Amendment_GetActions (a : Amendment) : list Action :=
  match Amendment_AmendPreface a with
  | Some amendPreface => AmendPreface_Actions amendPreface
  | None => []
  end.

(** Method [Amendment.GetCreator]: returns the document creator. *)
Definition Amendment_GetCreator (a : Amendment) : string :=
  match Amendment_AmendMeta a with
  | Some amendMeta => AmendMeta_DCCreator amendMeta
  | None => ""
  end.

(** Method [Amendment.GetPublisher]: returns the publisher. *)
Definition Amendment_GetPublisher (a : Amendment) : string :=
  match Amendment_AmendMeta a with
  | Some amendMeta => AmendMeta_DCPublisher amendMeta
  | None => ""
  end.

(** Method [Amendment.GetLanguage]: returns the language code. *)
Definition Amendment_GetLanguage (a : Amendment) : string :=
  match Amendment_AmendMeta a with
  | Some amendMeta => AmendMeta_DCLanguage amendMeta
  | None => ""
  end.

(** Method [Amendment.GetRights]: returns the rights statement. *)
Definition Amendment_GetRights (a : Amendment) : string :=
  match Amendment_AmendMeta a with
  | Some amendMeta => AmendMeta_DCRights amendMeta
  | None => ""
  end.

(** Method [Amendment.GetProcessedBy]: returns the processing tool. *)
Definition Amendment_GetProcessedBy (a : Amendment) : string :=
  match Amendment_AmendMeta a with
  | Some amendMeta => AmendMeta_ProcessedBy amendMeta
  | None => ""
  end.

(** Method [Amendment.GetProcessedDate]: returns the processing date. *)
Definition Amendment_GetProcessedDate (a : Amendment) : string :=
  match Amendment_AmendMeta a with
  | Some amendMeta => AmendMeta_ProcessedDate amendMeta
  | None => ""
  end.

(** ** Decode entry points (parser.go) *)

(** A Go [error] value, by its message. *)
Definition error := string.

Module fmt.

(** [fmt.Errorf(format + ": %w", err)]: the message of the wrapped error
    after the prefix. *)
Definition Errorf (prefix : string) (err : error) : error :=
  (prefix ++ ": " ++ err)%string.

(** [fmt.Errorf(message)]. *)
Definition Errorf0 (message : string) : error := message.

End fmt.

(** The zero values that [var bill Bill] and its siblings declare. *)
Definition xml_Name_zero : xml.Name := xml.mkName "" "".

Definition Bill_zero : Bill :=
  mkBill xml_Name_zero "" "" "" "" "" "" "" None None None "".

Definition Resolution_zero : Resolution :=
  mkResolution xml_Name_zero "" "" "" "" "" "" "" None None None "".

Definition EngrossedAmendment_zero : EngrossedAmendment :=
  mkEngrossedAmendment xml_Name_zero "" "" "" "" "" "" "" "" None None None None None.

Definition Amendment_zero : Amendment :=
  mkAmendment xml_Name_zero "" "" "" "" "" "" "" None None None.

(** A value of interface type [LegislativeDocument]: the nil interface, or
    a pointer of one of the four implementing types.  The pointer inside
    may itself be nil: Go converts a nil [*Bill] to a non-nil interface. *)
Inductive LegislativeDocument : Type :=
  | LegislativeDocument_nil
  | LegislativeDocument_Bill (p : option Bill)
  | LegislativeDocument_Resolution (p : option Resolution)
  | LegislativeDocument_EngrossedAmendment (p : option EngrossedAmendment)
  | LegislativeDocument_Amendment (p : option Amendment).

(** The document tree an interface value gives access to, when there is
    one. *)
Inductive Document : Type :=
  | Document_Bill (b : Bill)
  | Document_Resolution (r : Resolution)
  | Document_EngrossedAmendment (e : EngrossedAmendment)
  | Document_Amendment (a : Amendment).

Definition LegislativeDocument_tree (d : LegislativeDocument) : option Document :=
  match d with
  | LegislativeDocument_nil => None
  | LegislativeDocument_Bill p => option_map Document_Bill p
  | LegislativeDocument_Resolution p => option_map Document_Resolution p
  | LegislativeDocument_EngrossedAmendment p => option_map Document_EngrossedAmendment p
  | LegislativeDocument_Amendment p => option_map Document_Amendment p
  end.

Section Parser.

(** [xml.Unmarshal(data, &v)] of the standard library: it stores into [v]
    as far as it gets and returns an error or nil.  The entry points below
    are written against any such decoder. *)
Variable xml_Unmarshal : forall T : Type, string -> T -> T * option error.

(** [ParseBill(data)]. *)
Definition ParseBill (data : string) : option Bill * option error :=
  let bill := Bill_zero in
  let '(bill, err) := xml_Unmarshal _ data bill in
  match err with
  | Some err => (None, Some (fmt.Errorf "failed to parse bill" err))
  | None => (Some bill, None)
  end.

(** [ParseResolution(data)]. *)
Definition ParseResolution (data : string) : option Resolution * option error :=
  let resolution := Resolution_zero in
  let '(resolution, err) := xml_Unmarshal _ data resolution in
  match err with
  | Some err => (None, Some (fmt.Errorf "failed to parse resolution" err))
  | None => (Some resolution, None)
  end.

(** [ParseEngrossedAmendment(data)]. *)
Definition ParseEngrossedAmendment (data : string)
  : option EngrossedAmendment * option error :=
  let amendment := EngrossedAmendment_zero in
  let '(amendment, err) := xml_Unmarshal _ data amendment in
  match err with
  | Some err => (None, Some (fmt.Errorf "failed to parse engrossed amendment" err))
  | None => (Some amendment, None)
  end.

(** [ParseAmendment(data)]. *)
Definition ParseAmendment (data : string) : option Amendment * option error :=
  let amendment := Amendment_zero in
  let '(amendment, err) := xml_Unmarshal _ data amendment in
  match err with
  | Some err => (None, Some (fmt.Errorf "failed to parse amendment" err))
  | None => (Some amendment, None)
  end.

(** [ParseDocument(data)]: the switch on the detected type; each case
    returns the variant's pointer and error converted to the interface. *)
Definition ParseDocument (data : string) : LegislativeDocument * option error :=
  let docType := DetectDocumentType data in
  if String.eqb docType DocumentTypeBill then
    let '(p, err) := ParseBill data in (LegislativeDocument_Bill p, err)
  else if String.eqb docType DocumentTypeResolution then
    let '(p, err) := ParseResolution data in (LegislativeDocument_Resolution p, err)
  else if String.eqb docType DocumentTypeEngrossedAmendment then
    let '(p, err) := ParseEngrossedAmendment data in
    (LegislativeDocument_EngrossedAmendment p, err)
  else if String.eqb docType DocumentTypeAmendment then
    let '(p, err) := ParseAmendment data in (LegislativeDocument_Amendment p, err)
  else (LegislativeDocument_nil, Some (fmt.Errorf0 "unknown document type")).

End Parser.

(** ** Struct declarations as data

    [encoding/json] and [encoding/xml] work by reflection: they walk a
    value along the declaration of its struct type and obey the tags of
    each field.  The declarations of this package are therefore also kept
    as a table, field by field in source order, with the tag texts exactly
    as the source writes them; the two encoders below are driven by it. *)

(** The field types the package uses: [string], [xml.Name], a pointer to a
    struct, a slice of strings or of structs; [TStruct] also types the
    document passed to an encoder. *)
Inductive gotype : Type :=
  | TString
  | TName
  | TStruct (name : string)
  | TPtr (name : string)
  | TSlice (elem : gotype).

(** A field: its name, its type, and the texts of its [xml:] and [json:]
    tags. *)
Record field : Type := fld {
    field_name : string;
    field_type : gotype;
    field_xml  : string;
    field_json : string
  }.

Definition declarations : list (string * list field) := [
  ("MixedContent", [
     fld "Text"   TString                       ",chardata" "text,omitempty";
     fld "Inline" (TSlice (TStruct "Inline"))   "inline"    "inline,omitempty";
     fld "I"      (TSlice (TStruct "Italic"))   "i"         "i,omitempty";
     fld "B"      (TSlice (TStruct "Bold"))     "b"         "b,omitempty";
     fld "Sup"    (TSlice (TStruct "Sup"))      "sup"       "sup,omitempty";
     fld "Sub"    (TSlice (TStruct "Sub"))      "sub"       "sub,omitempty";
     fld "Term"   (TSlice (TStruct "Term"))     "term"      "term,omitempty";
     fld "Ref"    (TSlice (TStruct "Ref"))      "ref"       "ref,omitempty";
     fld "P"      (TSlice (TStruct "P"))        "p"         "p,omitempty"]);
  ("Inline", [
     fld "XMLName" TName       "inline"               "-";
     fld "Class"   TString     "class,attr,omitempty" "class,omitempty";
     fld "Role"    TString     "role,attr,omitempty"  "role,omitempty";
     fld "Text"    TString     ",chardata"            "text,omitempty"]);
  ("Italic", [
     fld "XMLName" TName       "i"         "-";
     fld "Text"    TString     ",chardata" "text,omitempty"]);
  ("Bold", [
     fld "XMLName" TName       "b"         "-";
     fld "Text"    TString     ",chardata" "text,omitempty"]);
  ("Sup", [
     fld "XMLName" TName       "sup"       "-";
     fld "Text"    TString     ",chardata" "text,omitempty"]);
  ("Sub", [
     fld "XMLName" TName       "sub"       "-";
     fld "Text"    TString     ",chardata" "text,omitempty"]);
  ("Term", [
     fld "XMLName" TName       "term"      "-";
     fld "Text"    TString     ",chardata" "text,omitempty"]);
  ("Ref", [
     fld "XMLName"  TName          "ref"                 "-";
     fld "Href"     TString        "href,attr,omitempty" "href,omitempty";
     fld "Text"     TString        ",chardata"           "text,omitempty";
     fld "InnerRef" (TPtr "Ref")   "ref"                 "innerRef,omitempty"]);
  ("P", [
     fld "XMLName" TName       "p"                    "-";
     fld "Class"   TString     "class,attr,omitempty" "class,omitempty";
     fld "Text"    TString     ",chardata"            "text,omitempty"]);
  ("ShortTitle", [
     fld "XMLName" TName       "shortTitle"          "-";
     fld "Role"    TString     "role,attr,omitempty" "role,omitempty";
     fld "Text"    TString     ",chardata"           "text,omitempty"]);
  ("QuotedText", [
     fld "XMLName" TName       "quotedText" "-";
     fld "Text"    TString     ",chardata"  "text,omitempty"]);
  ("AmendingAction", [
     fld "XMLName" TName       "amendingAction"      "-";
     fld "Type"    TString     "type,attr,omitempty" "type,omitempty";
     fld "Text"    TString     ",chardata"           "text,omitempty"]);
  ("Num", [
     fld "XMLName" TName       "num"                  "-";
     fld "Value"   TString     "value,attr,omitempty" "value,omitempty";
     fld "Text"    TString     ",chardata"            "text,omitempty"]);
  ("Heading", [
     fld "XMLName" TName                         "heading"              "-";
     fld "Class"   TString                       "class,attr,omitempty" "class,omitempty";
     fld "Text"    TString                       ",chardata"            "text,omitempty";
     fld "Inline"  (TSlice (TStruct "Inline"))   "inline"               "inline,omitempty"]);
  ("Content", [
     fld "XMLName"          TName                                   "content"              "-";
     fld "Class"            TString                                 "class,attr,omitempty" "class,omitempty";
     fld "Text"             TString                                 ",chardata"            "text,omitempty";
     fld "Inline"           (TSlice (TStruct "Inline"))             "inline"               "inline,omitempty";
     fld "I"                (TSlice (TStruct "Italic"))             "i"                    "i,omitempty";
     fld "Ref"              (TSlice (TStruct "Ref"))                "ref"                  "ref,omitempty";
     fld "ShortTitle"       (TSlice (TStruct "ShortTitle"))         "shortTitle"           "shortTitle,omitempty";
     fld "QuotedText"       (TSlice (TStruct "QuotedText"))         "quotedText"           "quotedText,omitempty";
     fld "AmendingAction"   (TSlice (TStruct "AmendingAction"))     "amendingAction"       "amendingAction,omitempty";
     fld "QuotedContent"    (TSlice (TStruct "QuotedContent"))      "quotedContent"        "quotedContent,omitempty";
     fld "AmendmentContent" (TSlice (TStruct "AmendmentContent"))   "amendmentContent"     "amendmentContent,omitempty"]);
  ("Chapeau", [
     fld "XMLName"        TName                                 "chapeau"              "-";
     fld "Class"          TString                               "class,attr,omitempty" "class,omitempty";
     fld "Text"           TString                               ",chardata"            "text,omitempty";
     fld "Inline"         (TSlice (TStruct "Inline"))           "inline"               "inline,omitempty";
     fld "Ref"            (TSlice (TStruct "Ref"))              "ref"                  "ref,omitempty";
     fld "AmendingAction" (TSlice (TStruct "AmendingAction"))   "amendingAction"       "amendingAction,omitempty"]);
  ("QuotedContent", [
     fld "XMLName"    TName                             "quotedContent"            "-";
     fld "ID"         TString                           "id,attr,omitempty"        "id,omitempty";
     fld "StyleType"  TString                           "styleType,attr,omitempty" "styleType,omitempty";
     fld "Paragraph"  (TSlice (TStruct "Paragraph"))    "paragraph"                "paragraph,omitempty";
     fld "Subsection" (TSlice (TStruct "Subsection"))   "subsection"               "subsection,omitempty";
     fld "Section"    (TSlice (TStruct "Section"))      "section"                  "section,omitempty"]);
  ("AmendmentContent", [
     fld "XMLName"   TName                          "amendmentContent"         "-";
     fld "Class"     TString                        "class,attr,omitempty"     "class,omitempty";
     fld "Changed"   TString                        "changed,attr,omitempty"   "changed,omitempty";
     fld "StyleType" TString                        "styleType,attr,omitempty" "styleType,omitempty";
     fld "Section"   (TSlice (TStruct "Section"))   "section"                  "section,omitempty"]);
  ("Preface", [
     fld "XMLName"          TName                         "preface"                                "-";
     fld "SlugLine"         TString                       "slugLine,omitempty"                     "slugLine,omitempty";
     fld "DistributionCode" (TPtr "DistributionCode")     "distributionCode"                       "distributionCode,omitempty";
     fld "Congress"         (TPtr "CongressElement")      "congress"                               "congress,omitempty";
     fld "Session"          (TPtr "SessionElement")       "session"                                "session,omitempty";
     fld "DCType"           TString                       "http://purl.org/dc/elements/1.1/ type"  "dcType,omitempty";
     fld "DocNumber"        TString                       "docNumber,omitempty"                    "docNumber,omitempty";
     fld "DCTitle"          TString                       "http://purl.org/dc/elements/1.1/ title" "dcTitle,omitempty";
     fld "CurrentChamber"   (TPtr "CurrentChamber")       "currentChamber"                         "currentChamber,omitempty";
     fld "Actions"          (TSlice (TStruct "Action"))   "action"                                 "actions,omitempty"]);
  ("AmendPreface", [
     fld "XMLName"        TName                         "amendPreface"       "-";
     fld "SlugLine"       TString                       "slugLine,omitempty" "slugLine,omitempty";
     fld "CurrentChamber" (TPtr "CurrentChamber")       "currentChamber"     "currentChamber,omitempty";
     fld "Actions"        (TSlice (TStruct "Action"))   "action"             "actions,omitempty"]);
  ("DistributionCode", [
     fld "XMLName" TName       "distributionCode"       "-";
     fld "Display" TString     "display,attr,omitempty" "display,omitempty";
     fld "Text"    TString     ",chardata"              "text,omitempty"]);
  ("CongressElement", [
     fld "XMLName" TName       "congress"             "-";
     fld "Value"   TString     "value,attr,omitempty" "value,omitempty";
     fld "Text"    TString     ",chardata"            "text,omitempty"]);
  ("SessionElement", [
     fld "XMLName" TName       "session"              "-";
     fld "Value"   TString     "value,attr,omitempty" "value,omitempty";
     fld "Text"    TString     ",chardata"            "text,omitempty"]);
  ("CurrentChamber", [
     fld "XMLName" TName       "currentChamber"       "-";
     fld "Value"   TString     "value,attr,omitempty" "value,omitempty";
     fld "Text"    TString     ",chardata"            "text,omitempty"]);
  ("Action", [
     fld "XMLName"           TName                        "action"                      "-";
     fld "ActionStage"       TString                      "actionStage,attr,omitempty"  "actionStage,omitempty";
     fld "Date"              (TPtr "ActionDate")          "date"                        "date,omitempty";
     fld "ActionDescription" (TPtr "ActionDescription")   "actionDescription"           "actionDescription,omitempty";
     fld "ActionInstruction" TString                      "actionInstruction,omitempty" "actionInstruction,omitempty"]);
  ("ActionDate", [
     fld "XMLName" TName                         "date"                "-";
     fld "Date"    TString                       "date,attr,omitempty" "date,omitempty";
     fld "Text"    TString                       ",chardata"           "text,omitempty";
     fld "Inline"  (TSlice (TStruct "Inline"))   "inline"              "inline,omitempty"]);
  ("ActionDescription", [
     fld "XMLName"    TName                            "actionDescription" "-";
     fld "Text"       TString                          ",chardata"         "text,omitempty";
     fld "Sponsors"   (TSlice (TStruct "Sponsor"))     "sponsor"           "sponsors,omitempty";
     fld "Cosponsors" (TSlice (TStruct "Cosponsor"))   "cosponsor"         "cosponsors,omitempty";
     fld "Committees" (TSlice (TStruct "Committee"))   "committee"         "committees,omitempty";
     fld "Inline"     (TSlice (TStruct "Inline"))      "inline"            "inline,omitempty"]);
  ("Sponsor", [
     fld "XMLName"  TName                         "sponsor"                 "-";
     fld "SenateID" TString                       "senateId,attr,omitempty" "senateId,omitempty";
     fld "HouseID"  TString                       "houseId,attr,omitempty"  "houseId,omitempty";
     fld "Text"     TString                       ",chardata"               "text,omitempty";
     fld "Inline"   (TSlice (TStruct "Inline"))   "inline"                  "inline,omitempty"]);
  ("Cosponsor", [
     fld "XMLName"  TName                         "cosponsor"               "-";
     fld "SenateID" TString                       "senateId,attr,omitempty" "senateId,omitempty";
     fld "HouseID"  TString                       "houseId,attr,omitempty"  "houseId,omitempty";
     fld "Text"     TString                       ",chardata"               "text,omitempty";
     fld "Inline"   (TSlice (TStruct "Inline"))   "inline"                  "inline,omitempty"]);
  ("Committee", [
     fld "XMLName"     TName       "committee"                  "-";
     fld "CommitteeID" TString     "committeeId,attr,omitempty" "committeeId,omitempty";
     fld "Text"        TString     ",chardata"                  "text,omitempty"]);
  ("Main", [
     fld "XMLName"         TName                          "main"                     "-";
     fld "StyleType"       TString                        "styleType,attr,omitempty" "styleType,omitempty";
     fld "LongTitle"       (TPtr "LongTitle")             "longTitle"                "longTitle,omitempty";
     fld "EnactingFormula" (TPtr "EnactingFormula")       "enactingFormula"          "enactingFormula,omitempty";
     fld "TOC"             (TPtr "TOC")                   "toc"                      "toc,omitempty";
     fld "Preamble"        (TPtr "Preamble")              "preamble"                 "preamble,omitempty";
     fld "Sections"        (TSlice (TStruct "Section"))   "section"                  "sections,omitempty";
     fld "Titles"          (TSlice (TStruct "Title"))     "title"                    "titles,omitempty";
     fld "EndMarker"       TString                        "endMarker,omitempty"      "endMarker,omitempty"]);
  ("AmendMain", [
     fld "XMLName"                           TName                                       "amendMain"                                        "-";
     fld "AmendmentInstructionLineNumbering" TString                                     "amendmentInstructionLineNumbering,attr,omitempty" "amendmentInstructionLineNumbering,omitempty";
     fld "ResolvingClause"                   (TPtr "ResolvingClause")                    "resolvingClause"                                  "resolvingClause,omitempty";
     fld "Sections"                          (TSlice (TStruct "Section"))                "section"                                          "sections,omitempty";
     fld "DocTitle"                          TString                                     "docTitle,omitempty"                               "docTitle,omitempty";
     fld "AmendmentInstructions"             (TSlice (TStruct "AmendmentInstruction"))   "amendmentInstruction"                             "amendmentInstructions,omitempty";
     fld "Signatures"                        (TPtr "Signatures")                         "signatures"                                       "signatures,omitempty";
     fld "Endorsement"                       (TPtr "Endorsement")                        "endorsement"                                      "endorsement,omitempty"]);
  ("LongTitle", [
     fld "XMLName"       TName       "longTitle"     "-";
     fld "DocTitle"      TString     "docTitle"      "docTitle,omitempty";
     fld "OfficialTitle" TString     "officialTitle" "officialTitle,omitempty"]);
  ("EnactingFormula", [
     fld "XMLName" TName                         "enactingFormula" "-";
     fld "Text"    TString                       ",chardata"       "text,omitempty";
     fld "I"       (TSlice (TStruct "Italic"))   "i"               "i,omitempty"]);
  ("TOC", [
     fld "XMLName"       TName                                "toc"           "-";
     fld "ReferenceItem" (TSlice (TStruct "ReferenceItem"))   "referenceItem" "referenceItems,omitempty"]);
  ("ReferenceItem", [
     fld "XMLName"    TName       "referenceItem"        "-";
     fld "Role"       TString     "role,attr,omitempty"  "role,omitempty";
     fld "Designator" TString     "designator,omitempty" "designator,omitempty";
     fld "Label"      TString     "label,omitempty"      "label,omitempty"]);
  ("Preamble", [
     fld "XMLName"         TName                          "preamble"        "-";
     fld "Recitals"        (TSlice (TStruct "Recital"))   "recital"         "recitals,omitempty";
     fld "ResolvingClause" (TPtr "ResolvingClause")       "resolvingClause" "resolvingClause,omitempty"]);
  ("Recital", [
     fld "XMLName"    TName                            "recital"   "-";
     fld "Text"       TString                          ",chardata" "text,omitempty";
     fld "P"          (TSlice (TStruct "P"))           "p"         "p,omitempty";
     fld "Paragraphs" (TSlice (TStruct "Paragraph"))   "paragraph" "paragraphs,omitempty"]);
  ("ResolvingClause", [
     fld "XMLName" TName                         "resolvingClause"      "-";
     fld "Class"   TString                       "class,attr,omitempty" "class,omitempty";
     fld "Text"    TString                       ",chardata"            "text,omitempty";
     fld "I"       (TSlice (TStruct "Italic"))   "i"                    "i,omitempty"]);
  ("Section", [
     fld "XMLName"     TName                             "section"                   "-";
     fld "ID"          TString                           "id,attr,omitempty"         "id,omitempty";
     fld "Identifier"  TString                           "identifier,attr,omitempty" "identifier,omitempty";
     fld "Role"        TString                           "role,attr,omitempty"       "role,omitempty";
     fld "Class"       TString                           "class,attr,omitempty"      "class,omitempty";
     fld "Num"         (TPtr "Num")                      "num"                       "num,omitempty";
     fld "Heading"     (TPtr "Heading")                  "heading"                   "heading,omitempty";
     fld "Chapeau"     (TPtr "Chapeau")                  "chapeau"                   "chapeau,omitempty";
     fld "Content"     (TPtr "Content")                  "content"                   "content,omitempty";
     fld "Paragraphs"  (TSlice (TStruct "Paragraph"))    "paragraph"                 "paragraphs,omitempty";
     fld "Subsections" (TSlice (TStruct "Subsection"))   "subsection"                "subsections,omitempty"]);
  ("Title", [
     fld "XMLName"  TName                          "title"             "-";
     fld "ID"       TString                        "id,attr,omitempty" "id,omitempty";
     fld "Num"      (TPtr "Num")                   "num"               "num,omitempty";
     fld "Heading"  (TPtr "Heading")               "heading"           "heading,omitempty";
     fld "Sections" (TSlice (TStruct "Section"))   "section"           "sections,omitempty"]);
  ("Subsection", [
     fld "XMLName"    TName                            "subsection"                "-";
     fld "ID"         TString                          "id,attr,omitempty"         "id,omitempty";
     fld "Identifier" TString                          "identifier,attr,omitempty" "identifier,omitempty";
     fld "Class"      TString                          "class,attr,omitempty"      "class,omitempty";
     fld "Num"        (TPtr "Num")                     "num"                       "num,omitempty";
     fld "Heading"    (TPtr "Heading")                 "heading"                   "heading,omitempty";
     fld "Chapeau"    (TPtr "Chapeau")                 "chapeau"                   "chapeau,omitempty";
     fld "Content"    (TPtr "Content")                 "content"                   "content,omitempty";
     fld "Paragraphs" (TSlice (TStruct "Paragraph"))   "paragraph"                 "paragraphs,omitempty"]);
  ("Paragraph", [
     fld "XMLName"       TName                               "paragraph"                 "-";
     fld "ID"            TString                             "id,attr,omitempty"         "id,omitempty";
     fld "Identifier"    TString                             "identifier,attr,omitempty" "identifier,omitempty";
     fld "Class"         TString                             "class,attr,omitempty"      "class,omitempty";
     fld "Role"          TString                             "role,attr,omitempty"       "role,omitempty";
     fld "Num"           (TPtr "Num")                        "num"                       "num,omitempty";
     fld "Heading"       (TPtr "Heading")                    "heading"                   "heading,omitempty";
     fld "Chapeau"       (TPtr "Chapeau")                    "chapeau"                   "chapeau,omitempty";
     fld "Content"       (TPtr "Content")                    "content"                   "content,omitempty";
     fld "Subparagraphs" (TSlice (TStruct "Subparagraph"))   "subparagraph"              "subparagraphs,omitempty"]);
  ("Subparagraph", [
     fld "XMLName"    TName                         "subparagraph"              "-";
     fld "ID"         TString                       "id,attr,omitempty"         "id,omitempty";
     fld "Identifier" TString                       "identifier,attr,omitempty" "identifier,omitempty";
     fld "Class"      TString                       "class,attr,omitempty"      "class,omitempty";
     fld "Num"        (TPtr "Num")                  "num"                       "num,omitempty";
     fld "Chapeau"    (TPtr "Chapeau")              "chapeau"                   "chapeau,omitempty";
     fld "Content"    (TPtr "Content")              "content"                   "content,omitempty";
     fld "Clauses"    (TSlice (TStruct "Clause"))   "clause"                    "clauses,omitempty"]);
  ("Clause", [
     fld "XMLName"    TName                            "clause"                    "-";
     fld "ID"         TString                          "id,attr,omitempty"         "id,omitempty";
     fld "Identifier" TString                          "identifier,attr,omitempty" "identifier,omitempty";
     fld "Class"      TString                          "class,attr,omitempty"      "class,omitempty";
     fld "Num"        (TPtr "Num")                     "num"                       "num,omitempty";
     fld "Content"    (TPtr "Content")                 "content"                   "content,omitempty";
     fld "Subclauses" (TSlice (TStruct "Subclause"))   "subclause"                 "subclauses,omitempty"]);
  ("Subclause", [
     fld "XMLName"    TName              "subclause"                 "-";
     fld "ID"         TString            "id,attr,omitempty"         "id,omitempty";
     fld "Identifier" TString            "identifier,attr,omitempty" "identifier,omitempty";
     fld "Class"      TString            "class,attr,omitempty"      "class,omitempty";
     fld "Num"        (TPtr "Num")       "num"                       "num,omitempty";
     fld "Content"    (TPtr "Content")   "content"                   "content,omitempty"]);
  ("AmendmentInstruction", [
     fld "XMLName" TName              "amendmentInstruction" "-";
     fld "Num"     (TPtr "Num")       "num"                  "num,omitempty";
     fld "Content" (TPtr "Content")   "content"              "content,omitempty"]);
  ("Signatures", [
     fld "XMLName"   TName                            "signatures" "-";
     fld "Signature" (TSlice (TStruct "Signature"))   "signature"  "signatures,omitempty"]);
  ("Signature", [
     fld "XMLName"  TName               "signature"      "-";
     fld "Notation" (TPtr "Notation")   "notation"       "notation,omitempty";
     fld "Role"     TString             "role,omitempty" "role,omitempty";
     fld "Text"     TString             ",chardata"      "text,omitempty"]);
  ("Notation", [
     fld "XMLName" TName       "notation"            "-";
     fld "Type"    TString     "type,attr,omitempty" "type,omitempty";
     fld "Text"    TString     ",chardata"           "text,omitempty"]);
  ("Endorsement", [
     fld "XMLName"     TName                      "endorsement"                           "-";
     fld "Orientation" TString                    "orientation,attr,omitempty"            "orientation,omitempty";
     fld "Congress"    (TPtr "CongressElement")   "congress"                              "congress,omitempty";
     fld "Session"     (TPtr "SessionElement")    "session"                               "session,omitempty";
     fld "DCType"      TString                    "http://purl.org/dc/elements/1.1/ type" "dcType,omitempty";
     fld "DocNumber"   TString                    "docNumber,omitempty"                   "docNumber,omitempty";
     fld "DocTitle"    TString                    "docTitle,omitempty"                    "docTitle,omitempty"]);
  ("Meta", [
     fld "XMLName"          TName                                  "meta"                                       "-";
     fld "DCTitle"          TString                                "http://purl.org/dc/elements/1.1/ title"     "dcTitle";
     fld "DCType"           TString                                "http://purl.org/dc/elements/1.1/ type"      "dcType";
     fld "DCCreator"        TString                                "http://purl.org/dc/elements/1.1/ creator"   "dcCreator,omitempty";
     fld "DCPublisher"      TString                                "http://purl.org/dc/elements/1.1/ publisher" "dcPublisher,omitempty";
     fld "DCFormat"         TString                                "http://purl.org/dc/elements/1.1/ format"    "dcFormat,omitempty";
     fld "DCLanguage"       TString                                "http://purl.org/dc/elements/1.1/ language"  "dcLanguage,omitempty";
     fld "DCRights"         TString                                "http://purl.org/dc/elements/1.1/ rights"    "dcRights,omitempty";
     fld "DocNumber"        TString                                "docNumber"                                  "docNumber";
     fld "CitableAs"        (TSlice TString)                       "citableAs"                                  "citableAs";
     fld "DocStage"         TString                                "docStage"                                   "docStage";
     fld "CurrentChamber"   TString                                "currentChamber,omitempty"                   "currentChamber,omitempty";
     fld "Congress"         TString                                "congress"                                   "congress";
     fld "Session"          TString                                "session"                                    "session";
     fld "PublicPrivate"    TString                                "publicPrivate"                              "publicPrivate";
     fld "ProcessedBy"      TString                                "processedBy,omitempty"                      "processedBy,omitempty";
     fld "ProcessedDate"    TString                                "processedDate,omitempty"                    "processedDate,omitempty";
     fld "RelatedDocuments" (TSlice (TStruct "RelatedDocument"))   "relatedDocument"                            "relatedDocuments,omitempty";
     fld "PopularName"      TString                                "popularName,omitempty"                      "popularName,omitempty"]);
  ("AmendMeta", [
     fld "XMLName"        TName              "amendMeta"                                  "-";
     fld "DCTitle"        TString            "http://purl.org/dc/elements/1.1/ title"     "dcTitle";
     fld "DCType"         TString            "http://purl.org/dc/elements/1.1/ type"      "dcType";
     fld "DCCreator"      TString            "http://purl.org/dc/elements/1.1/ creator"   "dcCreator,omitempty";
     fld "DCPublisher"    TString            "http://purl.org/dc/elements/1.1/ publisher" "dcPublisher,omitempty";
     fld "DCFormat"       TString            "http://purl.org/dc/elements/1.1/ format"    "dcFormat,omitempty";
     fld "DCLanguage"     TString            "http://purl.org/dc/elements/1.1/ language"  "dcLanguage,omitempty";
     fld "DCRights"       TString            "http://purl.org/dc/elements/1.1/ rights"    "dcRights,omitempty";
     fld "DocNumber"      TString            "docNumber"                                  "docNumber";
     fld "CitableAs"      (TSlice TString)   "citableAs"                                  "citableAs";
     fld "DocStage"       TString            "docStage"                                   "docStage";
     fld "CurrentChamber" TString            "currentChamber,omitempty"                   "currentChamber,omitempty";
     fld "AmendDegree"    TString            "amendDegree,omitempty"                      "amendDegree,omitempty";
     fld "Congress"       TString            "congress"                                   "congress";
     fld "Session"        TString            "session"                                    "session";
     fld "PublicPrivate"  TString            "publicPrivate"                              "publicPrivate";
     fld "ProcessedBy"    TString            "processedBy,omitempty"                      "processedBy,omitempty";
     fld "ProcessedDate"  TString            "processedDate,omitempty"                    "processedDate,omitempty"]);
  ("RelatedDocument", [
     fld "XMLName" TName       "relatedDocument"     "-";
     fld "Role"    TString     "role,attr,omitempty" "role,omitempty";
     fld "Href"    TString     "href,attr,omitempty" "href,omitempty";
     fld "Text"    TString     ",chardata"           "text,omitempty"]);
  ("Bill", [
     fld "XMLName"           TName              "bill"                    "-";
     fld "XMLNS"             TString            "xmlns,attr"              "xmlns";
     fld "XMLNSDC"           TString            "xmlns dc,attr"           "xmlnsDC,omitempty";
     fld "XMLNSHTML"         TString            "xmlns html,attr"         "xmlnsHTML,omitempty";
     fld "XMLNSUSLM"         TString            "xmlns uslm,attr"         "xmlnsUSLM,omitempty";
     fld "XMLNSXSI"          TString            "xmlns xsi,attr"          "xmlnsXSI,omitempty";
     fld "XSISchemaLocation" TString            "xsi schemaLocation,attr" "xsiSchemaLocation,omitempty";
     fld "XMLLang"           TString            "xml lang,attr"           "xmlLang,omitempty";
     fld "Meta"              (TPtr "Meta")      "meta"                    "meta";
     fld "Preface"           (TPtr "Preface")   "preface"                 "preface,omitempty";
     fld "Main"              (TPtr "Main")      "main"                    "main,omitempty";
     fld "EndMarker"         TString            "endMarker,omitempty"     "endMarker,omitempty"]);
  ("Resolution", [
     fld "XMLName"           TName              "resolution"              "-";
     fld "XMLNS"             TString            "xmlns,attr"              "xmlns";
     fld "XMLNSDC"           TString            "xmlns dc,attr"           "xmlnsDC,omitempty";
     fld "XMLNSHTML"         TString            "xmlns html,attr"         "xmlnsHTML,omitempty";
     fld "XMLNSUSLM"         TString            "xmlns uslm,attr"         "xmlnsUSLM,omitempty";
     fld "XMLNSXSI"          TString            "xmlns xsi,attr"          "xmlnsXSI,omitempty";
     fld "XSISchemaLocation" TString            "xsi schemaLocation,attr" "xsiSchemaLocation,omitempty";
     fld "XMLLang"           TString            "xml lang,attr"           "xmlLang,omitempty";
     fld "Meta"              (TPtr "Meta")      "meta"                    "meta";
     fld "Preface"           (TPtr "Preface")   "preface"                 "preface,omitempty";
     fld "Main"              (TPtr "Main")      "main"                    "main,omitempty";
     fld "EndMarker"         TString            "endMarker,omitempty"     "endMarker,omitempty"]);
  ("EngrossedAmendment", [
     fld "XMLName"           TName                   "engrossedAmendment"       "-";
     fld "XMLNS"             TString                 "xmlns,attr"               "xmlns";
     fld "XMLNSDC"           TString                 "xmlns dc,attr"            "xmlnsDC,omitempty";
     fld "XMLNSHTML"         TString                 "xmlns html,attr"          "xmlnsHTML,omitempty";
     fld "XMLNSUSLM"         TString                 "xmlns uslm,attr"          "xmlnsUSLM,omitempty";
     fld "XMLNSXSI"          TString                 "xmlns xsi,attr"           "xmlnsXSI,omitempty";
     fld "StyleType"         TString                 "styleType,attr,omitempty" "styleType,omitempty";
     fld "XSISchemaLocation" TString                 "xsi schemaLocation,attr"  "xsiSchemaLocation,omitempty";
     fld "XMLLang"           TString                 "xml lang,attr"            "xmlLang,omitempty";
     fld "AmendMeta"         (TPtr "AmendMeta")      "amendMeta"                "amendMeta";
     fld "AmendPreface"      (TPtr "AmendPreface")   "amendPreface"             "amendPreface,omitempty";
     fld "AmendMain"         (TPtr "AmendMain")      "amendMain"                "amendMain,omitempty";
     fld "Signatures"        (TPtr "Signatures")     "signatures"               "signatures,omitempty";
     fld "Endorsement"       (TPtr "Endorsement")    "endorsement"              "endorsement,omitempty"]);
  ("Amendment", [
     fld "XMLName"           TName                   "amendment"               "-";
     fld "XMLNS"             TString                 "xmlns,attr"              "xmlns";
     fld "XMLNSDC"           TString                 "xmlns dc,attr"           "xmlnsDC,omitempty";
     fld "XMLNSHTML"         TString                 "xmlns html,attr"         "xmlnsHTML,omitempty";
     fld "XMLNSUSLM"         TString                 "xmlns uslm,attr"         "xmlnsUSLM,omitempty";
     fld "XMLNSXSI"          TString                 "xmlns xsi,attr"          "xmlnsXSI,omitempty";
     fld "XSISchemaLocation" TString                 "xsi schemaLocation,attr" "xsiSchemaLocation,omitempty";
     fld "XMLLang"           TString                 "xml lang,attr"           "xmlLang,omitempty";
     fld "AmendMeta"         (TPtr "AmendMeta")      "amendMeta"               "amendMeta";
     fld "AmendPreface"      (TPtr "AmendPreface")   "amendPreface"            "amendPreface,omitempty";
     fld "AmendMain"         (TPtr "AmendMain")      "amendMain"               "amendMain,omitempty"])
].

(** The fields of a declared struct (none for an unknown name). *)
Fixpoint lookup_declaration (l : list (string * list field)) (name : string)
  : list field :=
  match l with
  | [] => []
  | (n, fs) :: l' => if String.eqb n name then fs else lookup_declaration l' name
  end.

Definition fields_of (name : string) : list field :=
  lookup_declaration declarations name.

(** *** Reading the tags *)

(** [strings.Cut(s, sep)] for a one-byte separator. *)
Fixpoint cut (sep : ascii) (s : string) : option (string * string) :=
  match s with
  | EmptyString => None
  | String c s' =>
      if Ascii.eqb c sep then Some (EmptyString, s')
      else match cut sep s' with
           | Some (before, rest) => Some (String c before, rest)
           | None => None
           end
  end.

(** [strings.Split(s, sep)] for a one-byte separator. *)
Fixpoint split (sep : ascii) (s : string) : list string :=
  match s with
  | EmptyString => [EmptyString]
  | String c s' =>
      if Ascii.eqb c sep then EmptyString :: split sep s'
      else match split sep s' with
           | w :: ws => String c w :: ws
           | [] => [String c EmptyString]
           end
  end.

Definition has_option (opt : string) (opts : list string) : bool :=
  existsb (String.eqb opt) opts.

(** The [json:] tag of a field: [-] leaves the field out of JSON; otherwise
    the key is the tag's name (the field's name when the tag gives none)
    and [omitempty] may follow. *)
Inductive jsontag : Type :=
  | json_ignored
  | json_key (key : string) (omitEmpty : bool).

Definition json_tag (f : field) : jsontag :=
  let tag := field_json f in
  if String.eqb tag "-" then json_ignored
  else
    let '(name, opts) :=
      match cut "," tag with
      | Some (name, opts) => (name, opts)
      | None => (tag, EmptyString)
      end in
    json_key (if String.eqb name "" then field_name f else name)
             (has_option "omitempty" (split "," opts)).

(** The [xml:] tag of a field: an optional name space before a blank, the
    local name (the field's name when the tag gives none), and the flags
    [attr], [chardata], [omitempty]; a field with neither [attr] nor
    [chardata] is a child element. *)
Inductive xmlmode : Type := fElement | fAttr | fCharData.

Record xmlinfo : Type := mk_xmlinfo {
    xml_xmlns     : string;
    xml_name      : string;
    xml_mode      : xmlmode;
    xml_omitEmpty : bool
  }.

Definition xml_tag (f : field) : xmlinfo :=
  let '(ns, tag) :=
    match cut " " (field_xml f) with
    | Some (ns, tag) => (ns, tag)
    | None => (EmptyString, field_xml f)
    end in
  let tokens := split "," tag in
  let name := hd EmptyString tokens in
  let flags := tl tokens in
  mk_xmlinfo ns
             (if String.eqb name "" then field_name f else name)
             (if has_option "attr" flags then fAttr
              else if has_option "chardata" flags then fCharData
              else fElement)
             (has_option "omitempty" flags).

(** *** Values *)

(** A Go value of one of the types above.  A struct is the list of its
    field values in declaration order; [VPtr None] is the nil pointer and
    [VSlice []] the nil slice. *)
Inductive value : Type :=
  | VString (s : string)
  | VName (n : xml.Name)
  | VStruct (fields : list value)
  | VPtr (p : option value)
  | VSlice (l : list value).

(** The zero value of a field type, and of a declared struct. *)
Definition zero_field (t : gotype) : value :=
  match t with
  | TString => VString ""
  | TName => VName (xml.mkName "" "")
  | TStruct _ => VStruct []
  | TPtr _ => VPtr None
  | TSlice _ => VSlice []
  end.

Definition zero_struct (name : string) : value :=
  VStruct (map (fun f => zero_field (field_type f)) (fields_of name)).

Definition zero (t : gotype) : value :=
  match t with
  | TStruct name => zero_struct name
  | _ => zero_field t
  end.

(** [isEmptyValue]: what [omitempty] looks at. *)
Definition isEmptyValue (v : value) : bool :=
  match v with
  | VString s => String.eqb s ""
  | VPtr None => true
  | VSlice [] => true
  | _ => false
  end.

(** ** Package [unicode/utf8], as far as the JSON encoder needs it *)

Module utf8.

Definition within (lo hi : nat) (c : ascii) : bool :=
  let n := nat_of_ascii c in ((lo <=? n) && (n <=? hi))%nat.

(** A continuation byte. *)
Definition cont (c : ascii) : bool := within 128 191 c.

(** The well-formed encodings of one rune on one to four bytes: the lead
    byte decides the length and the range accepted for the second byte. *)
Definition rune1 (a : ascii) : bool := within 0 127 a.

Definition rune2 (a b : ascii) : bool := within 194 223 a && cont b.

Definition rune3 (a b c : ascii) : bool :=
  (within 224 224 a && within 160 191 b
   || within 225 236 a && cont b
   || within 237 237 a && within 128 159 b
   || within 238 239 a && cont b)
  && cont c.

Definition rune4 (a b c d : ascii) : bool :=
  (within 240 240 a && within 144 191 b
   || within 241 243 a && cont b
   || within 244 244 a && within 128 143 b)
  && cont c && cont d.

(** [utf8.ValidString(s)]. *)
Fixpoint ValidString (s : string) : bool :=
  match s with
  | EmptyString => true
  | String a s1 =>
      if rune1 a then ValidString s1 else
      match s1 with
      | EmptyString => false
      | String b s2 =>
          if rune2 a b then ValidString s2 else
          match s2 with
          | EmptyString => false
          | String c s3 =>
              if rune3 a b c then ValidString s3 else
              match s3 with
              | EmptyString => false
              | String d s4 => if rune4 a b c d then ValidString s4 else false
              end
          end
      end
  end.

(** U+FFFD, the replacement character, in UTF-8. *)
Definition RuneError : string :=
  String (ascii_of_nat 239) (String (ascii_of_nat 191) (String (ascii_of_nat 189) EmptyString)).

End utf8.

(** ** Package [encoding/json] on JSON trees

    A JSON text is represented by the tree it denotes: [json.MarshalIndent]
    prints the tree the encoder builds, [json.Unmarshal] reads the tree
    back from the text.  The members of an object are kept in order. *)

Scheme All for prod.

Inductive json : Type :=
  | JNull
  | JBool (b : bool)
  | JNumber (literal : string)
  | JString (s : string)
  | JArray (elements : list json)
  | JObject (members : list (string * json)).

Module encoding_json.

(** The string a Go string becomes in JSON: every byte that starts no
    well-formed rune is replaced by U+FFFD, the rest is kept. *)
Fixpoint stringContent (s : string) : string :=
  match s with
  | EmptyString => EmptyString
  | String a s1 =>
      if utf8.rune1 a then String a (stringContent s1) else
      match s1 with
      | EmptyString => (utf8.RuneError ++ stringContent s1)%string
      | String b s2 =>
          if utf8.rune2 a b then String a (String b (stringContent s2)) else
          match s2 with
          | EmptyString => (utf8.RuneError ++ stringContent s1)%string
          | String c s3 =>
              if utf8.rune3 a b c
              then String a (String b (String c (stringContent s3))) else
              match s3 with
              | EmptyString => (utf8.RuneError ++ stringContent s1)%string
              | String d s4 =>
                  if utf8.rune4 a b c d
                  then String a (String b (String c (String d (stringContent s4))))
                  else (utf8.RuneError ++ stringContent s1)%string
              end
          end
      end
  end.

(** The type a pointer or a slice leads to. *)
Definition pointee (t : gotype) : gotype :=
  match t with
  | TPtr name => TStruct name
  | _ => t
  end.

Definition elem (t : gotype) : gotype :=
  match t with
  | TSlice e => e
  | _ => t
  end.

Definition struct_fields (t : gotype) : list field :=
  match t with
  | TStruct name => fields_of name
  | _ => []
  end.

(** [json.Marshal]: a string is a JSON string; a nil pointer and a nil
    slice are [null]; a struct is an object with one member per field in
    declaration order, without the fields tagged [-] and without the
    [omitempty] fields that are empty. *)
Fixpoint marshal (t : gotype) (v : value) {struct v} : json :=
  match v with
  | VString s => JString (stringContent s)
  | VName n =>
      JObject [("Space", JString (stringContent (xml.Space n)));
               ("Local", JString (stringContent (xml.Local n)))]
  | VPtr None => JNull
  | VPtr (Some v') => marshal (pointee t) v'
  | VSlice [] => JNull
  | VSlice l => JArray (map (marshal (elem t)) l)
  | VStruct vs =>
      JObject
        ((fix members (fs : list field) (vs : list value) {struct vs}
            : list (string * json) :=
            match vs, fs with
            | v :: vs', f :: fs' =>
                match json_tag f with
                | json_ignored => members fs' vs'
                | json_key key omitEmpty =>
                    if omitEmpty && isEmptyValue v then members fs' vs'
                    else (key, marshal (field_type f) v) :: members fs' vs'
                end
            | _, _ => []
            end) (struct_fields t) vs)
  end.

(** Key matching of the decoder: the exact key, else equality after case
    folding.  Folding upper-cases the ASCII letters and sends the two
    other letters that fold to ASCII, U+017F (long s) and U+212A (Kelvin
    sign), to [S] and [K]; all keys of this package are ASCII. *)
Definition upper (c : ascii) : ascii :=
  let n := nat_of_ascii c in
  if ((97 <=? n) && (n <=? 122))%nat then ascii_of_nat (n - 32) else c.

Fixpoint foldName (s : string) : string :=
  match s with
  | EmptyString => EmptyString
  | String a s1 =>
      match s1 with
      | String b s2 =>
          if ((nat_of_ascii a =? 197) && (nat_of_ascii b =? 191))%nat
          then String "S" (foldName s2)
          else
            match s2 with
            | String c s3 =>
                if ((nat_of_ascii a =? 226) && (nat_of_ascii b =? 132)
                    && (nat_of_ascii c =? 170))%nat
                then String "K" (foldName s3)
                else String (upper a) (foldName s1)
            | EmptyString => String (upper a) (foldName s1)
            end
      | EmptyString => String (upper a) EmptyString
      end
  end.

Definition key_of (f : field) : option string :=
  match json_tag f with
  | json_ignored => None
  | json_key key _ => Some key
  end.

(** The position and declaration of the first field whose key satisfies
    [test]. *)
Fixpoint find_key (test : string -> bool) (fs : list field) (i : nat)
  : option (nat * field) :=
  match fs with
  | [] => None
  | f :: fs' =>
      match key_of f with
      | Some key => if test key then Some (i, f) else find_key test fs' (S i)
      | None => find_key test fs' (S i)
      end
  end.

Definition find_field (fs : list field) (key : string) : option (nat * field) :=
  match find_key (String.eqb key) fs 0 with
  | Some r => Some r
  | None => find_key (fun k => String.eqb (foldName k) (foldName key)) fs 0
  end.

(** Assignment to the [i]-th field of a struct value. *)
Fixpoint set_nth (i : nat) (x : value) (l : list value) : list value :=
  match l, i with
  | [], _ => []
  | _ :: l', O => x :: l'
  | y :: l', S i' => y :: set_nth i' x l'
  end.

Definition struct_values (name : string) (v : value) : list value :=
  match v with
  | VStruct vs => vs
  | _ => map (fun f => zero_field (field_type f)) (fields_of name)
  end.

(** [json.Unmarshal] into a destination [cur] of type [t].  [null] sets a
    pointer or a slice to nil and leaves anything else alone; a string
    goes into a string; an array refills a slice, decoding element [i]
    into what the slice held at [i]; an object goes into a struct, or into
    the struct a pointer leads to (allocated when the pointer is nil),
    member by member: a member whose key names no field is skipped, and a
    later member for the same field decodes into what the earlier one
    left.  Any other combination is a type error: [None]. *)
Fixpoint unmarshal (t : gotype) (j : json) (cur : value) {struct j} : option value :=
  let object (fs : list field) (ms : list (string * json)) (vs : list value) :=
    (fix members (ms : list (string * json)) (vs : list value) {struct ms}
       : option (list value) :=
       match ms with
       | [] => Some vs
       | (key, jv) :: ms' =>
           match find_field fs key with
           | None => members ms' vs
           | Some (i, f) =>
               match unmarshal (field_type f) jv
                               (nth i vs (zero_field (field_type f))) with
               | Some v => members ms' (set_nth i v vs)
               | None => None
               end
           end
       end) ms vs in
  match j with
  | JNull =>
      Some (match t with
            | TPtr _ => VPtr None
            | TSlice _ => VSlice []
            | _ => cur
            end)
  | JBool _ => None
  | JNumber _ => None
  | JString s =>
      match t with
      | TString => Some (VString s)
      | _ => None
      end
  | JArray js =>
      match t with
      | TSlice e =>
          option_map VSlice
            ((fix elements (js : list json) (old : list value) {struct js}
                : option (list value) :=
                match js with
                | [] => Some []
                | j' :: js' =>
                    match unmarshal e j' (hd (zero e) old), elements js' (tl old) with
                    | Some v, Some vs => Some (v :: vs)
                    | _, _ => None
                    end
                end) js (match cur with VSlice l => l | _ => [] end))
      | _ => None
      end
  | JObject ms =>
      match t with
      | TStruct name =>
          option_map VStruct (object (fields_of name) ms (struct_values name cur))
      | TPtr name =>
          let target :=
            match cur with
            | VPtr (Some v) => v
            | _ => zero_struct name
            end in
          option_map (fun vs => VPtr (Some (VStruct vs)))
                     (object (fields_of name) ms (struct_values name target))
      | TName =>
          let n := match cur with VName n => n | _ => xml.mkName "" "" end in
          option_map VName
            ((fix members (ms : list (string * json)) (n : xml.Name) {struct ms}
                : option xml.Name :=
                match ms with
                | [] => Some n
                | (key, jv) :: ms' =>
                    if String.eqb (foldName key) "SPACE" then
                      match jv with
                      | JString s => members ms' (xml.mkName s (xml.Local n))
                      | JNull => members ms' n
                      | _ => None
                      end
                    else if String.eqb (foldName key) "LOCAL" then
                      match jv with
                      | JString s => members ms' (xml.mkName (xml.Space n) s)
                      | JNull => members ms' n
                      | _ => None
                      end
                    else members ms' n
                end) ms n)
      | _ => None
      end
  end.

End encoding_json.

(** ** JSON entry points (parser.go) *)

(** [ToJSON(doc)]: [json.MarshalIndent(doc, "", "  ")]; [doc] is a pointer
    to one of the four document structs. *)
Definition ToJSON (name : string) (doc : value) : json :=
  encoding_json.marshal (TStruct name) doc.

(** [BillFromJSON(data)] and its siblings: [json.Unmarshal] into a zero
    struct; an error gives no document. *)
Definition BillFromJSON (data : json) : option value :=
  encoding_json.unmarshal (TStruct "Bill") data (zero_struct "Bill").

Definition ResolutionFromJSON (data : json) : option value :=
  encoding_json.unmarshal (TStruct "Resolution") data (zero_struct "Resolution").

Definition EngrossedAmendmentFromJSON (data : json) : option value :=
  encoding_json.unmarshal (TStruct "EngrossedAmendment") data (zero_struct "EngrossedAmendment").

Definition AmendmentFromJSON (data : json) : option value :=
  encoding_json.unmarshal (TStruct "Amendment") data (zero_struct "Amendment").

(** *** The nesting limit of encoding/json (scanner.go)

    [json.MarshalIndent] encodes the value and then indents the
    encoding; the indenting pass scans the text and stops with a syntax
    error once more than [maxNestingDepth] objects and arrays are open at
    a time.  [json.Unmarshal] scans its input the same way before it
    stores anything. *)

Module scanner.

Definition maxNestingDepth : N := 10000.

(** The largest number of objects and arrays open at a time in the text
    of [j]: the scanner pushes a parse state at every [{] and [[], an
    empty object or array included, and pops it at the closing bracket. *)
Fixpoint nesting (j : json) : N :=
  match j with
  | JArray elements =>
      (1 + (fix deepest (l : list json) : N :=
              match l with
              | [] => 0
              | e :: l' => N.max (nesting e) (deepest l')
              end) elements)%N
  | JObject members =>
      (1 + (fix deepest (l : list (string * json)) : N :=
              match l with
              | [] => 0
              | (_, e) :: l' => N.max (nesting e) (deepest l')
              end) members)%N
  | _ => 0%N
  end.

(** The error of a scan of the text of [j], if any. *)
Definition checkValid (j : json) : option error :=
  if (nesting j <=? maxNestingDepth)%N then None
  else Some "exceeded max depth".

End scanner.

(** The error [ToJSON(doc)] returns beside the bytes: that of
    [json.MarshalIndent], nil unless the encoding nests deeper than the
    scanner allows.  (The encoder itself has no error for the structs of
    the package: they hold strings, names, pointers and slices only.) *)
Definition ToJSON_error (name : string) (doc : value) : option error :=
  scanner.checkValid (ToJSON name doc).

(** ** Well-formed values *)

(** [well_typed t v]: [v] is a value of the Go type [t]; a struct value
    has one well-typed value per declared field. *)
Fixpoint well_typed (t : gotype) (v : value) {struct v} : bool :=
  match v, t with
  | VString _, TString => true
  | VName _, TName => true
  | VPtr None, TPtr _ => true
  | VPtr (Some v'), TPtr name =>
      match v' with
      | VStruct _ => well_typed (TStruct name) v'
      | _ => false
      end
  | VSlice l, TSlice e => forallb (well_typed e) l
  | VStruct vs, TStruct name =>
      (fix fields (fs : list field) (vs : list value) {struct vs} : bool :=
         match vs, fs with
         | [], [] => true
         | v :: vs', f :: fs' => well_typed (field_type f) v && fields fs' vs'
         | _, _ => false
         end) (fields_of name) vs
  | _, _ => false
  end.

(** Every string of the value is valid UTF-8, as the XML decoder leaves
    them: it rejects a document with an ill-formed byte sequence. *)
Fixpoint valid_strings (v : value) : bool :=
  match v with
  | VString s => utf8.ValidString s
  | VName n => utf8.ValidString (xml.Space n) && utf8.ValidString (xml.Local n)
  | VStruct vs => forallb valid_strings vs
  | VPtr None => true
  | VPtr (Some v') => valid_strings v'
  | VSlice l => forallb valid_strings l
  end.

(** The value with every field tagged [json:"-"] reset to its zero value,
    at every depth, and every other field as it is. *)
Fixpoint clear_ignored (t : gotype) (v : value) {struct v} : value :=
  match v with
  | VStruct vs =>
      VStruct
        ((fix fields (fs : list field) (vs : list value) {struct vs} : list value :=
            match vs, fs with
            | v :: vs', f :: fs' =>
                match json_tag f with
                | json_ignored => zero_field (field_type f)
                | json_key _ _ => clear_ignored (field_type f) v
                end :: fields fs' vs'
            | _, _ => []
            end) (encoding_json.struct_fields t) vs)
  | VPtr (Some v') => VPtr (Some (clear_ignored (encoding_json.pointee t) v'))
  | VSlice l => VSlice (map (clear_ignored (encoding_json.elem t)) l)
  | _ => v
  end.

(** ** The document tree as values

    The value [encoding/json] and [encoding/xml] see behind a pointer to a
    document: each record of the tree, field by field in declaration
    order. *)

Definition reflect_Inline (x : Inline) : value :=
  VStruct
    [VName (Inline_XMLName x);
     VString (Inline_Class x);
     VString (Inline_Role x);
     VString (Inline_Text x)].

Definition reflect_Italic (x : Italic) : value :=
  VStruct
    [VName (Italic_XMLName x);
     VString (Italic_Text x)].

Definition reflect_Bold (x : Bold) : value :=
  VStruct
    [VName (Bold_XMLName x);
     VString (Bold_Text x)].

Definition reflect_Sup (x : Sup) : value :=
  VStruct
    [VName (Sup_XMLName x);
     VString (Sup_Text x)].

Definition reflect_Sub (x : Sub) : value :=
  VStruct
    [VName (Sub_XMLName x);
     VString (Sub_Text x)].

Definition reflect_Term (x : Term) : value :=
  VStruct
    [VName (Term_XMLName x);
     VString (Term_Text x)].

Fixpoint reflect_Ref (x : Ref) {struct x} : value :=
  match x with
  | mkRef xMLName_ href_ text_ innerRef_ =>
      VStruct
        [VName xMLName_;
         VString href_;
         VString text_;
         VPtr (option_map reflect_Ref innerRef_)]
  end.

Definition reflect_P (x : P) : value :=
  VStruct
    [VName (P_XMLName x);
     VString (P_Class x);
     VString (P_Text x)].

Definition reflect_MixedContent (x : MixedContent) : value :=
  VStruct
    [VString (MixedContent_Text x);
     VSlice (map reflect_Inline (MixedContent_Inline x));
     VSlice (map reflect_Italic (MixedContent_I x));
     VSlice (map reflect_Bold (MixedContent_B x));
     VSlice (map reflect_Sup (MixedContent_Sup x));
     VSlice (map reflect_Sub (MixedContent_Sub x));
     VSlice (map reflect_Term (MixedContent_Term x));
     VSlice (map reflect_Ref (MixedContent_Ref x));
     VSlice (map reflect_P (MixedContent_P x))].

Definition reflect_ShortTitle (x : ShortTitle) : value :=
  VStruct
    [VName (ShortTitle_XMLName x);
     VString (ShortTitle_Role x);
     VString (ShortTitle_Text x)].

Definition reflect_QuotedText (x : QuotedText) : value :=
  VStruct
    [VName (QuotedText_XMLName x);
     VString (QuotedText_Text x)].

Definition reflect_AmendingAction (x : AmendingAction) : value :=
  VStruct
    [VName (AmendingAction_XMLName x);
     VString (AmendingAction_Type x);
     VString (AmendingAction_Text x)].

Definition reflect_Num (x : Num) : value :=
  VStruct
    [VName (Num_XMLName x);
     VString (Num_Value x);
     VString (Num_Text x)].

Definition reflect_Heading (x : Heading) : value :=
  VStruct
    [VName (Heading_XMLName x);
     VString (Heading_Class x);
     VString (Heading_Text x);
     VSlice (map reflect_Inline (Heading_Inline x))].

Definition reflect_Chapeau (x : Chapeau) : value :=
  VStruct
    [VName (Chapeau_XMLName x);
     VString (Chapeau_Class x);
     VString (Chapeau_Text x);
     VSlice (map reflect_Inline (Chapeau_Inline x));
     VSlice (map reflect_Ref (Chapeau_Ref x));
     VSlice (map reflect_AmendingAction (Chapeau_AmendingAction x))].

Fixpoint reflect_Content (x : Content) {struct x} : value :=
  match x with
  | mkContent xMLName_ class_ text_ inline_ i_ ref_ shortTitle_ quotedText_ amendingAction_ quotedContent_ amendmentContent_ =>
      VStruct
        [VName xMLName_;
         VString class_;
         VString text_;
         VSlice (map reflect_Inline inline_);
         VSlice (map reflect_Italic i_);
         VSlice (map reflect_Ref ref_);
         VSlice (map reflect_ShortTitle shortTitle_);
         VSlice (map reflect_QuotedText quotedText_);
         VSlice (map reflect_AmendingAction amendingAction_);
         VSlice (map reflect_QuotedContent quotedContent_);
         VSlice (map reflect_AmendmentContent amendmentContent_)]
  end
with reflect_QuotedContent (x : QuotedContent) {struct x} : value :=
  match x with
  | mkQuotedContent xMLName_ id_ styleType_ paragraph_ subsection_ section_ =>
      VStruct
        [VName xMLName_;
         VString id_;
         VString styleType_;
         VSlice (map reflect_Paragraph paragraph_);
         VSlice (map reflect_Subsection subsection_);
         VSlice (map reflect_Section section_)]
  end
with reflect_AmendmentContent (x : AmendmentContent) {struct x} : value :=
  match x with
  | mkAmendmentContent xMLName_ class_ changed_ styleType_ section_ =>
      VStruct
        [VName xMLName_;
         VString class_;
         VString changed_;
         VString styleType_;
         VSlice (map reflect_Section section_)]
  end
with reflect_Section (x : Section) {struct x} : value :=
  match x with
  | mkSection xMLName_ id_ identifier_ role_ class_ num_ heading_ chapeau_ content_ paragraphs_ subsections_ =>
      VStruct
        [VName xMLName_;
         VString id_;
         VString identifier_;
         VString role_;
         VString class_;
         VPtr (option_map reflect_Num num_);
         VPtr (option_map reflect_Heading heading_);
         VPtr (option_map reflect_Chapeau chapeau_);
         VPtr (option_map reflect_Content content_);
         VSlice (map reflect_Paragraph paragraphs_);
         VSlice (map reflect_Subsection subsections_)]
  end
with reflect_Subsection (x : Subsection) {struct x} : value :=
  match x with
  | mkSubsection xMLName_ id_ identifier_ class_ num_ heading_ chapeau_ content_ paragraphs_ =>
      VStruct
        [VName xMLName_;
         VString id_;
         VString identifier_;
         VString class_;
         VPtr (option_map reflect_Num num_);
         VPtr (option_map reflect_Heading heading_);
         VPtr (option_map reflect_Chapeau chapeau_);
         VPtr (option_map reflect_Content content_);
         VSlice (map reflect_Paragraph paragraphs_)]
  end
with reflect_Paragraph (x : Paragraph) {struct x} : value :=
  match x with
  | mkParagraph xMLName_ id_ identifier_ class_ role_ num_ heading_ chapeau_ content_ subparagraphs_ =>
      VStruct
        [VName xMLName_;
         VString id_;
         VString identifier_;
         VString class_;
         VString role_;
         VPtr (option_map reflect_Num num_);
         VPtr (option_map reflect_Heading heading_);
         VPtr (option_map reflect_Chapeau chapeau_);
         VPtr (option_map reflect_Content content_);
         VSlice (map reflect_Subparagraph subparagraphs_)]
  end
with reflect_Subparagraph (x : Subparagraph) {struct x} : value :=
  match x with
  | mkSubparagraph xMLName_ id_ identifier_ class_ num_ chapeau_ content_ clauses_ =>
      VStruct
        [VName xMLName_;
         VString id_;
         VString identifier_;
         VString class_;
         VPtr (option_map reflect_Num num_);
         VPtr (option_map reflect_Chapeau chapeau_);
         VPtr (option_map reflect_Content content_);
         VSlice (map reflect_Clause clauses_)]
  end
with reflect_Clause (x : Clause) {struct x} : value :=
  match x with
  | mkClause xMLName_ id_ identifier_ class_ num_ content_ subclauses_ =>
      VStruct
        [VName xMLName_;
         VString id_;
         VString identifier_;
         VString class_;
         VPtr (option_map reflect_Num num_);
         VPtr (option_map reflect_Content content_);
         VSlice (map reflect_Subclause subclauses_)]
  end
with reflect_Subclause (x : Subclause) {struct x} : value :=
  match x with
  | mkSubclause xMLName_ id_ identifier_ class_ num_ content_ =>
      VStruct
        [VName xMLName_;
         VString id_;
         VString identifier_;
         VString class_;
         VPtr (option_map reflect_Num num_);
         VPtr (option_map reflect_Content content_)]
  end.

Definition reflect_DistributionCode (x : DistributionCode) : value :=
  VStruct
    [VName (DistributionCode_XMLName x);
     VString (DistributionCode_Display x);
     VString (DistributionCode_Text x)].

Definition reflect_CongressElement (x : CongressElement) : value :=
  VStruct
    [VName (CongressElement_XMLName x);
     VString (CongressElement_Value x);
     VString (CongressElement_Text x)].

Definition reflect_SessionElement (x : SessionElement) : value :=
  VStruct
    [VName (SessionElement_XMLName x);
     VString (SessionElement_Value x);
     VString (SessionElement_Text x)].

Definition reflect_CurrentChamber (x : CurrentChamber) : value :=
  VStruct
    [VName (CurrentChamber_XMLName x);
     VString (CurrentChamber_Value x);
     VString (CurrentChamber_Text x)].

Definition reflect_ActionDate (x : ActionDate) : value :=
  VStruct
    [VName (ActionDate_XMLName x);
     VString (ActionDate_Date x);
     VString (ActionDate_Text x);
     VSlice (map reflect_Inline (ActionDate_Inline x))].

Definition reflect_Sponsor (x : Sponsor) : value :=
  VStruct
    [VName (Sponsor_XMLName x);
     VString (Sponsor_SenateID x);
     VString (Sponsor_HouseID x);
     VString (Sponsor_Text x);
     VSlice (map reflect_Inline (Sponsor_Inline x))].

Definition reflect_Cosponsor (x : Cosponsor) : value :=
  VStruct
    [VName (Cosponsor_XMLName x);
     VString (Cosponsor_SenateID x);
     VString (Cosponsor_HouseID x);
     VString (Cosponsor_Text x);
     VSlice (map reflect_Inline (Cosponsor_Inline x))].

Definition reflect_Committee (x : Committee) : value :=
  VStruct
    [VName (Committee_XMLName x);
     VString (Committee_CommitteeID x);
     VString (Committee_Text x)].

Definition reflect_ActionDescription (x : ActionDescription) : value :=
  VStruct
    [VName (ActionDescription_XMLName x);
     VString (ActionDescription_Text x);
     VSlice (map reflect_Sponsor (ActionDescription_Sponsors x));
     VSlice (map reflect_Cosponsor (ActionDescription_Cosponsors x));
     VSlice (map reflect_Committee (ActionDescription_Committees x));
     VSlice (map reflect_Inline (ActionDescription_Inline x))].

Definition reflect_Action (x : Action) : value :=
  VStruct
    [VName (Action_XMLName x);
     VString (Action_ActionStage x);
     VPtr (option_map reflect_ActionDate (Action_Date x));
     VPtr (option_map reflect_ActionDescription (Action_ActionDescription x));
     VString (Action_ActionInstruction x)].

Definition reflect_Preface (x : Preface) : value :=
  VStruct
    [VName (Preface_XMLName x);
     VString (Preface_SlugLine x);
     VPtr (option_map reflect_DistributionCode (Preface_DistributionCode x));
     VPtr (option_map reflect_CongressElement (Preface_Congress x));
     VPtr (option_map reflect_SessionElement (Preface_Session x));
     VString (Preface_DCType x);
     VString (Preface_DocNumber x);
     VString (Preface_DCTitle x);
     VPtr (option_map reflect_CurrentChamber (Preface_CurrentChamber x));
     VSlice (map reflect_Action (Preface_Actions x))].

Definition reflect_AmendPreface (x : AmendPreface) : value :=
  VStruct
    [VName (AmendPreface_XMLName x);
     VString (AmendPreface_SlugLine x);
     VPtr (option_map reflect_CurrentChamber (AmendPreface_CurrentChamber x));
     VSlice (map reflect_Action (AmendPreface_Actions x))].

Definition reflect_LongTitle (x : LongTitle) : value :=
  VStruct
    [VName (LongTitle_XMLName x);
     VString (LongTitle_DocTitle x);
     VString (LongTitle_OfficialTitle x)].

Definition reflect_EnactingFormula (x : EnactingFormula) : value :=
  VStruct
    [VName (EnactingFormula_XMLName x);
     VString (EnactingFormula_Text x);
     VSlice (map reflect_Italic (EnactingFormula_I x))].

Definition reflect_ReferenceItem (x : ReferenceItem) : value :=
  VStruct
    [VName (ReferenceItem_XMLName x);
     VString (ReferenceItem_Role x);
     VString (ReferenceItem_Designator x);
     VString (ReferenceItem_Label x)].

Definition reflect_TOC (x : TOC) : value :=
  VStruct
    [VName (TOC_XMLName x);
     VSlice (map reflect_ReferenceItem (TOC_ReferenceItem x))].

Definition reflect_Recital (x : Recital) : value :=
  VStruct
    [VName (Recital_XMLName x);
     VString (Recital_Text x);
     VSlice (map reflect_P (Recital_P x));
     VSlice (map reflect_Paragraph (Recital_Paragraphs x))].

Definition reflect_ResolvingClause (x : ResolvingClause) : value :=
  VStruct
    [VName (ResolvingClause_XMLName x);
     VString (ResolvingClause_Class x);
     VString (ResolvingClause_Text x);
     VSlice (map reflect_Italic (ResolvingClause_I x))].

Definition reflect_Preamble (x : Preamble) : value :=
  VStruct
    [VName (Preamble_XMLName x);
     VSlice (map reflect_Recital (Preamble_Recitals x));
     VPtr (option_map reflect_ResolvingClause (Preamble_ResolvingClause x))].

Definition reflect_Title (x : Title) : value :=
  VStruct
    [VName (Title_XMLName x);
     VString (Title_ID x);
     VPtr (option_map reflect_Num (Title_Num x));
     VPtr (option_map reflect_Heading (Title_Heading x));
     VSlice (map reflect_Section (Title_Sections x))].

Definition reflect_Main (x : Main) : value :=
  VStruct
    [VName (Main_XMLName x);
     VString (Main_StyleType x);
     VPtr (option_map reflect_LongTitle (Main_LongTitle x));
     VPtr (option_map reflect_EnactingFormula (Main_EnactingFormula x));
     VPtr (option_map reflect_TOC (Main_TOC x));
     VPtr (option_map reflect_Preamble (Main_Preamble x));
     VSlice (map reflect_Section (Main_Sections x));
     VSlice (map reflect_Title (Main_Titles x));
     VString (Main_EndMarker x)].

Definition reflect_AmendmentInstruction (x : AmendmentInstruction) : value :=
  VStruct
    [VName (AmendmentInstruction_XMLName x);
     VPtr (option_map reflect_Num (AmendmentInstruction_Num x));
     VPtr (option_map reflect_Content (AmendmentInstruction_Content x))].

Definition reflect_Notation (x : Notation) : value :=
  VStruct
    [VName (Notation_XMLName x);
     VString (Notation_Type x);
     VString (Notation_Text x)].

Definition reflect_Signature (x : Signature) : value :=
  VStruct
    [VName (Signature_XMLName x);
     VPtr (option_map reflect_Notation (Signature_Notation x));
     VString (Signature_Role x);
     VString (Signature_Text x)].

Definition reflect_Signatures (x : Signatures) : value :=
  VStruct
    [VName (Signatures_XMLName x);
     VSlice (map reflect_Signature (Signatures_Signature x))].

Definition reflect_Endorsement (x : Endorsement) : value :=
  VStruct
    [VName (Endorsement_XMLName x);
     VString (Endorsement_Orientation x);
     VPtr (option_map reflect_CongressElement (Endorsement_Congress x));
     VPtr (option_map reflect_SessionElement (Endorsement_Session x));
     VString (Endorsement_DCType x);
     VString (Endorsement_DocNumber x);
     VString (Endorsement_DocTitle x)].

Definition reflect_AmendMain (x : AmendMain) : value :=
  VStruct
    [VName (AmendMain_XMLName x);
     VString (AmendMain_AmendmentInstructionLineNumbering x);
     VPtr (option_map reflect_ResolvingClause (AmendMain_ResolvingClause x));
     VSlice (map reflect_Section (AmendMain_Sections x));
     VString (AmendMain_DocTitle x);
     VSlice (map reflect_AmendmentInstruction (AmendMain_AmendmentInstructions x));
     VPtr (option_map reflect_Signatures (AmendMain_Signatures x));
     VPtr (option_map reflect_Endorsement (AmendMain_Endorsement x))].

Definition reflect_RelatedDocument (x : RelatedDocument) : value :=
  VStruct
    [VName (RelatedDocument_XMLName x);
     VString (RelatedDocument_Role x);
     VString (RelatedDocument_Href x);
     VString (RelatedDocument_Text x)].

Definition reflect_Meta (x : Meta) : value :=
  VStruct
    [VName (Meta_XMLName x);
     VString (Meta_DCTitle x);
     VString (Meta_DCType x);
     VString (Meta_DCCreator x);
     VString (Meta_DCPublisher x);
     VString (Meta_DCFormat x);
     VString (Meta_DCLanguage x);
     VString (Meta_DCRights x);
     VString (Meta_DocNumber x);
     VSlice (map VString (Meta_CitableAs x));
     VString (Meta_DocStage x);
     VString (Meta_CurrentChamber x);
     VString (Meta_Congress x);
     VString (Meta_Session x);
     VString (Meta_PublicPrivate x);
     VString (Meta_ProcessedBy x);
     VString (Meta_ProcessedDate x);
     VSlice (map reflect_RelatedDocument (Meta_RelatedDocuments x));
     VString (Meta_PopularName x)].

Definition reflect_AmendMeta (x : AmendMeta) : value :=
  VStruct
    [VName (AmendMeta_XMLName x);
     VString (AmendMeta_DCTitle x);
     VString (AmendMeta_DCType x);
     VString (AmendMeta_DCCreator x);
     VString (AmendMeta_DCPublisher x);
     VString (AmendMeta_DCFormat x);
     VString (AmendMeta_DCLanguage x);
     VString (AmendMeta_DCRights x);
     VString (AmendMeta_DocNumber x);
     VSlice (map VString (AmendMeta_CitableAs x));
     VString (AmendMeta_DocStage x);
     VString (AmendMeta_CurrentChamber x);
     VString (AmendMeta_AmendDegree x);
     VString (AmendMeta_Congress x);
     VString (AmendMeta_Session x);
     VString (AmendMeta_PublicPrivate x);
     VString (AmendMeta_ProcessedBy x);
     VString (AmendMeta_ProcessedDate x)].

Definition reflect_Bill (x : Bill) : value :=
  VStruct
    [VName (Bill_XMLName x);
     VString (Bill_XMLNS x);
     VString (Bill_XMLNSDC x);
     VString (Bill_XMLNSHTML x);
     VString (Bill_XMLNSUSLM x);
     VString (Bill_XMLNSXSI x);
     VString (Bill_XSISchemaLocation x);
     VString (Bill_XMLLang x);
     VPtr (option_map reflect_Meta (Bill_Meta x));
     VPtr (option_map reflect_Preface (Bill_Preface x));
     VPtr (option_map reflect_Main (Bill_Main x));
     VString (Bill_EndMarker x)].

Definition reflect_Resolution (x : Resolution) : value :=
  VStruct
    [VName (Resolution_XMLName x);
     VString (Resolution_XMLNS x);
     VString (Resolution_XMLNSDC x);
     VString (Resolution_XMLNSHTML x);
     VString (Resolution_XMLNSUSLM x);
     VString (Resolution_XMLNSXSI x);
     VString (Resolution_XSISchemaLocation x);
     VString (Resolution_XMLLang x);
     VPtr (option_map reflect_Meta (Resolution_Meta x));
     VPtr (option_map reflect_Preface (Resolution_Preface x));
     VPtr (option_map reflect_Main (Resolution_Main x));
     VString (Resolution_EndMarker x)].

Definition reflect_EngrossedAmendment (x : EngrossedAmendment) : value :=
  VStruct
    [VName (EngrossedAmendment_XMLName x);
     VString (EngrossedAmendment_XMLNS x);
     VString (EngrossedAmendment_XMLNSDC x);
     VString (EngrossedAmendment_XMLNSHTML x);
     VString (EngrossedAmendment_XMLNSUSLM x);
     VString (EngrossedAmendment_XMLNSXSI x);
     VString (EngrossedAmendment_StyleType x);
     VString (EngrossedAmendment_XSISchemaLocation x);
     VString (EngrossedAmendment_XMLLang x);
     VPtr (option_map reflect_AmendMeta (EngrossedAmendment_AmendMeta x));
     VPtr (option_map reflect_AmendPreface (EngrossedAmendment_AmendPreface x));
     VPtr (option_map reflect_AmendMain (EngrossedAmendment_AmendMain x));
     VPtr (option_map reflect_Signatures (EngrossedAmendment_Signatures x));
     VPtr (option_map reflect_Endorsement (EngrossedAmendment_Endorsement x))].

Definition reflect_Amendment (x : Amendment) : value :=
  VStruct
    [VName (Amendment_XMLName x);
     VString (Amendment_XMLNS x);
     VString (Amendment_XMLNSDC x);
     VString (Amendment_XMLNSHTML x);
     VString (Amendment_XMLNSUSLM x);
     VString (Amendment_XMLNSXSI x);
     VString (Amendment_XSISchemaLocation x);
     VString (Amendment_XMLLang x);
     VPtr (option_map reflect_AmendMeta (Amendment_AmendMeta x));
     VPtr (option_map reflect_AmendPreface (Amendment_AmendPreface x));
     VPtr (option_map reflect_AmendMain (Amendment_AmendMain x))].

(** ** Package [encoding/xml]: the encoder

    The encoder walks the value as the JSON one does and emits start tags,
    character data and end tags; what it emits is kept as a tree, which
    the printer below turns into bytes. *)

Inductive xmlnode : Type :=
  | Element (name : xml.Name) (attrs : list (xml.Name * string))
            (children : list xmlnode)
  | CharData (text : string).

Module encoding_xml.

(** [xml.Header]. *)
Definition Header : string :=
  "<?xml version=" ++ String (ascii_of_nat 34) "1.0"
  ++ String (ascii_of_nat 34) " encoding="
  ++ String (ascii_of_nat 34) "UTF-8"
  ++ String (ascii_of_nat 34) "?>"
  ++ String (ascii_of_nat 10) "".

(** The field named [XMLName] of a struct, with its value. *)
Fixpoint xmlname_field (fs : list field) (vs : list value) {struct fs}
  : option (field * value) :=
  match fs, vs with
  | f :: fs', v :: vs' =>
      if String.eqb (field_name f) "XMLName" then Some (f, v)
      else xmlname_field fs' vs'
  | _, _ => None
  end.

(** The name part of an [xml:] tag as written (empty when the tag gives
    none). *)
Definition xml_tag_name (f : field) : string :=
  let tag := match cut " " (field_xml f) with
             | Some (_, tag) => tag
             | None => field_xml f
             end in
  hd EmptyString (split "," tag).

(** The name of the element written for a value: for a struct, the name in
    the tag of its [XMLName] field, or without one the name that field
    holds; failing that the name the enclosing field gives; failing that
    the name of the type. *)
Definition start_name (t : gotype) (finfo : option xmlinfo) (v : value) : xml.Name :=
  let own :=
    match v with
    | VStruct vs =>
        match xmlname_field (encoding_json.struct_fields t) vs with
        | Some (f, n) =>
            if negb (String.eqb (xml_tag_name f) "")
            then Some (xml.mkName (xml_xmlns (xml_tag f)) (xml_tag_name f))
            else match n with
                 | VName n => if String.eqb (xml.Local n) "" then None else Some n
                 | _ => None
                 end
        | None => None
        end
    | _ => None
    end in
  match own, finfo, t with
  | Some n, _, _ => n
  | None, Some fi, _ => xml.mkName (xml_xmlns fi) (xml_name fi)
  | None, None, TStruct name => xml.mkName "" name
  | None, None, _ => xml.mkName "" ""
  end.

Definition omitted (finfo : option xmlinfo) (v : value) : bool :=
  match finfo with
  | Some fi => xml_omitEmpty fi && isEmptyValue v
  | None => false
  end.

Definition is_XMLName (f : field) : bool := String.eqb (field_name f) "XMLName".

(** The attributes of a start tag: the [attr] fields in declaration
    order, an [omitempty] one only when it is not empty. *)
Fixpoint attributes (fs : list field) (vs : list value) {struct vs}
  : list (xml.Name * string) :=
  match vs, fs with
  | v :: vs', f :: fs' =>
      let fi := xml_tag f in
      match xml_mode fi, v with
      | fAttr, VString s =>
          if is_XMLName f || xml_omitEmpty fi && isEmptyValue v
          then attributes fs' vs'
          else (xml.mkName (xml_xmlns fi) (xml_name fi), s) :: attributes fs' vs'
      | _, _ => attributes fs' vs'
      end
  | _, _ => []
  end.

(** [marshalValue(val, finfo, nil)]: nothing for an [omitempty] field that
    is empty and for a nil pointer; the elements of a slice one after the
    other, with no enclosing tag; one element for a string or a struct.
    The content of a struct's element is, per field that is neither an
    attribute nor [XMLName], in declaration order: the text of a
    [chardata] field, and the encoding of any other field. *)
Fixpoint marshalValue (t : gotype) (finfo : option xmlinfo) (v : value) {struct v}
  : list xmlnode :=
  if omitted finfo v then [] else
  match v with
  | VString s => [Element (start_name t finfo v) [] [CharData s]]
  | VName n =>
      [Element (start_name t finfo v) []
               [Element (xml.mkName "" "Space") [] [CharData (xml.Space n)];
                Element (xml.mkName "" "Local") [] [CharData (xml.Local n)]]]
  | VPtr None => []
  | VPtr (Some v') => marshalValue (encoding_json.pointee t) finfo v'
  | VSlice l => flat_map (marshalValue (encoding_json.elem t) finfo) l
  | VStruct vs =>
      [Element (start_name t finfo v)
               (attributes (encoding_json.struct_fields t) vs)
               ((fix content (fs : list field) (vs : list value) {struct vs}
                   : list xmlnode :=
                   match vs, fs with
                   | v :: vs', f :: fs' =>
                       let fi := xml_tag f in
                       if is_XMLName f then content fs' vs'
                       else
                         match xml_mode fi with
                         | fAttr => content fs' vs'
                         | fCharData =>
                             match v with
                             | VString s => CharData s :: content fs' vs'
                             | _ => content fs' vs'
                             end
                         | fElement =>
                             marshalValue (field_type f) (Some fi) v ++ content fs' vs'
                         end
                   | _, _ => []
                   end) (encoding_json.struct_fields t) vs)]
  end.

End encoding_xml.

(** ** Package [encoding/xml]: the printer

    The printer writes tags and text to a buffer and keeps, besides the
    buffer, the state of the indentation ([depth], [indentedIn],
    [putNewline]) and the prefixes it has made up for the name spaces of
    attributes. *)

Module printer.

Definition quote : string := String (ascii_of_nat 34) EmptyString.
Definition newline : string := String (ascii_of_nat 10) EmptyString.

(** [escapeText]: the five markup characters, tab, line feed and carriage
    return become character references; a byte that starts no well-formed
    rune, and a rune outside the character range of XML (a control
    character, U+FFFE, U+FFFF), become U+FFFD. *)
Definition escape1 (a : ascii) : string :=
  let n := nat_of_ascii a in
  if (n =? 34)%nat then "&#34;"
  else if (n =? 39)%nat then "&#39;"
  else if (n =? 38)%nat then "&amp;"
  else if (n =? 60)%nat then "&lt;"
  else if (n =? 62)%nat then "&gt;"
  else if (n =? 9)%nat then "&#x9;"
  else if (n =? 10)%nat then "&#xA;"
  else if (n =? 13)%nat then "&#xD;"
  else if (n <? 32)%nat then utf8.RuneError
  else String a EmptyString.

Definition out_of_range3 (a b c : ascii) : bool :=
  ((nat_of_ascii a =? 239) && (nat_of_ascii b =? 191)
   && (190 <=? nat_of_ascii c))%nat.

Fixpoint escapeText (s : string) : string :=
  match s with
  | EmptyString => EmptyString
  | String a s1 =>
      if utf8.rune1 a then (escape1 a ++ escapeText s1)%string else
      match s1 with
      | EmptyString => (utf8.RuneError ++ escapeText s1)%string
      | String b s2 =>
          if utf8.rune2 a b then String a (String b (escapeText s2)) else
          match s2 with
          | EmptyString => (utf8.RuneError ++ escapeText s1)%string
          | String c s3 =>
              if utf8.rune3 a b c then
                if out_of_range3 a b c then (utf8.RuneError ++ escapeText s3)%string
                else String a (String b (String c (escapeText s3)))
              else
              match s3 with
              | EmptyString => (utf8.RuneError ++ escapeText s1)%string
              | String d s4 =>
                  if utf8.rune4 a b c d
                  then String a (String b (String c (String d (escapeText s4))))
                  else (utf8.RuneError ++ escapeText s1)%string
              end
          end
      end
  end.

(** *** Prefixes for the name spaces of attributes *)

(** A Go [map[string]string]: a missing key reads as the empty string. *)
Definition smap := list (string * string).

Fixpoint get (m : smap) (k : string) : string :=
  match m with
  | [] => EmptyString
  | (k', v) :: m' => if String.eqb k' k then v else get m' k
  end.

Definition put (m : smap) (k v : string) : smap :=
  (k, v) :: filter (fun e => negb (String.eqb (fst e) k)) m.

Definition delete (m : smap) (k : string) : smap :=
  filter (fun e => negb (String.eqb (fst e) k)) m.

Record names : Type := mk_names {
    attrPrefix : smap;        (* name space to prefix *)
    attrNS     : smap;        (* prefix to name space *)
    prefixes   : list string; (* prefixes made, an empty string per open tag *)
    seq        : nat
  }.

Definition no_names : names := mk_names [] [] [] 0.

Definition xmlURL : string := "http://www.w3.org/XML/1998/namespace".

(** [strings.TrimRight(s, "/")] and the part after the last [/]. *)
Fixpoint trimSlashes (s : string) : string :=
  match s with
  | EmptyString => EmptyString
  | String c s' =>
      match trimSlashes s' with
      | EmptyString => if Ascii.eqb c "/" then EmptyString else String c EmptyString
      | r => String c r
      end
  end.

Fixpoint afterLastSlash (s : string) : string :=
  match s with
  | EmptyString => EmptyString
  | String c s' =>
      if strings.Contains s' "/" then afterLastSlash s'
      else if Ascii.eqb c "/" then s' else s
  end.

(** [isName] on ASCII names: a letter, [_] or [:] first, then also
    digits, [-] and [.].  The name spaces of the attributes declared in
    this package are ASCII words. *)
Definition nameStart (c : ascii) : bool :=
  let n := nat_of_ascii c in
  ((65 <=? n) && (n <=? 90) || (97 <=? n) && (n <=? 122)
   || (n =? 95) || (n =? 58))%nat.

Definition nameChar (c : ascii) : bool :=
  let n := nat_of_ascii c in
  (nameStart c || (48 <=? n) && (n <=? 57) || (n =? 45) || (n =? 46))%nat.

Fixpoint allChars (p : ascii -> bool) (s : string) : bool :=
  match s with
  | EmptyString => true
  | String c s' => p c && allChars p s'
  end.

Definition isName (s : string) : bool :=
  match s with
  | EmptyString => false
  | String c s' => nameStart c && allChars nameChar s'
  end.

Definition Itoa (n : nat) : string := NilEmpty.string_of_uint (Nat.to_uint n).

(** The first of [prefix_seq], [prefix_(seq+1)], ... that no name space
    uses yet; one of any [length attrNS + 1] candidates is free. *)
Fixpoint freshPrefix (fuel : nat) (m : smap) (prefix : string) (seq : nat)
  : string * nat :=
  let id := (prefix ++ "_" ++ Itoa seq)%string in
  match fuel with
  | O => (id, seq)
  | S fuel' =>
      if String.eqb (get m id) "" then (id, seq)
      else freshPrefix fuel' m prefix (S seq)
  end.

(** [createAttrPrefix(url)]: the prefix to write before an attribute of
    name space [url], the declaration written first when the prefix is
    new, and the state after. *)
Definition createAttrPrefix (ns : names) (url : string) : string * string * names :=
  if negb (String.eqb (get (attrPrefix ns) url) "")
  then (get (attrPrefix ns) url, EmptyString, ns)
  else if String.eqb url xmlURL then ("xml", EmptyString, ns)
  else
    let prefix := afterLastSlash (trimSlashes url) in
    let prefix :=
      if String.eqb prefix "" || negb (isName prefix) || strings.Contains prefix ":"
      then "_" else prefix in
    let prefix :=
      if (3 <=? String.length prefix)%nat
         && String.eqb (encoding_json.foldName (substring 0 3 prefix)) "XML"
      then ("_" ++ prefix)%string else prefix in
    let '(prefix, seq') :=
      if negb (String.eqb (get (attrNS ns) prefix) "")
      then freshPrefix (length (attrNS ns)) (attrNS ns) prefix (S (seq ns))
      else (prefix, seq ns) in
    (prefix,
     ("xmlns:" ++ prefix ++ "=" ++ quote ++ escapeText url ++ quote ++ " ")%string,
     mk_names (put (attrPrefix ns) url prefix) (put (attrNS ns) prefix url)
              (prefix :: prefixes ns) seq').

Definition markPrefix (ns : names) : names :=
  mk_names (attrPrefix ns) (attrNS ns) (EmptyString :: prefixes ns) (seq ns).

Fixpoint popPrefixes (ps : list string) (ap an : smap) : list string * smap * smap :=
  match ps with
  | [] => ([], ap, an)
  | prefix :: ps' =>
      if String.eqb prefix "" then (ps', ap, an)
      else popPrefixes ps' (delete ap (get an prefix)) (delete an prefix)
  end.

Definition popPrefix (ns : names) : names :=
  let '(ps, ap, an) := popPrefixes (prefixes ns) (attrPrefix ns) (attrNS ns) in
  mk_names ap an ps (seq ns).

(** The attributes of a start tag, each after a blank. *)
Fixpoint writeAttrs (ns : names) (attrs : list (xml.Name * string)) : string * names :=
  match attrs with
  | [] => (EmptyString, ns)
  | (name, v) :: attrs' =>
      if String.eqb (xml.Local name) "" then writeAttrs ns attrs'
      else
        let '(qualifier, ns1) :=
          if String.eqb (xml.Space name) "" then (EmptyString, ns)
          else let '(prefix, decl, ns1) := createAttrPrefix ns (xml.Space name) in
               ((decl ++ prefix ++ ":")%string, ns1) in
        let '(rest, ns2) := writeAttrs ns1 attrs' in
        ((" " ++ qualifier ++ xml.Local name ++ "=" ++ quote ++ escapeText v ++ quote
          ++ rest)%string, ns2)
  end.

(** The text of a start tag, from [<] to [>]. *)
Definition startTag (ns : names) (name : xml.Name) (attrs : list (xml.Name * string))
  : string * names :=
  let space :=
    if String.eqb (xml.Space name) "" then EmptyString
    else (" xmlns=" ++ quote ++ escapeText (xml.Space name) ++ quote)%string in
  let '(atext, ns') := writeAttrs (markPrefix ns) attrs in
  (("<" ++ xml.Local name ++ space ++ atext ++ ">")%string, ns').

Definition endTag (name : xml.Name) : string := ("</" ++ xml.Local name ++ ">")%string.

(** *** The printer proper *)

Record t : Type := mk {
    buf        : string;
    prefix     : string;
    indent     : string;
    depth      : nat;
    indentedIn : bool;
    putNewline : bool;
    ns         : names
  }.

Fixpoint repeat_string (s : string) (n : nat) : string :=
  match n with
  | O => EmptyString
  | S n' => (s ++ repeat_string s n')%string
  end.

Definition write (p : t) (s : string) : t :=
  mk (buf p ++ s) (prefix p) (indent p) (depth p) (indentedIn p) (putNewline p) (ns p).

(** [writeIndent(depthDelta)]: [opening] stands for a positive delta.
    Nothing is done when neither a prefix nor an indent is set. *)
Definition writeIndent (p : t) (opening : bool) : t :=
  if String.eqb (prefix p) "" && String.eqb (indent p) "" then p else
  let p1 :=
    if opening then p
    else mk (buf p) (prefix p) (indent p) (depth p - 1) false (putNewline p) (ns p) in
  if negb opening && indentedIn p then p1
  else
    let p2 := if putNewline p1 then write p1 newline
              else mk (buf p1) (prefix p1) (indent p1) (depth p1) (indentedIn p1)
                      true (ns p1) in
    let p3 := write p2 (prefix p2 ++ repeat_string (indent p2) (depth p2)) in
    if opening
    then mk (buf p3) (prefix p3) (indent p3) (S (depth p3)) true (putNewline p3) (ns p3)
    else p3.

Definition writeStart (p : t) (name : xml.Name) (attrs : list (xml.Name * string)) : t :=
  let p1 := writeIndent p true in
  let '(text, ns') := startTag (ns p1) name attrs in
  mk (buf p1 ++ text) (prefix p1) (indent p1) (depth p1) (indentedIn p1)
     (putNewline p1) ns'.

Definition writeEnd (p : t) (name : xml.Name) : t :=
  let p1 := writeIndent p false in
  mk (buf p1 ++ endTag name) (prefix p1) (indent p1) (depth p1) (indentedIn p1)
     (putNewline p1) (popPrefix (ns p1)).

(** Printing what the encoder emits for one node. *)
Fixpoint print (p : t) (n : xmlnode) {struct n} : t :=
  match n with
  | CharData s => write p (escapeText s)
  | Element name attrs children =>
      writeEnd (fold_left print children (writeStart p name attrs)) name
  end.

End printer.

(** [writeStart] refuses a start tag without a name. *)
Fixpoint named (n : xmlnode) : bool :=
  match n with
  | CharData _ => true
  | Element name _ children =>
      negb (String.eqb (xml.Local name) "") && forallb named children
  end.

(** [xml.MarshalIndent(v, prefix, indent)]. *)
Definition xml_MarshalIndent (t : gotype) (v : value) (prefix indent : string)
  : string * option error :=
  let nodes := encoding_xml.marshalValue t None v in
  if forallb named nodes
  then (printer.buf (fold_left printer.print nodes
                               (printer.mk "" prefix indent 0 false false
                                           printer.no_names)),
        None)
  else (EmptyString, Some "xml: start tag with no name").

(** ** XML encode entry points (parser.go) *)

(** [MarshalBillToXML(bill)]: the indented encoding behind the XML
    declaration. *)
Definition MarshalBillToXML (bill : Bill) : option string * option error :=
  let '(data, err) := xml_MarshalIndent (TStruct "Bill") (reflect_Bill bill) "" "  " in
  match err with
  | Some err => (None, Some (fmt.Errorf "failed to marshal bill to XML" err))
  | None => (Some (encoding_xml.Header ++ data)%string, None)
  end.

Definition MarshalResolutionToXML (resolution : Resolution)
  : option string * option error :=
  let '(data, err) :=
    xml_MarshalIndent (TStruct "Resolution") (reflect_Resolution resolution) "" "  " in
  match err with
  | Some err => (None, Some (fmt.Errorf "failed to marshal resolution to XML" err))
  | None => (Some (encoding_xml.Header ++ data)%string, None)
  end.

Definition MarshalEngrossedAmendmentToXML (amendment : EngrossedAmendment)
  : option string * option error :=
  let '(data, err) :=
    xml_MarshalIndent (TStruct "EngrossedAmendment")
                      (reflect_EngrossedAmendment amendment) "" "  " in
  match err with
  | Some err =>
      (None, Some (fmt.Errorf "failed to marshal engrossed amendment to XML" err))
  | None => (Some (encoding_xml.Header ++ data)%string, None)
  end.

Definition MarshalAmendmentToXML (amendment : Amendment)
  : option string * option error :=
  let '(data, err) :=
    xml_MarshalIndent (TStruct "Amendment") (reflect_Amendment amendment) "" "  " in
  match err with
  | Some err => (None, Some (fmt.Errorf "failed to marshal amendment to XML" err))
  | None => (Some (encoding_xml.Header ++ data)%string, None)
  end.

(** ** Package [encoding/xml]: the decoder

    [xml.Unmarshal] reads the document token by token; the tokens are
    taken here as the tree of the document, names resolved, and the
    decoder as the walk that fills a value from it. *)

Module decoder.

(** [maxUnmarshalDepth]. *)
Definition maxUnmarshalDepth : N := 10000.

(** The fields of a struct the decoder fills: all but [XMLName], which
    records the name of the element. *)
Definition fills (mode : xmlmode) (f : field) : bool :=
  negb (encoding_xml.is_XMLName f)
  && match xml_mode (xml_tag f), mode with
     | fElement, fElement => true
     | fAttr, fAttr => true
     | fCharData, fCharData => true
     | _, _ => false
     end.

Definition matches (mode : xmlmode) (name : xml.Name) (f : field) : bool :=
  fills mode f
  && String.eqb (xml_name (xml_tag f)) (xml.Local name)
  && (String.eqb (xml_xmlns (xml_tag f)) ""
      || String.eqb (xml_xmlns (xml_tag f)) (xml.Space name)).

(** The position and declaration of the first field that satisfies
    [test]. *)
Fixpoint first_field (test : field -> bool) (fs : list field) (i : nat)
  : option (nat * field) :=
  match fs with
  | [] => None
  | f :: fs' => if test f then Some (i, f) else first_field test fs' (S i)
  end.

(** An attribute goes into every [attr] field it matches. *)
Fixpoint store_attr (name : xml.Name) (v : string) (fs : list field)
         (vs : list value) {struct vs} : list value :=
  match vs, fs with
  | x :: vs', f :: fs' =>
      (if matches fAttr name f
       then match field_type f with
            | TString => VString v
            | _ => x
            end
       else x) :: store_attr name v fs' vs'
  | _, _ => vs
  end.

(** The start of a struct: the element must bear the name the tag of
    [XMLName] gives, when it gives one; the name is recorded in
    [XMLName]. *)
Definition record_name (name : xml.Name) (fs : list field) (vs : list value)
  : option (list value) :=
  match first_field encoding_xml.is_XMLName fs 0 with
  | None => Some vs
  | Some (i, f) =>
      let expected := encoding_xml.xml_tag_name f in
      let space := xml_xmlns (xml_tag f) in
      if negb (String.eqb expected "") && negb (String.eqb expected (xml.Local name))
      then None
      else if negb (String.eqb space "") && negb (String.eqb space (xml.Space name))
      then None
      else
        match field_type f with
        | TName => Some (encoding_json.set_nth i (VName name) vs)
        | _ => Some vs
        end
  end.

(** The character data directly inside an element. *)
Fixpoint chardata (children : list xmlnode) : string :=
  match children with
  | [] => EmptyString
  | CharData s :: children' => (s ++ chardata children')%string
  | Element _ _ _ :: children' => chardata children'
  end.

Definition store_chardata (data : string) (fs : list field) (vs : list value)
  : list value :=
  match first_field (fills fCharData) fs 0 with
  | Some (i, f) =>
      match field_type f with
      | TString => encoding_json.set_nth i (VString data) vs
      | _ => vs
      end
  | None => vs
  end.

(** [d.unmarshal(val, start, depth)] into a destination [cur] of type [t]:
    a string takes the character data of the element; a slice grows by
    one element, decoded one level down; a pointer is allocated when nil;
    a struct records the name, stores the attributes, hands each child
    element to the first element field that matches it, one level down
    (a child no field matches is skipped), and stores the character data
    last.  [None] is an error. *)
Fixpoint unmarshal (t : gotype) (depth : N) (e : xmlnode) (cur : value) {struct e}
  : option value :=
  if (maxUnmarshalDepth <=? depth)%N then None else
  match e with
  | CharData _ => None
  | Element name attrs children =>
      let structure (depth : N) (fs : list field) (vs : list value)
        : option (list value) :=
        match record_name name fs vs with
        | None => None
        | Some vs =>
            let vs := fold_left (fun vs a => store_attr (fst a) (snd a) fs vs) attrs vs in
            match
              (fix each (cs : list xmlnode) (vs : list value) {struct cs}
                 : option (list value) :=
                 match cs with
                 | [] => Some vs
                 | CharData _ :: cs' => each cs' vs
                 | (Element child _ _ as c) :: cs' =>
                     match first_field (matches fElement child) fs 0 with
                     | None => each cs' vs
                     | Some (i, f) =>
                         match unmarshal (field_type f) (depth + 1) c
                                         (nth i vs (zero_field (field_type f))) with
                         | Some v => each cs' (encoding_json.set_nth i v vs)
                         | None => None
                         end
                     end
                 end) children vs
            with
            | Some vs => Some (store_chardata (chardata children) fs vs)
            | None => None
            end
        end in
      match t with
      | TString => Some (VString (chardata children))
      | TName => Some (VName name)
      | TStruct n =>
          option_map VStruct
                     (structure depth (fields_of n) (encoding_json.struct_values n cur))
      | TPtr n =>
          let target :=
            match cur with
            | VPtr (Some v) => v
            | _ => zero_struct n
            end in
          option_map (fun vs => VPtr (Some (VStruct vs)))
                     (structure depth (fields_of n)
                                (encoding_json.struct_values n target))
      | TSlice e' =>
          let old := match cur with VSlice l => l | _ => [] end in
          if (maxUnmarshalDepth <=? depth + 1)%N then None else
          match e' with
          | TString => Some (VSlice (old ++ [VString (chardata children)]))
          | TName => Some (VSlice (old ++ [VName name]))
          | TStruct n =>
              option_map (fun vs => VSlice (old ++ [VStruct vs]))
                         (structure (depth + 1)%N (fields_of n)
                                    (encoding_json.struct_values n (zero_struct n)))
          | _ => None
          end
      end
  end.

End decoder.

(** ** Reading a document from a stream (parser.go) *)

Section Reader.

Variable xml_Unmarshal : forall T : Type, string -> T -> T * option error.

(** An [io.Reader], and [io.ReadAll] on it: the bytes read until the end
    of the stream or until an error, and that error. *)
Variable Reader : Type.
Variable io_ReadAll : Reader -> string * option error.

(** [ParseDocumentFromReader(r)]. *)
Definition ParseDocumentFromReader (r : Reader) : LegislativeDocument * option error :=
  let '(data, err) := io_ReadAll r in
  match err with
  | Some err => (LegislativeDocument_nil,
                 Some (fmt.Errorf "failed to read document" err))
  | None => ParseDocument xml_Unmarshal data
  end.

End Reader.

(** * Properties *)

(** ** Accessors *)

(** C7: [GetID] of a sponsor and of a cosponsor is the Senate identifier
    whenever that is non-empty (also when a House identifier is present
    too), otherwise the House identifier when that is non-empty, otherwise
    the empty string. *)
Theorem GetID_senate_first :
  (forall s : Sponsor,
      (Sponsor_SenateID s <> "" -> Sponsor_GetID s = Sponsor_SenateID s) /\
      (Sponsor_SenateID s = "" -> Sponsor_HouseID s <> "" ->
       Sponsor_GetID s = Sponsor_HouseID s) /\
      (Sponsor_SenateID s = "" -> Sponsor_HouseID s = "" -> Sponsor_GetID s = "")) /\
  (forall c : Cosponsor,
      (Cosponsor_SenateID c <> "" -> Cosponsor_GetID c = Cosponsor_SenateID c) /\
      (Cosponsor_SenateID c = "" -> Cosponsor_HouseID c <> "" ->
       Cosponsor_GetID c = Cosponsor_HouseID c) /\
      (Cosponsor_SenateID c = "" -> Cosponsor_HouseID c = "" -> Cosponsor_GetID c = "")).
Proof.
  split; intros x.
  - unfold Sponsor_GetID.
    destruct (String.eqb_spec (Sponsor_SenateID x) "") as [E | E]; simpl.
    + repeat split; intros; congruence.
    + repeat split; intros; congruence.
  - unfold Cosponsor_GetID.
    destruct (String.eqb_spec (Cosponsor_SenateID x) "") as [E | E]; simpl.
    + repeat split; intros; congruence.
    + repeat split; intros; congruence.
Qed.

(** A sponsor carrying both identifiers, and a cosponsor carrying only the
    House one. *)
Lemma GetID_senate_first_witness :
  Sponsor_GetID (mkSponsor (xml.mkName "" "sponsor") "S221" "H001" "Mr. Vitter" []) = "S221" /\
  Cosponsor_GetID (mkCosponsor (xml.mkName "" "cosponsor") "" "H002" "Mr. Doe" []) = "H002".
Proof.
  split.
  - apply (proj1 (proj1 GetID_senate_first
                    (mkSponsor (xml.mkName "" "sponsor") "S221" "H001" "Mr. Vitter" []))).
    simpl. discriminate.
  - apply (proj1 (proj2 (proj2 GetID_senate_first
                    (mkCosponsor (xml.mkName "" "cosponsor") "" "H002" "Mr. Doe" [])))).
    + reflexivity.
    + simpl. discriminate.
Defined.

(** C9: [GetNumValue] of a section is the [value] attribute of its [num]
    element when that element is present, whatever the displayed text of
    the number, and the empty string when the element is absent. *)
Theorem GetNumValue_is_value_attribute :
  forall s : Section,
    (forall n : Num, Section_Num s = Some n -> Section_GetNumValue s = Num_Value n) /\
    (Section_Num s = None -> Section_GetNumValue s = "").
Proof.
  intros s. unfold Section_GetNumValue.
  split.
  - intros n E. rewrite E. reflexivity.
  - intros E. rewrite E. reflexivity.
Qed.

(** The displayed text plays no part: two number elements with the same
    [value] give the same result. *)
Lemma GetNumValue_independent_of_text :
  forall (s1 s2 : Section) (n1 n2 : Num),
    Section_Num s1 = Some n1 -> Section_Num s2 = Some n2 ->
    Num_Value n1 = Num_Value n2 ->
    Section_GetNumValue s1 = Section_GetNumValue s2.
Proof.
  intros s1 s2 n1 n2 E1 E2 Ev.
  unfold Section_GetNumValue. rewrite E1, E2. exact Ev.
Qed.

Definition section_one : Section :=
  mkSection (xml.mkName "" "section") "id1" "/us/bill/114/s/32/s1" "" ""
            (Some (mkNum (xml.mkName "" "num") "1" "SECTION 1."))
            None None None [] [].

Lemma GetNumValue_is_value_attribute_witness :
  Section_GetNumValue section_one = "1".
Proof.
  apply (proj1 (GetNumValue_is_value_attribute section_one)
               (mkNum (xml.mkName "" "num") "1" "SECTION 1.")).
  reflexivity.
Defined.

(** C10: [IsPublic] holds exactly when the metadata block is present and
    its [PublicPrivate] field is the string [public], byte for byte; this
    for the four document variants. *)
Theorem IsPublic_iff_public :
  (forall b : Bill,
      Bill_IsPublic b = true <->
      exists m, Bill_Meta b = Some m /\ Meta_PublicPrivate m = "public") /\
  (forall r : Resolution,
      Resolution_IsPublic r = true <->
      exists m, Resolution_Meta r = Some m /\ Meta_PublicPrivate m = "public") /\
  (forall e : EngrossedAmendment,
      EngrossedAmendment_IsPublic e = true <->
      exists m, EngrossedAmendment_AmendMeta e = Some m /\
                AmendMeta_PublicPrivate m = "public") /\
  (forall a : Amendment,
      Amendment_IsPublic a = true <->
      exists m, Amendment_AmendMeta a = Some m /\ AmendMeta_PublicPrivate m = "public").
Proof.
  repeat split.
  all: try (intros H;
            match goal with
            | H : ?f ?x = true |- _ => unfold f in H
            end;
            match goal with
            | H : match ?o with _ => _ end = true |- _ =>
                destruct o as [m | ] eqn:E; [ | discriminate ]
            end;
            exists m; split; [ reflexivity | apply String.eqb_eq; exact H ]).
  all: intros [m [E P]];
       match goal with
       | |- ?f ?x = true => unfold f
       end;
       rewrite E; apply String.eqb_eq; exact P.
Qed.

(** The comparison is case-sensitive and exact. *)
Definition meta_with_publicPrivate (v : string) : Meta :=
  mkMeta (xml.mkName "" "meta") "" "" "" "" "" "" "" "" [] "" "" "" "" v "" "" [] "".

Definition bill_with_meta (m : option Meta) : Bill :=
  mkBill (xml.mkName "" "bill") "" "" "" "" "" "" "" m None None "".

Example IsPublic_examples :
  Bill_IsPublic (bill_with_meta (Some (meta_with_publicPrivate "public"))) = true /\
  Bill_IsPublic (bill_with_meta (Some (meta_with_publicPrivate "Public"))) = false /\
  Bill_IsPublic (bill_with_meta (Some (meta_with_publicPrivate "private"))) = false /\
  Bill_IsPublic (bill_with_meta (Some (meta_with_publicPrivate ""))) = false /\
  Bill_IsPublic (bill_with_meta None) = false.
Proof. repeat split. Qed.

(** C6: the accessors of the four document variants are total functions
    that fall back to the empty value on an absent block.  Without a
    preface, [GetSponsors], [GetCosponsors], [GetCommittees] and
    [GetActions] return the empty sequence; without a main block,
    [GetSections] returns the empty sequence; without a metadata block,
    every metadata accessor returns the empty string or the empty
    sequence ([IsPublic], the one boolean accessor, returns false). *)
Theorem accessors_empty_on_absent_block :
  (forall b : Bill,
      (Bill_Preface b = None ->
       Bill_GetSponsors b = [] /\ Bill_GetCosponsors b = [] /\
       Bill_GetCommittees b = [] /\ Bill_GetActions b = []) /\
      (Bill_Main b = None -> Bill_GetSections b = []) /\
      (Bill_Meta b = None ->
       Bill_GetDocumentNumber b = "" /\ Bill_GetDocumentType b = "" /\
       Bill_GetCongress b = "" /\ Bill_GetSession b = "" /\
       Bill_GetTitle b = "" /\ Bill_GetStage b = "" /\
       Bill_GetChamber b = "" /\ Bill_IsPublic b = false /\
       Bill_GetCitations b = [] /\ Bill_GetCreator b = "" /\
       Bill_GetPublisher b = "" /\ Bill_GetLanguage b = "" /\
       Bill_GetRights b = "" /\ Bill_GetProcessedBy b = "" /\
       Bill_GetProcessedDate b = "")) /\
  (forall r : Resolution,
      (Resolution_Preface r = None ->
       Resolution_GetSponsors r = [] /\ Resolution_GetCosponsors r = [] /\
       Resolution_GetCommittees r = [] /\ Resolution_GetActions r = []) /\
      (Resolution_Main r = None -> Resolution_GetSections r = []) /\
      (Resolution_Meta r = None ->
       Resolution_GetDocumentNumber r = "" /\ Resolution_GetDocumentType r = "" /\
       Resolution_GetCongress r = "" /\ Resolution_GetSession r = "" /\
       Resolution_GetTitle r = "" /\ Resolution_GetStage r = "" /\
       Resolution_GetChamber r = "" /\ Resolution_IsPublic r = false /\
       Resolution_GetCitations r = [] /\ Resolution_GetCreator r = "" /\
       Resolution_GetPublisher r = "" /\ Resolution_GetLanguage r = "" /\
       Resolution_GetRights r = "" /\ Resolution_GetProcessedBy r = "" /\
       Resolution_GetProcessedDate r = "")) /\
  (forall e : EngrossedAmendment,
      (EngrossedAmendment_AmendPreface e = None -> EngrossedAmendment_GetActions e = []) /\
      (EngrossedAmendment_AmendMeta e = None ->
       EngrossedAmendment_GetDocumentNumber e = "" /\
       EngrossedAmendment_GetDocumentType e = "" /\
       EngrossedAmendment_GetCongress e = "" /\ EngrossedAmendment_GetSession e = "" /\
       EngrossedAmendment_GetTitle e = "" /\ EngrossedAmendment_GetStage e = "" /\
       EngrossedAmendment_GetChamber e = "" /\ EngrossedAmendment_IsPublic e = false /\
       EngrossedAmendment_GetCitations e = [] /\
       EngrossedAmendment_GetAmendmentDegree e = "" /\
       EngrossedAmendment_GetCreator e = "" /\ EngrossedAmendment_GetPublisher e = "" /\
       EngrossedAmendment_GetLanguage e = "" /\ EngrossedAmendment_GetRights e = "" /\
       EngrossedAmendment_GetProcessedBy e = "" /\
       EngrossedAmendment_GetProcessedDate e = "")) /\
  (forall a : Amendment,
      (Amendment_AmendPreface a = None -> Amendment_GetActions a = []) /\
      (Amendment_AmendMeta a = None ->
       Amendment_GetDocumentNumber a = "" /\ Amendment_GetDocumentType a = "" /\
       Amendment_GetCongress a = "" /\ Amendment_GetSession a = "" /\
       Amendment_GetTitle a = "" /\ Amendment_GetStage a = "" /\
       Amendment_GetChamber a = "" /\ Amendment_IsPublic a = false /\
       Amendment_GetCitations a = [] /\ Amendment_GetAmendmentDegree a = "" /\
       Amendment_GetCreator a = "" /\ Amendment_GetPublisher a = "" /\
       Amendment_GetLanguage a = "" /\ Amendment_GetRights a = "" /\
       Amendment_GetProcessedBy a = "" /\ Amendment_GetProcessedDate a = "")).
Proof.
  repeat match goal with
         | |- _ /\ _ => split
         | |- forall _, _ => intro
         end;
    match goal with
    | E : _ = None |- ?f ?x = _ => unfold f; rewrite E; reflexivity
    end.
Qed.

(** The zero bill has no block at all: every accessor named by the
    theorem returns its empty value on it. *)
Lemma accessors_empty_on_absent_block_witness :
  (Bill_GetSponsors Bill_zero = [] /\ Bill_GetCosponsors Bill_zero = [] /\
   Bill_GetCommittees Bill_zero = [] /\ Bill_GetActions Bill_zero = []) /\
  Bill_GetSections Bill_zero = [] /\
  Amendment_GetActions Amendment_zero = [].
Proof.
  split; [ | split ].
  - apply (proj1 (proj1 accessors_empty_on_absent_block Bill_zero)). reflexivity.
  - apply (proj1 (proj2 (proj1 accessors_empty_on_absent_block Bill_zero))). reflexivity.
  - apply (proj1 (proj2 (proj2 (proj2 accessors_empty_on_absent_block)) Amendment_zero)).
    reflexivity.
Defined.

(** ** Decode entry points *)

Section ParserProperties.

Variable xml_Unmarshal : forall T : Type, string -> T -> T * option error.

(** A decode result is all or nothing: a tree and no error, or an error
    and no tree. *)
Definition all_or_nothing {D : Type} (r : option D * option error) : Prop :=
  (exists d, r = (Some d, None)) \/ (exists e, r = (None, Some e)).

(** The same for an interface-typed result: the value returned beside an
    error gives access to no tree (it is the nil interface, or wraps the
    nil pointer of the variant whose decode failed). *)
Definition all_or_nothing_doc (r : LegislativeDocument * option error) : Prop :=
  (exists d, LegislativeDocument_tree (fst r) = Some d /\ snd r = None) \/
  (exists e, LegislativeDocument_tree (fst r) = None /\ snd r = Some e).

Lemma DetectDocumentType_cases (data : string) :
  DetectDocumentType data = DocumentTypeBill \/
  DetectDocumentType data = DocumentTypeResolution \/
  DetectDocumentType data = DocumentTypeEngrossedAmendment \/
  DetectDocumentType data = DocumentTypeAmendment \/
  DetectDocumentType data = DocumentTypeUnknown.
Proof.
  unfold DetectDocumentType.
  repeat match goal with
         | |- context [if ?c then _ else _] => destruct c
         end; auto 6.
Qed.

(** As far as trees go, every decode entry point is all or nothing,
    whatever the bytes and whatever the XML decoder does with them:
    [ParseBill], [ParseResolution], [ParseAmendment] and
    [ParseEngrossedAmendment] return a document and no error, or no
    document and an error; [ParseDocument] never hands out a tree beside
    an error; and [ParseDocument] returns an error exactly when the
    detected type is [DocumentTypeUnknown] or the decode of the selected
    variant fails. *)
Theorem decode_all_or_nothing (data : string) :
  all_or_nothing (ParseBill xml_Unmarshal data) /\
  all_or_nothing (ParseResolution xml_Unmarshal data) /\
  all_or_nothing (ParseAmendment xml_Unmarshal data) /\
  all_or_nothing (ParseEngrossedAmendment xml_Unmarshal data) /\
  all_or_nothing_doc (ParseDocument xml_Unmarshal data) /\
  (snd (ParseDocument xml_Unmarshal data) <> None <->
   DetectDocumentType data = DocumentTypeUnknown \/
   (DetectDocumentType data = DocumentTypeBill /\
    snd (ParseBill xml_Unmarshal data) <> None) \/
   (DetectDocumentType data = DocumentTypeResolution /\
    snd (ParseResolution xml_Unmarshal data) <> None) \/
   (DetectDocumentType data = DocumentTypeEngrossedAmendment /\
    snd (ParseEngrossedAmendment xml_Unmarshal data) <> None) \/
   (DetectDocumentType data = DocumentTypeAmendment /\
    snd (ParseAmendment xml_Unmarshal data) <> None)).
Proof.
  assert (HB : all_or_nothing (ParseBill xml_Unmarshal data)).
  { unfold all_or_nothing, ParseBill.
    destruct (xml_Unmarshal _ data Bill_zero) as [b [e | ]]; eauto. }
  assert (HR : all_or_nothing (ParseResolution xml_Unmarshal data)).
  { unfold all_or_nothing, ParseResolution.
    destruct (xml_Unmarshal _ data Resolution_zero) as [b [e | ]]; eauto. }
  assert (HA : all_or_nothing (ParseAmendment xml_Unmarshal data)).
  { unfold all_or_nothing, ParseAmendment.
    destruct (xml_Unmarshal _ data Amendment_zero) as [b [e | ]]; eauto. }
  assert (HE : all_or_nothing (ParseEngrossedAmendment xml_Unmarshal data)).
  { unfold all_or_nothing, ParseEngrossedAmendment.
    destruct (xml_Unmarshal _ data EngrossedAmendment_zero) as [b [e | ]]; eauto. }
  repeat split; trivial.
  - unfold all_or_nothing_doc, ParseDocument.
    destruct (DetectDocumentType_cases data) as [D | [D | [D | [D | D]]]];
      rewrite D; simpl.
    + destruct HB as [[d E] | [e E]]; rewrite E; simpl; eauto.
    + destruct HR as [[d E] | [e E]]; rewrite E; simpl; eauto.
    + destruct HE as [[d E] | [e E]]; rewrite E; simpl; eauto.
    + destruct HA as [[d E] | [e E]]; rewrite E; simpl; eauto.
    + right. eexists. split; reflexivity.
  - unfold ParseDocument.
    destruct (DetectDocumentType_cases data) as [D | [D | [D | [D | D]]]];
      rewrite D; simpl; intros H.
    + right; left. split; [ reflexivity | ].
      destruct (ParseBill xml_Unmarshal data); exact H.
    + right; right; left. split; [ reflexivity | ].
      destruct (ParseResolution xml_Unmarshal data); exact H.
    + right; right; right; left. split; [ reflexivity | ].
      destruct (ParseEngrossedAmendment xml_Unmarshal data); exact H.
    + right; right; right; right. split; [ reflexivity | ].
      destruct (ParseAmendment xml_Unmarshal data); exact H.
    + left; reflexivity.
  - unfold ParseDocument.
    destruct (DetectDocumentType_cases data) as [D | [D | [D | [D | D]]]];
      rewrite D; simpl;
      intros [U | [[U H] | [[U H] | [[U H] | [U H]]]]];
      try discriminate U.
    + destruct (ParseBill xml_Unmarshal data); exact H.
    + destruct (ParseResolution xml_Unmarshal data); exact H.
    + destruct (ParseEngrossedAmendment xml_Unmarshal data); exact H.
    + destruct (ParseAmendment xml_Unmarshal data); exact H.
    + discriminate.
Qed.

(** C4: [ParseDocument] on the six bytes [<bill ], which the detector
    takes for a bill and the XML decoder rejects (the input ends inside
    the start tag).  Whatever error the decoder reports, [ParseBill]
    returns the nil pointer beside the wrapped error, and [ParseDocument]
    returns, beside that same error, the nil pointer converted to the
    interface: a document value that is not the nil interface, although
    it holds no tree.  On its default path, for an input of no known
    type, [ParseDocument] returns the nil interface beside the error. *)
Theorem ParseDocument_error_beside_typed_nil (err : error) :
  snd (xml_Unmarshal Bill "<bill " Bill_zero) = Some err ->
  DetectDocumentType "<bill " = DocumentTypeBill /\
  ParseBill xml_Unmarshal "<bill "
  = (None, Some (fmt.Errorf "failed to parse bill" err)) /\
  ParseDocument xml_Unmarshal "<bill "
  = (LegislativeDocument_Bill None, Some (fmt.Errorf "failed to parse bill" err)) /\
  fst (ParseDocument xml_Unmarshal "<bill ") <> LegislativeDocument_nil /\
  LegislativeDocument_tree (fst (ParseDocument xml_Unmarshal "<bill ")) = None /\
  ParseDocument xml_Unmarshal "<report/>"
  = (LegislativeDocument_nil, Some (fmt.Errorf0 "unknown document type")).
Proof.
  intros Herr.
  assert (HB : ParseBill xml_Unmarshal "<bill "
               = (None, Some (fmt.Errorf "failed to parse bill" err))).
  { unfold ParseBill.
    destruct (xml_Unmarshal Bill "<bill " Bill_zero) as [b e].
    cbn [snd] in Herr. rewrite Herr. reflexivity. }
  assert (HD : ParseDocument xml_Unmarshal "<bill "
               = (LegislativeDocument_Bill None,
                  Some (fmt.Errorf "failed to parse bill" err))).
  { unfold ParseDocument.
    replace (DetectDocumentType "<bill ") with DocumentTypeBill by reflexivity.
    cbv beta iota. rewrite HB. reflexivity. }
  split; [ reflexivity | ].
  split; [ exact HB | ].
  split; [ exact HD | ].
  rewrite HD. cbn [fst LegislativeDocument_tree option_map].
  split; [ discriminate | ].
  split; reflexivity.
Qed.

End ParserProperties.

(** Two decoders at the extremes: one that always fails, one that always
    succeeds and stores nothing. *)
Definition failing_Unmarshal (T : Type) (data : string) (v : T) : T * option error :=
  (v, Some "XML syntax error on line 1: unexpected EOF").

Definition storing_nothing_Unmarshal (T : Type) (data : string) (v : T)
  : T * option error := (v, None).

(** With the decoder that fails as [xml.Unmarshal] does on [<bill ]:
    the document beside the error is not the nil interface. *)
Lemma ParseDocument_error_beside_typed_nil_witness :
  fst (ParseDocument failing_Unmarshal "<bill ") <> LegislativeDocument_nil.
Proof.
  exact (proj1 (proj2 (proj2 (proj2
           (ParseDocument_error_beside_typed_nil
              failing_Unmarshal "XML syntax error on line 1: unexpected EOF"
              eq_refl))))).
Defined.

Example ParseDocument_examples :
  ParseDocument failing_Unmarshal "<bill "
  = (LegislativeDocument_Bill None,
     Some "failed to parse bill: XML syntax error on line 1: unexpected EOF") /\
  ParseDocument failing_Unmarshal "<report/>"
  = (LegislativeDocument_nil, Some "unknown document type") /\
  ParseDocument storing_nothing_Unmarshal "<amendment>"
  = (LegislativeDocument_Amendment (Some Amendment_zero), None).
Proof. repeat split. Qed.

(** ** Document type detection *)

(** *** The root element of a byte input

    What the specification calls the root element's local name, read off
    the bytes by the rules of XML 1.0: white space, processing
    instructions (the XML declaration among them), comments and a document
    type declaration may precede the root start tag; the tag's name ends at
    white space, [>] or [/]; its local part follows the prefix colon. *)

Definition nl : string := String (ascii_of_nat 10) EmptyString.

(** XML white space [S]: space, tab, carriage return, line feed. *)
Definition xmlSpace (c : ascii) : bool :=
  let n := nat_of_ascii c in
  ((n =? 32) || (n =? 9) || (n =? 13) || (n =? 10))%nat.

(** The input after the first occurrence of [pat]. *)
Fixpoint after (pat s : string) : option string :=
  if strings.HasPrefix s pat
  then Some (substring (String.length pat) (String.length s - String.length pat) s)
  else match s with
       | EmptyString => None
       | String _ s' => after pat s'
       end.

Fixpoint skipProlog (fuel : nat) (s : string) : option string :=
  match fuel with
  | O => None
  | S fuel =>
      match s with
      | EmptyString => None
      | String c s' =>
          if xmlSpace c then skipProlog fuel s'
          else if strings.HasPrefix s "<?" then
                 match after "?>" s with
                 | Some r => skipProlog fuel r
                 | None => None
                 end
          else if strings.HasPrefix s "<!--" then
                 match after "-->" s with
                 | Some r => skipProlog fuel r
                 | None => None
                 end
          else if strings.HasPrefix s "<!" then
                 match after ">" s with
                 | Some r => skipProlog fuel r
                 | None => None
                 end
          else Some s
      end
  end.

Fixpoint tagName (s : string) : string :=
  match s with
  | EmptyString => EmptyString
  | String c s' =>
      if xmlSpace c || Ascii.eqb c ">" || Ascii.eqb c "/" then EmptyString
      else String c (tagName s')
  end.

Definition localPart (qname : string) : string :=
  match after ":" qname with
  | Some l => l
  | None => qname
  end.

Definition rootLocalName (data : string) : option string :=
  match skipProlog (S (String.length data)) data with
  | Some (String "<" r) => Some (localPart (tagName r))
  | _ => None
  end.

(** *** Substring search *)

Lemma HasPrefix_app (p s : string) : strings.HasPrefix (p ++ s) p = true.
Proof.
  induction p as [ | c p IH]; simpl.
  - reflexivity.
  - rewrite Ascii.eqb_refl. exact IH.
Qed.

Lemma Contains_HasPrefix (s p : string) :
  strings.HasPrefix s p = true -> strings.Contains s p = true.
Proof.
  intros H. destruct s; cbn [strings.Contains]; rewrite H; reflexivity.
Qed.

Lemma Contains_app_r (a s p : string) :
  strings.Contains s p = true -> strings.Contains (a ++ s) p = true.
Proof.
  intros H. induction a as [ | c a IH]; simpl.
  - exact H.
  - rewrite IH. apply orb_true_r.
Qed.

Lemma Contains_infix (a p b : string) : strings.Contains (a ++ p ++ b) p = true.
Proof.
  apply Contains_app_r, Contains_HasPrefix, HasPrefix_app.
Qed.

(** The first test of the detector, and the shape of the three others. *)
Definition bill_test (data : string) : bool :=
  strings.Contains data "<bill "
  || strings.HasPrefix (strings.TrimSpace data) "<?xml"
     && strings.Contains data "<bill".

Definition tag_test (name data : string) : bool :=
  strings.Contains data ("<" ++ name ++ " ")
  || strings.Contains data ("<" ++ name ++ ">").

Lemma DetectDocumentType_tests (data : string) :
  DetectDocumentType data =
  if bill_test data then DocumentTypeBill
  else if tag_test "resolution" data then DocumentTypeResolution
  else if tag_test "engrossedAmendment" data then DocumentTypeEngrossedAmendment
  else if tag_test "amendment" data then DocumentTypeAmendment
  else DocumentTypeUnknown.
Proof. reflexivity. Qed.


(** *** What the detector returns *)





(** An engrossed amendment whose root start tag breaks the line after the
    element name, and whose body holds an [amendment] element. *)
Definition engrossed_with_line_break : string :=
  "<engrossedAmendment" ++ nl
  ++ " xmlns='http://schemas.gpo.gov/xml/uslm'><amendMain><amendment>x</amendment></amendMain></engrossedAmendment>".

(** C3, as stated, fails: the root element is [engrossedAmendment], the
    result is [DocumentTypeAmendment]. *)
Lemma engrossedAmendment_root_classified_Amendment :
  rootLocalName engrossed_with_line_break = Some "engrossedAmendment" /\
  DetectDocumentType engrossed_with_line_break = DocumentTypeAmendment.
Proof.
  split; vm_compute; reflexivity.
Qed.

(** C3, amended: an input in which the tag text [<engrossedAmendment ] or
    [<engrossedAmendment>] occurs, in particular one whose root start tag
    is written so, is never classified [DocumentTypeAmendment]: the
    engrossed amendment test comes before the amendment test. *)
Theorem engrossedAmendment_tag_never_Amendment (data : string) :
  tag_test "engrossedAmendment" data = true ->
  DetectDocumentType data <> DocumentTypeAmendment.
Proof.
  intros He. rewrite DetectDocumentType_tests, He.
  destruct (bill_test data); [ discriminate | ].
  destruct (tag_test "resolution" data); discriminate.
Qed.

(** The same root, written with a space after the name, over the same
    body. *)
Lemma engrossedAmendment_tag_never_Amendment_witness :
  DetectDocumentType
    "<engrossedAmendment xmlns='http://schemas.gpo.gov/xml/uslm'><amendMain><amendment>x</amendment></amendMain></engrossedAmendment>"
  <> DocumentTypeAmendment.
Proof.
  apply engrossedAmendment_tag_never_Amendment.
  vm_compute. reflexivity.
Defined.

(** ** JSON round trip *)

(** *** Valid UTF-8 passes through the encoder unchanged *)

Lemma stringContent_valid_bounded (n : nat) :
  forall s : string,
    String.length s <= n ->
    utf8.ValidString s = true -> encoding_json.stringContent s = s.
Proof.
  induction n as [ | n IH]; intros s Hlen Hv.
  - destruct s; [ reflexivity | simpl in Hlen; lia ].
  - destruct s as [ | a s1]; [ reflexivity | ].
    simpl in Hlen. cbn [utf8.ValidString encoding_json.stringContent] in *.
    destruct (utf8.rune1 a).
    { rewrite IH; [ reflexivity | lia | exact Hv ]. }
    destruct s1 as [ | b s2]; [ discriminate | ].
    simpl in Hlen.
    destruct (utf8.rune2 a b).
    { rewrite IH; [ reflexivity | lia | exact Hv ]. }
    destruct s2 as [ | c s3]; [ discriminate | ].
    simpl in Hlen.
    destruct (utf8.rune3 a b c).
    { rewrite IH; [ reflexivity | lia | exact Hv ]. }
    destruct s3 as [ | d s4]; [ discriminate | ].
    simpl in Hlen.
    destruct (utf8.rune4 a b c d); [ | discriminate ].
    rewrite IH; [ reflexivity | lia | exact Hv ].
Qed.

Lemma stringContent_valid (s : string) :
  utf8.ValidString s = true -> encoding_json.stringContent s = s.
Proof.
  apply (stringContent_valid_bounded (String.length s)). lia.
Qed.

(** *** The encoders and the decoder, field by field *)

Fixpoint marshal_members (fs : list field) (vs : list value) {struct vs}
  : list (string * json) :=
  match vs, fs with
  | v :: vs', f :: fs' =>
      match json_tag f with
      | json_ignored => marshal_members fs' vs'
      | json_key key omitEmpty =>
          if omitEmpty && isEmptyValue v then marshal_members fs' vs'
          else (key, encoding_json.marshal (field_type f) v) :: marshal_members fs' vs'
      end
  | _, _ => []
  end.

Definition unmarshal_members (fs : list field)
  : list (string * json) -> list value -> option (list value) :=
  fix members (ms : list (string * json)) (vs : list value) {struct ms}
    : option (list value) :=
    match ms with
    | [] => Some vs
    | (key, jv) :: ms' =>
        match encoding_json.find_field fs key with
        | None => members ms' vs
        | Some (i, f) =>
            match encoding_json.unmarshal (field_type f) jv
                                          (nth i vs (zero_field (field_type f))) with
            | Some v => members ms' (encoding_json.set_nth i v vs)
            | None => None
            end
        end
    end.

Definition unmarshal_elements (e : gotype)
  : list json -> list value -> option (list value) :=
  fix elements (js : list json) (old : list value) {struct js}
    : option (list value) :=
    match js with
    | [] => Some []
    | j' :: js' =>
        match encoding_json.unmarshal e j' (hd (zero e) old), elements js' (tl old) with
        | Some v, Some vs => Some (v :: vs)
        | _, _ => None
        end
    end.

Fixpoint well_typed_fields (fs : list field) (vs : list value) {struct vs} : bool :=
  match vs, fs with
  | [], [] => true
  | v :: vs', f :: fs' => well_typed (field_type f) v && well_typed_fields fs' vs'
  | _, _ => false
  end.

Fixpoint clear_fields (fs : list field) (vs : list value) {struct vs} : list value :=
  match vs, fs with
  | v :: vs', f :: fs' =>
      match json_tag f with
      | json_ignored => zero_field (field_type f)
      | json_key _ _ => clear_ignored (field_type f) v
      end :: clear_fields fs' vs'
  | _, _ => []
  end.

Lemma marshal_struct (name : string) (vs : list value) :
  encoding_json.marshal (TStruct name) (VStruct vs)
  = JObject (marshal_members (fields_of name) vs).
Proof. reflexivity. Qed.

Lemma unmarshal_struct (name : string) (ms : list (string * json)) (cur : value) :
  encoding_json.unmarshal (TStruct name) (JObject ms) cur
  = option_map VStruct
      (unmarshal_members (fields_of name) ms (encoding_json.struct_values name cur)).
Proof. reflexivity. Qed.

Lemma unmarshal_ptr (name : string) (ms : list (string * json)) :
  encoding_json.unmarshal (TPtr name) (JObject ms) (VPtr None)
  = option_map (fun vs => VPtr (Some (VStruct vs)))
      (unmarshal_members (fields_of name) ms
         (encoding_json.struct_values name (zero_struct name))).
Proof. reflexivity. Qed.

Lemma unmarshal_slice (e : gotype) (js : list json) :
  encoding_json.unmarshal (TSlice e) (JArray js) (VSlice [])
  = option_map VSlice (unmarshal_elements e js []).
Proof. reflexivity. Qed.

Lemma well_typed_struct (name : string) (vs : list value) :
  well_typed (TStruct name) (VStruct vs) = well_typed_fields (fields_of name) vs.
Proof. reflexivity. Qed.

Lemma clear_struct (name : string) (vs : list value) :
  clear_ignored (TStruct name) (VStruct vs) = VStruct (clear_fields (fields_of name) vs).
Proof. reflexivity. Qed.

(** *** The declarations: distinct keys, no struct held by value *)

Fixpoint keys (fs : list field) : list string :=
  match fs with
  | [] => []
  | f :: fs' =>
      match encoding_json.key_of f with
      | Some key => key :: keys fs'
      | None => keys fs'
      end
  end.

Fixpoint distinct (l : list string) : bool :=
  match l with
  | [] => true
  | x :: l' => negb (existsb (String.eqb x) l') && distinct l'
  end.

Definition by_reference (f : field) : bool :=
  match field_type f with
  | TStruct _ => false
  | _ => true
  end.

Definition fields_ok (fs : list field) : bool :=
  distinct (keys fs) && forallb by_reference fs.

Lemma declarations_ok :
  forallb (fun d => fields_ok (snd d)) declarations = true.
Proof. vm_compute. reflexivity. Qed.

Lemma fields_of_ok (name : string) : fields_ok (fields_of name) = true.
Proof.
  unfold fields_of.
  pose proof declarations_ok as H.
  induction declarations as [ | [n fs] l IH]; simpl in *.
  - reflexivity.
  - apply andb_prop in H. destruct H as [H1 H2].
    destruct (String.eqb n name); [ exact H1 | exact (IH H2) ].
Qed.

(** The fields left out of JSON are the [XMLName] fields and no other. *)
Lemma ignored_fields_are_XMLName :
  forallb (fun d =>
             forallb (fun f =>
                        Bool.eqb (match json_tag f with
                                  | json_ignored => true
                                  | json_key _ _ => false
                                  end)
                                 (String.eqb (field_name f) "XMLName"))
                     (snd d))
          declarations = true.
Proof. vm_compute. reflexivity. Qed.

Lemma keys_app (fs1 fs2 : list field) : keys (fs1 ++ fs2) = keys fs1 ++ keys fs2.
Proof.
  induction fs1 as [ | f fs1 IH]; simpl.
  - reflexivity.
  - destruct (encoding_json.key_of f); simpl; rewrite IH; reflexivity.
Qed.

Lemma distinct_app_not_in (l1 l2 : list string) (k : string) :
  distinct (l1 ++ k :: l2) = true -> ~ In k l1.
Proof.
  induction l1 as [ | x l1 IH]; simpl; intros H.
  - intros [].
  - apply andb_prop in H. destruct H as [Hx Hd].
    intros [-> | Hin].
    + apply negb_true_iff in Hx.
      assert (E : existsb (String.eqb k) (l1 ++ k :: l2) = true).
      { apply existsb_exists. exists k. split.
        - apply in_or_app. right. left. reflexivity.
        - apply String.eqb_refl. }
      congruence.
    + exact (IH Hd Hin).
Qed.

Lemma find_key_here (test : string -> bool) (fs1 : list field) (f : field)
      (fs2 : list field) (k : string) :
  encoding_json.key_of f = Some k ->
  test k = true ->
  (forall k', In k' (keys fs1) -> test k' = false) ->
  forall i, encoding_json.find_key test (fs1 ++ f :: fs2) i = Some (i + length fs1, f).
Proof.
  intros Hk Ht.
  induction fs1 as [ | g fs1 IH]; intros Hno i; simpl.
  - rewrite Hk, Ht. f_equal. f_equal. lia.
  - simpl in Hno.
    destruct (encoding_json.key_of g) as [kg | ].
    + rewrite (Hno kg (or_introl eq_refl)).
      rewrite IH; [ f_equal; f_equal; lia | ].
      intros k' Hin. apply Hno. right. exact Hin.
    + rewrite IH; [ f_equal; f_equal; lia | exact Hno ].
Qed.

Lemma find_field_here (fs1 : list field) (f : field) (fs2 : list field) (k : string) :
  distinct (keys (fs1 ++ f :: fs2)) = true ->
  encoding_json.key_of f = Some k ->
  encoding_json.find_field (fs1 ++ f :: fs2) k = Some (length fs1, f).
Proof.
  intros Hd Hk. unfold encoding_json.find_field.
  rewrite (find_key_here (String.eqb k) fs1 f fs2 k Hk (String.eqb_refl k)).
  - reflexivity.
  - intros k' Hin.
    rewrite keys_app in Hd. simpl in Hd. rewrite Hk in Hd.
    apply String.eqb_neq. intros <-.
    exact (distinct_app_not_in _ _ _ Hd Hin).
Qed.

Lemma nth_middle_value (l1 : list value) (x : value) (l2 : list value) (d : value) :
  nth (length l1) (l1 ++ x :: l2) d = x.
Proof.
  induction l1 as [ | y l1 IH]; simpl; [ reflexivity | exact IH ].
Qed.

Lemma set_nth_middle (l1 : list value) (x y : value) (l2 : list value) :
  encoding_json.set_nth (length l1) y (l1 ++ x :: l2) = l1 ++ y :: l2.
Proof.
  induction l1 as [ | z l1 IH]; simpl; [ reflexivity | rewrite IH; reflexivity ].
Qed.

(** An empty value is the zero value of its type, and JSON carries all of
    it. *)
Lemma empty_value_is_zero (t : gotype) (v : value) :
  well_typed t v = true -> isEmptyValue v = true ->
  clear_ignored t v = zero_field t.
Proof.
  intros Hwt He.
  destruct v as [s | n | vs | [v' | ] | [ | x l]]; try discriminate He;
    destruct t; try discriminate Hwt; simpl in *.
  - apply String.eqb_eq in He. subst s. reflexivity.
  - reflexivity.
  - reflexivity.
Qed.

Lemma zero_by_reference (f : field) :
  by_reference f = true -> zero (field_type f) = zero_field (field_type f).
Proof.
  unfold by_reference. destruct (field_type f); intros H; try reflexivity; discriminate.
Qed.

(** What the round trip does to one value, as a property of that value. *)
Definition round_trips (v : value) : Prop :=
  forall t : gotype,
    well_typed t v = true -> valid_strings v = true ->
    encoding_json.unmarshal t (encoding_json.marshal t v) (zero t)
    = Some (clear_ignored t v).

Definition zero_of (f : field) : value := zero_field (field_type f).

Lemma members_round_trip (fs : list field) :
  fields_ok fs = true ->
  forall (vs2 : list value) (fs2 fs1 : list field) (done : list value),
    fs = fs1 ++ fs2 ->
    length done = length fs1 ->
    Forall round_trips vs2 ->
    well_typed_fields fs2 vs2 = true ->
    forallb valid_strings vs2 = true ->
    unmarshal_members fs (marshal_members fs2 vs2) (done ++ map zero_of fs2)
    = Some (done ++ clear_fields fs2 vs2).
Proof.
  intros Hok. apply andb_prop in Hok. destruct Hok as [Hdist Href].
  induction vs2 as [ | v vs2 IH]; intros fs2 fs1 done Hfs Hlen Hrt Hwt Hval.
  - destruct fs2; [ | discriminate Hwt ]. reflexivity.
  - destruct fs2 as [ | f fs2]; [ discriminate Hwt | ].
    simpl in Hwt. apply andb_prop in Hwt. destruct Hwt as [Hwv Hwt].
    simpl in Hval. apply andb_prop in Hval. destruct Hval as [Hvv Hval].
    inversion Hrt as [ | ? ? Hv Hrt']; subst.
    assert (Hnext : forall c : value,
               unmarshal_members (fs1 ++ f :: fs2) (marshal_members fs2 vs2)
                                 (done ++ c :: map zero_of fs2)
               = Some (done ++ c :: clear_fields fs2 vs2)).
    { intros c.
      specialize (IH fs2 (fs1 ++ [f]) (done ++ [c])).
      rewrite <- !app_assoc in IH. simpl in IH.
      apply IH; trivial.
      rewrite !length_app. simpl. lia. }
    assert (Hf : by_reference f = true).
    { rewrite forallb_forall in Href. apply Href.
      apply in_or_app. right. left. reflexivity. }
    simpl. unfold zero_of at 1.
    destruct (json_tag f) as [ | key omitEmpty] eqn:Htag.
    + apply Hnext.
    + destruct (omitEmpty && isEmptyValue v) eqn:Hempty.
      * apply andb_prop in Hempty. destruct Hempty as [_ Hempty].
        rewrite (empty_value_is_zero _ _ Hwv Hempty). apply Hnext.
      * cbn [unmarshal_members].
        assert (Hkey : encoding_json.key_of f = Some key).
        { unfold encoding_json.key_of. rewrite Htag. reflexivity. }
        rewrite (find_field_here fs1 f fs2 key Hdist Hkey).
        rewrite <- Hlen, nth_middle_value.
        rewrite <- (zero_by_reference f Hf).
        rewrite (Hv (field_type f) Hwv Hvv).
        rewrite (zero_by_reference f Hf), set_nth_middle.
        apply Hnext.
Qed.

Lemma list_all_Forall (P : value -> Prop) (l : list value) :
  list_all value P l -> Forall P l.
Proof.
  induction 1; constructor; assumption.
Qed.

Lemma unmarshal_elements_cons (e : gotype) (j : json) (js : list json)
      (old : list value) :
  unmarshal_elements e (j :: js) old
  = match encoding_json.unmarshal e j (hd (zero e) old),
          unmarshal_elements e js (tl old) with
    | Some v, Some vs => Some (v :: vs)
    | _, _ => None
    end.
Proof. reflexivity. Qed.

Lemma elements_round_trip (e : gotype) (l : list value) :
  Forall round_trips l ->
  forallb (well_typed e) l = true ->
  forallb valid_strings l = true ->
  unmarshal_elements e (map (encoding_json.marshal e) l) []
  = Some (map (clear_ignored e) l).
Proof.
  induction l as [ | v l IH]; intros Hrt Hwt Hval.
  - reflexivity.
  - simpl in Hwt, Hval.
    apply andb_prop in Hwt. destruct Hwt as [Hwv Hwt].
    apply andb_prop in Hval. destruct Hval as [Hvv Hval].
    inversion Hrt as [ | ? ? Hv Hrt']; subst.
    cbn [map]. rewrite unmarshal_elements_cons.
    change (hd (zero e) []) with (zero e).
    change (@tl value []) with (@nil value).
    rewrite (Hv e Hwv Hvv), (IH Hrt' Hwt Hval). reflexivity.
Qed.

Lemma struct_round_trip (name : string) (vs : list value) :
  Forall round_trips vs ->
  well_typed_fields (fields_of name) vs = true ->
  forallb valid_strings vs = true ->
  unmarshal_members (fields_of name) (marshal_members (fields_of name) vs)
                    (map zero_of (fields_of name))
  = Some (clear_fields (fields_of name) vs).
Proof.
  intros Hrt Hwt Hval.
  exact (members_round_trip (fields_of name) (fields_of_ok name) vs
           (fields_of name) [] [] eq_refl eq_refl Hrt Hwt Hval).
Qed.

Lemma every_value_round_trips (v : value) : round_trips v.
Proof.
  induction v as [s | n | vs IH | p IH | l IH] using value_ind; intros t Hwt Hval.
  - destruct t; try discriminate Hwt. simpl in *.
    rewrite (stringContent_valid s Hval). reflexivity.
  - destruct t; try discriminate Hwt. simpl in *.
    apply andb_prop in Hval. destruct Hval as [H1 H2].
    rewrite (stringContent_valid _ H1), (stringContent_valid _ H2).
    destruct n. reflexivity.
  - destruct t as [ | | name | | ]; try discriminate Hwt.
    rewrite well_typed_struct in Hwt.
    rewrite marshal_struct, unmarshal_struct, clear_struct.
    simpl in Hval.
    change (encoding_json.struct_values name (zero (TStruct name)))
      with (map zero_of (fields_of name)).
    rewrite (struct_round_trip name vs (list_all_Forall _ _ IH) Hwt Hval).
    reflexivity.
  - destruct IH as [v' Hv' | ].
    + destruct t as [ | | | name | ]; try discriminate Hwt.
      destruct v' as [ | | vs | | ]; try discriminate Hwt.
      cbn [well_typed] in Hwt. cbn [valid_strings] in Hval.
      pose proof (Hv' (TStruct name) Hwt Hval) as H.
      rewrite marshal_struct, unmarshal_struct, clear_struct in H.
      change (encoding_json.marshal (TPtr name) (VPtr (Some (VStruct vs))))
        with (encoding_json.marshal (TStruct name) (VStruct vs)).
      rewrite marshal_struct.
      change (zero (TPtr name)) with (VPtr None).
      rewrite unmarshal_ptr.
      change (encoding_json.struct_values name (zero_struct name))
        with (encoding_json.struct_values name (zero (TStruct name))).
      destruct (unmarshal_members (fields_of name)
                  (marshal_members (fields_of name) vs)
                  (encoding_json.struct_values name (zero (TStruct name))))
        as [r | ]; [ | discriminate H ].
      simpl in H. injection H as H. subst r.
      reflexivity.
    + destruct t; try discriminate Hwt. reflexivity.
  - destruct t as [ | | | | e]; try discriminate Hwt.
    destruct l as [ | v l]; [ reflexivity | ].
    cbn [well_typed] in Hwt. cbn [valid_strings] in Hval.
    change (encoding_json.marshal (TSlice e) (VSlice (v :: l)))
      with (JArray (map (encoding_json.marshal e) (v :: l))).
    change (zero (TSlice e)) with (VSlice []).
    rewrite unmarshal_slice.
    rewrite (elements_round_trip e (v :: l) (list_all_Forall _ _ IH) Hwt Hval).
    reflexivity.
Qed.

(** *** Documents are well-typed values *)

Lemma well_typed_option (name : string) (A : Type) (f : A -> value) (o : option A) :
  (forall x, o = Some x -> well_typed (TStruct name) (f x) = true) ->
  well_typed (TPtr name) (VPtr (option_map f o)) = true.
Proof.
  destruct o as [x | ]; intros H; [ | reflexivity ].
  specialize (H x eq_refl). simpl.
  destruct (f x) as [s | n | vs | [v' | ] | l]; try discriminate H. exact H.
Qed.

Lemma well_typed_list (e : gotype) (A : Type) (f : A -> value) (l : list A) :
  (forall x, In x l -> well_typed e (f x) = true) ->
  well_typed (TSlice e) (VSlice (map f l)) = true.
Proof.
  intros H. simpl. apply forallb_forall. intros v Hv.
  apply in_map_iff in Hv. destruct Hv as [x [<- Hx]]. exact (H x Hx).
Qed.

Lemma option_all_Some (A : Type) (P : A -> Prop) (o : option A) :
  option_all A P o -> forall x, o = Some x -> P x.
Proof.
  intros H x E. destruct H; [ injection E as <-; assumption | discriminate ].
Qed.

Lemma list_all_In (A : Type) (P : A -> Prop) (l : list A) :
  list_all A P l -> forall x, In x l -> P x.
Proof.
  induction 1 as [ | a Ha l Hl IH]; intros x Hx; [ destruct Hx | ].
  destruct Hx as [<- | Hx]; [ exact Ha | exact (IH x Hx) ].
Qed.

Create HintDb reflected.

(** One struct: unfold its reflection, look up its declaration, and check
    the fields one by one, nested blocks by the lemmas already proved or by
    the induction hypotheses. *)
Ltac reflected_well_typed :=
  repeat match goal with
         | H : list_all _ _ _ |- _ =>
             let H' := fresh "IH" in
             pose proof (list_all_In _ _ _ H) as H'; cbv beta in H'; clear H
         | H : option_all _ _ _ |- _ =>
             let H' := fresh "IH" in
             pose proof (option_all_Some _ _ _ H) as H'; cbv beta in H'; clear H
         end;
  match goal with
  | |- well_typed _ (?f _) = true => first [ progress cbn [f] | unfold f ]
  end;
  rewrite well_typed_struct;
  match goal with
  | |- well_typed_fields (fields_of ?n) _ = true =>
      let fs := eval vm_compute in (fields_of n) in
      change (fields_of n) with fs
  end;
  cbn [well_typed_fields field_type];
  repeat (apply andb_true_intro; split);
  first [ reflexivity
        | apply well_typed_option; intros; eauto with reflected
        | apply well_typed_list; intros; first [ reflexivity | eauto with reflected ] ].

Lemma well_typed_Inline (x : Inline) :
  well_typed (TStruct "Inline") (reflect_Inline x) = true.
Proof. destruct x; reflected_well_typed. Qed.
#[local] Hint Resolve well_typed_Inline : reflected.

Lemma well_typed_Italic (x : Italic) :
  well_typed (TStruct "Italic") (reflect_Italic x) = true.
Proof. destruct x; reflected_well_typed. Qed.
#[local] Hint Resolve well_typed_Italic : reflected.

Lemma well_typed_Bold (x : Bold) :
  well_typed (TStruct "Bold") (reflect_Bold x) = true.
Proof. destruct x; reflected_well_typed. Qed.
#[local] Hint Resolve well_typed_Bold : reflected.

Lemma well_typed_Sup (x : Sup) :
  well_typed (TStruct "Sup") (reflect_Sup x) = true.
Proof. destruct x; reflected_well_typed. Qed.
#[local] Hint Resolve well_typed_Sup : reflected.

Lemma well_typed_Sub (x : Sub) :
  well_typed (TStruct "Sub") (reflect_Sub x) = true.
Proof. destruct x; reflected_well_typed. Qed.
#[local] Hint Resolve well_typed_Sub : reflected.

Lemma well_typed_Term (x : Term) :
  well_typed (TStruct "Term") (reflect_Term x) = true.
Proof. destruct x; reflected_well_typed. Qed.
#[local] Hint Resolve well_typed_Term : reflected.

Lemma well_typed_Ref (x : Ref) :
  well_typed (TStruct "Ref") (reflect_Ref x) = true.
Proof. induction x; reflected_well_typed. Qed.
#[local] Hint Resolve well_typed_Ref : reflected.

Lemma well_typed_P (x : P) :
  well_typed (TStruct "P") (reflect_P x) = true.
Proof. destruct x; reflected_well_typed. Qed.
#[local] Hint Resolve well_typed_P : reflected.

Lemma well_typed_MixedContent (x : MixedContent) :
  well_typed (TStruct "MixedContent") (reflect_MixedContent x) = true.
Proof. destruct x; reflected_well_typed. Qed.
#[local] Hint Resolve well_typed_MixedContent : reflected.

Lemma well_typed_ShortTitle (x : ShortTitle) :
  well_typed (TStruct "ShortTitle") (reflect_ShortTitle x) = true.
Proof. destruct x; reflected_well_typed. Qed.
#[local] Hint Resolve well_typed_ShortTitle : reflected.

Lemma well_typed_QuotedText (x : QuotedText) :
  well_typed (TStruct "QuotedText") (reflect_QuotedText x) = true.
Proof. destruct x; reflected_well_typed. Qed.
#[local] Hint Resolve well_typed_QuotedText : reflected.

Lemma well_typed_AmendingAction (x : AmendingAction) :
  well_typed (TStruct "AmendingAction") (reflect_AmendingAction x) = true.
Proof. destruct x; reflected_well_typed. Qed.
#[local] Hint Resolve well_typed_AmendingAction : reflected.

Lemma well_typed_Num (x : Num) :
  well_typed (TStruct "Num") (reflect_Num x) = true.
Proof. destruct x; reflected_well_typed. Qed.
#[local] Hint Resolve well_typed_Num : reflected.

Lemma well_typed_Heading (x : Heading) :
  well_typed (TStruct "Heading") (reflect_Heading x) = true.
Proof. destruct x; reflected_well_typed. Qed.
#[local] Hint Resolve well_typed_Heading : reflected.

Lemma well_typed_Chapeau (x : Chapeau) :
  well_typed (TStruct "Chapeau") (reflect_Chapeau x) = true.
Proof. destruct x; reflected_well_typed. Qed.
#[local] Hint Resolve well_typed_Chapeau : reflected.

Scheme Content_mutind := Induction for Content Sort Prop
  with QuotedContent_mutind := Induction for QuotedContent Sort Prop
  with AmendmentContent_mutind := Induction for AmendmentContent Sort Prop
  with Section_mutind := Induction for Section Sort Prop
  with Subsection_mutind := Induction for Subsection Sort Prop
  with Paragraph_mutind := Induction for Paragraph Sort Prop
  with Subparagraph_mutind := Induction for Subparagraph Sort Prop
  with Clause_mutind := Induction for Clause Sort Prop
  with Subclause_mutind := Induction for Subclause Sort Prop.

Combined Scheme hierarchy_mutind from Content_mutind, QuotedContent_mutind, AmendmentContent_mutind, Section_mutind, Subsection_mutind, Paragraph_mutind, Subparagraph_mutind, Clause_mutind, Subclause_mutind.

Lemma well_typed_hierarchy :
  (forall x : Content, well_typed (TStruct "Content") (reflect_Content x) = true) /\
  (forall x : QuotedContent, well_typed (TStruct "QuotedContent") (reflect_QuotedContent x) = true) /\
  (forall x : AmendmentContent, well_typed (TStruct "AmendmentContent") (reflect_AmendmentContent x) = true) /\
  (forall x : Section, well_typed (TStruct "Section") (reflect_Section x) = true) /\
  (forall x : Subsection, well_typed (TStruct "Subsection") (reflect_Subsection x) = true) /\
  (forall x : Paragraph, well_typed (TStruct "Paragraph") (reflect_Paragraph x) = true) /\
  (forall x : Subparagraph, well_typed (TStruct "Subparagraph") (reflect_Subparagraph x) = true) /\
  (forall x : Clause, well_typed (TStruct "Clause") (reflect_Clause x) = true) /\
  (forall x : Subclause, well_typed (TStruct "Subclause") (reflect_Subclause x) = true).
Proof.
  apply hierarchy_mutind; intros; reflected_well_typed.
Qed.

Lemma well_typed_Content (x : Content) :
  well_typed (TStruct "Content") (reflect_Content x) = true.
Proof. apply well_typed_hierarchy. Qed.
#[local] Hint Resolve well_typed_Content : reflected.

Lemma well_typed_QuotedContent (x : QuotedContent) :
  well_typed (TStruct "QuotedContent") (reflect_QuotedContent x) = true.
Proof. apply well_typed_hierarchy. Qed.
#[local] Hint Resolve well_typed_QuotedContent : reflected.

Lemma well_typed_AmendmentContent (x : AmendmentContent) :
  well_typed (TStruct "AmendmentContent") (reflect_AmendmentContent x) = true.
Proof. apply well_typed_hierarchy. Qed.
#[local] Hint Resolve well_typed_AmendmentContent : reflected.

Lemma well_typed_Section (x : Section) :
  well_typed (TStruct "Section") (reflect_Section x) = true.
Proof. apply well_typed_hierarchy. Qed.
#[local] Hint Resolve well_typed_Section : reflected.

Lemma well_typed_Subsection (x : Subsection) :
  well_typed (TStruct "Subsection") (reflect_Subsection x) = true.
Proof. apply well_typed_hierarchy. Qed.
#[local] Hint Resolve well_typed_Subsection : reflected.

Lemma well_typed_Paragraph (x : Paragraph) :
  well_typed (TStruct "Paragraph") (reflect_Paragraph x) = true.
Proof. apply well_typed_hierarchy. Qed.
#[local] Hint Resolve well_typed_Paragraph : reflected.

Lemma well_typed_Subparagraph (x : Subparagraph) :
  well_typed (TStruct "Subparagraph") (reflect_Subparagraph x) = true.
Proof. apply well_typed_hierarchy. Qed.
#[local] Hint Resolve well_typed_Subparagraph : reflected.

Lemma well_typed_Clause (x : Clause) :
  well_typed (TStruct "Clause") (reflect_Clause x) = true.
Proof. apply well_typed_hierarchy. Qed.
#[local] Hint Resolve well_typed_Clause : reflected.

Lemma well_typed_Subclause (x : Subclause) :
  well_typed (TStruct "Subclause") (reflect_Subclause x) = true.
Proof. apply well_typed_hierarchy. Qed.
#[local] Hint Resolve well_typed_Subclause : reflected.

Lemma well_typed_DistributionCode (x : DistributionCode) :
  well_typed (TStruct "DistributionCode") (reflect_DistributionCode x) = true.
Proof. destruct x; reflected_well_typed. Qed.
#[local] Hint Resolve well_typed_DistributionCode : reflected.

Lemma well_typed_CongressElement (x : CongressElement) :
  well_typed (TStruct "CongressElement") (reflect_CongressElement x) = true.
Proof. destruct x; reflected_well_typed. Qed.
#[local] Hint Resolve well_typed_CongressElement : reflected.

Lemma well_typed_SessionElement (x : SessionElement) :
  well_typed (TStruct "SessionElement") (reflect_SessionElement x) = true.
Proof. destruct x; reflected_well_typed. Qed.
#[local] Hint Resolve well_typed_SessionElement : reflected.

Lemma well_typed_CurrentChamber (x : CurrentChamber) :
  well_typed (TStruct "CurrentChamber") (reflect_CurrentChamber x) = true.
Proof. destruct x; reflected_well_typed. Qed.
#[local] Hint Resolve well_typed_CurrentChamber : reflected.

Lemma well_typed_ActionDate (x : ActionDate) :
  well_typed (TStruct "ActionDate") (reflect_ActionDate x) = true.
Proof. destruct x; reflected_well_typed. Qed.
#[local] Hint Resolve well_typed_ActionDate : reflected.

Lemma well_typed_Sponsor (x : Sponsor) :
  well_typed (TStruct "Sponsor") (reflect_Sponsor x) = true.
Proof. destruct x; reflected_well_typed. Qed.
#[local] Hint Resolve well_typed_Sponsor : reflected.

Lemma well_typed_Cosponsor (x : Cosponsor) :
  well_typed (TStruct "Cosponsor") (reflect_Cosponsor x) = true.
Proof. destruct x; reflected_well_typed. Qed.
#[local] Hint Resolve well_typed_Cosponsor : reflected.

Lemma well_typed_Committee (x : Committee) :
  well_typed (TStruct "Committee") (reflect_Committee x) = true.
Proof. destruct x; reflected_well_typed. Qed.
#[local] Hint Resolve well_typed_Committee : reflected.

Lemma well_typed_ActionDescription (x : ActionDescription) :
  well_typed (TStruct "ActionDescription") (reflect_ActionDescription x) = true.
Proof. destruct x; reflected_well_typed. Qed.
#[local] Hint Resolve well_typed_ActionDescription : reflected.

Lemma well_typed_Action (x : Action) :
  well_typed (TStruct "Action") (reflect_Action x) = true.
Proof. destruct x; reflected_well_typed. Qed.
#[local] Hint Resolve well_typed_Action : reflected.

Lemma well_typed_Preface (x : Preface) :
  well_typed (TStruct "Preface") (reflect_Preface x) = true.
Proof. destruct x; reflected_well_typed. Qed.
#[local] Hint Resolve well_typed_Preface : reflected.

Lemma well_typed_AmendPreface (x : AmendPreface) :
  well_typed (TStruct "AmendPreface") (reflect_AmendPreface x) = true.
Proof. destruct x; reflected_well_typed. Qed.
#[local] Hint Resolve well_typed_AmendPreface : reflected.

Lemma well_typed_LongTitle (x : LongTitle) :
  well_typed (TStruct "LongTitle") (reflect_LongTitle x) = true.
Proof. destruct x; reflected_well_typed. Qed.
#[local] Hint Resolve well_typed_LongTitle : reflected.

Lemma well_typed_EnactingFormula (x : EnactingFormula) :
  well_typed (TStruct "EnactingFormula") (reflect_EnactingFormula x) = true.
Proof. destruct x; reflected_well_typed. Qed.
#[local] Hint Resolve well_typed_EnactingFormula : reflected.

Lemma well_typed_ReferenceItem (x : ReferenceItem) :
  well_typed (TStruct "ReferenceItem") (reflect_ReferenceItem x) = true.
Proof. destruct x; reflected_well_typed. Qed.
#[local] Hint Resolve well_typed_ReferenceItem : reflected.

Lemma well_typed_TOC (x : TOC) :
  well_typed (TStruct "TOC") (reflect_TOC x) = true.
Proof. destruct x; reflected_well_typed. Qed.
#[local] Hint Resolve well_typed_TOC : reflected.

Lemma well_typed_Recital (x : Recital) :
  well_typed (TStruct "Recital") (reflect_Recital x) = true.
Proof. destruct x; reflected_well_typed. Qed.
#[local] Hint Resolve well_typed_Recital : reflected.

Lemma well_typed_ResolvingClause (x : ResolvingClause) :
  well_typed (TStruct "ResolvingClause") (reflect_ResolvingClause x) = true.
Proof. destruct x; reflected_well_typed. Qed.
#[local] Hint Resolve well_typed_ResolvingClause : reflected.

Lemma well_typed_Preamble (x : Preamble) :
  well_typed (TStruct "Preamble") (reflect_Preamble x) = true.
Proof. destruct x; reflected_well_typed. Qed.
#[local] Hint Resolve well_typed_Preamble : reflected.

Lemma well_typed_Title (x : Title) :
  well_typed (TStruct "Title") (reflect_Title x) = true.
Proof. destruct x; reflected_well_typed. Qed.
#[local] Hint Resolve well_typed_Title : reflected.

Lemma well_typed_Main (x : Main) :
  well_typed (TStruct "Main") (reflect_Main x) = true.
Proof. destruct x; reflected_well_typed. Qed.
#[local] Hint Resolve well_typed_Main : reflected.

Lemma well_typed_AmendmentInstruction (x : AmendmentInstruction) :
  well_typed (TStruct "AmendmentInstruction") (reflect_AmendmentInstruction x) = true.
Proof. destruct x; reflected_well_typed. Qed.
#[local] Hint Resolve well_typed_AmendmentInstruction : reflected.

Lemma well_typed_Notation (x : Notation) :
  well_typed (TStruct "Notation") (reflect_Notation x) = true.
Proof. destruct x; reflected_well_typed. Qed.
#[local] Hint Resolve well_typed_Notation : reflected.

Lemma well_typed_Signature (x : Signature) :
  well_typed (TStruct "Signature") (reflect_Signature x) = true.
Proof. destruct x; reflected_well_typed. Qed.
#[local] Hint Resolve well_typed_Signature : reflected.

Lemma well_typed_Signatures (x : Signatures) :
  well_typed (TStruct "Signatures") (reflect_Signatures x) = true.
Proof. destruct x; reflected_well_typed. Qed.
#[local] Hint Resolve well_typed_Signatures : reflected.

Lemma well_typed_Endorsement (x : Endorsement) :
  well_typed (TStruct "Endorsement") (reflect_Endorsement x) = true.
Proof. destruct x; reflected_well_typed. Qed.
#[local] Hint Resolve well_typed_Endorsement : reflected.

Lemma well_typed_AmendMain (x : AmendMain) :
  well_typed (TStruct "AmendMain") (reflect_AmendMain x) = true.
Proof. destruct x; reflected_well_typed. Qed.
#[local] Hint Resolve well_typed_AmendMain : reflected.

Lemma well_typed_RelatedDocument (x : RelatedDocument) :
  well_typed (TStruct "RelatedDocument") (reflect_RelatedDocument x) = true.
Proof. destruct x; reflected_well_typed. Qed.
#[local] Hint Resolve well_typed_RelatedDocument : reflected.

Lemma well_typed_Meta (x : Meta) :
  well_typed (TStruct "Meta") (reflect_Meta x) = true.
Proof. destruct x; reflected_well_typed. Qed.
#[local] Hint Resolve well_typed_Meta : reflected.

Lemma well_typed_AmendMeta (x : AmendMeta) :
  well_typed (TStruct "AmendMeta") (reflect_AmendMeta x) = true.
Proof. destruct x; reflected_well_typed. Qed.
#[local] Hint Resolve well_typed_AmendMeta : reflected.

Lemma well_typed_Bill (x : Bill) :
  well_typed (TStruct "Bill") (reflect_Bill x) = true.
Proof. destruct x; reflected_well_typed. Qed.
#[local] Hint Resolve well_typed_Bill : reflected.

Lemma well_typed_Resolution (x : Resolution) :
  well_typed (TStruct "Resolution") (reflect_Resolution x) = true.
Proof. destruct x; reflected_well_typed. Qed.
#[local] Hint Resolve well_typed_Resolution : reflected.

Lemma well_typed_EngrossedAmendment (x : EngrossedAmendment) :
  well_typed (TStruct "EngrossedAmendment") (reflect_EngrossedAmendment x) = true.
Proof. destruct x; reflected_well_typed. Qed.
#[local] Hint Resolve well_typed_EngrossedAmendment : reflected.

Lemma well_typed_Amendment (x : Amendment) :
  well_typed (TStruct "Amendment") (reflect_Amendment x) = true.
Proof. destruct x; reflected_well_typed. Qed.
#[local] Hint Resolve well_typed_Amendment : reflected.

(** *** The four documents *)

(** A Senate bill as the XML decoder leaves it: every node carries the
    name of its element in [XMLName]. *)
Definition uslm_name (local : string) : xml.Name :=
  xml.mkName "http://schemas.gpo.gov/xml/uslm" local.

Definition sample_meta : Meta :=
  mkMeta (uslm_name "meta")
         "114 S 32 CDS: Transnational Drug Trafficking Act of 2015"
         "Senate Bill" "United States Senate" "" "text/xml" "EN" ""
         "32" ["114 S 32 CDS"; "114s32cds"; "S 32 CDS"]
         "Committee Discharged Senate" "SENATE"
         "114" "1" "public" "" "" [] "".

Definition sample_section : Section :=
  mkSection (uslm_name "section") "id1" "/us/bill/114/s/32/s1" "" ""
            (Some (mkNum (uslm_name "num") "1" "SECTION 1."))
            (Some (mkHeading (uslm_name "heading") "" "Short title" []))
            None
            (Some (mkContent (uslm_name "content") "" "This Act may be cited as the "
                             [] [] [] [] [] [] [] []))
            [] [].

Definition sample_bill : Bill :=
  mkBill (uslm_name "bill")
         "http://schemas.gpo.gov/xml/uslm" "http://purl.org/dc/elements/1.1/" "" "" ""
         "" "en"
         (Some sample_meta)
         None
         (Some (mkMain (uslm_name "main") "" None None None None [sample_section] [] ""))
         "".




(** What is cleared and what is kept, spelled out at the root of a bill:
    the name is reset, the seven name space strings and the end marker are
    as they were, and the three blocks are cleared in turn. *)
Lemma clear_ignored_Bill (b : Bill) :
  clear_ignored (TStruct "Bill") (reflect_Bill b)
  = VStruct
      [VName (xml.mkName "" "");
       VString (Bill_XMLNS b);
       VString (Bill_XMLNSDC b);
       VString (Bill_XMLNSHTML b);
       VString (Bill_XMLNSUSLM b);
       VString (Bill_XMLNSXSI b);
       VString (Bill_XSISchemaLocation b);
       VString (Bill_XMLLang b);
       VPtr (option_map (fun m => clear_ignored (TStruct "Meta") (reflect_Meta m))
                        (Bill_Meta b));
       VPtr (option_map (fun p => clear_ignored (TStruct "Preface") (reflect_Preface p))
                        (Bill_Preface b));
       VPtr (option_map (fun m => clear_ignored (TStruct "Main") (reflect_Main m))
                        (Bill_Main b));
       VString (Bill_EndMarker b)].
Proof.
  destruct b as [n s1 s2 s3 s4 s5 s6 s7 [m | ] [p | ] [mn | ] em]; reflexivity.
Qed.

(** The JSON of a bill without blocks: no member for [XMLName]; [meta],
    which is not [omitempty], is [null]; the empty strings are left out. *)
Example sample_bill_json :
  ToJSON "Bill" (reflect_Bill (mkBill (uslm_name "bill") "http://schemas.gpo.gov/xml/uslm"
                                      "" "" "" "" "" "" None None None ""))
  = JObject [("xmlns", JString "http://schemas.gpo.gov/xml/uslm"); ("meta", JNull)].
Proof. vm_compute. reflexivity. Qed.

(** ** XML encoding *)

(** *** Indentation

    The layout of an element, by its nesting depth alone: the start tag;
    then the children, each child element on a line of its own after
    [depth + 1] indents, text where it stands; then the end tag, on a line
    of its own after [depth] indents when a child element precedes it, and
    right behind the start tag or the text otherwise. *)

Definition is_element (n : xmlnode) : bool :=
  match n with
  | Element _ _ _ => true
  | CharData _ => false
  end.

Section Layout.

Variables prefix indent : string.

(** The printer indents only when a prefix or an indent is set. *)
Hypothesis indenting : String.eqb prefix "" && String.eqb indent "" = false.

Definition margin (d : nat) : string :=
  (printer.newline ++ prefix ++ printer.repeat_string indent d)%string.

Fixpoint layout (d : nat) (ns : printer.names) (n : xmlnode) {struct n}
  : string * printer.names :=
  match n with
  | CharData s => (printer.escapeText s, ns)
  | Element name attrs children =>
      let '(open, ns1) := printer.startTag ns name attrs in
      let '(body, ns2) :=
        (fix each (cs : list xmlnode) (ns : printer.names) {struct cs}
           : string * printer.names :=
           match cs with
           | [] => (EmptyString, ns)
           | c :: cs' =>
               let '(x, ns') := layout (S d) ns c in
               let '(xs, ns'') := each cs' ns' in
               (((if is_element c then margin (S d) else EmptyString) ++ x ++ xs)%string,
                ns'')
           end) children ns1 in
      ((open ++ body
        ++ (if existsb is_element children then margin d else EmptyString)
        ++ printer.endTag name)%string,
       printer.popPrefix ns2)
  end.

Fixpoint layout_children (d : nat) (cs : list xmlnode) (ns : printer.names)
         {struct cs} : string * printer.names :=
  match cs with
  | [] => (EmptyString, ns)
  | c :: cs' =>
      let '(x, ns') := layout d ns c in
      let '(xs, ns'') := layout_children d cs' ns' in
      (((if is_element c then margin d else EmptyString) ++ x ++ xs)%string, ns'')
  end.

Lemma layout_Element (d : nat) (ns : printer.names) (name : xml.Name)
      (attrs : list (xml.Name * string)) (children : list xmlnode) :
  layout d ns (Element name attrs children)
  = let '(open, ns1) := printer.startTag ns name attrs in
    let '(body, ns2) := layout_children (S d) children ns1 in
    ((open ++ body
      ++ (if existsb is_element children then margin d else EmptyString)
      ++ printer.endTag name)%string,
     printer.popPrefix ns2).
Proof.
  cbn [layout]. destruct (printer.startTag ns name attrs) as [open ns1].
  assert (E : forall cs ns0,
             (fix each (cs : list xmlnode) (ns : printer.names) {struct cs}
                : string * printer.names :=
                match cs with
                | [] => (EmptyString, ns)
                | c :: cs' =>
                    let '(x, ns') := layout (S d) ns c in
                    let '(xs, ns'') := each cs' ns' in
                    (((if is_element c then margin (S d) else EmptyString)
                      ++ x ++ xs)%string, ns'')
                end) cs ns0 = layout_children (S d) cs ns0).
  { induction cs as [ | c cs IH]; intros ns0; cbn [layout_children].
    - reflexivity.
    - destruct (layout (S d) ns0 c) as [x ns']. rewrite IH. reflexivity. }
  rewrite E. reflexivity.
Qed.

(** The state of a printer working with this prefix and indent. *)
Definition at_depth (buf : string) (d : nat) (indentedIn : bool) (ns : printer.names)
  : printer.t :=
  printer.mk buf prefix indent d indentedIn true ns.

Lemma append_assoc (a b c : string) : ((a ++ b) ++ c = a ++ b ++ c)%string.
Proof.
  induction a as [ | x a IH]; simpl; [ reflexivity | rewrite IH; reflexivity ].
Qed.

Lemma append_empty_r (a : string) : (a ++ "" = a)%string.
Proof.
  induction a as [ | x a IH]; simpl; [ reflexivity | rewrite IH; reflexivity ].
Qed.

(** What printing one node, and a list of nodes, does to a printer that
    has already written something: the buffer grows by the layout, an
    element leaves [indentedIn] false, text leaves it alone. *)
Definition prints_as_layout (n : xmlnode) : Prop :=
  forall (buf : string) (d : nat) (i : bool) (ns : printer.names),
    printer.print (at_depth buf d i ns) n
    = at_depth (buf ++ (if is_element n then margin d else EmptyString)
                    ++ fst (layout d ns n))
               d (i && negb (is_element n)) (snd (layout d ns n)).

Lemma children_print_as_layout (cs : list xmlnode) :
  Forall prints_as_layout cs ->
  forall (buf : string) (d : nat) (i : bool) (ns : printer.names),
    fold_left printer.print cs (at_depth buf d i ns)
    = at_depth (buf ++ fst (layout_children d cs ns))
               d (i && negb (existsb is_element cs))
               (snd (layout_children d cs ns)).
Proof.
  induction 1 as [ | c cs Hc Hcs IH]; intros buf d i ns.
  - cbn. rewrite append_empty_r, andb_true_r. reflexivity.
  - cbn [fold_left layout_children existsb]. rewrite Hc, IH.
    destruct (layout d ns c) as [x ns'].
    cbn [fst snd].
    destruct (layout_children d cs ns') as [xs ns''].
    cbn [fst snd].
    rewrite negb_orb, andb_assoc, !append_assoc.
    reflexivity.
Qed.

Lemma every_node_prints_as_layout (n : xmlnode) : prints_as_layout n.
Proof.
  induction n as [name attrs children IH | s] using xmlnode_ind;
    intros buf d i ns.
  - cbn [printer.print is_element].
    rewrite layout_Element.
    unfold printer.writeStart, printer.writeIndent, at_depth.
    cbn [printer.prefix printer.indent]. rewrite indenting.
    cbn [negb andb printer.putNewline printer.buf printer.prefix printer.indent
         printer.depth printer.indentedIn printer.ns printer.write].
    destruct (printer.startTag ns name attrs) as [open ns1].
    pose proof (children_print_as_layout children
                  (proj2 (Forall_forall _ _) (list_all_In _ _ _ IH)))
      as Hcs.
    fold (at_depth (((buf ++ printer.newline)
                     ++ prefix ++ printer.repeat_string indent d) ++ open)%string
                   (S d) true ns1).
    rewrite Hcs.
    destruct (layout_children (S d) children ns1) as [body ns2].
    cbn [fst snd].
    unfold printer.writeEnd, printer.writeIndent, at_depth.
    cbn [printer.prefix printer.indent]. rewrite indenting.
    cbn [negb andb orb printer.putNewline printer.buf printer.prefix printer.indent
         printer.depth printer.indentedIn printer.ns printer.write].
    replace (S d - 1) with d by lia.
    unfold margin.
    destruct (existsb is_element children);
      cbn [negb andb]; unfold printer.write;
      cbn [printer.putNewline printer.buf printer.prefix printer.indent
           printer.depth printer.indentedIn printer.ns];
      rewrite ?andb_false_r; f_equal;
      rewrite ?append_assoc; cbn [append]; rewrite ?append_assoc;
      reflexivity.
  - cbn. unfold printer.write, at_depth. cbn.
    rewrite andb_true_r. reflexivity.
Qed.

End Layout.

(** The root element is printed by a fresh printer: no line break comes
    before its start tag. *)
Lemma root_prints_as_layout (prefix indent : string) (ns : printer.names)
      (name : xml.Name) (attrs : list (xml.Name * string)) (children : list xmlnode) :
  String.eqb prefix "" && String.eqb indent "" = false ->
  printer.buf (printer.print (printer.mk "" prefix indent 0 false false ns)
                             (Element name attrs children))
  = (prefix ++ fst (layout prefix indent 0 ns (Element name attrs children)))%string.
Proof.
  intros indenting.
  cbn [printer.print]. rewrite layout_Element.
  unfold printer.writeStart, printer.writeIndent.
  cbn [printer.prefix printer.indent]. rewrite indenting.
  cbn [negb andb printer.putNewline printer.buf printer.prefix printer.indent
       printer.depth printer.indentedIn printer.ns printer.write
       printer.repeat_string].
  destruct (printer.startTag ns name attrs) as [open ns1].
  pose proof (children_print_as_layout prefix indent children
                (proj2 (Forall_forall _ _)
                       (fun n _ => every_node_prints_as_layout prefix indent
                                     indenting n))
                (("" ++ prefix ++ "") ++ open)%string 1 true ns1) as Hcs.
  unfold at_depth in Hcs. rewrite Hcs.
  destruct (layout_children prefix indent 1 children ns1) as [body ns2].
  cbn [fst snd].
  unfold printer.writeEnd, printer.writeIndent.
  cbn [printer.prefix printer.indent]. rewrite indenting.
  cbn [negb andb orb printer.putNewline printer.buf printer.prefix printer.indent
       printer.depth printer.indentedIn printer.ns].
  unfold margin.
  destruct (existsb is_element children);
    cbn [negb andb]; unfold printer.write;
    cbn [printer.putNewline printer.buf printer.prefix printer.indent
         printer.depth printer.indentedIn printer.ns Nat.sub
         printer.repeat_string];
    rewrite ?append_assoc, ?append_empty_r; cbn [append];
    rewrite ?append_assoc, ?append_empty_r; reflexivity.
Qed.

(** *** Every start tag has a name *)

Definition xml_named (f : field) : bool := negb (String.eqb (xml_name (xml_tag f)) "").

Lemma declarations_xml_named :
  forallb (fun d => negb (String.eqb (fst d) "") && forallb xml_named (snd d))
          declarations = true.
Proof. vm_compute. reflexivity. Qed.

Lemma fields_of_xml_named (name : string) : forallb xml_named (fields_of name) = true.
Proof.
  unfold fields_of.
  pose proof declarations_xml_named as H.
  induction declarations as [ | [n fs] l IH]; simpl in *.
  - reflexivity.
  - apply andb_prop in H. destruct H as [H1 H2].
    apply andb_prop in H1. destruct H1 as [_ H1].
    destruct (String.eqb n name); [ exact H1 | exact (IH H2) ].
Qed.

(** The enclosing field, or else the type, gives a name. *)
Definition gives_name (t : gotype) (finfo : option xmlinfo) : Prop :=
  match finfo, t with
  | Some fi, _ => xml_name fi <> ""
  | None, TStruct name => name <> ""
  | None, _ => False
  end.

Lemma start_name_not_empty (t : gotype) (finfo : option xmlinfo) (v : value) :
  gives_name t finfo -> String.eqb (xml.Local (encoding_xml.start_name t finfo v)) "" = false.
Proof.
  intros Hg. unfold encoding_xml.start_name.
  destruct v as [s | n | vs | p | l];
    try (destruct finfo as [fi | ]; [ | destruct t; try contradiction ];
         cbn; apply String.eqb_neq; exact Hg).
  destruct (encoding_xml.xmlname_field (encoding_json.struct_fields t) vs)
    as [[f n] | ].
  - destruct (String.eqb (encoding_xml.xml_tag_name f) "") eqn:E; cbn [negb].
    + destruct n as [ | n | | | ];
        try (destruct finfo as [fi | ]; [ | destruct t; try contradiction ];
             cbn; apply String.eqb_neq; exact Hg).
      destruct (String.eqb (xml.Local n) "") eqn:En.
      * destruct finfo as [fi | ]; [ | destruct t; try contradiction ];
          cbn; apply String.eqb_neq; exact Hg.
      * exact En.
    + exact E.
  - destruct finfo as [fi | ]; [ | destruct t; try contradiction ];
      cbn; apply String.eqb_neq; exact Hg.
Qed.

Fixpoint content (fs : list field) (vs : list value) {struct vs} : list xmlnode :=
  match vs, fs with
  | v :: vs', f :: fs' =>
      let fi := xml_tag f in
      if encoding_xml.is_XMLName f then content fs' vs'
      else
        match xml_mode fi with
        | fAttr => content fs' vs'
        | fCharData =>
            match v with
            | VString s => CharData s :: content fs' vs'
            | _ => content fs' vs'
            end
        | fElement =>
            encoding_xml.marshalValue (field_type f) (Some fi) v ++ content fs' vs'
        end
  | _, _ => []
  end.

Lemma marshalValue_struct (t : gotype) (finfo : option xmlinfo) (vs : list value) :
  encoding_xml.marshalValue t finfo (VStruct vs)
  = if encoding_xml.omitted finfo (VStruct vs) then []
    else [Element (encoding_xml.start_name t finfo (VStruct vs))
                  (encoding_xml.attributes (encoding_json.struct_fields t) vs)
                  (content (encoding_json.struct_fields t) vs)].
Proof. reflexivity. Qed.

Definition all_named (v : value) : Prop :=
  forall (t : gotype) (finfo : option xmlinfo),
    gives_name t finfo ->
    forallb named (encoding_xml.marshalValue t finfo v) = true.

Lemma content_named (fs : list field) (vs : list value) :
  forallb xml_named fs = true ->
  Forall all_named vs ->
  forallb named (content fs vs) = true.
Proof.
  intros Hfs Hvs. revert fs Hfs.
  induction Hvs as [ | v vs Hv Hvs IH]; intros fs Hfs.
  - reflexivity.
  - destruct fs as [ | f fs]; [ reflexivity | ].
    simpl in Hfs. apply andb_prop in Hfs. destruct Hfs as [Hf Hfs].
    cbn [content].
    destruct (encoding_xml.is_XMLName f); [ exact (IH fs Hfs) | ].
    destruct (xml_mode (xml_tag f)).
    + rewrite forallb_app, (IH fs Hfs), andb_true_r.
      apply Hv. cbn. unfold xml_named in Hf.
      apply negb_true_iff, String.eqb_neq in Hf. exact Hf.
    + exact (IH fs Hfs).
    + destruct v; exact (IH fs Hfs).
Qed.

Lemma struct_fields_xml_named (t : gotype) :
  forallb xml_named (encoding_json.struct_fields t) = true.
Proof.
  destruct t; try reflexivity. apply fields_of_xml_named.
Qed.

Lemma every_value_all_named (v : value) : all_named v.
Proof.
  induction v as [s | n | vs IH | p IH | l IH] using value_ind; intros t finfo Hg.
  - cbn [encoding_xml.marshalValue].
    destruct (encoding_xml.omitted finfo (VString s)); [ reflexivity | ].
    cbn [forallb named].
    rewrite (start_name_not_empty t finfo (VString s) Hg). reflexivity.
  - cbn [encoding_xml.marshalValue].
    destruct (encoding_xml.omitted finfo (VName n)); [ reflexivity | ].
    cbn [forallb named].
    rewrite (start_name_not_empty t finfo (VName n) Hg). reflexivity.
  - rewrite marshalValue_struct.
    destruct (encoding_xml.omitted finfo (VStruct vs)); [ reflexivity | ].
    cbn [forallb named].
    rewrite (start_name_not_empty t finfo (VStruct vs) Hg).
    rewrite (content_named _ _ (struct_fields_xml_named t)
               (proj2 (Forall_forall _ _) (list_all_In _ _ _ IH))).
    reflexivity.
  - cbn [encoding_xml.marshalValue].
    destruct (encoding_xml.omitted finfo (VPtr p)); [ reflexivity | ].
    destruct IH as [v' Hv' | ]; [ | reflexivity ].
    apply Hv'.
    destruct finfo as [fi | ]; [ exact Hg | ].
    destruct t; try contradiction. exact Hg.
  - cbn [encoding_xml.marshalValue].
    destruct (encoding_xml.omitted finfo (VSlice l)); [ reflexivity | ].
    pose proof (list_all_In _ _ _ IH) as H. cbv beta in H.
    clear IH. induction l as [ | v l IHl]; [ reflexivity | ].
    cbn [flat_map]. rewrite forallb_app.
    rewrite IHl by (intros x Hx; apply H; right; exact Hx).
    rewrite andb_true_r. apply H; [ left; reflexivity | ].
    destruct finfo as [fi | ]; [ exact Hg | ].
    destruct t; try contradiction. exact Hg.
Qed.

(** *** Which fields are written *)

(** A field value leaves nothing in the encoding: a nil pointer, a nil
    slice, and an empty string under [omitempty]. *)
Definition left_out (fi : xmlinfo) (v : value) : bool :=
  match v with
  | VPtr None => true
  | VSlice [] => true
  | VString s => xml_omitEmpty fi && String.eqb s ""
  | _ => false
  end.

(** In the declarations, the name is the only field held by value and no
    slice of strings is [omitempty]; a slice holds strings or structs. *)
Definition plain_field (f : field) : bool :=
  match field_type f with
  | TName => encoding_xml.is_XMLName f
  | TStruct _ => false
  | TSlice TString => negb (xml_omitEmpty (xml_tag f))
  | TSlice (TStruct _) => true
  | TSlice _ => false
  | _ => true
  end.

Lemma declarations_plain :
  forallb (fun d => forallb plain_field (snd d)) declarations = true.
Proof. vm_compute. reflexivity. Qed.

Lemma fields_of_plain (name : string) : forallb plain_field (fields_of name) = true.
Proof.
  unfold fields_of.
  pose proof declarations_plain as H.
  induction declarations as [ | [n fs] l IH]; simpl in *.
  - reflexivity.
  - apply andb_prop in H. destruct H as [H1 H2].
    destruct (String.eqb n name); [ exact H1 | exact (IH H2) ].
Qed.

Lemma marshalValue_ptr (name : string) (finfo : option xmlinfo) (v : value) :
  encoding_xml.marshalValue (TPtr name) finfo (VPtr (Some v))
  = if encoding_xml.omitted finfo (VPtr (Some v)) then []
    else encoding_xml.marshalValue (TStruct name) finfo v.
Proof. reflexivity. Qed.

Lemma marshalValue_slice (e : gotype) (finfo : option xmlinfo) (l : list value) :
  encoding_xml.marshalValue (TSlice e) finfo (VSlice l)
  = if encoding_xml.omitted finfo (VSlice l) then []
    else flat_map (encoding_xml.marshalValue e finfo) l.
Proof. reflexivity. Qed.

Lemma omitted_struct (finfo : option xmlinfo) (vs : list value) :
  encoding_xml.omitted finfo (VStruct vs) = false.
Proof.
  destruct finfo as [fi | ]; [ | reflexivity ].
  cbn. apply andb_false_r.
Qed.

Lemma struct_is_written (t : gotype) (finfo : option xmlinfo) (vs : list value) :
  encoding_xml.marshalValue t finfo (VStruct vs) <> [].
Proof.
  rewrite marshalValue_struct, omitted_struct. discriminate.
Qed.

Lemma field_written_or_left_out (name : string) (f : field) (v : value) :
  In f (fields_of name) ->
  encoding_xml.is_XMLName f = false ->
  well_typed (field_type f) v = true ->
  (encoding_xml.marshalValue (field_type f) (Some (xml_tag f)) v = []
   <-> left_out (xml_tag f) v = true).
Proof.
  intros Hin Hx Hwt.
  pose proof (fields_of_plain name) as Hp.
  rewrite forallb_forall in Hp. specialize (Hp f Hin).
  unfold plain_field in Hp.
  destruct v as [s | n | vs | [v' | ] | [ | x l]].
  - destruct (field_type f); try discriminate Hwt.
    cbn [encoding_xml.marshalValue encoding_xml.omitted left_out isEmptyValue].
    destruct (xml_omitEmpty (xml_tag f) && String.eqb s "");
      split; intros H; try reflexivity; discriminate H.
  - destruct (field_type f); try discriminate Hwt. congruence.
  - destruct (field_type f); try discriminate Hwt. discriminate Hp.
  - destruct (field_type f) as [ | | | n | ]; try discriminate Hwt.
    destruct v' as [ | | vs | | ]; try discriminate Hwt.
    rewrite marshalValue_ptr.
    cbn [encoding_xml.omitted isEmptyValue left_out]. rewrite andb_false_r.
    split; intros H; [ | discriminate H ].
    exfalso. exact (struct_is_written _ _ _ H).
  - cbn [encoding_xml.marshalValue encoding_xml.omitted left_out isEmptyValue].
    destruct (xml_omitEmpty (xml_tag f) && true); split; reflexivity.
  - cbn [encoding_xml.marshalValue encoding_xml.omitted left_out isEmptyValue flat_map].
    destruct (xml_omitEmpty (xml_tag f) && true); split; reflexivity.
  - destruct (field_type f) as [ | | | | e]; try discriminate Hwt.
    cbn [well_typed forallb] in Hwt. apply andb_prop in Hwt. destruct Hwt as [Hx' _].
    rewrite marshalValue_slice.
    cbn [encoding_xml.omitted isEmptyValue left_out flat_map]. rewrite andb_false_r.
    assert (Hne : encoding_xml.marshalValue e (Some (xml_tag f)) x <> []).
    { destruct x as [s | | vs | [ | ] | ]; destruct e;
        try discriminate Hx'; try discriminate Hp.
      - cbn [encoding_xml.marshalValue encoding_xml.omitted].
        apply negb_true_iff in Hp. rewrite Hp. discriminate.
      - apply struct_is_written. }
    split; intros H; [ | discriminate H ].
    destruct (encoding_xml.marshalValue e (Some (xml_tag f)) x);
      [ contradiction | discriminate H ].
Qed.

(** *** The bill and its metadata block *)

Definition element_name (n : xmlnode) : list string :=
  match n with
  | Element name _ _ => [xml.Local name]
  | CharData _ => []
  end.

(** The names of the child elements of the element written for a struct. *)
Definition child_names (t : gotype) (v : value) : list string :=
  match encoding_xml.marshalValue t None v with
  | [Element _ _ children] => flat_map element_name children
  | _ => []
  end.

Definition unless_empty (name s : string) : list string :=
  if String.eqb s "" then [] else [name].

Lemma strings_written (fi : xmlinfo) (name : string) (l : list string) :
  xml_omitEmpty fi = false -> xml_name fi = name ->
  flat_map element_name
           (flat_map (encoding_xml.marshalValue TString (Some fi)) (map VString l))
  = map (fun _ => name) l.
Proof.
  intros Ho Hn. induction l as [ | s l IH]; [ reflexivity | ].
  cbn [map flat_map encoding_xml.marshalValue encoding_xml.omitted].
  rewrite Ho. cbn [andb app element_name flat_map].
  rewrite IH. unfold encoding_xml.start_name. cbn. rewrite Hn. reflexivity.
Qed.

Lemma relatedDocuments_written (fi : xmlinfo) (l : list RelatedDocument) :
  xml_omitEmpty fi = false ->
  flat_map element_name
           (flat_map (encoding_xml.marshalValue (TStruct "RelatedDocument") (Some fi))
                     (map reflect_RelatedDocument l))
  = map (fun _ => "relatedDocument") l.
Proof.
  intros Ho. induction l as [ | r l IH]; [ reflexivity | ].
  cbn [map flat_map]. rewrite flat_map_app, IH.
  unfold reflect_RelatedDocument at 1. rewrite marshalValue_struct.
  cbn [encoding_xml.omitted]. rewrite Ho. reflexivity.
Qed.

Lemma content_nil : content [] [] = [].
Proof. reflexivity. Qed.

Lemma content_XMLName (f : field) (fs : list field) (v : value) (vs : list value) :
  encoding_xml.is_XMLName f = true -> content (f :: fs) (v :: vs) = content fs vs.
Proof. intros H. cbn [content]. rewrite H. reflexivity. Qed.

Lemma content_element (f : field) (fs : list field) (v : value) (vs : list value) :
  encoding_xml.is_XMLName f = false -> xml_mode (xml_tag f) = fElement ->
  content (f :: fs) (v :: vs)
  = encoding_xml.marshalValue (field_type f) (Some (xml_tag f)) v ++ content fs vs.
Proof. intros H M. cbn [content]. rewrite H, M. reflexivity. Qed.

Lemma marshalValue_string (fi : xmlinfo) (s : string) :
  encoding_xml.marshalValue TString (Some fi) (VString s)
  = if xml_omitEmpty fi && String.eqb s "" then []
    else [Element (xml.mkName (xml_xmlns fi) (xml_name fi)) [] [CharData s]].
Proof. reflexivity. Qed.

(** The tags of a field written out in the goal are closed terms: they
    are evaluated once, apart from the values. *)
Ltac eval_tags :=
  repeat match goal with
         | |- context [xml_tag ?f] =>
             let v := eval vm_compute in (xml_tag f) in change (xml_tag f) with v
         | |- context [field_type (fld ?a ?b ?c ?d)] =>
             change (field_type (fld a b c d)) with b
         end.

Lemma Meta_child_names (m : Meta) :
  child_names (TStruct "Meta") (reflect_Meta m)
  = ["title"; "type"; "creator"; "publisher"; "format"; "language"; "rights";
     "docNumber"]
    ++ map (fun _ => "citableAs") (Meta_CitableAs m)
    ++ ["docStage"]
    ++ unless_empty "currentChamber" (Meta_CurrentChamber m)
    ++ ["congress"; "session"; "publicPrivate"]
    ++ unless_empty "processedBy" (Meta_ProcessedBy m)
    ++ unless_empty "processedDate" (Meta_ProcessedDate m)
    ++ map (fun _ => "relatedDocument") (Meta_RelatedDocuments m)
    ++ unless_empty "popularName" (Meta_PopularName m).
Proof.
  destruct m as [n title type creator publisher format language rights docNumber
                   citableAs docStage chamber congress session publicPrivate
                   processedBy processedDate related popular].
  unfold child_names, reflect_Meta, unless_empty.
  rewrite marshalValue_struct.
  cbn [encoding_xml.omitted Meta_XMLName Meta_DCTitle Meta_DCType Meta_DCCreator
       Meta_DCPublisher Meta_DCFormat Meta_DCLanguage Meta_DCRights Meta_DocNumber
       Meta_CitableAs Meta_DocStage Meta_CurrentChamber Meta_Congress Meta_Session
       Meta_PublicPrivate Meta_ProcessedBy Meta_ProcessedDate Meta_RelatedDocuments
       Meta_PopularName encoding_json.struct_fields].
  set (fs := fields_of "Meta"). vm_compute in fs. subst fs.
  rewrite content_XMLName by reflexivity.
  repeat rewrite content_element by (vm_compute; reflexivity).
  rewrite content_nil.
  eval_tags.
  rewrite !marshalValue_string, !marshalValue_slice.
  cbn [xml_omitEmpty xml_xmlns xml_name andb encoding_xml.omitted].
  rewrite !flat_map_app.
  rewrite (strings_written (mk_xmlinfo "" "citableAs" fElement false)
             "citableAs" citableAs eq_refl eq_refl).
  rewrite (relatedDocuments_written (mk_xmlinfo "" "relatedDocument" fElement false)
             related eq_refl).
  destruct (String.eqb chamber ""), (String.eqb processedBy ""),
    (String.eqb processedDate ""), (String.eqb popular ""); reflexivity.
Qed.

(** The root element of a bill: its name and its seven attributes, all
    without [omitempty]. *)
Definition Bill_attributes (b : Bill) : list (xml.Name * string) :=
  [(xml.mkName "" "xmlns", Bill_XMLNS b);
   (xml.mkName "xmlns" "dc", Bill_XMLNSDC b);
   (xml.mkName "xmlns" "html", Bill_XMLNSHTML b);
   (xml.mkName "xmlns" "uslm", Bill_XMLNSUSLM b);
   (xml.mkName "xmlns" "xsi", Bill_XMLNSXSI b);
   (xml.mkName "xsi" "schemaLocation", Bill_XSISchemaLocation b);
   (xml.mkName "xml" "lang", Bill_XMLLang b)].

Lemma Bill_root (b : Bill) :
  exists children : list xmlnode,
    encoding_xml.marshalValue (TStruct "Bill") None (reflect_Bill b)
    = [Element (xml.mkName "" "bill") (Bill_attributes b) children].
Proof.
  destruct b as [n s1 s2 s3 s4 s5 s6 s7 meta preface main em].
  unfold reflect_Bill. rewrite marshalValue_struct.
  cbn [encoding_xml.omitted].
  eexists. reflexivity.
Qed.

Lemma MarshalIndent_layout (name : string) (v : value) (indent : string) (root : xmlnode) :
  name <> "" ->
  indent <> "" ->
  encoding_xml.marshalValue (TStruct name) None v = [root] ->
  is_element root = true ->
  xml_MarshalIndent (TStruct name) v "" indent
  = (fst (layout "" indent 0 printer.no_names root), None).
Proof.
  intros Hname Hindent Hroot He. unfold xml_MarshalIndent.
  pose proof (every_value_all_named v (TStruct name) None Hname) as Hn.
  rewrite Hroot in *. rewrite Hn.
  destruct root as [nm attrs children | s]; [ | discriminate He ].
  cbn [fold_left]. rewrite root_prints_as_layout; [ reflexivity | ].
  destruct indent; [ contradiction | reflexivity ].
Qed.

(** A bill whose metadata block is present and empty. *)
Definition bill_with_empty_meta : Bill :=
  bill_with_meta (Some (meta_with_publicPrivate "")).

(** C5, as stated, fails: the stage, the congress, the session and the
    public or private mark are empty in the model, are none of the
    excepted fields, and are written all the same, as empty elements. *)
Lemma empty_fields_are_written :
  exists out : string,
    MarshalBillToXML bill_with_empty_meta = (Some out, None) /\
    strings.Contains out "<docStage></docStage>" = true /\
    strings.Contains out "<congress></congress>" = true /\
    strings.Contains out "<session></session>" = true /\
    strings.Contains out "<publicPrivate></publicPrivate>" = true.
Proof.
  eexists. split; [ vm_compute; reflexivity | ].
  repeat split; vm_compute; reflexivity.
Qed.

(** C5, amended: for every bill, [MarshalBillToXML] succeeds and returns
    the XML declaration followed by the encoding of the bill laid out with
    two spaces per nesting level; the root element [bill] always carries
    its seven name space and language attributes.  A field other than
    [XMLName] leaves nothing in the encoding exactly when it is a nil
    pointer, a nil slice, or an empty string tagged [omitempty]; any other
    field is written, also when it is empty.  So a metadata block that is
    present always writes [title], [type], [creator], [publisher],
    [format], [language], [rights], [docNumber], [docStage], [congress],
    [session] and [publicPrivate], one [citableAs] and one
    [relatedDocument] per entry, and [currentChamber], [processedBy],
    [processedDate] and [popularName] only when they are not empty. *)
Theorem MarshalBillToXML_encoding :
  (forall b : Bill,
      exists children : list xmlnode,
        encoding_xml.marshalValue (TStruct "Bill") None (reflect_Bill b)
        = [Element (xml.mkName "" "bill") (Bill_attributes b) children] /\
        MarshalBillToXML b
        = (Some (encoding_xml.Header
                 ++ fst (layout "" "  " 0 printer.no_names
                                (Element (xml.mkName "" "bill") (Bill_attributes b)
                                         children)))%string,
           None)) /\
  (forall (name : string) (f : field) (v : value),
      In f (fields_of name) ->
      encoding_xml.is_XMLName f = false ->
      well_typed (field_type f) v = true ->
      (encoding_xml.marshalValue (field_type f) (Some (xml_tag f)) v = []
       <-> left_out (xml_tag f) v = true)) /\
  (forall m : Meta,
      child_names (TStruct "Meta") (reflect_Meta m)
      = ["title"; "type"; "creator"; "publisher"; "format"; "language"; "rights";
         "docNumber"]
        ++ map (fun _ => "citableAs") (Meta_CitableAs m)
        ++ ["docStage"]
        ++ unless_empty "currentChamber" (Meta_CurrentChamber m)
        ++ ["congress"; "session"; "publicPrivate"]
        ++ unless_empty "processedBy" (Meta_ProcessedBy m)
        ++ unless_empty "processedDate" (Meta_ProcessedDate m)
        ++ map (fun _ => "relatedDocument") (Meta_RelatedDocuments m)
        ++ unless_empty "popularName" (Meta_PopularName m)).
Proof.
  split; [ | split ].
  - intros b. destruct (Bill_root b) as [children Hroot].
    exists children. split; [ exact Hroot | ].
    unfold MarshalBillToXML.
    rewrite (MarshalIndent_layout "Bill" (reflect_Bill b) "  " _
               ltac:(discriminate) ltac:(discriminate) Hroot eq_refl).
    reflexivity.
  - exact field_written_or_left_out.
  - exact Meta_child_names.
Qed.

(** The chamber of the metadata block is [omitempty]: empty, it is left
    out; the stage is not: empty, it is written. *)
Lemma MarshalBillToXML_encoding_witness :
  encoding_xml.marshalValue
    TString (Some (xml_tag (fld "CurrentChamber" TString "currentChamber,omitempty"
                                "currentChamber,omitempty")))
    (VString "") = [] /\
  left_out (xml_tag (fld "DocStage" TString "docStage" "docStage")) (VString "") <> true.
Proof.
  split.
  - apply (proj1 (proj2 MarshalBillToXML_encoding) "Meta"
                 (fld "CurrentChamber" TString "currentChamber,omitempty"
                      "currentChamber,omitempty") (VString "")).
    + vm_compute. tauto.
    + reflexivity.
    + reflexivity.
    + reflexivity.
  - intros H.
    apply (proj1 (proj2 MarshalBillToXML_encoding) "Meta"
                 (fld "DocStage" TString "docStage" "docStage") (VString "")) in H.
    + discriminate H.
    + vm_compute. tauto.
    + reflexivity.
    + reflexivity.
Defined.

(** The bytes of the sample bill: the declaration, then one line per
    element, two spaces deeper at each level. *)
Example MarshalBillToXML_sample :
  exists out : string,
    MarshalBillToXML sample_bill = (Some out, None) /\
    strings.HasPrefix out encoding_xml.Header = true /\
    strings.Contains out (printer.newline ++ "  <meta>" ++ printer.newline
                          ++ "    <title ") = true /\
    strings.Contains out (printer.newline ++ "    <section id=") = true /\
    strings.Contains out (printer.newline ++ "      <heading>Short title</heading>"
                          ++ printer.newline ++ "      <content>") = true /\
    strings.Contains out (printer.newline ++ "  </main>" ++ printer.newline
                          ++ "</bill>") = true.
Proof.
  eexists. split; [ vm_compute; reflexivity | ].
  repeat split; vm_compute; reflexivity.
Qed.

(** ** Nested references *)

(** *** One step of the decoder *)

Definition children_into (depth : N) (fs : list field)
  : list xmlnode -> list value -> option (list value) :=
  fix each (cs : list xmlnode) (vs : list value) {struct cs} : option (list value) :=
    match cs with
    | [] => Some vs
    | CharData _ :: cs' => each cs' vs
    | (Element child _ _ as c) :: cs' =>
        match decoder.first_field (decoder.matches fElement child) fs 0 with
        | None => each cs' vs
        | Some (i, f) =>
            match decoder.unmarshal (field_type f) (depth + 1) c
                                    (nth i vs (zero_field (field_type f))) with
            | Some v => each cs' (encoding_json.set_nth i v vs)
            | None => None
            end
        end
    end.

Definition structure (name : xml.Name) (attrs : list (xml.Name * string))
           (children : list xmlnode) (depth : N) (fs : list field) (vs : list value)
  : option (list value) :=
  match decoder.record_name name fs vs with
  | None => None
  | Some vs =>
      let vs := fold_left (fun vs a => decoder.store_attr (fst a) (snd a) fs vs)
                          attrs vs in
      match children_into depth fs children vs with
      | Some vs => Some (decoder.store_chardata (decoder.chardata children) fs vs)
      | None => None
      end
  end.

Lemma unmarshal_struct_Element (n : string) (depth : N) (name : xml.Name)
      (attrs : list (xml.Name * string)) (children : list xmlnode) (cur : value) :
  decoder.unmarshal (TStruct n) depth (Element name attrs children) cur
  = if (decoder.maxUnmarshalDepth <=? depth)%N then None
    else option_map VStruct
           (structure name attrs children depth (fields_of n)
                      (encoding_json.struct_values n cur)).
Proof. reflexivity. Qed.

Lemma unmarshal_ptr_Element (n : string) (depth : N) (name : xml.Name)
      (attrs : list (xml.Name * string)) (children : list xmlnode) :
  decoder.unmarshal (TPtr n) depth (Element name attrs children) (VPtr None)
  = option_map (fun v => VPtr (Some v))
      (decoder.unmarshal (TStruct n) depth (Element name attrs children)
                         (zero_struct n)).
Proof.
  rewrite unmarshal_struct_Element.
  change (decoder.unmarshal (TPtr n) depth (Element name attrs children) (VPtr None))
    with (if (decoder.maxUnmarshalDepth <=? depth)%N then None
          else option_map (fun vs => VPtr (Some (VStruct vs)))
                 (structure name attrs children depth (fields_of n)
                            (encoding_json.struct_values n (zero_struct n)))).
  destruct (decoder.maxUnmarshalDepth <=? depth)%N; [ reflexivity | ].
  destruct (structure name attrs children depth (fields_of n)
                      (encoding_json.struct_values n (zero_struct n)));
    reflexivity.
Qed.

(** *** References nested to any depth *)

Definition ref_name : xml.Name := uslm_name "ref".

(** [<ref>see </ref>], and the same around a reference nested [n] deep. *)
Fixpoint nested_ref (n : nat) : xmlnode :=
  match n with
  | O => Element ref_name [] [CharData "see "]
  | S n' => Element ref_name [] [CharData "see "; nested_ref n']
  end.

(** The reference with [n] references inside one another. *)
Fixpoint Ref_chain (n : nat) : Ref :=
  mkRef ref_name "" "see "
        match n with
        | O => None
        | S n' => Some (Ref_chain n')
        end.

(** How many references are nested inside a reference. *)
Fixpoint Ref_depth (r : Ref) : nat :=
  match r with
  | mkRef _ _ _ (Some inner) => S (Ref_depth inner)
  | mkRef _ _ _ None => 0
  end.

Lemma Ref_depth_chain (n : nat) : Ref_depth (Ref_chain n) = n.
Proof.
  induction n as [ | n IH]; [ reflexivity | ].
  cbn [Ref_chain Ref_depth]. rewrite IH. reflexivity.
Qed.

Lemma nested_ref_is_ref (n : nat) :
  exists children, nested_ref n = Element ref_name [] (CharData "see " :: children).
Proof.
  destruct n; eexists; reflexivity.
Qed.

Lemma nested_ref_decodes (n : nat) :
  forall depth : N,
    (depth + N.of_nat n < decoder.maxUnmarshalDepth)%N ->
    decoder.unmarshal (TStruct "Ref") depth (nested_ref n) (zero_struct "Ref")
    = Some (reflect_Ref (Ref_chain n)).
Proof.
  induction n as [ | n IH]; intros depth Hd.
  - cbn [nested_ref]. rewrite unmarshal_struct_Element.
    replace (decoder.maxUnmarshalDepth <=? depth)%N with false
      by (symmetry; apply N.leb_gt; lia).
    vm_compute. reflexivity.
  - cbn [nested_ref]. rewrite unmarshal_struct_Element.
    replace (decoder.maxUnmarshalDepth <=? depth)%N with false
      by (symmetry; apply N.leb_gt; lia).
    unfold structure.
    set (fs := fields_of "Ref"). vm_compute in fs. subst fs.
    match goal with
    | |- context [decoder.record_name ?a ?b ?c] =>
        let v := eval vm_compute in (decoder.record_name a b c) in
        change (decoder.record_name a b c) with v
    end.
    cbn [fold_left].
    pose proof (IH (depth + 1)%N ltac:(lia)) as IH'.
    destruct (nested_ref_is_ref n) as [children Hn].
    rewrite Hn in IH' |- *.
    cbn [children_into].
    match goal with
    | |- context [decoder.first_field ?a ?b ?c] =>
        let v := eval vm_compute in (decoder.first_field a b c) in
        change (decoder.first_field a b c) with v
    end.
    cbn [field_type nth]. rewrite unmarshal_ptr_Element, IH'.
    cbn [option_map decoder.chardata encoding_json.set_nth append].
    match goal with
    | |- context [decoder.store_chardata ?a ?b ?c] =>
        let v := eval vm_compute in (decoder.store_chardata a b c) in
        change (decoder.store_chardata a b c) with v
    end.
    reflexivity.
Qed.

(** A bill whose one section cites a title, a section of it and a
    subsection of that, by three references inside one another, as a
    tree of elements. *)
Definition element (local : string) := Element (uslm_name local).

Definition attribute (local v : string) : xml.Name * string := (xml.mkName "" local, v).

Definition bill_citing_three_deep : xmlnode :=
  element "bill" [attribute "xmlns" "http://schemas.gpo.gov/xml/uslm"]
    [element "main" []
       [element "section" [attribute "id" "s1"]
          [element "content" []
             [CharData "as defined in ";
              element "ref" [attribute "href" "/us/usc/t21"]
                [CharData "title 21, ";
                 element "ref" [attribute "href" "/us/usc/t21/s959"]
                   [CharData "section 959";
                    element "ref" [attribute "href" "/us/usc/t21/s959/a"]
                      [CharData "(a)"]]]]]]].

Definition ref_subsection : Ref :=
  mkRef (uslm_name "ref") "/us/usc/t21/s959/a" "(a)" None.

Definition ref_section : Ref :=
  mkRef (uslm_name "ref") "/us/usc/t21/s959" "section 959" (Some ref_subsection).

Definition ref_title : Ref :=
  mkRef (uslm_name "ref") "/us/usc/t21" "title 21, " (Some ref_section).

Definition decoded_bill_citing_three_deep : Bill :=
  mkBill (uslm_name "bill") "http://schemas.gpo.gov/xml/uslm" "" "" "" "" "" ""
         None None
         (Some (mkMain (uslm_name "main") "" None None None None
                  [mkSection (uslm_name "section") "s1" "" "" "" None None None
                     (Some (mkContent (uslm_name "content") "" "as defined in "
                                      [] [] [ref_title] [] [] [] [] []))
                     [] []]
                  [] ""))
         "".

(** C8, as stated, fails: in this decoded document the reference nested
    in a reference holds a further nested reference. *)
Lemma decoded_reference_nests_twice :
  decoder.unmarshal (TStruct "Bill") 0 bill_citing_three_deep (zero_struct "Bill")
  = Some (reflect_Bill decoded_bill_citing_three_deep) /\
  Ref_InnerRef ref_title = Some ref_section /\
  Ref_InnerRef ref_section = Some ref_subsection /\
  Ref_depth ref_title = 2.
Proof.
  split; [ vm_compute; reflexivity | ].
  repeat split.
Qed.

(** C8, amended: a reference holds at most one directly nested reference,
    behind the one pointer [InnerRef], and the nested reference is a
    reference like any other, which may hold a further one: the nesting is
    not bounded at one extra level.  The decoder follows [ref] elements
    nested in one another as deep as the input goes, within the limit
    [encoding/xml] sets on the nesting of elements: [n] references nested
    inside a reference, read at a depth that leaves room for them, decode
    to a reference with [n] references inside one another. *)
Theorem reference_nesting_follows_the_input :
  (forall r inner inner' : Ref,
      Ref_InnerRef r = Some inner -> Ref_InnerRef r = Some inner' -> inner = inner') /\
  (forall (n : nat) (depth : N),
      (depth + N.of_nat n < decoder.maxUnmarshalDepth)%N ->
      decoder.unmarshal (TStruct "Ref") depth (nested_ref n) (zero_struct "Ref")
      = Some (reflect_Ref (Ref_chain n)) /\
      Ref_depth (Ref_chain n) = n).
Proof.
  split.
  - intros r inner inner' H H'. congruence.
  - intros n depth Hd. split.
    + exact (nested_ref_decodes n depth Hd).
    + exact (Ref_depth_chain n).
Qed.

Lemma reference_nesting_follows_the_input_witness :
  decoder.unmarshal (TStruct "Ref") 0 (nested_ref 3) (zero_struct "Ref")
  = Some (reflect_Ref (Ref_chain 3)) /\
  Ref_depth (Ref_chain 3) = 3.
Proof.
  apply (proj2 reference_nesting_follows_the_input 3 0%N).
  vm_compute. reflexivity.
Defined.

(** At the limit the decoder gives up: an element read at depth 10000 is
    an error. *)
Example unmarshal_depth_limit :
  decoder.unmarshal (TStruct "Ref") 10000 (nested_ref 0) (zero_struct "Ref") = None.
Proof. reflexivity. Qed.

(** ** Document type detection, continued *)

Lemma HasPrefix_shorter (p q s : string) :
  strings.HasPrefix s (p ++ q) = true -> strings.HasPrefix s p = true.
Proof.
  revert s. induction p as [ | c p IH]; intros s H; simpl in *.
  - reflexivity.
  - destruct s as [ | a s]; [ discriminate | ].
    apply andb_prop in H. destruct H as [H1 H2].
    rewrite H1. exact (IH s H2).
Qed.

Lemma Contains_shorter (p q s : string) :
  strings.Contains s (p ++ q) = true -> strings.Contains s p = true.
Proof.
  induction s as [ | a s IH]; cbn [strings.Contains]; intros H.
  - apply orb_prop in H. destruct H as [H | H]; [ | discriminate ].
    rewrite (HasPrefix_shorter p q _ H). reflexivity.
  - apply orb_prop in H. destruct H as [H | H].
    + rewrite (HasPrefix_shorter p q _ H). reflexivity.
    + rewrite (IH H). apply orb_true_r.
Qed.

Lemma tag_test_names_a_tag (name data : string) :
  tag_test name data = true -> strings.Contains data ("<" ++ name) = true.
Proof.
  unfold tag_test. intros H. apply orb_prop in H.
  assert (E : forall x, ("<" ++ name ++ x = ("<" ++ name) ++ x)%string).
  { intros x. reflexivity. }
  destruct H as [H | H]; rewrite E in H; exact (Contains_shorter _ _ _ H).
Qed.

(** X1: the detector answers with a type only when it has seen the type's
    name behind a [<]: whenever the result is not [DocumentTypeUnknown],
    the text [<] followed by the result occurs in the input.  So an input
    without any [<], the empty input among them, is
    [DocumentTypeUnknown]. *)
Theorem DetectDocumentType_names_a_tag (data : string) :
  (DetectDocumentType data <> DocumentTypeUnknown ->
   strings.Contains data ("<" ++ DetectDocumentType data) = true) /\
  (strings.Contains data "<" = false ->
   DetectDocumentType data = DocumentTypeUnknown).
Proof.
  assert (Hfirst : DetectDocumentType data <> DocumentTypeUnknown ->
                   strings.Contains data ("<" ++ DetectDocumentType data) = true).
  { rewrite DetectDocumentType_tests.
    destruct (bill_test data) eqn:Hb.
    { intros _. unfold bill_test in Hb.
      apply orb_prop in Hb. destruct Hb as [Hb | Hb].
      - exact (Contains_shorter "<bill" " " data Hb).
      - apply andb_prop in Hb. exact (proj2 Hb). }
    destruct (tag_test "resolution" data) eqn:Hr.
    { intros _. exact (tag_test_names_a_tag _ _ Hr). }
    destruct (tag_test "engrossedAmendment" data) eqn:He.
    { intros _. exact (tag_test_names_a_tag _ _ He). }
    destruct (tag_test "amendment" data) eqn:Ha.
    { intros _. exact (tag_test_names_a_tag _ _ Ha). }
    intros H. contradiction H. reflexivity. }
  split; [ exact Hfirst | ].
  intros Hno.
  destruct (String.eqb_spec (DetectDocumentType data) DocumentTypeUnknown) as [E | E].
  - exact E.
  - pose proof (Contains_shorter "<" (DetectDocumentType data) data (Hfirst E)) as H.
    congruence.
Qed.

(** A bill behind its declaration, and a text without markup. *)
Lemma DetectDocumentType_names_a_tag_witness :
  strings.Contains "<?xml version='1.0'?><bill>" "<bill" = true /\
  DetectDocumentType "S. 32, Transnational Drug Trafficking Act" = DocumentTypeUnknown.
Proof.
  split.
  - apply (proj1 (DetectDocumentType_names_a_tag "<?xml version='1.0'?><bill>")).
    vm_compute. discriminate.
  - apply (proj2 (DetectDocumentType_names_a_tag
                    "S. 32, Transnational Drug Trafficking Act")).
    vm_compute. reflexivity.
Defined.

(** A run of ASCII white space. *)
Fixpoint blank (s : string) : bool :=
  match s with
  | EmptyString => true
  | String c s' => strings.asciiSpace c && blank s'
  end.

Lemma asciiSpace_not_lt (c : ascii) :
  strings.asciiSpace c = true -> Ascii.eqb c "<" = false.
Proof.
  intros H. destruct (Ascii.eqb_spec c "<") as [-> | ]; [ | reflexivity ].
  vm_compute in H. discriminate.
Qed.

Lemma Contains_after_blank (ws s p : string) :
  blank ws = true ->
  strings.Contains (ws ++ s) (String "<" p) = strings.Contains s (String "<" p).
Proof.
  intros Hws. induction ws as [ | c ws IH]; [ reflexivity | ].
  simpl in Hws. apply andb_prop in Hws. destruct Hws as [Hc Hws].
  change (String c ws ++ s)%string with (String c (ws ++ s)).
  cbn [strings.Contains strings.HasPrefix].
  rewrite (asciiSpace_not_lt c Hc), (IH Hws). reflexivity.
Qed.

Lemma trimLeft_after_blank (ws s : string) :
  blank ws = true -> strings.trimLeft (ws ++ s) = strings.trimLeft s.
Proof.
  intros Hws. induction ws as [ | c ws IH]; [ reflexivity | ].
  simpl in Hws. apply andb_prop in Hws. destruct Hws as [Hc Hws].
  change (String c ws ++ s)%string with (String c (ws ++ s)).
  cbn [strings.trimLeft]. rewrite Hc. exact (IH Hws).
Qed.

(** X2: white space before a document does not change its detected type:
    for every run [ws] of ASCII white space (blank, tab, line feed,
    vertical tab, form feed, carriage return) and every input,
    [DetectDocumentType (ws ++ data) = DetectDocumentType data]. *)
Theorem DetectDocumentType_ignores_leading_space (ws data : string) :
  blank ws = true ->
  DetectDocumentType (ws ++ data) = DetectDocumentType data.
Proof.
  intros Hws. unfold DetectDocumentType, strings.TrimSpace.
  rewrite (trimLeft_after_blank ws data Hws).
  rewrite !(Contains_after_blank ws data _ Hws).
  reflexivity.
Qed.

Lemma DetectDocumentType_ignores_leading_space_witness :
  DetectDocumentType
    (String (ascii_of_nat 10) "  " ++ "<?xml version='1.0'?><bill>")
  = DetectDocumentType "<?xml version='1.0'?><bill>".
Proof.
  apply DetectDocumentType_ignores_leading_space.
  vm_compute. reflexivity.
Defined.

(** ** The interface value of a decoded document *)

Section InterfaceValue.

Variable xml_Unmarshal : forall T : Type, string -> T -> T * option error.

(** X3: [ParseDocument] returns the nil interface exactly when the
    detected type is [DocumentTypeUnknown].  For a recognised type it
    returns what the entry point of that type returns, converted to the
    interface: after a failed decode the interface value is not nil, it
    wraps the nil pointer of the detected variant, beside the error. *)
Theorem ParseDocument_nil_only_when_unknown (data : string) :
  (fst (ParseDocument xml_Unmarshal data) = LegislativeDocument_nil <->
   DetectDocumentType data = DocumentTypeUnknown) /\
  (DetectDocumentType data = DocumentTypeUnknown ->
   ParseDocument xml_Unmarshal data
   = (LegislativeDocument_nil, Some "unknown document type")) /\
  (DetectDocumentType data = DocumentTypeBill ->
   ParseDocument xml_Unmarshal data
   = (LegislativeDocument_Bill (fst (ParseBill xml_Unmarshal data)),
      snd (ParseBill xml_Unmarshal data))) /\
  (DetectDocumentType data = DocumentTypeResolution ->
   ParseDocument xml_Unmarshal data
   = (LegislativeDocument_Resolution (fst (ParseResolution xml_Unmarshal data)),
      snd (ParseResolution xml_Unmarshal data))) /\
  (DetectDocumentType data = DocumentTypeEngrossedAmendment ->
   ParseDocument xml_Unmarshal data
   = (LegislativeDocument_EngrossedAmendment
        (fst (ParseEngrossedAmendment xml_Unmarshal data)),
      snd (ParseEngrossedAmendment xml_Unmarshal data))) /\
  (DetectDocumentType data = DocumentTypeAmendment ->
   ParseDocument xml_Unmarshal data
   = (LegislativeDocument_Amendment (fst (ParseAmendment xml_Unmarshal data)),
      snd (ParseAmendment xml_Unmarshal data))) /\
  (snd (ParseDocument xml_Unmarshal data) <> None ->
   DetectDocumentType data <> DocumentTypeUnknown ->
   fst (ParseDocument xml_Unmarshal data) <> LegislativeDocument_nil /\
   LegislativeDocument_tree (fst (ParseDocument xml_Unmarshal data)) = None).
Proof.
  assert (HB : fst (ParseBill xml_Unmarshal data) = None \/
               snd (ParseBill xml_Unmarshal data) = None).
  { unfold ParseBill.
    destruct (xml_Unmarshal _ data Bill_zero) as [b [e | ]]; auto. }
  assert (HR : fst (ParseResolution xml_Unmarshal data) = None \/
               snd (ParseResolution xml_Unmarshal data) = None).
  { unfold ParseResolution.
    destruct (xml_Unmarshal _ data Resolution_zero) as [b [e | ]]; auto. }
  assert (HE : fst (ParseEngrossedAmendment xml_Unmarshal data) = None \/
               snd (ParseEngrossedAmendment xml_Unmarshal data) = None).
  { unfold ParseEngrossedAmendment.
    destruct (xml_Unmarshal _ data EngrossedAmendment_zero) as [b [e | ]]; auto. }
  assert (HA : fst (ParseAmendment xml_Unmarshal data) = None \/
               snd (ParseAmendment xml_Unmarshal data) = None).
  { unfold ParseAmendment.
    destruct (xml_Unmarshal _ data Amendment_zero) as [b [e | ]]; auto. }
  unfold ParseDocument.
  destruct (DetectDocumentType_cases data) as [D | [D | [D | [D | D]]]];
    rewrite D; cbn [String.eqb Ascii.eqb Bool.eqb DocumentTypeBill
                    DocumentTypeResolution DocumentTypeEngrossedAmendment
                    DocumentTypeAmendment DocumentTypeUnknown];
    simpl.
  - destruct (ParseBill xml_Unmarshal data) as [p e]; simpl in *.
    repeat split; try discriminate; try (intros; discriminate).
    destruct HB as [-> | ->]; [ reflexivity | ].
    match goal with H : None <> None |- _ => contradiction H; reflexivity end.
  - destruct (ParseResolution xml_Unmarshal data) as [p e]; simpl in *.
    repeat split; try discriminate; try (intros; discriminate).
    destruct HR as [-> | ->]; [ reflexivity | ].
    match goal with H : None <> None |- _ => contradiction H; reflexivity end.
  - destruct (ParseEngrossedAmendment xml_Unmarshal data) as [p e]; simpl in *.
    repeat split; try discriminate; try (intros; discriminate).
    destruct HE as [-> | ->]; [ reflexivity | ].
    match goal with H : None <> None |- _ => contradiction H; reflexivity end.
  - destruct (ParseAmendment xml_Unmarshal data) as [p e]; simpl in *.
    repeat split; try discriminate; try (intros; discriminate).
    destruct HA as [-> | ->]; [ reflexivity | ].
    match goal with H : None <> None |- _ => contradiction H; reflexivity end.
  - repeat split; try discriminate; try (intros; discriminate).
    all: match goal with H : DocumentTypeUnknown <> DocumentTypeUnknown |- _ =>
                     contradiction H; reflexivity end.
Qed.

Variable Reader : Type.
Variable io_ReadAll : Reader -> string * option error.

Lemma ParseDocument_all_or_nothing (data : string) :
  all_or_nothing_doc (ParseDocument xml_Unmarshal data).
Proof.
  unfold all_or_nothing_doc, ParseDocument.
  destruct (DetectDocumentType_cases data) as [D | [D | [D | [D | D]]]];
    rewrite D; simpl.
  - unfold ParseBill.
    destruct (xml_Unmarshal _ data Bill_zero) as [b [e | ]]; simpl; eauto.
  - unfold ParseResolution.
    destruct (xml_Unmarshal _ data Resolution_zero) as [b [e | ]]; simpl; eauto.
  - unfold ParseEngrossedAmendment.
    destruct (xml_Unmarshal _ data EngrossedAmendment_zero) as [b [e | ]]; simpl; eauto.
  - unfold ParseAmendment.
    destruct (xml_Unmarshal _ data Amendment_zero) as [b [e | ]]; simpl; eauto.
  - right. eexists. split; reflexivity.
Qed.

(** X4: [ParseDocumentFromReader] is all or nothing like the other entry
    points.  When reading fails it returns the nil interface and the read
    error behind the words [failed to read document: ], whatever bytes
    were read before the failure: they are not parsed.  When reading
    succeeds it returns what [ParseDocument] returns on the bytes read. *)
Theorem ParseDocumentFromReader_reads_then_parses (r : Reader) :
  all_or_nothing_doc (ParseDocumentFromReader xml_Unmarshal Reader io_ReadAll r) /\
  (forall (data : string) (e : error),
      io_ReadAll r = (data, Some e) ->
      ParseDocumentFromReader xml_Unmarshal Reader io_ReadAll r
      = (LegislativeDocument_nil, Some ("failed to read document: " ++ e)%string)) /\
  (forall data : string,
      io_ReadAll r = (data, None) ->
      ParseDocumentFromReader xml_Unmarshal Reader io_ReadAll r
      = ParseDocument xml_Unmarshal data).
Proof.
  unfold ParseDocumentFromReader.
  destruct (io_ReadAll r) as [data [e | ]].
  - split; [ | split ].
    + right. eexists. split; reflexivity.
    + intros data' e' E. injection E as _ <-. reflexivity.
    + intros data' E. discriminate E.
  - split; [ | split ].
    + apply ParseDocument_all_or_nothing.
    + intros data' e' E. discriminate E.
    + intros data' E. injection E as <-. reflexivity.
Qed.

End InterfaceValue.

(** ** Accessors, continued *)

(** What one action contributes to the three collecting accessors. *)
Definition sponsors_of (a : Action) : list Sponsor :=
  match Action_ActionDescription a with
  | Some d => ActionDescription_Sponsors d
  | None => []
  end.

Definition cosponsors_of (a : Action) : list Cosponsor :=
  match Action_ActionDescription a with
  | Some d => ActionDescription_Cosponsors d
  | None => []
  end.

Definition committees_of (a : Action) : list Committee :=
  match Action_ActionDescription a with
  | Some d => ActionDescription_Committees d
  | None => []
  end.

Lemma collected (A B : Type) (step : list B -> A -> list B) (g : A -> list B) :
  (forall acc a, step acc a = acc ++ g a) ->
  forall (l : list A) (acc : list B), fold_left step l acc = acc ++ flat_map g l.
Proof.
  intros Hstep. induction l as [ | a l IH]; intros acc; simpl.
  - rewrite app_nil_r. reflexivity.
  - rewrite IH, Hstep, app_assoc. reflexivity.
Qed.

(** X5: [GetSponsors], [GetCosponsors] and [GetCommittees] of a bill and
    of a resolution return the sponsors, cosponsors and committees of the
    actions that [GetActions] returns, action by action in document
    order, each action contributing the list its description holds and an
    action without a description contributing nothing. *)
Theorem collectors_follow_the_actions :
  (forall b : Bill,
      Bill_GetSponsors b = flat_map sponsors_of (Bill_GetActions b) /\
      Bill_GetCosponsors b = flat_map cosponsors_of (Bill_GetActions b) /\
      Bill_GetCommittees b = flat_map committees_of (Bill_GetActions b)) /\
  (forall r : Resolution,
      Resolution_GetSponsors r = flat_map sponsors_of (Resolution_GetActions r) /\
      Resolution_GetCosponsors r = flat_map cosponsors_of (Resolution_GetActions r) /\
      Resolution_GetCommittees r = flat_map committees_of (Resolution_GetActions r)).
Proof.
  split; intros x; repeat split.
  all: match goal with
       | |- ?f ?y = flat_map ?g (?h ?y) => unfold f, h
       end;
    match goal with
    | |- context [match ?o with _ => _ end] => destruct o as [p | ]; [ | reflexivity ]
    end;
    match goal with
    | |- fold_left ?step ?l [] = flat_map ?g ?l =>
        apply (collected _ _ step g)
    end;
    intros acc a;
    match goal with
    | |- _ = _ ++ ?g a => unfold g
    end;
    destruct (Action_ActionDescription a); [ reflexivity | ];
    rewrite app_nil_r; reflexivity.
Qed.

(** X6: the accessors read the three blocks of a document and nothing
    else, and the document types implement them alike: a bill and a
    resolution with the same metadata, preface and main block give the
    same answer to each of the twenty accessors they share, whatever their
    element names, name space declarations and end markers; so do an
    engrossed amendment and an amendment with the same metadata and
    preface, for their seventeen accessors. *)
Theorem accessors_agree_across_document_types :
  (forall (b : Bill) (r : Resolution),
      Bill_Meta b = Resolution_Meta r ->
      Bill_Preface b = Resolution_Preface r ->
      Bill_Main b = Resolution_Main r ->
      Bill_GetDocumentNumber b = Resolution_GetDocumentNumber r /\
      Bill_GetDocumentType b = Resolution_GetDocumentType r /\
      Bill_GetCongress b = Resolution_GetCongress r /\
      Bill_GetSession b = Resolution_GetSession r /\
      Bill_GetTitle b = Resolution_GetTitle r /\
      Bill_GetStage b = Resolution_GetStage r /\
      Bill_GetChamber b = Resolution_GetChamber r /\
      Bill_IsPublic b = Resolution_IsPublic r /\
      Bill_GetCitations b = Resolution_GetCitations r /\
      Bill_GetSponsors b = Resolution_GetSponsors r /\
      Bill_GetCosponsors b = Resolution_GetCosponsors r /\
      Bill_GetActions b = Resolution_GetActions r /\
      Bill_GetCommittees b = Resolution_GetCommittees r /\
      Bill_GetSections b = Resolution_GetSections r /\
      Bill_GetCreator b = Resolution_GetCreator r /\
      Bill_GetPublisher b = Resolution_GetPublisher r /\
      Bill_GetLanguage b = Resolution_GetLanguage r /\
      Bill_GetRights b = Resolution_GetRights r /\
      Bill_GetProcessedBy b = Resolution_GetProcessedBy r /\
      Bill_GetProcessedDate b = Resolution_GetProcessedDate r) /\
  (forall (e : EngrossedAmendment) (a : Amendment),
      EngrossedAmendment_AmendMeta e = Amendment_AmendMeta a ->
      EngrossedAmendment_AmendPreface e = Amendment_AmendPreface a ->
      EngrossedAmendment_GetDocumentNumber e = Amendment_GetDocumentNumber a /\
      EngrossedAmendment_GetDocumentType e = Amendment_GetDocumentType a /\
      EngrossedAmendment_GetCongress e = Amendment_GetCongress a /\
      EngrossedAmendment_GetSession e = Amendment_GetSession a /\
      EngrossedAmendment_GetTitle e = Amendment_GetTitle a /\
      EngrossedAmendment_GetStage e = Amendment_GetStage a /\
      EngrossedAmendment_GetChamber e = Amendment_GetChamber a /\
      EngrossedAmendment_IsPublic e = Amendment_IsPublic a /\
      EngrossedAmendment_GetCitations e = Amendment_GetCitations a /\
      EngrossedAmendment_GetAmendmentDegree e = Amendment_GetAmendmentDegree a /\
      EngrossedAmendment_GetActions e = Amendment_GetActions a /\
      EngrossedAmendment_GetCreator e = Amendment_GetCreator a /\
      EngrossedAmendment_GetPublisher e = Amendment_GetPublisher a /\
      EngrossedAmendment_GetLanguage e = Amendment_GetLanguage a /\
      EngrossedAmendment_GetRights e = Amendment_GetRights a /\
      EngrossedAmendment_GetProcessedBy e = Amendment_GetProcessedBy a /\
      EngrossedAmendment_GetProcessedDate e = Amendment_GetProcessedDate a).
Proof.
  split.
  - intros b r Hmeta Hpreface Hmain.
    repeat split;
      match goal with
      | |- ?f b = ?g r => unfold f, g
      end;
      rewrite ?Hmeta, ?Hpreface, ?Hmain; reflexivity.
  - intros e a Hmeta Hpreface.
    repeat split;
      match goal with
      | |- ?f e = ?g a => unfold f, g
      end;
      rewrite ?Hmeta, ?Hpreface; reflexivity.
Qed.

(** The sample bill's blocks under a resolution's root. *)
Lemma accessors_agree_across_document_types_witness :
  Bill_GetDocumentNumber sample_bill
  = Resolution_GetDocumentNumber
      (mkResolution (uslm_name "resolution") "" "" "" "" "" "" ""
                    (Bill_Meta sample_bill) (Bill_Preface sample_bill)
                    (Bill_Main sample_bill) "end").
Proof.
  apply (proj1 accessors_agree_across_document_types sample_bill
               (mkResolution (uslm_name "resolution") "" "" "" "" "" "" ""
                             (Bill_Meta sample_bill) (Bill_Preface sample_bill)
                             (Bill_Main sample_bill) "end"));
    reflexivity.
Defined.

(** ** JSON, continued *)

(** *** The encoder does not look at the fields tagged [-] *)

Lemma marshal_object (t : gotype) (vs : list value) :
  encoding_json.marshal t (VStruct vs)
  = JObject (marshal_members (encoding_json.struct_fields t) vs).
Proof. reflexivity. Qed.

Lemma clear_object (t : gotype) (vs : list value) :
  clear_ignored t (VStruct vs)
  = VStruct (clear_fields (encoding_json.struct_fields t) vs).
Proof. reflexivity. Qed.

Lemma isEmptyValue_clear (t : gotype) (v : value) :
  isEmptyValue (clear_ignored t v) = isEmptyValue v.
Proof.
  destruct v as [s | n | vs | [v' | ] | [ | x l]]; reflexivity.
Qed.

Definition same_json_when_cleared (v : value) : Prop :=
  forall t : gotype,
    encoding_json.marshal t (clear_ignored t v) = encoding_json.marshal t v.

Lemma members_when_cleared (vs : list value) :
  Forall same_json_when_cleared vs ->
  forall fs : list field,
    marshal_members fs (clear_fields fs vs) = marshal_members fs vs.
Proof.
  induction 1 as [ | v vs Hv Hvs IH]; intros fs; [ reflexivity | ].
  destruct fs as [ | f fs]; [ reflexivity | ].
  cbn [clear_fields marshal_members].
  destruct (json_tag f) as [ | key omitEmpty].
  - apply IH.
  - rewrite isEmptyValue_clear, (Hv (field_type f)), IH. reflexivity.
Qed.

Lemma every_value_same_json_when_cleared (v : value) : same_json_when_cleared v.
Proof.
  induction v as [s | n | vs IH | p IH | l IH] using value_ind; intros t.
  - reflexivity.
  - reflexivity.
  - rewrite clear_object, !marshal_object.
    rewrite (members_when_cleared vs (list_all_Forall _ _ IH)). reflexivity.
  - destruct IH as [v' Hv' | ]; [ | reflexivity ].
    exact (Hv' (encoding_json.pointee t)).
  - destruct l as [ | v l]; [ reflexivity | ].
    cbn [clear_ignored map encoding_json.marshal].
    inversion IH as [ | ? Hv ? Hl]; subst.
    rewrite (Hv (encoding_json.elem t)). f_equal. f_equal.
    rewrite map_map. apply map_ext_in. intros x Hx.
    exact (list_all_In _ _ _ Hl x Hx (encoding_json.elem t)).
Qed.

(** X7: [ToJSON] does not depend on the fields tagged [json:"-"], the
    [XMLName] of every node: a document and the same document with those
    fields reset to the zero name, at every depth, have the same JSON. *)
Theorem ToJSON_ignores_XMLName (name : string) (doc : value) :
  ToJSON name (clear_ignored (TStruct name) doc) = ToJSON name doc.
Proof.
  exact (every_value_same_json_when_cleared doc (TStruct name)).
Qed.

(** *** Strings that are not valid UTF-8 *)

(** The value with every string as JSON carries it. *)
Fixpoint to_valid (v : value) : value :=
  match v with
  | VString s => VString (encoding_json.stringContent s)
  | VName n =>
      VName (xml.mkName (encoding_json.stringContent (xml.Space n))
                        (encoding_json.stringContent (xml.Local n)))
  | VStruct vs => VStruct (map to_valid vs)
  | VPtr p => VPtr (option_map to_valid p)
  | VSlice l => VSlice (map to_valid l)
  end.

Lemma ValidString_RuneError (s : string) :
  utf8.ValidString (utf8.RuneError ++ s) = utf8.ValidString s.
Proof. reflexivity. Qed.

Lemma stringContent_is_valid_bounded (n : nat) :
  forall s : string,
    String.length s <= n ->
    utf8.ValidString (encoding_json.stringContent s) = true.
Proof.
  induction n as [ | n IH]; intros s Hlen.
  - destruct s; [ reflexivity | simpl in Hlen; lia ].
  - destruct s as [ | a s1]; [ reflexivity | ].
    simpl in Hlen.
    assert (H1 : utf8.ValidString (encoding_json.stringContent s1) = true)
      by (apply IH; lia).
    cbn [encoding_json.stringContent].
    destruct (utf8.rune1 a) eqn:Ea.
    { cbn [utf8.ValidString]. rewrite Ea. exact H1. }
    destruct s1 as [ | b s2].
    { reflexivity. }
    simpl in Hlen.
    destruct (utf8.rune2 a b) eqn:Eb.
    { cbn [utf8.ValidString]. rewrite Ea, Eb. apply IH. lia. }
    destruct s2 as [ | c s3].
    { rewrite ValidString_RuneError. exact H1. }
    simpl in Hlen.
    destruct (utf8.rune3 a b c) eqn:Ec.
    { cbn [utf8.ValidString]. rewrite Ea, Eb, Ec. apply IH. lia. }
    destruct s3 as [ | d s4].
    { rewrite ValidString_RuneError. exact H1. }
    simpl in Hlen.
    destruct (utf8.rune4 a b c d) eqn:Ed.
    { cbn [utf8.ValidString]. rewrite Ea, Eb, Ec, Ed. apply IH. lia. }
    rewrite ValidString_RuneError. exact H1.
Qed.

Lemma stringContent_is_valid (s : string) :
  utf8.ValidString (encoding_json.stringContent s) = true.
Proof.
  apply (stringContent_is_valid_bounded (String.length s)). lia.
Qed.

Lemma stringContent_twice (s : string) :
  encoding_json.stringContent (encoding_json.stringContent s)
  = encoding_json.stringContent s.
Proof.
  apply stringContent_valid, stringContent_is_valid.
Qed.

Lemma stringContent_empty (s : string) :
  String.eqb (encoding_json.stringContent s) "" = String.eqb s "".
Proof.
  destruct s as [ | a s1]; [ reflexivity | ].
  cbn [encoding_json.stringContent].
  destruct (utf8.rune1 a); [ reflexivity | ].
  destruct s1 as [ | b s2]; [ reflexivity | ].
  destruct (utf8.rune2 a b); [ reflexivity | ].
  destruct s2 as [ | c s3]; [ reflexivity | ].
  destruct (utf8.rune3 a b c); [ reflexivity | ].
  destruct s3 as [ | d s4]; [ reflexivity | ].
  destruct (utf8.rune4 a b c d); reflexivity.
Qed.

Lemma isEmptyValue_to_valid (v : value) : isEmptyValue (to_valid v) = isEmptyValue v.
Proof.
  destruct v as [s | n | vs | [v' | ] | [ | x l]]; try reflexivity.
  apply stringContent_empty.
Qed.

Definition kept_by_to_valid (v : value) : Prop :=
  forall t : gotype,
    encoding_json.marshal t (to_valid v) = encoding_json.marshal t v /\
    well_typed t (to_valid v) = well_typed t v /\
    valid_strings (to_valid v) = true.

Lemma members_to_valid (vs : list value) :
  Forall kept_by_to_valid vs ->
  forall fs : list field,
    marshal_members fs (map to_valid vs) = marshal_members fs vs /\
    well_typed_fields fs (map to_valid vs) = well_typed_fields fs vs /\
    forallb valid_strings (map to_valid vs) = true.
Proof.
  induction 1 as [ | v vs Hv Hvs IH]; intros fs.
  - destruct fs; repeat split.
  - destruct fs as [ | f fs].
    + repeat split. cbn [map forallb].
      rewrite (proj2 (proj2 (Hv TString))), (proj2 (proj2 (IH []))). reflexivity.
    + destruct (Hv (field_type f)) as [Hm [Hw Hs]].
      destruct (IH fs) as [IHm [IHw IHs]].
      cbn [map marshal_members well_typed_fields forallb].
      rewrite isEmptyValue_to_valid, Hm, IHm, Hw, IHw, Hs, IHs.
      repeat split.
Qed.

Lemma elements_to_valid (l : list value) (e : gotype) :
  Forall kept_by_to_valid l ->
  map (encoding_json.marshal e) (map to_valid l) = map (encoding_json.marshal e) l /\
  forallb (well_typed e) (map to_valid l) = forallb (well_typed e) l /\
  forallb valid_strings (map to_valid l) = true.
Proof.
  induction 1 as [ | v l Hv Hl IH]; [ repeat split | ].
  destruct (Hv e) as [Hm [Hw Hs]]. destruct IH as [IHm [IHw IHs]].
  cbn [map forallb]. rewrite Hm, IHm, Hw, IHw, Hs, IHs. repeat split.
Qed.

Lemma every_value_kept_by_to_valid (v : value) : kept_by_to_valid v.
Proof.
  induction v as [s | n | vs IH | p IH | l IH] using value_ind; intros t.
  - cbn [to_valid encoding_json.marshal well_typed valid_strings].
    rewrite stringContent_twice, stringContent_is_valid.
    repeat split; try (destruct t; reflexivity).
  - cbn [to_valid encoding_json.marshal well_typed valid_strings xml.Space xml.Local].
    rewrite !stringContent_twice, !stringContent_is_valid.
    repeat split; try (destruct t; reflexivity).
  - destruct (members_to_valid vs (list_all_Forall _ _ IH)
                               (encoding_json.struct_fields t)) as [Hm [Hw Hs]].
    cbn [to_valid valid_strings]. rewrite !marshal_object, Hm.
    split; [ reflexivity | ]. split; [ | exact Hs ].
    destruct t as [ | | name | | ]; try reflexivity.
    rewrite !well_typed_struct. exact Hw.
  - destruct IH as [v' Hv' | ]; [ | repeat split ].
    destruct (Hv' (encoding_json.pointee t)) as [Hm [Hw Hs]].
    cbn [to_valid option_map encoding_json.marshal valid_strings].
    split; [ exact Hm | ]. split; [ | exact Hs ].
    destruct t as [ | | | name | ]; try reflexivity.
    cbn [well_typed].
    destruct v' as [ | | vs | | ]; try reflexivity.
    exact (proj1 (proj2 (Hv' (TStruct name)))).
  - destruct (elements_to_valid l (encoding_json.elem t) (list_all_Forall _ _ IH))
      as [Hm [Hw Hs]].
    cbn [to_valid valid_strings]. split; [ | split; [ | exact Hs ] ].
    + destruct l as [ | v l]; [ reflexivity | ].
      cbn [encoding_json.marshal map]. cbn [map] in Hm. rewrite Hm. reflexivity.
    + destruct t as [ | | | | e]; try reflexivity.
      cbn [well_typed]. exact Hw.
Qed.

Lemma round_trip_of_any_value (t : gotype) (v : value) :
  well_typed t v = true ->
  encoding_json.unmarshal t (encoding_json.marshal t v) (zero t)
  = Some (clear_ignored t (to_valid v)).
Proof.
  intros Hwt.
  destruct (every_value_kept_by_to_valid v t) as [Hm [Hw Hs]].
  rewrite <- Hm.
  apply every_value_round_trips; [ rewrite Hw; exact Hwt | exact Hs ].
Qed.

(** X8: the JSON round trip of a document holding any bytes at all.  For
    each of the four document types and every document of that type for
    which [ToJSON] returns no error (its JSON nests at most 10000 objects
    and arrays deep), decoding the JSON of the document with the matching
    [FromJSON] function succeeds; it yields the document with every
    [XMLName] reset to the zero name and every string as JSON carries it:
    a string of valid UTF-8 unchanged, and each byte that starts no
    well-formed rune replaced by U+FFFD. *)
Theorem json_round_trip_of_any_bytes :
  (forall b : Bill,
      ToJSON_error "Bill" (reflect_Bill b) = None ->
      BillFromJSON (ToJSON "Bill" (reflect_Bill b))
      = Some (clear_ignored (TStruct "Bill") (to_valid (reflect_Bill b)))) /\
  (forall r : Resolution,
      ToJSON_error "Resolution" (reflect_Resolution r) = None ->
      ResolutionFromJSON (ToJSON "Resolution" (reflect_Resolution r))
      = Some (clear_ignored (TStruct "Resolution") (to_valid (reflect_Resolution r)))) /\
  (forall e : EngrossedAmendment,
      ToJSON_error "EngrossedAmendment" (reflect_EngrossedAmendment e) = None ->
      EngrossedAmendmentFromJSON
        (ToJSON "EngrossedAmendment" (reflect_EngrossedAmendment e))
      = Some (clear_ignored (TStruct "EngrossedAmendment")
                            (to_valid (reflect_EngrossedAmendment e)))) /\
  (forall a : Amendment,
      ToJSON_error "Amendment" (reflect_Amendment a) = None ->
      AmendmentFromJSON (ToJSON "Amendment" (reflect_Amendment a))
      = Some (clear_ignored (TStruct "Amendment") (to_valid (reflect_Amendment a)))) /\
  (forall s : string,
      utf8.ValidString s = true -> to_valid (VString s) = VString s) /\
  to_valid (VString (String (ascii_of_nat 255) "a"))
  = VString (utf8.RuneError ++ "a").
Proof.
  repeat split.
  - intros x _. exact (round_trip_of_any_value _ _ (well_typed_Bill x)).
  - intros x _. exact (round_trip_of_any_value _ _ (well_typed_Resolution x)).
  - intros x _. exact (round_trip_of_any_value _ _ (well_typed_EngrossedAmendment x)).
  - intros x _. exact (round_trip_of_any_value _ _ (well_typed_Amendment x)).
  - intros s Hs. cbn [to_valid]. rewrite (stringContent_valid s Hs). reflexivity.
Qed.

(** The sample bill, whose JSON nests well within the limit. *)
Lemma json_round_trip_of_any_bytes_witness :
  ToJSON_error "Bill" (reflect_Bill sample_bill) = None /\
  BillFromJSON (ToJSON "Bill" (reflect_Bill sample_bill))
  = Some (clear_ignored (TStruct "Bill") (to_valid (reflect_Bill sample_bill))).
Proof.
  split.
  - vm_compute. reflexivity.
  - apply (proj1 json_round_trip_of_any_bytes sample_bill).
    vm_compute. reflexivity.
Defined.

(** X9: encoding is stable under the round trip.  For each of the four
    document types and every document of that type for which [ToJSON]
    returns no error (its JSON nests at most 10000 objects and arrays
    deep), with any bytes in its strings, the document decoded from the
    JSON of the document encodes to that same JSON again, and again
    without error. *)
Theorem ToJSON_stable_under_round_trip :
  (forall b : Bill,
      ToJSON_error "Bill" (reflect_Bill b) = None ->
      exists v : value,
        BillFromJSON (ToJSON "Bill" (reflect_Bill b)) = Some v /\
        ToJSON "Bill" v = ToJSON "Bill" (reflect_Bill b) /\
        ToJSON_error "Bill" v = None) /\
  (forall r : Resolution,
      ToJSON_error "Resolution" (reflect_Resolution r) = None ->
      exists v : value,
        ResolutionFromJSON (ToJSON "Resolution" (reflect_Resolution r)) = Some v /\
        ToJSON "Resolution" v = ToJSON "Resolution" (reflect_Resolution r) /\
        ToJSON_error "Resolution" v = None) /\
  (forall e : EngrossedAmendment,
      ToJSON_error "EngrossedAmendment" (reflect_EngrossedAmendment e) = None ->
      exists v : value,
        EngrossedAmendmentFromJSON
          (ToJSON "EngrossedAmendment" (reflect_EngrossedAmendment e)) = Some v /\
        ToJSON "EngrossedAmendment" v
        = ToJSON "EngrossedAmendment" (reflect_EngrossedAmendment e) /\
        ToJSON_error "EngrossedAmendment" v = None) /\
  (forall a : Amendment,
      ToJSON_error "Amendment" (reflect_Amendment a) = None ->
      exists v : value,
        AmendmentFromJSON (ToJSON "Amendment" (reflect_Amendment a)) = Some v /\
        ToJSON "Amendment" v = ToJSON "Amendment" (reflect_Amendment a) /\
        ToJSON_error "Amendment" v = None).
Proof.
  assert (H : forall (name : string) (v : value),
             well_typed (TStruct name) v = true ->
             ToJSON_error name v = None ->
             exists v' : value,
               encoding_json.unmarshal (TStruct name) (ToJSON name v) (zero_struct name)
               = Some v' /\
               ToJSON name v' = ToJSON name v /\
               ToJSON_error name v' = None).
  { intros name v Hwt Hdepth.
    assert (Hsame : ToJSON name (clear_ignored (TStruct name) (to_valid v))
                    = ToJSON name v).
    { unfold ToJSON.
      rewrite (every_value_same_json_when_cleared (to_valid v) (TStruct name)).
      exact (proj1 (every_value_kept_by_to_valid v (TStruct name))). }
    eexists. split; [ exact (round_trip_of_any_value (TStruct name) v Hwt) | ].
    split; [ exact Hsame | ].
    unfold ToJSON_error. rewrite Hsame. exact Hdepth. }
  split; [ | split; [ | split ] ]; intros x Hdepth.
  - exact (H "Bill" _ (well_typed_Bill x) Hdepth).
  - exact (H "Resolution" _ (well_typed_Resolution x) Hdepth).
  - exact (H "EngrossedAmendment" _ (well_typed_EngrossedAmendment x) Hdepth).
  - exact (H "Amendment" _ (well_typed_Amendment x) Hdepth).
Qed.

(** The sample bill: decoded from its JSON, it encodes to that JSON. *)
Lemma ToJSON_stable_under_round_trip_witness :
  exists v : value,
    BillFromJSON (ToJSON "Bill" (reflect_Bill sample_bill)) = Some v /\
    ToJSON "Bill" v = ToJSON "Bill" (reflect_Bill sample_bill) /\
    ToJSON_error "Bill" v = None.
Proof.
  apply (proj1 ToJSON_stable_under_round_trip sample_bill).
  vm_compute. reflexivity.
Defined.

(** Where the limit lies: a reference holding 9999 references inside one
    another is encoded, one holding 10000 is not. *)
Example ToJSON_error_at_the_limit :
  ToJSON_error "Ref" (reflect_Ref (Ref_chain (N.to_nat 9999))) = None /\
  ToJSON_error "Ref" (reflect_Ref (Ref_chain (N.to_nat 10000)))
  = Some "exceeded max depth".
Proof. vm_compute. split; reflexivity. Qed.

(** *** What the decoder accepts *)




(** [null] and an object, the two JSON values a document can be read
    from. *)
Definition null_or_object (j : json) : bool :=
  match j with
  | JNull | JObject _ => true
  | _ => false
  end.

(** X11: what the four [FromJSON] functions do with the top-level JSON
    value.  [null] and the empty object [{}] give the zero document and
    no error; a boolean, a number, a string and an array are errors: no
    document is returned. *)
Theorem FromJSON_top_level_value :
  (BillFromJSON JNull = Some (reflect_Bill Bill_zero) /\
   BillFromJSON (JObject []) = Some (reflect_Bill Bill_zero) /\
   forall j, null_or_object j = false -> BillFromJSON j = None) /\
  (ResolutionFromJSON JNull = Some (reflect_Resolution Resolution_zero) /\
   ResolutionFromJSON (JObject []) = Some (reflect_Resolution Resolution_zero) /\
   forall j, null_or_object j = false -> ResolutionFromJSON j = None) /\
  (EngrossedAmendmentFromJSON JNull
   = Some (reflect_EngrossedAmendment EngrossedAmendment_zero) /\
   EngrossedAmendmentFromJSON (JObject [])
   = Some (reflect_EngrossedAmendment EngrossedAmendment_zero) /\
   forall j, null_or_object j = false -> EngrossedAmendmentFromJSON j = None) /\
  (AmendmentFromJSON JNull = Some (reflect_Amendment Amendment_zero) /\
   AmendmentFromJSON (JObject []) = Some (reflect_Amendment Amendment_zero) /\
   forall j, null_or_object j = false -> AmendmentFromJSON j = None).
Proof.
  repeat split;
    first [ intros [ | b | n | s | js | ms] Hj; try discriminate Hj; reflexivity
          | vm_compute; reflexivity ].
Qed.

(** *** The members of an encoded struct *)

Definition json_keys (j : json) : list string :=
  match j with
  | JObject ms => map fst ms
  | _ => []
  end.

(** [l1] is [l2] with some of its elements left out. *)
Fixpoint subsequence (l1 l2 : list string) {struct l2} : bool :=
  match l1, l2 with
  | [], _ => true
  | _ :: _, [] => false
  | x :: l1', y :: l2' =>
      if String.eqb x y then subsequence l1' l2' else subsequence l1 l2'
  end.

Lemma subsequence_nil (l : list string) : subsequence [] l = true.
Proof. destruct l; reflexivity. Qed.

Lemma subsequence_tail (l2 : list string) :
  forall (x : string) (l1 : list string),
    subsequence (x :: l1) l2 = true -> subsequence l1 l2 = true.
Proof.
  induction l2 as [ | y l2 IH]; intros x l1 H.
  - discriminate H.
  - cbn [subsequence] in H.
    destruct l1 as [ | x' l1]; [ reflexivity | ].
    cbn [subsequence].
    destruct (String.eqb x y).
    + destruct (String.eqb x' y); [ exact (IH _ _ H) | exact H ].
    + destruct (String.eqb x' y); [ exact (IH _ _ (IH _ _ H)) | exact (IH _ _ H) ].
Qed.

Lemma subsequence_skip (y : string) (l1 l2 : list string) :
  subsequence l1 l2 = true -> subsequence l1 (y :: l2) = true.
Proof.
  intros H. destruct l1 as [ | x l1]; [ reflexivity | ].
  cbn [subsequence].
  destruct (String.eqb x y); [ exact (subsequence_tail _ _ _ H) | exact H ].
Qed.

Lemma subsequence_In (l2 : list string) :
  forall (l1 : list string) (x : string),
    subsequence l1 l2 = true -> In x l1 -> In x l2.
Proof.
  induction l2 as [ | y l2 IH]; intros l1 x H Hx.
  - destruct l1; [ destruct Hx | discriminate H ].
  - destruct l1 as [ | x' l1]; [ destruct Hx | ].
    cbn [subsequence] in H.
    destruct (String.eqb_spec x' y) as [-> | Hne].
    + destruct Hx as [<- | Hx]; [ left; reflexivity | right; exact (IH _ _ H Hx) ].
    + right. exact (IH _ _ H Hx).
Qed.

Lemma distinct_NoDup (l : list string) : distinct l = true -> NoDup l.
Proof.
  induction l as [ | x l IH]; intros H; constructor.
  - simpl in H. apply andb_prop in H. destruct H as [H _].
    apply negb_true_iff in H. intros Hin.
    assert (E : existsb (String.eqb x) l = true).
    { apply existsb_exists. exists x. split; [ exact Hin | apply String.eqb_refl ]. }
    congruence.
  - simpl in H. apply andb_prop in H. exact (IH (proj2 H)).
Qed.

Lemma subsequence_NoDup (l2 : list string) :
  NoDup l2 -> forall l1, subsequence l1 l2 = true -> NoDup l1.
Proof.
  induction 1 as [ | y l2 Hy Hl2 IH]; intros l1 H.
  - destruct l1; [ constructor | discriminate H ].
  - destruct l1 as [ | x l1]; [ constructor | ].
    cbn [subsequence] in H.
    destruct (String.eqb_spec x y) as [-> | Hne].
    + constructor; [ | exact (IH _ H) ].
      intros Hin. exact (Hy (subsequence_In _ _ _ H Hin)).
    + exact (IH _ H).
Qed.

Lemma members_in_order (vs : list value) :
  forall fs : list field,
    subsequence (map fst (marshal_members fs vs)) (keys fs) = true.
Proof.
  induction vs as [ | v vs IH]; intros fs.
  - destruct fs; apply subsequence_nil.
  - destruct fs as [ | f fs]; [ reflexivity | ].
    cbn [marshal_members keys]. unfold encoding_json.key_of.
    destruct (json_tag f) as [ | key omitEmpty]; [ apply IH | ].
    destruct (omitEmpty && isEmptyValue v).
    + apply subsequence_skip, IH.
    + cbn [map fst subsequence]. rewrite String.eqb_refl. apply IH.
Qed.

Lemma members_not_omitted (vs : list value) :
  forall (fs : list field) (f : field) (key : string),
    well_typed_fields fs vs = true ->
    In f fs -> json_tag f = json_key key false ->
    In key (map fst (marshal_members fs vs)).
Proof.
  induction vs as [ | v vs IH]; intros fs f key Hwt Hf Htag.
  - destruct fs; [ destruct Hf | discriminate Hwt ].
  - destruct fs as [ | g fs]; [ destruct Hf | ].
    cbn [well_typed_fields] in Hwt. apply andb_prop in Hwt. destruct Hwt as [_ Hwt].
    cbn [marshal_members].
    destruct Hf as [-> | Hf].
    + rewrite Htag. left. reflexivity.
    + pose proof (IH fs f key Hwt Hf Htag) as Hin.
      destruct (json_tag g) as [ | k o]; [ exact Hin | ].
      destruct (o && isEmptyValue v); [ exact Hin | right; exact Hin ].
Qed.

(** X12: the members of the JSON object written for a struct.  Their keys
    come in the order in which the struct declares its fields, and no key
    comes twice; a field whose tag has no [omitempty] and is not [-]
    always has its member, empty or not (for a bill: [xmlns] and
    [meta]). *)
Theorem ToJSON_members_follow_the_declaration (name : string) (doc : value) :
  well_typed (TStruct name) doc = true ->
  subsequence (json_keys (ToJSON name doc)) (keys (fields_of name)) = true /\
  NoDup (json_keys (ToJSON name doc)) /\
  (forall (f : field) (key : string),
      In f (fields_of name) -> json_tag f = json_key key false ->
      In key (json_keys (ToJSON name doc))).
Proof.
  intros Hwt. unfold ToJSON.
  destruct doc as [s | n | vs | [v' | ] | [ | x l]]; try discriminate Hwt.
  rewrite marshal_struct. rewrite well_typed_struct in Hwt.
  cbn [json_keys].
  pose proof (members_in_order vs (fields_of name)) as Hsub.
  split; [ exact Hsub | ]. split.
  - refine (subsequence_NoDup _ (distinct_NoDup _ _) _ Hsub).
    pose proof (fields_of_ok name) as Hok. unfold fields_ok in Hok.
    apply andb_prop in Hok. exact (proj1 Hok).
  - intros f key Hf Htag.
    exact (members_not_omitted vs _ f key Hwt Hf Htag).
Qed.

(** The zero bill: of its twelve fields only [xmlns] and [meta] are
    written. *)
Lemma ToJSON_members_follow_the_declaration_witness :
  json_keys (ToJSON "Bill" (reflect_Bill Bill_zero)) = ["xmlns"; "meta"] /\
  In "meta" (json_keys (ToJSON "Bill" (reflect_Bill Bill_zero))).
Proof.
  split; [ reflexivity | ].
  apply (proj2 (proj2 (ToJSON_members_follow_the_declaration
                         "Bill" (reflect_Bill Bill_zero) eq_refl))
               (fld "Meta" (TPtr "Meta") "meta" "meta")).
  - vm_compute. tauto.
  - vm_compute. reflexivity.
Defined.

(** ** The encoders' output under the detector *)

(** *** Texts a marker cannot start in *)

(** No byte of [s] is [<]. *)
Fixpoint no_lt (s : string) : bool :=
  match s with
  | EmptyString => true
  | String c s' => negb (Ascii.eqb c "<") && no_lt s'
  end.

(** [s] and [p] differ at a position both have. *)
Fixpoint clash (s p : string) {struct s} : bool :=
  match s, p with
  | String a s', String b p' => negb (Ascii.eqb a b) || clash s' p'
  | _, _ => false
  end.

Lemma no_lt_app (a b : string) : no_lt (a ++ b) = no_lt a && no_lt b.
Proof.
  induction a as [ | c a IH]; simpl; [ reflexivity | ].
  rewrite IH, andb_assoc. reflexivity.
Qed.

Lemma clash_app (s p x : string) : clash s p = true -> clash (s ++ x) p = true.
Proof.
  revert p. induction s as [ | a s IH]; intros p H; [ discriminate H | ].
  destruct p as [ | b p]; [ discriminate H | ].
  cbn [append clash] in *.
  destruct (Ascii.eqb a b); cbn [negb orb] in *; [ exact (IH p H) | reflexivity ].
Qed.

Lemma clash_HasPrefix (s p : string) :
  clash s p = true -> strings.HasPrefix s p = false.
Proof.
  revert p. induction s as [ | a s IH]; intros p H; [ discriminate H | ].
  destruct p as [ | b p]; [ discriminate H | ].
  cbn [clash strings.HasPrefix] in *.
  destruct (Ascii.eqb a b); cbn [negb orb andb] in *; [ exact (IH p H) | reflexivity ].
Qed.

(** A marker [p] that occurs in [s ++ x] occurs in [x]: it neither lies
    in [s] nor starts there. *)
Definition passes (p s : string) : Prop :=
  forall x : string, strings.Contains (s ++ x) p = strings.Contains x p.

Lemma passes_empty (p : string) : passes p "".
Proof. intros x. reflexivity. Qed.

Lemma passes_app (p a b : string) : passes p a -> passes p b -> passes p (a ++ b).
Proof.
  intros Ha Hb x. rewrite append_assoc, Ha, Hb. reflexivity.
Qed.

Lemma passes_no_lt (w s : string) : no_lt s = true -> passes (String "<" w) s.
Proof.
  intros H x. induction s as [ | c s IH]; [ reflexivity | ].
  simpl in H. apply andb_prop in H. destruct H as [Hc Hs].
  apply negb_true_iff in Hc.
  change (String c s ++ x)%string with (String c (s ++ x)).
  cbn [strings.Contains strings.HasPrefix]. rewrite Hc, (IH Hs). reflexivity.
Qed.

Lemma passes_tag (w body : string) :
  clash (String "<" body) (String "<" w) = true ->
  no_lt body = true ->
  passes (String "<" w) (String "<" body).
Proof.
  intros Hc Hb x.
  change (String "<" body ++ x)%string with (String "<" (body ++ x)).
  cbn [strings.Contains].
  change (String "<" (body ++ x)) with (String "<" body ++ x)%string.
  rewrite (clash_HasPrefix _ _ (clash_app _ _ x Hc)).
  exact (passes_no_lt w body Hb x).
Qed.

Lemma passes_nowhere (p s : string) :
  p <> "" -> passes p s -> strings.Contains s p = false.
Proof.
  intros Hp H. specialize (H ""). rewrite append_empty_r in H. rewrite H.
  destruct p; [ contradiction | reflexivity ].
Qed.

(** *** Escaped text holds no [<] *)

Lemma high_not_lt (c : ascii) : 128 <= nat_of_ascii c -> Ascii.eqb c "<" = false.
Proof.
  intros H. destruct (Ascii.eqb_spec c "<") as [-> | ]; [ | reflexivity ].
  vm_compute in H. lia.
Qed.

Ltac bounds :=
  repeat match goal with
         | H : _ && _ = true |- _ => apply andb_prop in H; destruct H
         | H : _ || _ = true |- _ => apply orb_prop in H; destruct H
         | H : Nat.leb _ _ = true |- _ => apply Nat.leb_le in H
         | H : Nat.eqb _ _ = true |- _ => apply Nat.eqb_eq in H
         end.

Lemma rune1_false_high (a : ascii) : utf8.rune1 a = false -> 128 <= nat_of_ascii a.
Proof.
  cbv beta zeta delta [utf8.rune1 utf8.within]. intros H.
  apply andb_false_iff in H. destruct H as [H | H].
  - apply Nat.leb_gt in H. lia.
  - apply Nat.leb_gt in H. lia.
Qed.

Lemma cont_high (c : ascii) : utf8.cont c = true -> 128 <= nat_of_ascii c.
Proof. cbv beta zeta delta [utf8.cont utf8.within]. intros H. bounds. lia. Qed.

Lemma rune2_high (a b : ascii) : utf8.rune2 a b = true -> 128 <= nat_of_ascii b.
Proof. unfold utf8.rune2. intros H. bounds. apply cont_high. assumption. Qed.

Lemma rune3_high (a b c : ascii) :
  utf8.rune3 a b c = true -> 128 <= nat_of_ascii b /\ 128 <= nat_of_ascii c.
Proof.
  unfold utf8.rune3. intros H. apply andb_prop in H. destruct H as [H Hc].
  split; [ | exact (cont_high c Hc) ].
  cbv beta zeta delta [utf8.cont utf8.within] in H. bounds; lia.
Qed.

Lemma rune4_high (a b c d : ascii) :
  utf8.rune4 a b c d = true ->
  128 <= nat_of_ascii b /\ 128 <= nat_of_ascii c /\ 128 <= nat_of_ascii d.
Proof.
  unfold utf8.rune4. intros H.
  apply andb_prop in H. destruct H as [H Hd].
  apply andb_prop in H. destruct H as [H Hc].
  split; [ | split; [ exact (cont_high c Hc) | exact (cont_high d Hd) ] ].
  cbv beta zeta delta [utf8.cont utf8.within] in H. bounds; lia.
Qed.

Lemma no_lt_escape1 (a : ascii) : no_lt (printer.escape1 a) = true.
Proof.
  unfold printer.escape1.
  repeat match goal with
         | |- context [if ?c then _ else _] => destruct c eqn:?; [ reflexivity | ]
         end.
  cbn [no_lt]. rewrite andb_true_r. apply negb_true_iff.
  destruct (Ascii.eqb_spec a "<") as [-> | ]; [ discriminate | reflexivity ].
Qed.

Lemma no_lt_RuneError (s : string) : no_lt (utf8.RuneError ++ s) = no_lt s.
Proof. reflexivity. Qed.

Lemma no_lt_escapeText_bounded (n : nat) :
  forall s : string, String.length s <= n -> no_lt (printer.escapeText s) = true.
Proof.
  induction n as [ | n IH]; intros s Hlen.
  - destruct s; [ reflexivity | simpl in Hlen; lia ].
  - destruct s as [ | a s1]; [ reflexivity | ].
    simpl in Hlen.
    assert (H1 : no_lt (printer.escapeText s1) = true) by (apply IH; lia).
    cbn [printer.escapeText].
    destruct (utf8.rune1 a) eqn:Ea.
    { rewrite no_lt_app, no_lt_escape1. exact H1. }
    pose proof (high_not_lt a (rune1_false_high a Ea)) as Ha.
    destruct s1 as [ | b s2]; [ reflexivity | ].
    simpl in Hlen.
    destruct (utf8.rune2 a b) eqn:Eb.
    { cbn [no_lt]. rewrite Ha, (high_not_lt b (rune2_high a b Eb)).
      apply IH. lia. }
    destruct s2 as [ | c s3].
    { rewrite no_lt_RuneError. exact H1. }
    simpl in Hlen.
    destruct (utf8.rune3 a b c) eqn:Ec.
    { destruct (printer.out_of_range3 a b c).
      - rewrite no_lt_RuneError. apply IH. lia.
      - destruct (rune3_high a b c Ec) as [Hb Hc].
        cbn [no_lt]. rewrite Ha, (high_not_lt b Hb), (high_not_lt c Hc).
        apply IH. lia. }
    destruct s3 as [ | d s4].
    { rewrite no_lt_RuneError. exact H1. }
    simpl in Hlen.
    destruct (utf8.rune4 a b c d) eqn:Ed.
    { destruct (rune4_high a b c d Ed) as [Hb [Hc Hd]].
      cbn [no_lt].
      rewrite Ha, (high_not_lt b Hb), (high_not_lt c Hc), (high_not_lt d Hd).
      apply IH. lia. }
    rewrite no_lt_RuneError. exact H1.
Qed.

Lemma no_lt_escapeText (s : string) : no_lt (printer.escapeText s) = true.
Proof.
  apply (no_lt_escapeText_bounded (String.length s)). lia.
Qed.

(** *** Start tags hold one [<], the first byte *)

Definition clean_names (ns : printer.names) : bool :=
  forallb (fun e : string * string => no_lt (snd e)) (printer.attrPrefix ns).

Lemma no_lt_get (m : printer.smap) (k : string) :
  forallb (fun e : string * string => no_lt (snd e)) m = true ->
  no_lt (printer.get m k) = true.
Proof.
  induction m as [ | [k' v] m IH]; intros H; [ reflexivity | ].
  simpl in H. apply andb_prop in H. destruct H as [Hv Hm].
  cbn [printer.get]. destruct (String.eqb k' k); [ exact Hv | exact (IH Hm) ].
Qed.

Lemma clean_filter (f : string * string -> bool) (m : printer.smap) :
  forallb (fun e : string * string => no_lt (snd e)) m = true ->
  forallb (fun e : string * string => no_lt (snd e)) (filter f m) = true.
Proof.
  induction m as [ | e m IH]; intros H; [ reflexivity | ].
  simpl in H. apply andb_prop in H. destruct H as [He Hm].
  cbn [filter]. destruct (f e); [ | exact (IH Hm) ].
  cbn [forallb]. rewrite He, (IH Hm). reflexivity.
Qed.

Lemma nameChar_not_lt (c : ascii) : printer.nameChar c = true -> Ascii.eqb c "<" = false.
Proof.
  intros H. destruct (Ascii.eqb_spec c "<") as [-> | ]; [ | reflexivity ].
  vm_compute in H. discriminate.
Qed.

Lemma allChars_no_lt (s : string) :
  printer.allChars printer.nameChar s = true -> no_lt s = true.
Proof.
  induction s as [ | c s IH]; intros H; [ reflexivity | ].
  simpl in H. apply andb_prop in H. destruct H as [Hc Hs].
  cbn [no_lt]. rewrite (nameChar_not_lt c Hc), (IH Hs). reflexivity.
Qed.

Lemma isName_no_lt (s : string) : printer.isName s = true -> no_lt s = true.
Proof.
  destruct s as [ | c s]; [ discriminate | ].
  unfold printer.isName. intros H. apply andb_prop in H. destruct H as [Hc Hs].
  cbn [no_lt]. rewrite (allChars_no_lt s Hs), andb_true_r.
  apply negb_true_iff, nameChar_not_lt.
  unfold printer.nameChar. rewrite Hc. reflexivity.
Qed.

Lemma no_lt_string_of_uint (d : Decimal.uint) :
  no_lt (NilEmpty.string_of_uint d) = true.
Proof.
  induction d; simpl; try reflexivity; exact IHd.
Qed.

Lemma no_lt_freshPrefix (fuel : nat) (m : printer.smap) (prefix : string) :
  no_lt prefix = true ->
  forall seq : nat, no_lt (fst (printer.freshPrefix fuel m prefix seq)) = true.
Proof.
  intros Hp.
  assert (Hid : forall seq, no_lt (prefix ++ "_" ++ printer.Itoa seq) = true).
  { intros seq. rewrite !no_lt_app, Hp. unfold printer.Itoa.
    rewrite no_lt_string_of_uint. reflexivity. }
  induction fuel as [ | fuel IH]; intros seq; cbn [printer.freshPrefix].
  - apply Hid.
  - destruct (String.eqb (printer.get m (prefix ++ "_" ++ printer.Itoa seq)) "").
    + apply Hid.
    + apply IH.
Qed.

Lemma createAttrPrefix_clean (ns : printer.names) (url : string) :
  clean_names ns = true ->
  no_lt (fst (fst (printer.createAttrPrefix ns url))) = true /\
  no_lt (snd (fst (printer.createAttrPrefix ns url))) = true /\
  clean_names (snd (printer.createAttrPrefix ns url)) = true.
Proof.
  intros Hns. unfold printer.createAttrPrefix.
  destruct (negb (String.eqb (printer.get (printer.attrPrefix ns) url) "")).
  { cbn [fst snd]. repeat split; [ exact (no_lt_get _ _ Hns) | exact Hns ]. }
  destruct (String.eqb url printer.xmlURL).
  { cbn [fst snd]. repeat split. exact Hns. }
  set (p0 := printer.afterLastSlash (printer.trimSlashes url)).
  set (p1 := if String.eqb p0 "" || negb (printer.isName p0) || strings.Contains p0 ":"
             then "_" else p0).
  assert (H1 : no_lt p1 = true).
  { subst p1. destruct (String.eqb p0 ""); [ reflexivity | ].
    destruct (printer.isName p0) eqn:E; [ | reflexivity ].
    cbn [negb orb]. destruct (strings.Contains p0 ":"); [ reflexivity | ].
    exact (isName_no_lt p0 E). }
  set (p2 := if (3 <=? String.length p1)%nat
                && String.eqb (encoding_json.foldName (substring 0 3 p1)) "XML"
             then ("_" ++ p1)%string else p1).
  assert (H2 : no_lt p2 = true).
  { subst p2.
    destruct ((3 <=? String.length p1)%nat
              && String.eqb (encoding_json.foldName (substring 0 3 p1)) "XML");
      [ exact H1 | exact H1 ]. }
  pose proof (no_lt_freshPrefix (length (printer.attrNS ns)) (printer.attrNS ns)
                                p2 H2 (S (printer.seq ns))) as H3.
  destruct (negb (String.eqb (printer.get (printer.attrNS ns) p2) "")).
  - destruct (printer.freshPrefix (length (printer.attrNS ns)) (printer.attrNS ns)
                                  p2 (S (printer.seq ns))) as [p3 seq'].
    cbn [fst snd] in *. unfold clean_names, printer.put.
    cbn [printer.attrPrefix forallb snd].
    rewrite !no_lt_app, H3, no_lt_escapeText, (clean_filter _ _ Hns).
    repeat split.
  - cbn [fst snd]. unfold clean_names, printer.put.
    cbn [printer.attrPrefix forallb snd].
    rewrite !no_lt_app, H2, no_lt_escapeText, (clean_filter _ _ Hns).
    repeat split.
Qed.

Lemma popPrefixes_clean (ps : list string) :
  forall ap an : printer.smap,
    forallb (fun e : string * string => no_lt (snd e)) ap = true ->
    forallb (fun e : string * string => no_lt (snd e))
            (snd (fst (printer.popPrefixes ps ap an))) = true.
Proof.
  induction ps as [ | p ps IH]; intros ap an H; cbn [printer.popPrefixes].
  - exact H.
  - destruct (String.eqb p ""); [ exact H | ].
    apply IH. unfold printer.delete. apply clean_filter. exact H.
Qed.

Lemma popPrefix_clean (ns : printer.names) :
  clean_names ns = true -> clean_names (printer.popPrefix ns) = true.
Proof.
  intros H. unfold printer.popPrefix.
  pose proof (popPrefixes_clean (printer.prefixes ns) (printer.attrPrefix ns)
                                (printer.attrNS ns) H) as Hp.
  destruct (printer.popPrefixes (printer.prefixes ns) (printer.attrPrefix ns)
                                (printer.attrNS ns)) as [[ps ap] an].
  exact Hp.
Qed.

Definition clean_attrs (attrs : list (xml.Name * string)) : bool :=
  forallb (fun a : xml.Name * string => no_lt (xml.Local (fst a))) attrs.

(** Nothing, or a blank and more. *)
Definition after_blank (s : string) : bool :=
  match s with
  | EmptyString => true
  | String c _ => Ascii.eqb c " "
  end.

Ltac pieces :=
  do 8 (try rewrite !no_lt_app; cbn [append no_lt printer.quote]).

Lemma writeAttrs_clean (attrs : list (xml.Name * string)) :
  clean_attrs attrs = true ->
  forall ns : printer.names,
    clean_names ns = true ->
    no_lt (fst (printer.writeAttrs ns attrs)) = true /\
    after_blank (fst (printer.writeAttrs ns attrs)) = true /\
    clean_names (snd (printer.writeAttrs ns attrs)) = true.
Proof.
  induction attrs as [ | [name v] attrs IH]; intros Ha ns Hns.
  - repeat split. exact Hns.
  - simpl in Ha. apply andb_prop in Ha. destruct Ha as [Hn Ha].
    cbn [printer.writeAttrs].
    destruct (String.eqb (xml.Local name) ""); [ exact (IH Ha ns Hns) | ].
    destruct (String.eqb (xml.Space name) "").
    + destruct (IH Ha ns Hns) as [H1 [_ H3]].
      destruct (printer.writeAttrs ns attrs) as [rest ns2].
      cbn [fst snd] in *.
      repeat split; [ | exact H3 ].
      pieces. rewrite Hn, no_lt_escapeText, H1. reflexivity.
    + destruct (createAttrPrefix_clean ns (xml.Space name) Hns) as [Hp [Hd Hns1]].
      destruct (printer.createAttrPrefix ns (xml.Space name)) as [[prefix decl] ns1].
      cbn [fst snd] in *.
      destruct (IH Ha ns1 Hns1) as [H1 [_ H3]].
      destruct (printer.writeAttrs ns1 attrs) as [rest ns2].
      cbn [fst snd] in *.
      repeat split; [ | exact H3 ].
      pieces. rewrite Hd, Hp, Hn, no_lt_escapeText, H1. reflexivity.
Qed.

(** A start tag is [<], the name, and a rest without [<] that begins with
    a blank or with [>]. *)
Lemma startTag_clean (ns : printer.names) (name : xml.Name)
      (attrs : list (xml.Name * string)) :
  clean_names ns = true -> clean_attrs attrs = true ->
  clean_names (snd (printer.startTag ns name attrs)) = true /\
  exists rest : string,
    fst (printer.startTag ns name attrs) = ("<" ++ xml.Local name ++ rest)%string /\
    no_lt rest = true /\
    (strings.HasPrefix rest " " = true \/ strings.HasPrefix rest ">" = true).
Proof.
  intros Hns Ha. unfold printer.startTag.
  assert (Hm : clean_names (printer.markPrefix ns) = true) by exact Hns.
  destruct (writeAttrs_clean attrs Ha (printer.markPrefix ns) Hm) as [H1 [H2 H3]].
  destruct (printer.writeAttrs (printer.markPrefix ns) attrs) as [atext ns'].
  cbn [fst snd] in *.
  split; [ exact H3 | ].
  destruct (String.eqb (xml.Space name) "").
  - exists (atext ++ ">")%string. split; [ reflexivity | ].
    split; [ rewrite no_lt_app, H1; reflexivity | ].
    destruct atext as [ | c atext]; [ right; reflexivity | ].
    left. cbn [after_blank] in H2. cbn. rewrite H2. reflexivity.
  - eexists. split; [ reflexivity | ].
    split; [ | left; reflexivity ].
    pieces. rewrite no_lt_escapeText, H1. reflexivity.
Qed.

(** *** Trees whose tags no marker matches *)

Section Markers.

(** The markers to keep clear of, each by the text that follows its
    [<]. *)
Variable avoid : list string.

(** No marker starts with [/] or [?]. *)
Hypothesis avoid_words :
  forallb (fun w => clash "/" w && clash "?" w) avoid = true.

(** An element name no marker matches, whether a blank or [>] follows
    it. *)
Definition good (n : string) : bool :=
  no_lt n
  && forallb (fun w => clash (n ++ " ") w && clash (n ++ ">") w) avoid.

Fixpoint clean_node (n : xmlnode) : bool :=
  match n with
  | CharData _ => true
  | Element name attrs children =>
      good (xml.Local name) && clean_attrs attrs && forallb clean_node children
  end.

Lemma good_tag (n rest w : string) :
  good n = true -> In w avoid ->
  no_lt rest = true ->
  strings.HasPrefix rest " " = true \/ strings.HasPrefix rest ">" = true ->
  passes (String "<" w) ("<" ++ n ++ rest).
Proof.
  intros Hg Hw Hrest Hfirst.
  unfold good in Hg. apply andb_prop in Hg. destruct Hg as [Hn Hc].
  rewrite forallb_forall in Hc. specialize (Hc w Hw).
  apply andb_prop in Hc. destruct Hc as [Hblank Hgt].
  change ("<" ++ n ++ rest)%string with (String "<" (n ++ rest)).
  apply passes_tag; [ | rewrite no_lt_app, Hn, Hrest; reflexivity ].
  cbn [clash]. rewrite Ascii.eqb_refl. cbn [negb orb].
  destruct rest as [ | c rest]; [ destruct Hfirst; discriminate | ].
  cbn [strings.HasPrefix] in Hfirst.
  assert (E : (n ++ String c rest = (n ++ String c "") ++ rest)%string).
  { rewrite append_assoc. reflexivity. }
  rewrite E. apply clash_app.
  destruct Hfirst as [H | H]; rewrite andb_true_r in H;
    apply Ascii.eqb_eq in H; subst c; assumption.
Qed.

Lemma endTag_passes (name : xml.Name) (w : string) :
  no_lt (xml.Local name) = true -> In w avoid ->
  passes (String "<" w) (printer.endTag name).
Proof.
  intros Hn Hw. unfold printer.endTag.
  pose proof avoid_words as Ha. rewrite forallb_forall in Ha.
  specialize (Ha w Hw). apply andb_prop in Ha. destruct Ha as [Hslash _].
  change ("</" ++ xml.Local name ++ ">")%string
    with (String "<" (String "/" (xml.Local name ++ ">"))).
  apply passes_tag.
  - cbn [clash]. rewrite Ascii.eqb_refl. cbn [negb orb].
    destruct w as [ | c w]; [ discriminate Hslash | ].
    cbn [clash] in *. destruct (Ascii.eqb "/" c); [ discriminate Hslash | reflexivity ].
  - cbn [no_lt]. rewrite no_lt_app, Hn. reflexivity.
Qed.

Variables prefix indent : string.

Hypothesis prefix_no_lt : no_lt prefix = true.
Hypothesis indent_no_lt : no_lt indent = true.

Lemma no_lt_margin (d : nat) : no_lt (margin prefix indent d) = true.
Proof.
  unfold margin. cbn [printer.newline append no_lt].
  rewrite no_lt_app, prefix_no_lt.
  induction d as [ | d IH]; [ reflexivity | ].
  cbn [printer.repeat_string]. cbn [andb] in IH. rewrite no_lt_app, indent_no_lt.
  exact IH.
Qed.

Definition laid_out_clear (n : xmlnode) : Prop :=
  clean_node n = true ->
  forall (d : nat) (ns : printer.names),
    clean_names ns = true ->
    (forall w, In w avoid ->
               passes (String "<" w) (fst (layout prefix indent d ns n))) /\
    clean_names (snd (layout prefix indent d ns n)) = true.

Lemma children_laid_out_clear (cs : list xmlnode) :
  Forall laid_out_clear cs ->
  forallb clean_node cs = true ->
  forall (d : nat) (ns : printer.names),
    clean_names ns = true ->
    (forall w, In w avoid ->
               passes (String "<" w) (fst (layout_children prefix indent d cs ns))) /\
    clean_names (snd (layout_children prefix indent d cs ns)) = true.
Proof.
  induction 1 as [ | c cs Hc Hcs IH]; intros Hclean d ns Hns.
  - split; [ intros w _; apply passes_empty | exact Hns ].
  - simpl in Hclean. apply andb_prop in Hclean. destruct Hclean as [Hcc Hclean].
    cbn [layout_children].
    destruct (Hc Hcc d ns Hns) as [H1 H2].
    destruct (layout prefix indent d ns c) as [x ns'].
    cbn [fst snd] in *.
    destruct (IH Hclean d ns' H2) as [H3 H4].
    destruct (layout_children prefix indent d cs ns') as [xs ns''].
    cbn [fst snd] in *.
    split; [ | exact H4 ].
    intros w Hw. apply passes_app; [ | apply passes_app; auto ].
    destruct (is_element c); [ | apply passes_empty ].
    apply passes_no_lt, no_lt_margin.
Qed.

Lemma every_node_laid_out_clear (n : xmlnode) : laid_out_clear n.
Proof.
  induction n as [name attrs children IH | s] using xmlnode_ind;
    intros Hclean d ns Hns.
  - cbn [clean_node] in Hclean.
    apply andb_prop in Hclean. destruct Hclean as [Hclean Hchildren].
    apply andb_prop in Hclean. destruct Hclean as [Hgood Hattrs].
    rewrite layout_Element.
    destruct (startTag_clean ns name attrs Hns Hattrs)
      as [Hns1 [rest [Hopen [Hrest Hfirst]]]].
    destruct (printer.startTag ns name attrs) as [open ns1].
    cbn [fst snd] in *.
    destruct (children_laid_out_clear children
                (proj2 (Forall_forall _ _) (list_all_In _ _ _ IH))
                Hchildren (S d) ns1 Hns1) as [Hbody Hns2].
    destruct (layout_children prefix indent (S d) children ns1) as [body ns2].
    cbn [fst snd] in *.
    split; [ | exact (popPrefix_clean ns2 Hns2) ].
    intros w Hw. subst open.
    assert (Hn : no_lt (xml.Local name) = true).
    { unfold good in Hgood. apply andb_prop in Hgood. exact (proj1 Hgood). }
    apply passes_app; [ exact (good_tag _ _ _ Hgood Hw Hrest Hfirst) | ].
    apply passes_app; [ exact (Hbody w Hw) | ].
    apply passes_app; [ | exact (endTag_passes name w Hn Hw) ].
    destruct (existsb is_element children); [ | apply passes_empty ].
    apply passes_no_lt, no_lt_margin.
  - split; [ | exact Hns ].
    intros w Hw. cbn [layout fst]. apply passes_no_lt, no_lt_escapeText.
Qed.

End Markers.

(** *** The trees the encoder emits *)

Section Emitted.

Variable avoid : list string.

(** The structs that may occur below the root of a document. *)
Variable known : list string.

Definition type_ok (t : gotype) : bool :=
  match t with
  | TString => true
  | TStruct n | TPtr n => existsb (String.eqb n) known
  | TSlice TString => true
  | TSlice (TStruct n) => existsb (String.eqb n) known
  | _ => false
  end.

(** A field that can only give [good] element names: its own, and those
    of the struct it leads to. *)
Definition field_ok (f : field) : bool :=
  if encoding_xml.is_XMLName f
  then negb (String.eqb (encoding_xml.xml_tag_name f) "")
       && good avoid (encoding_xml.xml_tag_name f)
  else match xml_mode (xml_tag f) with
       | fAttr => no_lt (xml_name (xml_tag f))
       | fCharData => true
       | fElement => good avoid (xml_name (xml_tag f)) && type_ok (field_type f)
       end.

Definition struct_ok (n : string) : bool := forallb field_ok (fields_of n).

Hypothesis known_ok : forallb struct_ok known = true.
Hypothesis good_Space : good avoid "Space" = true.
Hypothesis good_Local : good avoid "Local" = true.

Definition fields_ok_of (t : gotype) : bool :=
  match t with
  | TString => true
  | TStruct n | TPtr n => struct_ok n
  | TSlice TString => true
  | TSlice (TStruct n) => struct_ok n
  | _ => false
  end.

Definition name_ok (t : gotype) (finfo : option xmlinfo) : bool :=
  match finfo, t with
  | Some fi, _ => good avoid (xml_name fi)
  | None, TStruct n => good avoid n
  | None, _ => false
  end.

Lemma known_struct_ok (n : string) :
  existsb (String.eqb n) known = true -> struct_ok n = true.
Proof.
  intros H. apply existsb_exists in H. destruct H as [m [Hm E]].
  apply String.eqb_eq in E. subst m.
  pose proof known_ok as Hk. rewrite forallb_forall in Hk. exact (Hk n Hm).
Qed.

Lemma type_ok_fields (t : gotype) : type_ok t = true -> fields_ok_of t = true.
Proof.
  destruct t as [ | | n | n | e]; try (intros H; exact H || discriminate H);
    try exact (known_struct_ok n).
  destruct e as [ | | n | n | e']; try (intros H; exact H || discriminate H).
  exact (known_struct_ok n).
Qed.

Lemma struct_fields_ok (t : gotype) :
  fields_ok_of t = true -> forallb field_ok (encoding_json.struct_fields t) = true.
Proof.
  destruct t; try reflexivity. intros H. exact H.
Qed.

Lemma xmlname_field_found (fs : list field) :
  forall (vs : list value) (f : field) (v : value),
    encoding_xml.xmlname_field fs vs = Some (f, v) ->
    In f fs /\ encoding_xml.is_XMLName f = true.
Proof.
  induction fs as [ | g fs IH]; intros vs f v H; [ discriminate H | ].
  destruct vs as [ | x vs]; [ discriminate H | ].
  cbn [encoding_xml.xmlname_field] in H.
  destruct (String.eqb (field_name g) "XMLName") eqn:E.
  - injection H as <- _. split; [ left; reflexivity | exact E ].
  - destruct (IH vs f v H) as [Hin Hx]. split; [ right; exact Hin | exact Hx ].
Qed.

Lemma start_name_good (t : gotype) (finfo : option xmlinfo) (v : value) :
  fields_ok_of t = true -> name_ok t finfo = true ->
  good avoid (xml.Local (encoding_xml.start_name t finfo v)) = true.
Proof.
  intros Hfs Hname.
  assert (Hfallback :
            good avoid
                 (xml.Local
                    match finfo, t with
                    | Some fi, _ => xml.mkName (xml_xmlns fi) (xml_name fi)
                    | None, TStruct name => xml.mkName "" name
                    | None, _ => xml.mkName "" ""
                    end) = true).
  { destruct finfo as [fi | ]; [ exact Hname | ].
    destruct t; try discriminate Hname. exact Hname. }
  unfold encoding_xml.start_name.
  destruct v as [s | n | vs | p | l]; try exact Hfallback.
  destruct (encoding_xml.xmlname_field (encoding_json.struct_fields t) vs)
    as [[f n] | ] eqn:E; [ | exact Hfallback ].
  destruct (xmlname_field_found _ _ _ _ E) as [Hin Hx].
  pose proof (struct_fields_ok t Hfs) as Hok.
  rewrite forallb_forall in Hok. specialize (Hok f Hin).
  unfold field_ok in Hok. rewrite Hx in Hok.
  apply andb_prop in Hok. destruct Hok as [Hne Hg].
  rewrite Hne. exact Hg.
Qed.

Lemma attributes_clean (vs : list value) :
  forall fs : list field,
    forallb field_ok fs = true ->
    clean_attrs (encoding_xml.attributes fs vs) = true.
Proof.
  induction vs as [ | v vs IH]; intros fs Hfs; [ reflexivity | ].
  destruct fs as [ | f fs]; [ reflexivity | ].
  simpl in Hfs. apply andb_prop in Hfs. destruct Hfs as [Hf Hfs].
  cbn [encoding_xml.attributes].
  destruct (xml_mode (xml_tag f)) eqn:M; try exact (IH fs Hfs).
  destruct v as [s | | | | ]; try exact (IH fs Hfs).
  destruct (encoding_xml.is_XMLName f) eqn:X; [ exact (IH fs Hfs) | ].
  cbn [orb].
  destruct (xml_omitEmpty (xml_tag f) && isEmptyValue (VString s));
    [ exact (IH fs Hfs) | ].
  unfold clean_attrs. cbn [forallb fst xml.Local].
  unfold field_ok in Hf. rewrite X, M in Hf. rewrite Hf.
  exact (IH fs Hfs).
Qed.

Definition emits_clean (v : value) : Prop :=
  forall (t : gotype) (finfo : option xmlinfo),
    fields_ok_of t = true -> name_ok t finfo = true ->
    forallb (clean_node avoid) (encoding_xml.marshalValue t finfo v) = true.

Lemma content_clean (vs : list value) :
  Forall emits_clean vs ->
  forall fs : list field,
    forallb field_ok fs = true ->
    forallb (clean_node avoid) (content fs vs) = true.
Proof.
  induction 1 as [ | v vs Hv Hvs IH]; intros fs Hfs; [ reflexivity | ].
  destruct fs as [ | f fs]; [ reflexivity | ].
  simpl in Hfs. apply andb_prop in Hfs. destruct Hfs as [Hf Hfs].
  cbn [content].
  destruct (encoding_xml.is_XMLName f) eqn:X; [ exact (IH fs Hfs) | ].
  unfold field_ok in Hf. rewrite X in Hf.
  destruct (xml_mode (xml_tag f)).
  - apply andb_prop in Hf. destruct Hf as [Hg Ht].
    rewrite forallb_app, (IH fs Hfs), andb_true_r.
    exact (Hv (field_type f) (Some (xml_tag f)) (type_ok_fields _ Ht) Hg).
  - exact (IH fs Hfs).
  - destruct v; exact (IH fs Hfs).
Qed.

Lemma name_ok_pointee (t : gotype) (finfo : option xmlinfo) :
  name_ok t finfo = true -> name_ok (encoding_json.pointee t) finfo = true.
Proof.
  destruct finfo as [fi | ]; [ intros H; exact H | ].
  destruct t; intros H; try discriminate H; exact H.
Qed.

Lemma name_ok_elem (t : gotype) (finfo : option xmlinfo) :
  name_ok t finfo = true -> name_ok (encoding_json.elem t) finfo = true.
Proof.
  destruct finfo as [fi | ]; [ intros H; exact H | ].
  destruct t; intros H; try discriminate H; exact H.
Qed.

Lemma fields_ok_pointee (t : gotype) :
  fields_ok_of t = true -> fields_ok_of (encoding_json.pointee t) = true.
Proof.
  destruct t; intros H; exact H.
Qed.

Lemma fields_ok_elem (t : gotype) :
  fields_ok_of t = true -> fields_ok_of (encoding_json.elem t) = true.
Proof.
  destruct t as [ | | n | n | e]; intros H; try exact H.
  destruct e; try discriminate H; try reflexivity. exact H.
Qed.

Lemma every_value_emits_clean (v : value) : emits_clean v.
Proof.
  induction v as [s | n | vs IH | p IH | l IH] using value_ind;
    intros t finfo Hfs Hname.
  - cbn [encoding_xml.marshalValue].
    destruct (encoding_xml.omitted finfo (VString s)); [ reflexivity | ].
    cbn [forallb clean_node clean_attrs].
    rewrite (start_name_good t finfo (VString s) Hfs Hname). reflexivity.
  - cbn [encoding_xml.marshalValue].
    destruct (encoding_xml.omitted finfo (VName n)); [ reflexivity | ].
    cbn [forallb clean_node clean_attrs xml.Local].
    rewrite (start_name_good t finfo (VName n) Hfs Hname), good_Space, good_Local.
    reflexivity.
  - rewrite marshalValue_struct.
    destruct (encoding_xml.omitted finfo (VStruct vs)); [ reflexivity | ].
    cbn [forallb clean_node].
    rewrite (start_name_good t finfo (VStruct vs) Hfs Hname).
    rewrite (attributes_clean vs _ (struct_fields_ok t Hfs)).
    rewrite (content_clean vs (proj2 (Forall_forall _ _) (list_all_In _ _ _ IH))
                           _ (struct_fields_ok t Hfs)).
    reflexivity.
  - cbn [encoding_xml.marshalValue].
    destruct (encoding_xml.omitted finfo (VPtr p)); [ reflexivity | ].
    destruct IH as [v' Hv' | ]; [ | reflexivity ].
    exact (Hv' _ finfo (fields_ok_pointee t Hfs) (name_ok_pointee t finfo Hname)).
  - cbn [encoding_xml.marshalValue].
    destruct (encoding_xml.omitted finfo (VSlice l)); [ reflexivity | ].
    pose proof (list_all_In _ _ _ IH) as H. cbv beta in H.
    clear IH. induction l as [ | v l IHl]; [ reflexivity | ].
    cbn [flat_map]. rewrite forallb_app.
    rewrite IHl by (intros x Hx; apply H; right; exact Hx).
    rewrite andb_true_r.
    exact (H v (or_introl eq_refl) _ finfo (fields_ok_elem t Hfs)
             (name_ok_elem t finfo Hname)).
Qed.

End Emitted.

(** *** The four documents *)

Definition document_roots : list string :=
  ["Bill"; "Resolution"; "EngrossedAmendment"; "Amendment"].

(** Every declared struct but the four documents. *)
Definition below_the_root : list string :=
  filter (fun n => negb (existsb (String.eqb n) document_roots))
         (map fst declarations).

(** The markers the detector tries before it tries the marker of a
    resolution, of an engrossed amendment, of an amendment. *)
Definition before_resolution : list string := ["bill"].

Definition before_engrossedAmendment : list string :=
  ["bill"; "resolution "; "resolution>"].

Definition before_amendment : list string :=
  ["bill"; "resolution "; "resolution>"; "engrossedAmendment "; "engrossedAmendment>"].

(** What is checked of the declarations for a document type [name] and
    the markers tried before its own: no element name that can occur in
    the encoding, the root's among them, matches one of the markers. *)
Definition declarations_clear_of (avoid : list string) (name : string) : bool :=
  forallb (fun w => clash "/" w && clash "?" w) avoid
  && forallb (struct_ok avoid below_the_root) below_the_root
  && good avoid "Space" && good avoid "Local"
  && struct_ok avoid below_the_root name
  && good avoid name.

Lemma declarations_clear :
  declarations_clear_of before_resolution "Resolution" = true /\
  declarations_clear_of before_engrossedAmendment "EngrossedAmendment" = true /\
  declarations_clear_of before_amendment "Amendment" = true.
Proof. repeat split; vm_compute; reflexivity. Qed.

Lemma Header_passes (w : string) :
  clash "?" w = true -> passes (String "<" w) encoding_xml.Header.
Proof.
  intros H.
  change encoding_xml.Header
    with (String "<" (String "?" (substring 2 (String.length encoding_xml.Header)
                                            encoding_xml.Header))).
  apply passes_tag; [ | reflexivity ].
  cbn [clash]. rewrite Ascii.eqb_refl. cbn [negb orb].
  destruct w as [ | c w]; [ discriminate H | ].
  cbn [clash] in *. destruct (Ascii.eqb "?" c); [ discriminate H | reflexivity ].
Qed.

(** The encoding of a document holds none of the markers tried before
    its own. *)
Lemma encoded_clear_of (avoid : list string) (name : string) (v : value)
      (root : xmlnode) :
  declarations_clear_of avoid name = true ->
  encoding_xml.marshalValue (TStruct name) None v = [root] ->
  forall w : string,
    In w avoid ->
    strings.Contains
      (encoding_xml.Header ++ fst (layout "" "  " 0 printer.no_names root))
      (String "<" w) = false.
Proof.
  unfold declarations_clear_of. intros Hd Hroot w Hw.
  repeat (apply andb_prop in Hd; let H := fresh "H" in destruct Hd as [Hd H]).
  pose proof (every_value_emits_clean avoid below_the_root H3 H2 H1 v
                (TStruct name) None H0 H) as Hclean.
  rewrite Hroot in Hclean. cbn [forallb] in Hclean. rewrite andb_true_r in Hclean.
  destruct (every_node_laid_out_clear avoid Hd "" "  " eq_refl eq_refl root Hclean
              0 printer.no_names eq_refl) as [Hpass _].
  apply passes_nowhere; [ discriminate | ].
  apply passes_app; [ | exact (Hpass w Hw) ].
  apply Header_passes.
  rewrite forallb_forall in Hd. specialize (Hd w Hw).
  apply andb_prop in Hd. exact (proj2 Hd).
Qed.

(** The root start tag, whose first attribute is [xmlns], puts the
    document's own marker right behind the declaration. *)
Lemma encoded_holds_marker (local xmlns : string)
      (attrs : list (xml.Name * string)) (children : list xmlnode) :
  strings.Contains
    (encoding_xml.Header
     ++ fst (layout "" "  " 0 printer.no_names
                    (Element (xml.mkName "" local)
                             ((xml.mkName "" "xmlns", xmlns) :: attrs) children)))
    ("<" ++ local ++ " ") = true.
Proof.
  rewrite layout_Element. unfold printer.startTag.
  cbn [xml.Space xml.Local String.eqb printer.writeAttrs fst].
  destruct (printer.writeAttrs (printer.markPrefix printer.no_names) attrs)
    as [rest ns1].
  destruct (layout_children "" "  " 1 children ns1) as [body ns2].
  cbn [fst].
  match goal with
  | |- strings.Contains (_ ++ ("<" ++ local ++ "" ++ (" " ++ ?x) ++ ">") ++ ?tail) _
       = true =>
      replace (("<" ++ local ++ "" ++ (" " ++ x) ++ ">") ++ tail)%string
        with (("<" ++ local ++ " ") ++ (x ++ ">" ++ tail))%string
  end.
  - apply Contains_infix.
  - cbn [append]. rewrite !append_assoc. cbn [append].
    rewrite !append_assoc. reflexivity.
Qed.

(** The attributes of the three other root elements: the seven name space
    and language attributes of a bill and, on an engrossed amendment,
    [styleType] when it is not empty. *)
Definition Resolution_attributes (r : Resolution) : list (xml.Name * string) :=
  [(xml.mkName "" "xmlns", Resolution_XMLNS r);
   (xml.mkName "xmlns" "dc", Resolution_XMLNSDC r);
   (xml.mkName "xmlns" "html", Resolution_XMLNSHTML r);
   (xml.mkName "xmlns" "uslm", Resolution_XMLNSUSLM r);
   (xml.mkName "xmlns" "xsi", Resolution_XMLNSXSI r);
   (xml.mkName "xsi" "schemaLocation", Resolution_XSISchemaLocation r);
   (xml.mkName "xml" "lang", Resolution_XMLLang r)].

Definition EngrossedAmendment_attributes (e : EngrossedAmendment)
  : list (xml.Name * string) :=
  [(xml.mkName "" "xmlns", EngrossedAmendment_XMLNS e);
   (xml.mkName "xmlns" "dc", EngrossedAmendment_XMLNSDC e);
   (xml.mkName "xmlns" "html", EngrossedAmendment_XMLNSHTML e);
   (xml.mkName "xmlns" "uslm", EngrossedAmendment_XMLNSUSLM e);
   (xml.mkName "xmlns" "xsi", EngrossedAmendment_XMLNSXSI e)]
  ++ (if String.eqb (EngrossedAmendment_StyleType e) "" then []
      else [(xml.mkName "" "styleType", EngrossedAmendment_StyleType e)])
  ++ [(xml.mkName "xsi" "schemaLocation", EngrossedAmendment_XSISchemaLocation e);
      (xml.mkName "xml" "lang", EngrossedAmendment_XMLLang e)].

Definition Amendment_attributes (a : Amendment) : list (xml.Name * string) :=
  [(xml.mkName "" "xmlns", Amendment_XMLNS a);
   (xml.mkName "xmlns" "dc", Amendment_XMLNSDC a);
   (xml.mkName "xmlns" "html", Amendment_XMLNSHTML a);
   (xml.mkName "xmlns" "uslm", Amendment_XMLNSUSLM a);
   (xml.mkName "xmlns" "xsi", Amendment_XMLNSXSI a);
   (xml.mkName "xsi" "schemaLocation", Amendment_XSISchemaLocation a);
   (xml.mkName "xml" "lang", Amendment_XMLLang a)].

Lemma Resolution_root (r : Resolution) :
  exists children : list xmlnode,
    encoding_xml.marshalValue (TStruct "Resolution") None (reflect_Resolution r)
    = [Element (xml.mkName "" "resolution") (Resolution_attributes r) children].
Proof.
  destruct r as [n s1 s2 s3 s4 s5 s6 s7 meta preface main em].
  unfold reflect_Resolution. rewrite marshalValue_struct.
  cbn [encoding_xml.omitted].
  eexists. reflexivity.
Qed.

Lemma EngrossedAmendment_root (e : EngrossedAmendment) :
  exists children : list xmlnode,
    encoding_xml.marshalValue (TStruct "EngrossedAmendment") None
                              (reflect_EngrossedAmendment e)
    = [Element (xml.mkName "" "engrossedAmendment")
               (EngrossedAmendment_attributes e) children].
Proof.
  destruct e as [n s1 s2 s3 s4 s5 style s6 s7 meta preface main sig endorsement].
  unfold reflect_EngrossedAmendment. rewrite marshalValue_struct.
  cbn [encoding_xml.omitted].
  destruct style as [ | c style]; eexists; reflexivity.
Qed.

Lemma Amendment_root (a : Amendment) :
  exists children : list xmlnode,
    encoding_xml.marshalValue (TStruct "Amendment") None (reflect_Amendment a)
    = [Element (xml.mkName "" "amendment") (Amendment_attributes a) children].
Proof.
  destruct a as [n s1 s2 s3 s4 s5 s6 s7 meta preface main].
  unfold reflect_Amendment. rewrite marshalValue_struct.
  cbn [encoding_xml.omitted].
  eexists. reflexivity.
Qed.

Lemma bill_test_without_marker (out : string) :
  strings.Contains out "<bill" = false -> bill_test out = false.
Proof.
  intros H. unfold bill_test. rewrite H, andb_false_r, orb_false_r.
  destruct (strings.Contains out "<bill ") eqn:E; [ | reflexivity ].
  rewrite (Contains_shorter "<bill" " " out E) in H. discriminate H.
Qed.

(** X13: the sibling encoders.  For every resolution, engrossed amendment
    and amendment, the encoder of its type does not fail: it returns the
    XML declaration followed by the encoding laid out with two spaces per
    nesting level, whose root element is [resolution],
    [engrossedAmendment] or [amendment] and carries the name space and
    language attributes, [xmlns] first, none of them left out when empty;
    the root of an engrossed amendment also carries [styleType] when that
    is not empty. *)
Theorem sibling_encoders_never_fail :
  (forall r : Resolution,
      exists children : list xmlnode,
        encoding_xml.marshalValue (TStruct "Resolution") None (reflect_Resolution r)
        = [Element (xml.mkName "" "resolution") (Resolution_attributes r) children] /\
        MarshalResolutionToXML r
        = (Some (encoding_xml.Header
                 ++ fst (layout "" "  " 0 printer.no_names
                                (Element (xml.mkName "" "resolution")
                                         (Resolution_attributes r) children)))%string,
           None)) /\
  (forall e : EngrossedAmendment,
      exists children : list xmlnode,
        encoding_xml.marshalValue (TStruct "EngrossedAmendment") None
                                  (reflect_EngrossedAmendment e)
        = [Element (xml.mkName "" "engrossedAmendment")
                   (EngrossedAmendment_attributes e) children] /\
        MarshalEngrossedAmendmentToXML e
        = (Some (encoding_xml.Header
                 ++ fst (layout "" "  " 0 printer.no_names
                                (Element (xml.mkName "" "engrossedAmendment")
                                         (EngrossedAmendment_attributes e)
                                         children)))%string,
           None)) /\
  (forall a : Amendment,
      exists children : list xmlnode,
        encoding_xml.marshalValue (TStruct "Amendment") None (reflect_Amendment a)
        = [Element (xml.mkName "" "amendment") (Amendment_attributes a) children] /\
        MarshalAmendmentToXML a
        = (Some (encoding_xml.Header
                 ++ fst (layout "" "  " 0 printer.no_names
                                (Element (xml.mkName "" "amendment")
                                         (Amendment_attributes a) children)))%string,
           None)).
Proof.
  split; [ | split ].
  - intros r. destruct (Resolution_root r) as [children Hroot].
    exists children. split; [ exact Hroot | ].
    unfold MarshalResolutionToXML.
    rewrite (MarshalIndent_layout "Resolution" (reflect_Resolution r) "  " _
               ltac:(discriminate) ltac:(discriminate) Hroot eq_refl).
    reflexivity.
  - intros e. destruct (EngrossedAmendment_root e) as [children Hroot].
    exists children. split; [ exact Hroot | ].
    unfold MarshalEngrossedAmendmentToXML.
    rewrite (MarshalIndent_layout "EngrossedAmendment"
               (reflect_EngrossedAmendment e) "  " _
               ltac:(discriminate) ltac:(discriminate) Hroot eq_refl).
    reflexivity.
  - intros a. destruct (Amendment_root a) as [children Hroot].
    exists children. split; [ exact Hroot | ].
    unfold MarshalAmendmentToXML.
    rewrite (MarshalIndent_layout "Amendment" (reflect_Amendment a) "  " _
               ltac:(discriminate) ltac:(discriminate) Hroot eq_refl).
    reflexivity.
Qed.

(** X14: what an encoder writes, the detector recognises.  For every
    document of each of the four types, the bytes its encoder returns are
    detected as a document of that type: [DetectDocumentType] of the
    output of [MarshalBillToXML] is [DocumentTypeBill], and likewise for
    a resolution, an engrossed amendment and an amendment, whatever text
    the document holds (text and attribute values are escaped, and no
    element the package declares has a name that an earlier test of the
    detector matches). *)
Theorem encoded_documents_are_detected :
  (forall b : Bill,
      exists out : string,
        MarshalBillToXML b = (Some out, None) /\
        DetectDocumentType out = DocumentTypeBill) /\
  (forall r : Resolution,
      exists out : string,
        MarshalResolutionToXML r = (Some out, None) /\
        DetectDocumentType out = DocumentTypeResolution) /\
  (forall e : EngrossedAmendment,
      exists out : string,
        MarshalEngrossedAmendmentToXML e = (Some out, None) /\
        DetectDocumentType out = DocumentTypeEngrossedAmendment) /\
  (forall a : Amendment,
      exists out : string,
        MarshalAmendmentToXML a = (Some out, None) /\
        DetectDocumentType out = DocumentTypeAmendment).
Proof.
  destruct declarations_clear as [Hr [He Ha]].
  split; [ | split; [ | split ] ].
  - intros b. destruct (Bill_root b) as [children Hroot].
    eexists. split.
    + unfold MarshalBillToXML.
      rewrite (MarshalIndent_layout "Bill" (reflect_Bill b) "  " _
                 ltac:(discriminate) ltac:(discriminate) Hroot eq_refl).
      reflexivity.
    + rewrite DetectDocumentType_tests. unfold bill_test.
      unfold Bill_attributes.
      rewrite (encoded_holds_marker "bill"). reflexivity.
  - intros r. destruct (Resolution_root r) as [children Hroot].
    eexists. split.
    + unfold MarshalResolutionToXML.
      rewrite (MarshalIndent_layout "Resolution" (reflect_Resolution r) "  " _
                 ltac:(discriminate) ltac:(discriminate) Hroot eq_refl).
      reflexivity.
    + pose proof (encoded_clear_of _ _ _ _ Hr Hroot) as Hclear.
      rewrite DetectDocumentType_tests.
      rewrite bill_test_without_marker
        by (apply (Hclear "bill"); simpl; tauto).
      unfold tag_test, Resolution_attributes.
      rewrite (encoded_holds_marker "resolution"). reflexivity.
  - intros e. destruct (EngrossedAmendment_root e) as [children Hroot].
    eexists. split.
    + unfold MarshalEngrossedAmendmentToXML.
      rewrite (MarshalIndent_layout "EngrossedAmendment"
                 (reflect_EngrossedAmendment e) "  " _
                 ltac:(discriminate) ltac:(discriminate) Hroot eq_refl).
      reflexivity.
    + pose proof (encoded_clear_of _ _ _ _ He Hroot) as Hclear.
      rewrite DetectDocumentType_tests.
      rewrite bill_test_without_marker
        by (apply (Hclear "bill"); simpl; tauto).
      unfold tag_test at 1. cbn [append].
      rewrite (Hclear "resolution ") by (simpl; tauto).
      rewrite (Hclear "resolution>") by (simpl; tauto).
      cbn [orb].
      unfold tag_test, EngrossedAmendment_attributes. cbn [app].
      rewrite (encoded_holds_marker "engrossedAmendment"). reflexivity.
  - intros a. destruct (Amendment_root a) as [children Hroot].
    eexists. split.
    + unfold MarshalAmendmentToXML.
      rewrite (MarshalIndent_layout "Amendment" (reflect_Amendment a) "  " _
                 ltac:(discriminate) ltac:(discriminate) Hroot eq_refl).
      reflexivity.
    + pose proof (encoded_clear_of _ _ _ _ Ha Hroot) as Hclear.
      rewrite DetectDocumentType_tests.
      rewrite bill_test_without_marker
        by (apply (Hclear "bill"); simpl; tauto).
      unfold tag_test at 1. cbn [append].
      rewrite (Hclear "resolution ") by (simpl; tauto).
      rewrite (Hclear "resolution>") by (simpl; tauto).
      cbn [orb].
      unfold tag_test at 1. cbn [append].
      rewrite (Hclear "engrossedAmendment ") by (simpl; tauto).
      rewrite (Hclear "engrossedAmendment>") by (simpl; tauto).
      cbn [orb].
      unfold tag_test, Amendment_attributes.
      rewrite (encoded_holds_marker "amendment"). reflexivity.
Qed.

(** ** The decoder, continued *)

Lemma wrong_root_is_refused (n expected : string) (f : field) :
  decoder.first_field encoding_xml.is_XMLName (fields_of n) 0 = Some (0, f) ->
  encoding_xml.xml_tag_name f = expected ->
  expected <> "" ->
  forall (depth : N) (name : xml.Name) (attrs : list (xml.Name * string))
         (children : list xmlnode) (cur : value),
    xml.Local name <> expected ->
    decoder.unmarshal (TStruct n) depth (Element name attrs children) cur = None.
Proof.
  intros Hfirst Htag Hne depth name attrs children cur Hname.
  rewrite unmarshal_struct_Element.
  destruct (decoder.maxUnmarshalDepth <=? depth)%N; [ reflexivity | ].
  unfold structure, decoder.record_name. rewrite Hfirst, Htag.
  apply String.eqb_neq in Hne. rewrite Hne.
  assert (E : String.eqb expected (xml.Local name) = false).
  { apply String.eqb_neq. intros E. apply Hname. symmetry. exact E. }
  rewrite E. reflexivity.
Qed.

(** X15: each document type is decoded only from its own root element.
    Decoding into a [Bill] an element whose local name is not [bill] is
    an error, whatever the element holds, at whatever depth and into
    whatever destination; so it is for [Resolution] and [resolution],
    [EngrossedAmendment] and [engrossedAmendment], [Amendment] and
    [amendment].  The name space of the element is not looked at. *)
Theorem decoder_refuses_a_foreign_root
        (depth : N) (name : xml.Name) (attrs : list (xml.Name * string))
        (children : list xmlnode) (cur : value) :
  (xml.Local name <> "bill" ->
   decoder.unmarshal (TStruct "Bill") depth (Element name attrs children) cur
   = None) /\
  (xml.Local name <> "resolution" ->
   decoder.unmarshal (TStruct "Resolution") depth (Element name attrs children) cur
   = None) /\
  (xml.Local name <> "engrossedAmendment" ->
   decoder.unmarshal (TStruct "EngrossedAmendment") depth
                     (Element name attrs children) cur
   = None) /\
  (xml.Local name <> "amendment" ->
   decoder.unmarshal (TStruct "Amendment") depth (Element name attrs children) cur
   = None).
Proof.
  repeat split; intros Hname;
    eapply wrong_root_is_refused;
    try exact Hname; try (vm_compute; reflexivity); discriminate.
Qed.

(** The resolution that the detector takes for a bill (it quotes one) is
    not decoded as a bill. *)
Lemma decoder_refuses_a_foreign_root_witness :
  decoder.unmarshal (TStruct "Bill") 0
                    (Element (uslm_name "resolution") []
                             [Element (uslm_name "main") []
                                      [Element (uslm_name "bill") [] []]])
                    (zero_struct "Bill")
  = None.
Proof.
  apply (proj1 (decoder_refuses_a_foreign_root
                  0 (uslm_name "resolution") []
                  [Element (uslm_name "main") [] [Element (uslm_name "bill") [] []]]
                  (zero_struct "Bill"))).
  vm_compute. discriminate.
Defined.

Lemma chardata_without_element (cs1 cs2 : list xmlnode) (child : xml.Name)
      (a : list (xml.Name * string)) (k : list xmlnode) :
  decoder.chardata (cs1 ++ Element child a k :: cs2) = decoder.chardata (cs1 ++ cs2).
Proof.
  induction cs1 as [ | c cs1 IH]; [ reflexivity | ].
  destruct c as [n a' k' | s]; cbn [app decoder.chardata].
  - exact IH.
  - rewrite IH. reflexivity.
Qed.

Lemma children_into_skips (depth : N) (fs : list field) (child : xml.Name)
      (a : list (xml.Name * string)) (k : list xmlnode) (cs2 : list xmlnode) :
  decoder.first_field (decoder.matches fElement child) fs 0 = None ->
  forall (cs1 : list xmlnode) (vs : list value),
    children_into depth fs (cs1 ++ Element child a k :: cs2) vs
    = children_into depth fs (cs1 ++ cs2) vs.
Proof.
  intros Hnone. induction cs1 as [ | c cs1 IH]; intros vs.
  - cbn [app children_into]. rewrite Hnone. reflexivity.
  - destruct c as [n a' k' | s]; cbn [app children_into]; [ | apply IH ].
    destruct (decoder.first_field (decoder.matches fElement n) fs 0)
      as [[i f] | ]; [ | apply IH ].
    destruct (decoder.unmarshal (field_type f) (depth + 1) (Element n a' k')
                                (nth i vs (zero_field (field_type f))));
      [ apply IH | reflexivity ].
Qed.

(** X16: a child element that matches no element field of the struct
    being decoded is dropped without error: wherever it stands among the
    children and whatever it holds, the result, value or error, is that
    of the element without the child.  (The package declares no field
    that collects the elements no other field takes.) *)
Theorem decoder_drops_unknown_children
        (n : string) (depth : N) (name child : xml.Name)
        (attrs a : list (xml.Name * string)) (before after k : list xmlnode)
        (cur : value) :
  decoder.first_field (decoder.matches fElement child) (fields_of n) 0 = None ->
  decoder.unmarshal (TStruct n) depth
                    (Element name attrs (before ++ Element child a k :: after)) cur
  = decoder.unmarshal (TStruct n) depth (Element name attrs (before ++ after)) cur.
Proof.
  intros Hnone. rewrite !unmarshal_struct_Element.
  destruct (decoder.maxUnmarshalDepth <=? depth)%N; [ reflexivity | ].
  unfold structure.
  destruct (decoder.record_name name (fields_of n)
                                (encoding_json.struct_values n cur)) as [vs | ];
    [ | reflexivity ].
  rewrite (children_into_skips depth (fields_of n) child a k after Hnone).
  rewrite chardata_without_element. reflexivity.
Qed.

(** A [note] element, which a bill does not declare, between the
    metadata and the main block. *)
Lemma decoder_drops_unknown_children_witness :
  decoder.unmarshal (TStruct "Bill") 0
    (Element (uslm_name "bill") []
             ([Element (uslm_name "meta") [] []]
              ++ Element (uslm_name "note") [] [CharData "lost"]
              :: [Element (uslm_name "main") [] []]))
    (zero_struct "Bill")
  = decoder.unmarshal (TStruct "Bill") 0
      (Element (uslm_name "bill") []
               ([Element (uslm_name "meta") [] []]
                ++ [Element (uslm_name "main") [] []]))
      (zero_struct "Bill").
Proof.
  apply decoder_drops_unknown_children.
  vm_compute. reflexivity.
Defined.

(** ** Element names, field by field *)

(** The struct a field type leads to. *)
Fixpoint target (t : gotype) : option string :=
  match t with
  | TStruct m | TPtr m => Some m
  | TSlice e => target e
  | _ => None
  end.

(** The name the tag of a struct's own [XMLName] gives, when the struct
    has that field. *)
Definition own_name (m : string) : option string :=
  match decoder.first_field encoding_xml.is_XMLName (fields_of m) 0 with
  | Some (_, f0) => Some (encoding_xml.xml_tag_name f0)
  | None => None
  end.

(** The name [local] is the one the struct behind [t] gives itself, if it
    gives itself one. *)
Definition agrees (local : string) (t : gotype) : bool :=
  match target t with
  | Some m =>
      match own_name m with
      | Some n => negb (String.eqb n "") && String.eqb n local
      | None => true
      end
  | None => true
  end.

Definition field_agrees (f : field) : bool :=
  encoding_xml.is_XMLName f
  || match xml_mode (xml_tag f) with
     | fElement => agrees (xml_name (xml_tag f)) (field_type f)
     | _ => true
     end.

Lemma declarations_agree :
  forallb (fun d => forallb field_agrees (snd d)) declarations = true.
Proof. vm_compute. reflexivity. Qed.

Lemma fields_of_agree (name : string) : forallb field_agrees (fields_of name) = true.
Proof.
  unfold fields_of.
  pose proof declarations_agree as H.
  induction declarations as [ | [n fs] l IH]; simpl in *.
  - reflexivity.
  - apply andb_prop in H. destruct H as [H1 H2].
    destruct (String.eqb n name); [ exact H1 | exact (IH H2) ].
Qed.

Lemma xmlname_field_is_first (fs : list field) :
  forall (vs : list value) (f : field) (v : value) (i : nat),
    encoding_xml.xmlname_field fs vs = Some (f, v) ->
    exists j, decoder.first_field encoding_xml.is_XMLName fs i = Some (j, f).
Proof.
  induction fs as [ | g fs IH]; intros vs f v i H; [ discriminate H | ].
  destruct vs as [ | x vs]; [ discriminate H | ].
  cbn [encoding_xml.xmlname_field decoder.first_field] in *.
  unfold encoding_xml.is_XMLName at 1.
  destruct (String.eqb (field_name g) "XMLName").
  - injection H as <- _. eexists. reflexivity.
  - exact (IH vs f v (S i) H).
Qed.

Definition bears (local : string) (node : xmlnode) : Prop :=
  exists (space : string) (attrs : list (xml.Name * string)) (children : list xmlnode),
    node = Element (xml.mkName space local) attrs children.

Lemma start_name_agrees (fi : xmlinfo) (t : gotype) (v : value) :
  agrees (xml_name fi) t = true ->
  xml.Local (encoding_xml.start_name t (Some fi) v) = xml_name fi.
Proof.
  intros Ha. unfold encoding_xml.start_name.
  destruct v as [s | n | vs | p | l]; try reflexivity.
  destruct (encoding_xml.xmlname_field (encoding_json.struct_fields t) vs)
    as [[f n] | ] eqn:E; [ | reflexivity ].
  destruct t as [ | | m | m | e]; try discriminate E.
  destruct (xmlname_field_is_first _ _ _ _ 0 E) as [j Hj].
  unfold agrees, own_name in Ha. cbn [target] in Ha.
  cbn [encoding_json.struct_fields] in Hj. rewrite Hj in Ha.
  apply andb_prop in Ha. destruct Ha as [Hne Heq].
  rewrite Hne. apply String.eqb_eq in Heq. exact Heq.
Qed.

Lemma agrees_pointee (local : string) (t : gotype) :
  agrees local t = true -> agrees local (encoding_json.pointee t) = true.
Proof. destruct t; intros H; exact H. Qed.

Lemma agrees_elem (local : string) (t : gotype) :
  agrees local t = true -> agrees local (encoding_json.elem t) = true.
Proof. destruct t; intros H; exact H. Qed.

Definition written_under (v : value) : Prop :=
  forall (t : gotype) (fi : xmlinfo) (node : xmlnode),
    agrees (xml_name fi) t = true ->
    In node (encoding_xml.marshalValue t (Some fi) v) ->
    bears (xml_name fi) node.

Lemma bears_start_name (fi : xmlinfo) (t : gotype) (v : value)
      (attrs : list (xml.Name * string)) (children : list xmlnode) :
  agrees (xml_name fi) t = true ->
  bears (xml_name fi) (Element (encoding_xml.start_name t (Some fi) v) attrs children).
Proof.
  intros Ha. pose proof (start_name_agrees fi t v Ha) as E.
  destruct (encoding_xml.start_name t (Some fi) v) as [space local].
  cbn [xml.Local] in E. subst local.
  exists space, attrs, children. reflexivity.
Qed.

Lemma every_value_written_under (v : value) : written_under v.
Proof.
  induction v as [s | n | vs IH | p IH | l IH] using value_ind;
    intros t fi node Ha Hin.
  - cbn [encoding_xml.marshalValue] in Hin.
    destruct (encoding_xml.omitted (Some fi) (VString s)); [ destruct Hin | ].
    destruct Hin as [<- | []]. exact (bears_start_name fi t _ _ _ Ha).
  - cbn [encoding_xml.marshalValue] in Hin.
    destruct (encoding_xml.omitted (Some fi) (VName n)); [ destruct Hin | ].
    destruct Hin as [<- | []]. exact (bears_start_name fi t _ _ _ Ha).
  - rewrite marshalValue_struct in Hin.
    destruct (encoding_xml.omitted (Some fi) (VStruct vs)); [ destruct Hin | ].
    destruct Hin as [<- | []]. exact (bears_start_name fi t _ _ _ Ha).
  - cbn [encoding_xml.marshalValue] in Hin.
    destruct (encoding_xml.omitted (Some fi) (VPtr p)); [ destruct Hin | ].
    destruct IH as [v' Hv' | ]; [ | destruct Hin ].
    exact (Hv' _ fi node (agrees_pointee _ t Ha) Hin).
  - cbn [encoding_xml.marshalValue] in Hin.
    destruct (encoding_xml.omitted (Some fi) (VSlice l)); [ destruct Hin | ].
    apply in_flat_map in Hin. destruct Hin as [x [Hx Hin]].
    exact (list_all_In _ _ _ IH x Hx _ fi node (agrees_elem _ t Ha) Hin).
Qed.

(** X17: every element written for a field bears the name the field's
    [xml:] tag gives.  For a field of any struct of the package that is
    written as child elements, and any value of the field, each element
    of the field's encoding has the tag's name as its local name: also
    when the field leads to a struct that names itself through its own
    [XMLName], because throughout the package the two names agree. *)
Theorem fields_are_written_under_their_tag_name
        (name : string) (f : field) (v : value) (node : xmlnode) :
  In f (fields_of name) ->
  encoding_xml.is_XMLName f = false ->
  xml_mode (xml_tag f) = fElement ->
  In node (encoding_xml.marshalValue (field_type f) (Some (xml_tag f)) v) ->
  bears (xml_name (xml_tag f)) node.
Proof.
  intros Hf Hx Hmode Hin.
  pose proof (fields_of_agree name) as Ha.
  rewrite forallb_forall in Ha. specialize (Ha f Hf).
  unfold field_agrees in Ha. rewrite Hx, Hmode in Ha. cbn [orb] in Ha.
  exact (every_value_written_under v _ _ node Ha Hin).
Qed.

(** The number of a section, written for the field [Num], is a [num]
    element. *)
Lemma fields_are_written_under_their_tag_name_witness :
  bears "num"
        (Element (xml.mkName "" "num") [(xml.mkName "" "value", "1")]
                 [CharData "SECTION 1."]).
Proof.
  apply (fields_are_written_under_their_tag_name
           "Section" (fld "Num" (TPtr "Num") "num" "num,omitempty")
           (VPtr (Some (reflect_Num (mkNum (uslm_name "num") "1" "SECTION 1."))))).
  - vm_compute. tauto.
  - reflexivity.
  - reflexivity.
  - vm_compute. left. reflexivity.
Defined.

(** ** Accessors of a document read back from JSON *)

(** The document as JSON gives it back: every [XMLName], the one field
    that JSON does not carry, is the zero name; every other field is as
    it was. *)
Definition Inline_without_XMLName (x : Inline) : Inline :=
  mkInline
    xml_Name_zero
    (Inline_Class x)
    (Inline_Role x)
    (Inline_Text x).

Definition Italic_without_XMLName (x : Italic) : Italic :=
  mkItalic
    xml_Name_zero
    (Italic_Text x).

Definition Bold_without_XMLName (x : Bold) : Bold :=
  mkBold
    xml_Name_zero
    (Bold_Text x).

Definition Sup_without_XMLName (x : Sup) : Sup :=
  mkSup
    xml_Name_zero
    (Sup_Text x).

Definition Sub_without_XMLName (x : Sub) : Sub :=
  mkSub
    xml_Name_zero
    (Sub_Text x).

Definition Term_without_XMLName (x : Term) : Term :=
  mkTerm
    xml_Name_zero
    (Term_Text x).

Fixpoint Ref_without_XMLName (x : Ref) {struct x} : Ref :=
  match x with
  | mkRef xMLName_ href_ text_ innerRef_ =>
      mkRef
        xml_Name_zero
        href_
        text_
        (option_map Ref_without_XMLName innerRef_)
  end.

Definition P_without_XMLName (x : P) : P :=
  mkP
    xml_Name_zero
    (P_Class x)
    (P_Text x).

Definition MixedContent_without_XMLName (x : MixedContent) : MixedContent :=
  mkMixedContent
    (MixedContent_Text x)
    (map Inline_without_XMLName (MixedContent_Inline x))
    (map Italic_without_XMLName (MixedContent_I x))
    (map Bold_without_XMLName (MixedContent_B x))
    (map Sup_without_XMLName (MixedContent_Sup x))
    (map Sub_without_XMLName (MixedContent_Sub x))
    (map Term_without_XMLName (MixedContent_Term x))
    (map Ref_without_XMLName (MixedContent_Ref x))
    (map P_without_XMLName (MixedContent_P x)).

Definition ShortTitle_without_XMLName (x : ShortTitle) : ShortTitle :=
  mkShortTitle
    xml_Name_zero
    (ShortTitle_Role x)
    (ShortTitle_Text x).

Definition QuotedText_without_XMLName (x : QuotedText) : QuotedText :=
  mkQuotedText
    xml_Name_zero
    (QuotedText_Text x).

Definition AmendingAction_without_XMLName (x : AmendingAction) : AmendingAction :=
  mkAmendingAction
    xml_Name_zero
    (AmendingAction_Type x)
    (AmendingAction_Text x).

Definition Num_without_XMLName (x : Num) : Num :=
  mkNum
    xml_Name_zero
    (Num_Value x)
    (Num_Text x).

Definition Heading_without_XMLName (x : Heading) : Heading :=
  mkHeading
    xml_Name_zero
    (Heading_Class x)
    (Heading_Text x)
    (map Inline_without_XMLName (Heading_Inline x)).

Definition Chapeau_without_XMLName (x : Chapeau) : Chapeau :=
  mkChapeau
    xml_Name_zero
    (Chapeau_Class x)
    (Chapeau_Text x)
    (map Inline_without_XMLName (Chapeau_Inline x))
    (map Ref_without_XMLName (Chapeau_Ref x))
    (map AmendingAction_without_XMLName (Chapeau_AmendingAction x)).

Fixpoint Content_without_XMLName (x : Content) {struct x} : Content :=
  match x with
  | mkContent xMLName_ class_ text_ inline_ i_ ref_ shortTitle_ quotedText_ amendingAction_ quotedContent_ amendmentContent_ =>
      mkContent
        xml_Name_zero
        class_
        text_
        (map Inline_without_XMLName inline_)
        (map Italic_without_XMLName i_)
        (map Ref_without_XMLName ref_)
        (map ShortTitle_without_XMLName shortTitle_)
        (map QuotedText_without_XMLName quotedText_)
        (map AmendingAction_without_XMLName amendingAction_)
        (map QuotedContent_without_XMLName quotedContent_)
        (map AmendmentContent_without_XMLName amendmentContent_)
  end
with QuotedContent_without_XMLName (x : QuotedContent) {struct x} : QuotedContent :=
  match x with
  | mkQuotedContent xMLName_ id_ styleType_ paragraph_ subsection_ section_ =>
      mkQuotedContent
        xml_Name_zero
        id_
        styleType_
        (map Paragraph_without_XMLName paragraph_)
        (map Subsection_without_XMLName subsection_)
        (map Section_without_XMLName section_)
  end
with AmendmentContent_without_XMLName (x : AmendmentContent) {struct x} : AmendmentContent :=
  match x with
  | mkAmendmentContent xMLName_ class_ changed_ styleType_ section_ =>
      mkAmendmentContent
        xml_Name_zero
        class_
        changed_
        styleType_
        (map Section_without_XMLName section_)
  end
with Section_without_XMLName (x : Section) {struct x} : Section :=
  match x with
  | mkSection xMLName_ id_ identifier_ role_ class_ num_ heading_ chapeau_ content_ paragraphs_ subsections_ =>
      mkSection
        xml_Name_zero
        id_
        identifier_
        role_
        class_
        (option_map Num_without_XMLName num_)
        (option_map Heading_without_XMLName heading_)
        (option_map Chapeau_without_XMLName chapeau_)
        (option_map Content_without_XMLName content_)
        (map Paragraph_without_XMLName paragraphs_)
        (map Subsection_without_XMLName subsections_)
  end
with Subsection_without_XMLName (x : Subsection) {struct x} : Subsection :=
  match x with
  | mkSubsection xMLName_ id_ identifier_ class_ num_ heading_ chapeau_ content_ paragraphs_ =>
      mkSubsection
        xml_Name_zero
        id_
        identifier_
        class_
        (option_map Num_without_XMLName num_)
        (option_map Heading_without_XMLName heading_)
        (option_map Chapeau_without_XMLName chapeau_)
        (option_map Content_without_XMLName content_)
        (map Paragraph_without_XMLName paragraphs_)
  end
with Paragraph_without_XMLName (x : Paragraph) {struct x} : Paragraph :=
  match x with
  | mkParagraph xMLName_ id_ identifier_ class_ role_ num_ heading_ chapeau_ content_ subparagraphs_ =>
      mkParagraph
        xml_Name_zero
        id_
        identifier_
        class_
        role_
        (option_map Num_without_XMLName num_)
        (option_map Heading_without_XMLName heading_)
        (option_map Chapeau_without_XMLName chapeau_)
        (option_map Content_without_XMLName content_)
        (map Subparagraph_without_XMLName subparagraphs_)
  end
with Subparagraph_without_XMLName (x : Subparagraph) {struct x} : Subparagraph :=
  match x with
  | mkSubparagraph xMLName_ id_ identifier_ class_ num_ chapeau_ content_ clauses_ =>
      mkSubparagraph
        xml_Name_zero
        id_
        identifier_
        class_
        (option_map Num_without_XMLName num_)
        (option_map Chapeau_without_XMLName chapeau_)
        (option_map Content_without_XMLName content_)
        (map Clause_without_XMLName clauses_)
  end
with Clause_without_XMLName (x : Clause) {struct x} : Clause :=
  match x with
  | mkClause xMLName_ id_ identifier_ class_ num_ content_ subclauses_ =>
      mkClause
        xml_Name_zero
        id_
        identifier_
        class_
        (option_map Num_without_XMLName num_)
        (option_map Content_without_XMLName content_)
        (map Subclause_without_XMLName subclauses_)
  end
with Subclause_without_XMLName (x : Subclause) {struct x} : Subclause :=
  match x with
  | mkSubclause xMLName_ id_ identifier_ class_ num_ content_ =>
      mkSubclause
        xml_Name_zero
        id_
        identifier_
        class_
        (option_map Num_without_XMLName num_)
        (option_map Content_without_XMLName content_)
  end.

Definition DistributionCode_without_XMLName (x : DistributionCode) : DistributionCode :=
  mkDistributionCode
    xml_Name_zero
    (DistributionCode_Display x)
    (DistributionCode_Text x).

Definition CongressElement_without_XMLName (x : CongressElement) : CongressElement :=
  mkCongressElement
    xml_Name_zero
    (CongressElement_Value x)
    (CongressElement_Text x).

Definition SessionElement_without_XMLName (x : SessionElement) : SessionElement :=
  mkSessionElement
    xml_Name_zero
    (SessionElement_Value x)
    (SessionElement_Text x).

Definition CurrentChamber_without_XMLName (x : CurrentChamber) : CurrentChamber :=
  mkCurrentChamber
    xml_Name_zero
    (CurrentChamber_Value x)
    (CurrentChamber_Text x).

Definition ActionDate_without_XMLName (x : ActionDate) : ActionDate :=
  mkActionDate
    xml_Name_zero
    (ActionDate_Date x)
    (ActionDate_Text x)
    (map Inline_without_XMLName (ActionDate_Inline x)).

Definition Sponsor_without_XMLName (x : Sponsor) : Sponsor :=
  mkSponsor
    xml_Name_zero
    (Sponsor_SenateID x)
    (Sponsor_HouseID x)
    (Sponsor_Text x)
    (map Inline_without_XMLName (Sponsor_Inline x)).

Definition Cosponsor_without_XMLName (x : Cosponsor) : Cosponsor :=
  mkCosponsor
    xml_Name_zero
    (Cosponsor_SenateID x)
    (Cosponsor_HouseID x)
    (Cosponsor_Text x)
    (map Inline_without_XMLName (Cosponsor_Inline x)).

Definition Committee_without_XMLName (x : Committee) : Committee :=
  mkCommittee
    xml_Name_zero
    (Committee_CommitteeID x)
    (Committee_Text x).

Definition ActionDescription_without_XMLName (x : ActionDescription) : ActionDescription :=
  mkActionDescription
    xml_Name_zero
    (ActionDescription_Text x)
    (map Sponsor_without_XMLName (ActionDescription_Sponsors x))
    (map Cosponsor_without_XMLName (ActionDescription_Cosponsors x))
    (map Committee_without_XMLName (ActionDescription_Committees x))
    (map Inline_without_XMLName (ActionDescription_Inline x)).

Definition Action_without_XMLName (x : Action) : Action :=
  mkAction
    xml_Name_zero
    (Action_ActionStage x)
    (option_map ActionDate_without_XMLName (Action_Date x))
    (option_map ActionDescription_without_XMLName (Action_ActionDescription x))
    (Action_ActionInstruction x).

Definition Preface_without_XMLName (x : Preface) : Preface :=
  mkPreface
    xml_Name_zero
    (Preface_SlugLine x)
    (option_map DistributionCode_without_XMLName (Preface_DistributionCode x))
    (option_map CongressElement_without_XMLName (Preface_Congress x))
    (option_map SessionElement_without_XMLName (Preface_Session x))
    (Preface_DCType x)
    (Preface_DocNumber x)
    (Preface_DCTitle x)
    (option_map CurrentChamber_without_XMLName (Preface_CurrentChamber x))
    (map Action_without_XMLName (Preface_Actions x)).

Definition AmendPreface_without_XMLName (x : AmendPreface) : AmendPreface :=
  mkAmendPreface
    xml_Name_zero
    (AmendPreface_SlugLine x)
    (option_map CurrentChamber_without_XMLName (AmendPreface_CurrentChamber x))
    (map Action_without_XMLName (AmendPreface_Actions x)).

Definition LongTitle_without_XMLName (x : LongTitle) : LongTitle :=
  mkLongTitle
    xml_Name_zero
    (LongTitle_DocTitle x)
    (LongTitle_OfficialTitle x).

Definition EnactingFormula_without_XMLName (x : EnactingFormula) : EnactingFormula :=
  mkEnactingFormula
    xml_Name_zero
    (EnactingFormula_Text x)
    (map Italic_without_XMLName (EnactingFormula_I x)).

Definition ReferenceItem_without_XMLName (x : ReferenceItem) : ReferenceItem :=
  mkReferenceItem
    xml_Name_zero
    (ReferenceItem_Role x)
    (ReferenceItem_Designator x)
    (ReferenceItem_Label x).

Definition TOC_without_XMLName (x : TOC) : TOC :=
  mkTOC
    xml_Name_zero
    (map ReferenceItem_without_XMLName (TOC_ReferenceItem x)).

Definition Recital_without_XMLName (x : Recital) : Recital :=
  mkRecital
    xml_Name_zero
    (Recital_Text x)
    (map P_without_XMLName (Recital_P x))
    (map Paragraph_without_XMLName (Recital_Paragraphs x)).

Definition ResolvingClause_without_XMLName (x : ResolvingClause) : ResolvingClause :=
  mkResolvingClause
    xml_Name_zero
    (ResolvingClause_Class x)
    (ResolvingClause_Text x)
    (map Italic_without_XMLName (ResolvingClause_I x)).

Definition Preamble_without_XMLName (x : Preamble) : Preamble :=
  mkPreamble
    xml_Name_zero
    (map Recital_without_XMLName (Preamble_Recitals x))
    (option_map ResolvingClause_without_XMLName (Preamble_ResolvingClause x)).

Definition Title_without_XMLName (x : Title) : Title :=
  mkTitle
    xml_Name_zero
    (Title_ID x)
    (option_map Num_without_XMLName (Title_Num x))
    (option_map Heading_without_XMLName (Title_Heading x))
    (map Section_without_XMLName (Title_Sections x)).

Definition Main_without_XMLName (x : Main) : Main :=
  mkMain
    xml_Name_zero
    (Main_StyleType x)
    (option_map LongTitle_without_XMLName (Main_LongTitle x))
    (option_map EnactingFormula_without_XMLName (Main_EnactingFormula x))
    (option_map TOC_without_XMLName (Main_TOC x))
    (option_map Preamble_without_XMLName (Main_Preamble x))
    (map Section_without_XMLName (Main_Sections x))
    (map Title_without_XMLName (Main_Titles x))
    (Main_EndMarker x).

Definition AmendmentInstruction_without_XMLName (x : AmendmentInstruction) : AmendmentInstruction :=
  mkAmendmentInstruction
    xml_Name_zero
    (option_map Num_without_XMLName (AmendmentInstruction_Num x))
    (option_map Content_without_XMLName (AmendmentInstruction_Content x)).

Definition Notation_without_XMLName (x : Notation) : Notation :=
  mkNotation
    xml_Name_zero
    (Notation_Type x)
    (Notation_Text x).

Definition Signature_without_XMLName (x : Signature) : Signature :=
  mkSignature
    xml_Name_zero
    (option_map Notation_without_XMLName (Signature_Notation x))
    (Signature_Role x)
    (Signature_Text x).

Definition Signatures_without_XMLName (x : Signatures) : Signatures :=
  mkSignatures
    xml_Name_zero
    (map Signature_without_XMLName (Signatures_Signature x)).

Definition Endorsement_without_XMLName (x : Endorsement) : Endorsement :=
  mkEndorsement
    xml_Name_zero
    (Endorsement_Orientation x)
    (option_map CongressElement_without_XMLName (Endorsement_Congress x))
    (option_map SessionElement_without_XMLName (Endorsement_Session x))
    (Endorsement_DCType x)
    (Endorsement_DocNumber x)
    (Endorsement_DocTitle x).

Definition AmendMain_without_XMLName (x : AmendMain) : AmendMain :=
  mkAmendMain
    xml_Name_zero
    (AmendMain_AmendmentInstructionLineNumbering x)
    (option_map ResolvingClause_without_XMLName (AmendMain_ResolvingClause x))
    (map Section_without_XMLName (AmendMain_Sections x))
    (AmendMain_DocTitle x)
    (map AmendmentInstruction_without_XMLName (AmendMain_AmendmentInstructions x))
    (option_map Signatures_without_XMLName (AmendMain_Signatures x))
    (option_map Endorsement_without_XMLName (AmendMain_Endorsement x)).

Definition RelatedDocument_without_XMLName (x : RelatedDocument) : RelatedDocument :=
  mkRelatedDocument
    xml_Name_zero
    (RelatedDocument_Role x)
    (RelatedDocument_Href x)
    (RelatedDocument_Text x).

Definition Meta_without_XMLName (x : Meta) : Meta :=
  mkMeta
    xml_Name_zero
    (Meta_DCTitle x)
    (Meta_DCType x)
    (Meta_DCCreator x)
    (Meta_DCPublisher x)
    (Meta_DCFormat x)
    (Meta_DCLanguage x)
    (Meta_DCRights x)
    (Meta_DocNumber x)
    (Meta_CitableAs x)
    (Meta_DocStage x)
    (Meta_CurrentChamber x)
    (Meta_Congress x)
    (Meta_Session x)
    (Meta_PublicPrivate x)
    (Meta_ProcessedBy x)
    (Meta_ProcessedDate x)
    (map RelatedDocument_without_XMLName (Meta_RelatedDocuments x))
    (Meta_PopularName x).

Definition AmendMeta_without_XMLName (x : AmendMeta) : AmendMeta :=
  mkAmendMeta
    xml_Name_zero
    (AmendMeta_DCTitle x)
    (AmendMeta_DCType x)
    (AmendMeta_DCCreator x)
    (AmendMeta_DCPublisher x)
    (AmendMeta_DCFormat x)
    (AmendMeta_DCLanguage x)
    (AmendMeta_DCRights x)
    (AmendMeta_DocNumber x)
    (AmendMeta_CitableAs x)
    (AmendMeta_DocStage x)
    (AmendMeta_CurrentChamber x)
    (AmendMeta_AmendDegree x)
    (AmendMeta_Congress x)
    (AmendMeta_Session x)
    (AmendMeta_PublicPrivate x)
    (AmendMeta_ProcessedBy x)
    (AmendMeta_ProcessedDate x).

Definition Bill_without_XMLName (x : Bill) : Bill :=
  mkBill
    xml_Name_zero
    (Bill_XMLNS x)
    (Bill_XMLNSDC x)
    (Bill_XMLNSHTML x)
    (Bill_XMLNSUSLM x)
    (Bill_XMLNSXSI x)
    (Bill_XSISchemaLocation x)
    (Bill_XMLLang x)
    (option_map Meta_without_XMLName (Bill_Meta x))
    (option_map Preface_without_XMLName (Bill_Preface x))
    (option_map Main_without_XMLName (Bill_Main x))
    (Bill_EndMarker x).

Definition Resolution_without_XMLName (x : Resolution) : Resolution :=
  mkResolution
    xml_Name_zero
    (Resolution_XMLNS x)
    (Resolution_XMLNSDC x)
    (Resolution_XMLNSHTML x)
    (Resolution_XMLNSUSLM x)
    (Resolution_XMLNSXSI x)
    (Resolution_XSISchemaLocation x)
    (Resolution_XMLLang x)
    (option_map Meta_without_XMLName (Resolution_Meta x))
    (option_map Preface_without_XMLName (Resolution_Preface x))
    (option_map Main_without_XMLName (Resolution_Main x))
    (Resolution_EndMarker x).

Definition EngrossedAmendment_without_XMLName (x : EngrossedAmendment) : EngrossedAmendment :=
  mkEngrossedAmendment
    xml_Name_zero
    (EngrossedAmendment_XMLNS x)
    (EngrossedAmendment_XMLNSDC x)
    (EngrossedAmendment_XMLNSHTML x)
    (EngrossedAmendment_XMLNSUSLM x)
    (EngrossedAmendment_XMLNSXSI x)
    (EngrossedAmendment_StyleType x)
    (EngrossedAmendment_XSISchemaLocation x)
    (EngrossedAmendment_XMLLang x)
    (option_map AmendMeta_without_XMLName (EngrossedAmendment_AmendMeta x))
    (option_map AmendPreface_without_XMLName (EngrossedAmendment_AmendPreface x))
    (option_map AmendMain_without_XMLName (EngrossedAmendment_AmendMain x))
    (option_map Signatures_without_XMLName (EngrossedAmendment_Signatures x))
    (option_map Endorsement_without_XMLName (EngrossedAmendment_Endorsement x)).

Definition Amendment_without_XMLName (x : Amendment) : Amendment :=
  mkAmendment
    xml_Name_zero
    (Amendment_XMLNS x)
    (Amendment_XMLNSDC x)
    (Amendment_XMLNSHTML x)
    (Amendment_XMLNSUSLM x)
    (Amendment_XMLNSXSI x)
    (Amendment_XSISchemaLocation x)
    (Amendment_XMLLang x)
    (option_map AmendMeta_without_XMLName (Amendment_AmendMeta x))
    (option_map AmendPreface_without_XMLName (Amendment_AmendPreface x))
    (option_map AmendMain_without_XMLName (Amendment_AmendMain x)).

Lemma cleared_strings (l : list string) :
  VSlice (map VString l) = clear_ignored (TSlice TString) (VSlice (map VString l)).
Proof.
  cbn [clear_ignored encoding_json.elem]. rewrite map_map. reflexivity.
Qed.

Lemma cleared_option (name : string) (A : Type) (reflect : A -> value)
      (without : A -> A) (o : option A) :
  (forall x, o = Some x ->
             reflect (without x) = clear_ignored (TStruct name) (reflect x)) ->
  VPtr (option_map reflect (option_map without o))
  = clear_ignored (TPtr name) (VPtr (option_map reflect o)).
Proof.
  destruct o as [x | ]; intros H; [ | reflexivity ].
  cbn [option_map clear_ignored encoding_json.pointee].
  rewrite (H x eq_refl). reflexivity.
Qed.

Lemma cleared_list (name : string) (A : Type) (reflect : A -> value)
      (without : A -> A) (l : list A) :
  (forall x, In x l ->
             reflect (without x) = clear_ignored (TStruct name) (reflect x)) ->
  VSlice (map reflect (map without l))
  = clear_ignored (TSlice (TStruct name)) (VSlice (map reflect l)).
Proof.
  intros H. cbn [clear_ignored encoding_json.elem]. f_equal.
  rewrite !map_map. apply map_ext_in. exact H.
Qed.

Create HintDb cleared.

Ltac cleared_field :=
  first [ reflexivity
        | apply cleared_strings
        | apply cleared_option; intros; eauto with cleared
        | apply cleared_list; intros; eauto with cleared ].

(** One struct: unfold both sides, look up the declaration, read its
    [json:] tags, and compare field by field. *)
Ltac reflected_cleared :=
  repeat match goal with
         | H : list_all _ _ _ |- _ =>
             let H' := fresh "IH" in
             pose proof (list_all_In _ _ _ H) as H'; cbv beta in H'; clear H
         | H : option_all _ _ _ |- _ =>
             let H' := fresh "IH" in
             pose proof (option_all_Some _ _ _ H) as H'; cbv beta in H'; clear H
         end;
  match goal with
  | |- ?r (?f _) = clear_ignored _ (?r _) =>
      first [ progress cbn [r f] | unfold r, f ]
  end;
  cbn -[clear_ignored fields_of option_map map];
  rewrite clear_struct;
  match goal with
  | |- context [fields_of ?n] =>
      let fs := eval vm_compute in (fields_of n) in
      change (fields_of n) with fs
  end;
  cbn [clear_fields field_type];
  repeat match goal with
         | |- context [json_tag ?f] =>
             let v := eval vm_compute in (json_tag f) in change (json_tag f) with v
         end;
  cbv iota;
  apply f_equal;
  repeat (apply (f_equal2 (@cons value)); [ cleared_field | ]);
  reflexivity.

Lemma cleared_Inline (x : Inline) :
  reflect_Inline (Inline_without_XMLName x) = clear_ignored (TStruct "Inline") (reflect_Inline x).
Proof. destruct x; reflected_cleared. Qed.
#[local] Hint Resolve cleared_Inline : cleared.

Lemma cleared_Italic (x : Italic) :
  reflect_Italic (Italic_without_XMLName x) = clear_ignored (TStruct "Italic") (reflect_Italic x).
Proof. destruct x; reflected_cleared. Qed.
#[local] Hint Resolve cleared_Italic : cleared.

Lemma cleared_Bold (x : Bold) :
  reflect_Bold (Bold_without_XMLName x) = clear_ignored (TStruct "Bold") (reflect_Bold x).
Proof. destruct x; reflected_cleared. Qed.
#[local] Hint Resolve cleared_Bold : cleared.

Lemma cleared_Sup (x : Sup) :
  reflect_Sup (Sup_without_XMLName x) = clear_ignored (TStruct "Sup") (reflect_Sup x).
Proof. destruct x; reflected_cleared. Qed.
#[local] Hint Resolve cleared_Sup : cleared.

Lemma cleared_Sub (x : Sub) :
  reflect_Sub (Sub_without_XMLName x) = clear_ignored (TStruct "Sub") (reflect_Sub x).
Proof. destruct x; reflected_cleared. Qed.
#[local] Hint Resolve cleared_Sub : cleared.

Lemma cleared_Term (x : Term) :
  reflect_Term (Term_without_XMLName x) = clear_ignored (TStruct "Term") (reflect_Term x).
Proof. destruct x; reflected_cleared. Qed.
#[local] Hint Resolve cleared_Term : cleared.

Lemma cleared_Ref (x : Ref) :
  reflect_Ref (Ref_without_XMLName x) = clear_ignored (TStruct "Ref") (reflect_Ref x).
Proof. induction x; reflected_cleared. Qed.
#[local] Hint Resolve cleared_Ref : cleared.

Lemma cleared_P (x : P) :
  reflect_P (P_without_XMLName x) = clear_ignored (TStruct "P") (reflect_P x).
Proof. destruct x; reflected_cleared. Qed.
#[local] Hint Resolve cleared_P : cleared.

Lemma cleared_MixedContent (x : MixedContent) :
  reflect_MixedContent (MixedContent_without_XMLName x) = clear_ignored (TStruct "MixedContent") (reflect_MixedContent x).
Proof. destruct x; reflected_cleared. Qed.
#[local] Hint Resolve cleared_MixedContent : cleared.

Lemma cleared_ShortTitle (x : ShortTitle) :
  reflect_ShortTitle (ShortTitle_without_XMLName x) = clear_ignored (TStruct "ShortTitle") (reflect_ShortTitle x).
Proof. destruct x; reflected_cleared. Qed.
#[local] Hint Resolve cleared_ShortTitle : cleared.

Lemma cleared_QuotedText (x : QuotedText) :
  reflect_QuotedText (QuotedText_without_XMLName x) = clear_ignored (TStruct "QuotedText") (reflect_QuotedText x).
Proof. destruct x; reflected_cleared. Qed.
#[local] Hint Resolve cleared_QuotedText : cleared.

Lemma cleared_AmendingAction (x : AmendingAction) :
  reflect_AmendingAction (AmendingAction_without_XMLName x) = clear_ignored (TStruct "AmendingAction") (reflect_AmendingAction x).
Proof. destruct x; reflected_cleared. Qed.
#[local] Hint Resolve cleared_AmendingAction : cleared.

Lemma cleared_Num (x : Num) :
  reflect_Num (Num_without_XMLName x) = clear_ignored (TStruct "Num") (reflect_Num x).
Proof. destruct x; reflected_cleared. Qed.
#[local] Hint Resolve cleared_Num : cleared.

Lemma cleared_Heading (x : Heading) :
  reflect_Heading (Heading_without_XMLName x) = clear_ignored (TStruct "Heading") (reflect_Heading x).
Proof. destruct x; reflected_cleared. Qed.
#[local] Hint Resolve cleared_Heading : cleared.

Lemma cleared_Chapeau (x : Chapeau) :
  reflect_Chapeau (Chapeau_without_XMLName x) = clear_ignored (TStruct "Chapeau") (reflect_Chapeau x).
Proof. destruct x; reflected_cleared. Qed.
#[local] Hint Resolve cleared_Chapeau : cleared.

Lemma cleared_hierarchy :
  (forall x : Content, reflect_Content (Content_without_XMLName x) = clear_ignored (TStruct "Content") (reflect_Content x)) /\
  (forall x : QuotedContent, reflect_QuotedContent (QuotedContent_without_XMLName x) = clear_ignored (TStruct "QuotedContent") (reflect_QuotedContent x)) /\
  (forall x : AmendmentContent, reflect_AmendmentContent (AmendmentContent_without_XMLName x) = clear_ignored (TStruct "AmendmentContent") (reflect_AmendmentContent x)) /\
  (forall x : Section, reflect_Section (Section_without_XMLName x) = clear_ignored (TStruct "Section") (reflect_Section x)) /\
  (forall x : Subsection, reflect_Subsection (Subsection_without_XMLName x) = clear_ignored (TStruct "Subsection") (reflect_Subsection x)) /\
  (forall x : Paragraph, reflect_Paragraph (Paragraph_without_XMLName x) = clear_ignored (TStruct "Paragraph") (reflect_Paragraph x)) /\
  (forall x : Subparagraph, reflect_Subparagraph (Subparagraph_without_XMLName x) = clear_ignored (TStruct "Subparagraph") (reflect_Subparagraph x)) /\
  (forall x : Clause, reflect_Clause (Clause_without_XMLName x) = clear_ignored (TStruct "Clause") (reflect_Clause x)) /\
  (forall x : Subclause, reflect_Subclause (Subclause_without_XMLName x) = clear_ignored (TStruct "Subclause") (reflect_Subclause x)).
Proof.
  apply hierarchy_mutind; intros; reflected_cleared.
Qed.

Lemma cleared_Content (x : Content) :
  reflect_Content (Content_without_XMLName x) = clear_ignored (TStruct "Content") (reflect_Content x).
Proof. apply cleared_hierarchy. Qed.
#[local] Hint Resolve cleared_Content : cleared.

Lemma cleared_QuotedContent (x : QuotedContent) :
  reflect_QuotedContent (QuotedContent_without_XMLName x) = clear_ignored (TStruct "QuotedContent") (reflect_QuotedContent x).
Proof. apply cleared_hierarchy. Qed.
#[local] Hint Resolve cleared_QuotedContent : cleared.

Lemma cleared_AmendmentContent (x : AmendmentContent) :
  reflect_AmendmentContent (AmendmentContent_without_XMLName x) = clear_ignored (TStruct "AmendmentContent") (reflect_AmendmentContent x).
Proof. apply cleared_hierarchy. Qed.
#[local] Hint Resolve cleared_AmendmentContent : cleared.

Lemma cleared_Section (x : Section) :
  reflect_Section (Section_without_XMLName x) = clear_ignored (TStruct "Section") (reflect_Section x).
Proof. apply cleared_hierarchy. Qed.
#[local] Hint Resolve cleared_Section : cleared.

Lemma cleared_Subsection (x : Subsection) :
  reflect_Subsection (Subsection_without_XMLName x) = clear_ignored (TStruct "Subsection") (reflect_Subsection x).
Proof. apply cleared_hierarchy. Qed.
#[local] Hint Resolve cleared_Subsection : cleared.

Lemma cleared_Paragraph (x : Paragraph) :
  reflect_Paragraph (Paragraph_without_XMLName x) = clear_ignored (TStruct "Paragraph") (reflect_Paragraph x).
Proof. apply cleared_hierarchy. Qed.
#[local] Hint Resolve cleared_Paragraph : cleared.

Lemma cleared_Subparagraph (x : Subparagraph) :
  reflect_Subparagraph (Subparagraph_without_XMLName x) = clear_ignored (TStruct "Subparagraph") (reflect_Subparagraph x).
Proof. apply cleared_hierarchy. Qed.
#[local] Hint Resolve cleared_Subparagraph : cleared.

Lemma cleared_Clause (x : Clause) :
  reflect_Clause (Clause_without_XMLName x) = clear_ignored (TStruct "Clause") (reflect_Clause x).
Proof. apply cleared_hierarchy. Qed.
#[local] Hint Resolve cleared_Clause : cleared.

Lemma cleared_Subclause (x : Subclause) :
  reflect_Subclause (Subclause_without_XMLName x) = clear_ignored (TStruct "Subclause") (reflect_Subclause x).
Proof. apply cleared_hierarchy. Qed.
#[local] Hint Resolve cleared_Subclause : cleared.

Lemma cleared_DistributionCode (x : DistributionCode) :
  reflect_DistributionCode (DistributionCode_without_XMLName x) = clear_ignored (TStruct "DistributionCode") (reflect_DistributionCode x).
Proof. destruct x; reflected_cleared. Qed.
#[local] Hint Resolve cleared_DistributionCode : cleared.

Lemma cleared_CongressElement (x : CongressElement) :
  reflect_CongressElement (CongressElement_without_XMLName x) = clear_ignored (TStruct "CongressElement") (reflect_CongressElement x).
Proof. destruct x; reflected_cleared. Qed.
#[local] Hint Resolve cleared_CongressElement : cleared.

Lemma cleared_SessionElement (x : SessionElement) :
  reflect_SessionElement (SessionElement_without_XMLName x) = clear_ignored (TStruct "SessionElement") (reflect_SessionElement x).
Proof. destruct x; reflected_cleared. Qed.
#[local] Hint Resolve cleared_SessionElement : cleared.

Lemma cleared_CurrentChamber (x : CurrentChamber) :
  reflect_CurrentChamber (CurrentChamber_without_XMLName x) = clear_ignored (TStruct "CurrentChamber") (reflect_CurrentChamber x).
Proof. destruct x; reflected_cleared. Qed.
#[local] Hint Resolve cleared_CurrentChamber : cleared.

Lemma cleared_ActionDate (x : ActionDate) :
  reflect_ActionDate (ActionDate_without_XMLName x) = clear_ignored (TStruct "ActionDate") (reflect_ActionDate x).
Proof. destruct x; reflected_cleared. Qed.
#[local] Hint Resolve cleared_ActionDate : cleared.

Lemma cleared_Sponsor (x : Sponsor) :
  reflect_Sponsor (Sponsor_without_XMLName x) = clear_ignored (TStruct "Sponsor") (reflect_Sponsor x).
Proof. destruct x; reflected_cleared. Qed.
#[local] Hint Resolve cleared_Sponsor : cleared.

Lemma cleared_Cosponsor (x : Cosponsor) :
  reflect_Cosponsor (Cosponsor_without_XMLName x) = clear_ignored (TStruct "Cosponsor") (reflect_Cosponsor x).
Proof. destruct x; reflected_cleared. Qed.
#[local] Hint Resolve cleared_Cosponsor : cleared.

Lemma cleared_Committee (x : Committee) :
  reflect_Committee (Committee_without_XMLName x) = clear_ignored (TStruct "Committee") (reflect_Committee x).
Proof. destruct x; reflected_cleared. Qed.
#[local] Hint Resolve cleared_Committee : cleared.

Lemma cleared_ActionDescription (x : ActionDescription) :
  reflect_ActionDescription (ActionDescription_without_XMLName x) = clear_ignored (TStruct "ActionDescription") (reflect_ActionDescription x).
Proof. destruct x; reflected_cleared. Qed.
#[local] Hint Resolve cleared_ActionDescription : cleared.

Lemma cleared_Action (x : Action) :
  reflect_Action (Action_without_XMLName x) = clear_ignored (TStruct "Action") (reflect_Action x).
Proof. destruct x; reflected_cleared. Qed.
#[local] Hint Resolve cleared_Action : cleared.

Lemma cleared_Preface (x : Preface) :
  reflect_Preface (Preface_without_XMLName x) = clear_ignored (TStruct "Preface") (reflect_Preface x).
Proof. destruct x; reflected_cleared. Qed.
#[local] Hint Resolve cleared_Preface : cleared.

Lemma cleared_AmendPreface (x : AmendPreface) :
  reflect_AmendPreface (AmendPreface_without_XMLName x) = clear_ignored (TStruct "AmendPreface") (reflect_AmendPreface x).
Proof. destruct x; reflected_cleared. Qed.
#[local] Hint Resolve cleared_AmendPreface : cleared.

Lemma cleared_LongTitle (x : LongTitle) :
  reflect_LongTitle (LongTitle_without_XMLName x) = clear_ignored (TStruct "LongTitle") (reflect_LongTitle x).
Proof. destruct x; reflected_cleared. Qed.
#[local] Hint Resolve cleared_LongTitle : cleared.

Lemma cleared_EnactingFormula (x : EnactingFormula) :
  reflect_EnactingFormula (EnactingFormula_without_XMLName x) = clear_ignored (TStruct "EnactingFormula") (reflect_EnactingFormula x).
Proof. destruct x; reflected_cleared. Qed.
#[local] Hint Resolve cleared_EnactingFormula : cleared.

Lemma cleared_ReferenceItem (x : ReferenceItem) :
  reflect_ReferenceItem (ReferenceItem_without_XMLName x) = clear_ignored (TStruct "ReferenceItem") (reflect_ReferenceItem x).
Proof. destruct x; reflected_cleared. Qed.
#[local] Hint Resolve cleared_ReferenceItem : cleared.

Lemma cleared_TOC (x : TOC) :
  reflect_TOC (TOC_without_XMLName x) = clear_ignored (TStruct "TOC") (reflect_TOC x).
Proof. destruct x; reflected_cleared. Qed.
#[local] Hint Resolve cleared_TOC : cleared.

Lemma cleared_Recital (x : Recital) :
  reflect_Recital (Recital_without_XMLName x) = clear_ignored (TStruct "Recital") (reflect_Recital x).
Proof. destruct x; reflected_cleared. Qed.
#[local] Hint Resolve cleared_Recital : cleared.

Lemma cleared_ResolvingClause (x : ResolvingClause) :
  reflect_ResolvingClause (ResolvingClause_without_XMLName x) = clear_ignored (TStruct "ResolvingClause") (reflect_ResolvingClause x).
Proof. destruct x; reflected_cleared. Qed.
#[local] Hint Resolve cleared_ResolvingClause : cleared.

Lemma cleared_Preamble (x : Preamble) :
  reflect_Preamble (Preamble_without_XMLName x) = clear_ignored (TStruct "Preamble") (reflect_Preamble x).
Proof. destruct x; reflected_cleared. Qed.
#[local] Hint Resolve cleared_Preamble : cleared.

Lemma cleared_Title (x : Title) :
  reflect_Title (Title_without_XMLName x) = clear_ignored (TStruct "Title") (reflect_Title x).
Proof. destruct x; reflected_cleared. Qed.
#[local] Hint Resolve cleared_Title : cleared.

Lemma cleared_Main (x : Main) :
  reflect_Main (Main_without_XMLName x) = clear_ignored (TStruct "Main") (reflect_Main x).
Proof. destruct x; reflected_cleared. Qed.
#[local] Hint Resolve cleared_Main : cleared.

Lemma cleared_AmendmentInstruction (x : AmendmentInstruction) :
  reflect_AmendmentInstruction (AmendmentInstruction_without_XMLName x) = clear_ignored (TStruct "AmendmentInstruction") (reflect_AmendmentInstruction x).
Proof. destruct x; reflected_cleared. Qed.
#[local] Hint Resolve cleared_AmendmentInstruction : cleared.

Lemma cleared_Notation (x : Notation) :
  reflect_Notation (Notation_without_XMLName x) = clear_ignored (TStruct "Notation") (reflect_Notation x).
Proof. destruct x; reflected_cleared. Qed.
#[local] Hint Resolve cleared_Notation : cleared.

Lemma cleared_Signature (x : Signature) :
  reflect_Signature (Signature_without_XMLName x) = clear_ignored (TStruct "Signature") (reflect_Signature x).
Proof. destruct x; reflected_cleared. Qed.
#[local] Hint Resolve cleared_Signature : cleared.

Lemma cleared_Signatures (x : Signatures) :
  reflect_Signatures (Signatures_without_XMLName x) = clear_ignored (TStruct "Signatures") (reflect_Signatures x).
Proof. destruct x; reflected_cleared. Qed.
#[local] Hint Resolve cleared_Signatures : cleared.

Lemma cleared_Endorsement (x : Endorsement) :
  reflect_Endorsement (Endorsement_without_XMLName x) = clear_ignored (TStruct "Endorsement") (reflect_Endorsement x).
Proof. destruct x; reflected_cleared. Qed.
#[local] Hint Resolve cleared_Endorsement : cleared.

Lemma cleared_AmendMain (x : AmendMain) :
  reflect_AmendMain (AmendMain_without_XMLName x) = clear_ignored (TStruct "AmendMain") (reflect_AmendMain x).
Proof. destruct x; reflected_cleared. Qed.
#[local] Hint Resolve cleared_AmendMain : cleared.

Lemma cleared_RelatedDocument (x : RelatedDocument) :
  reflect_RelatedDocument (RelatedDocument_without_XMLName x) = clear_ignored (TStruct "RelatedDocument") (reflect_RelatedDocument x).
Proof. destruct x; reflected_cleared. Qed.
#[local] Hint Resolve cleared_RelatedDocument : cleared.

Lemma cleared_Meta (x : Meta) :
  reflect_Meta (Meta_without_XMLName x) = clear_ignored (TStruct "Meta") (reflect_Meta x).
Proof. destruct x; reflected_cleared. Qed.
#[local] Hint Resolve cleared_Meta : cleared.

Lemma cleared_AmendMeta (x : AmendMeta) :
  reflect_AmendMeta (AmendMeta_without_XMLName x) = clear_ignored (TStruct "AmendMeta") (reflect_AmendMeta x).
Proof. destruct x; reflected_cleared. Qed.
#[local] Hint Resolve cleared_AmendMeta : cleared.

Lemma cleared_Bill (x : Bill) :
  reflect_Bill (Bill_without_XMLName x) = clear_ignored (TStruct "Bill") (reflect_Bill x).
Proof. destruct x; reflected_cleared. Qed.
#[local] Hint Resolve cleared_Bill : cleared.

Lemma cleared_Resolution (x : Resolution) :
  reflect_Resolution (Resolution_without_XMLName x) = clear_ignored (TStruct "Resolution") (reflect_Resolution x).
Proof. destruct x; reflected_cleared. Qed.
#[local] Hint Resolve cleared_Resolution : cleared.

Lemma cleared_EngrossedAmendment (x : EngrossedAmendment) :
  reflect_EngrossedAmendment (EngrossedAmendment_without_XMLName x) = clear_ignored (TStruct "EngrossedAmendment") (reflect_EngrossedAmendment x).
Proof. destruct x; reflected_cleared. Qed.
#[local] Hint Resolve cleared_EngrossedAmendment : cleared.

Lemma cleared_Amendment (x : Amendment) :
  reflect_Amendment (Amendment_without_XMLName x) = clear_ignored (TStruct "Amendment") (reflect_Amendment x).
Proof. destruct x; reflected_cleared. Qed.
#[local] Hint Resolve cleared_Amendment : cleared.

(** *** What the accessors return after the round trip *)

Lemma collected_from_cleared (A B : Type) (without_A : A -> A) (without_B : B -> B)
      (step : list B -> A -> list B) :
  (forall acc a, step (map without_B acc) (without_A a) = map without_B (step acc a)) ->
  forall (l : list A) (acc : list B),
    fold_left step (map without_A l) (map without_B acc)
    = map without_B (fold_left step l acc).
Proof.
  intros Hstep. induction l as [ | a l IH]; intros acc; [ reflexivity | ].
  cbn [map fold_left]. rewrite Hstep. apply IH.
Qed.

Ltac collected_step :=
  intros acc a; destruct a as [n stage date [d | ] instruction];
  [ destruct d; cbn -[map app]; rewrite map_app; reflexivity | reflexivity ].

Lemma sponsors_from_cleared (l : list Action) :
  fold_left
    (fun sponsors action =>
       match Action_ActionDescription action with
       | Some description => sponsors ++ ActionDescription_Sponsors description
       | None => sponsors
       end)
    (map Action_without_XMLName l) []
  = map Sponsor_without_XMLName
      (fold_left
         (fun sponsors action =>
            match Action_ActionDescription action with
            | Some description => sponsors ++ ActionDescription_Sponsors description
            | None => sponsors
            end)
         l []).
Proof.
  match goal with
  | |- fold_left ?step _ _ = _ =>
      refine (collected_from_cleared _ _ Action_without_XMLName
                                     Sponsor_without_XMLName step _ l [])
  end.
  collected_step.
Qed.

Lemma cosponsors_from_cleared (l : list Action) :
  fold_left
    (fun cosponsors action =>
       match Action_ActionDescription action with
       | Some description => cosponsors ++ ActionDescription_Cosponsors description
       | None => cosponsors
       end)
    (map Action_without_XMLName l) []
  = map Cosponsor_without_XMLName
      (fold_left
         (fun cosponsors action =>
            match Action_ActionDescription action with
            | Some description => cosponsors ++ ActionDescription_Cosponsors description
            | None => cosponsors
            end)
         l []).
Proof.
  match goal with
  | |- fold_left ?step _ _ = _ =>
      refine (collected_from_cleared _ _ Action_without_XMLName
                                     Cosponsor_without_XMLName step _ l [])
  end.
  collected_step.
Qed.

Lemma committees_from_cleared (l : list Action) :
  fold_left
    (fun committees action =>
       match Action_ActionDescription action with
       | Some description => committees ++ ActionDescription_Committees description
       | None => committees
       end)
    (map Action_without_XMLName l) []
  = map Committee_without_XMLName
      (fold_left
         (fun committees action =>
            match Action_ActionDescription action with
            | Some description => committees ++ ActionDescription_Committees description
            | None => committees
            end)
         l []).
Proof.
  match goal with
  | |- fold_left ?step _ _ = _ =>
      refine (collected_from_cleared _ _ Action_without_XMLName
                                     Committee_without_XMLName step _ l [])
  end.
  collected_step.
Qed.

(** One accessor on a document and on the document without its names. *)
Ltac same_answer :=
  match goal with
  | |- ?f ?x' = _ => unfold f
  end;
  cbn -[fold_left map];
  repeat match goal with
         | |- context [match ?o with _ => _ end] =>
             is_var o; destruct o as [? | ]
         end;
  cbn -[fold_left map];
  first [ reflexivity
        | apply sponsors_from_cleared
        | apply cosponsors_from_cleared
        | apply committees_from_cleared ].

(** X18: the accessors give the same answers after the JSON round trip,
    as the tests of the package check for the document number and the
    congress.  For each of the four document types and every document of
    that type whose strings are valid UTF-8 and for which [ToJSON]
    returns no error (its JSON nests at most 10000 objects and arrays
    deep), the matching [FromJSON] function applied to the JSON of the
    document returns a document on
    which every accessor that returns a string, a boolean or the
    citations returns what it returns on the original, and every
    accessor that returns sponsors, cosponsors, actions, committees or
    sections returns those of the original, each without its element
    names ([XMLName]) and otherwise unchanged. *)
Theorem accessors_survive_the_json_round_trip :
  (forall b : Bill,
      valid_strings (reflect_Bill b) = true ->
      ToJSON_error "Bill" (reflect_Bill b) = None ->
      exists b' : Bill,
        BillFromJSON (ToJSON "Bill" (reflect_Bill b)) = Some (reflect_Bill b') /\
        Bill_GetDocumentNumber b' = Bill_GetDocumentNumber b /\
        Bill_GetDocumentType b' = Bill_GetDocumentType b /\
        Bill_GetCongress b' = Bill_GetCongress b /\
        Bill_GetSession b' = Bill_GetSession b /\
        Bill_GetTitle b' = Bill_GetTitle b /\
        Bill_GetStage b' = Bill_GetStage b /\
        Bill_GetChamber b' = Bill_GetChamber b /\
        Bill_IsPublic b' = Bill_IsPublic b /\
        Bill_GetCitations b' = Bill_GetCitations b /\
        Bill_GetCreator b' = Bill_GetCreator b /\
        Bill_GetPublisher b' = Bill_GetPublisher b /\
        Bill_GetLanguage b' = Bill_GetLanguage b /\
        Bill_GetRights b' = Bill_GetRights b /\
        Bill_GetProcessedBy b' = Bill_GetProcessedBy b /\
        Bill_GetProcessedDate b' = Bill_GetProcessedDate b /\
        Bill_GetSponsors b' = map Sponsor_without_XMLName (Bill_GetSponsors b) /\
        Bill_GetCosponsors b' = map Cosponsor_without_XMLName (Bill_GetCosponsors b) /\
        Bill_GetActions b' = map Action_without_XMLName (Bill_GetActions b) /\
        Bill_GetCommittees b' = map Committee_without_XMLName (Bill_GetCommittees b) /\
        Bill_GetSections b' = map Section_without_XMLName (Bill_GetSections b)) /\
  (forall r : Resolution,
      valid_strings (reflect_Resolution r) = true ->
      ToJSON_error "Resolution" (reflect_Resolution r) = None ->
      exists r' : Resolution,
        ResolutionFromJSON (ToJSON "Resolution" (reflect_Resolution r)) = Some (reflect_Resolution r') /\
        Resolution_GetDocumentNumber r' = Resolution_GetDocumentNumber r /\
        Resolution_GetDocumentType r' = Resolution_GetDocumentType r /\
        Resolution_GetCongress r' = Resolution_GetCongress r /\
        Resolution_GetSession r' = Resolution_GetSession r /\
        Resolution_GetTitle r' = Resolution_GetTitle r /\
        Resolution_GetStage r' = Resolution_GetStage r /\
        Resolution_GetChamber r' = Resolution_GetChamber r /\
        Resolution_IsPublic r' = Resolution_IsPublic r /\
        Resolution_GetCitations r' = Resolution_GetCitations r /\
        Resolution_GetCreator r' = Resolution_GetCreator r /\
        Resolution_GetPublisher r' = Resolution_GetPublisher r /\
        Resolution_GetLanguage r' = Resolution_GetLanguage r /\
        Resolution_GetRights r' = Resolution_GetRights r /\
        Resolution_GetProcessedBy r' = Resolution_GetProcessedBy r /\
        Resolution_GetProcessedDate r' = Resolution_GetProcessedDate r /\
        Resolution_GetSponsors r' = map Sponsor_without_XMLName (Resolution_GetSponsors r) /\
        Resolution_GetCosponsors r' = map Cosponsor_without_XMLName (Resolution_GetCosponsors r) /\
        Resolution_GetActions r' = map Action_without_XMLName (Resolution_GetActions r) /\
        Resolution_GetCommittees r' = map Committee_without_XMLName (Resolution_GetCommittees r) /\
        Resolution_GetSections r' = map Section_without_XMLName (Resolution_GetSections r)) /\
  (forall e : EngrossedAmendment,
      valid_strings (reflect_EngrossedAmendment e) = true ->
      ToJSON_error "EngrossedAmendment" (reflect_EngrossedAmendment e) = None ->
      exists e' : EngrossedAmendment,
        EngrossedAmendmentFromJSON (ToJSON "EngrossedAmendment" (reflect_EngrossedAmendment e)) = Some (reflect_EngrossedAmendment e') /\
        EngrossedAmendment_GetDocumentNumber e' = EngrossedAmendment_GetDocumentNumber e /\
        EngrossedAmendment_GetDocumentType e' = EngrossedAmendment_GetDocumentType e /\
        EngrossedAmendment_GetCongress e' = EngrossedAmendment_GetCongress e /\
        EngrossedAmendment_GetSession e' = EngrossedAmendment_GetSession e /\
        EngrossedAmendment_GetTitle e' = EngrossedAmendment_GetTitle e /\
        EngrossedAmendment_GetStage e' = EngrossedAmendment_GetStage e /\
        EngrossedAmendment_GetChamber e' = EngrossedAmendment_GetChamber e /\
        EngrossedAmendment_IsPublic e' = EngrossedAmendment_IsPublic e /\
        EngrossedAmendment_GetCitations e' = EngrossedAmendment_GetCitations e /\
        EngrossedAmendment_GetAmendmentDegree e' = EngrossedAmendment_GetAmendmentDegree e /\
        EngrossedAmendment_GetCreator e' = EngrossedAmendment_GetCreator e /\
        EngrossedAmendment_GetPublisher e' = EngrossedAmendment_GetPublisher e /\
        EngrossedAmendment_GetLanguage e' = EngrossedAmendment_GetLanguage e /\
        EngrossedAmendment_GetRights e' = EngrossedAmendment_GetRights e /\
        EngrossedAmendment_GetProcessedBy e' = EngrossedAmendment_GetProcessedBy e /\
        EngrossedAmendment_GetProcessedDate e' = EngrossedAmendment_GetProcessedDate e /\
        EngrossedAmendment_GetActions e' = map Action_without_XMLName (EngrossedAmendment_GetActions e)) /\
  (forall a : Amendment,
      valid_strings (reflect_Amendment a) = true ->
      ToJSON_error "Amendment" (reflect_Amendment a) = None ->
      exists a' : Amendment,
        AmendmentFromJSON (ToJSON "Amendment" (reflect_Amendment a)) = Some (reflect_Amendment a') /\
        Amendment_GetDocumentNumber a' = Amendment_GetDocumentNumber a /\
        Amendment_GetDocumentType a' = Amendment_GetDocumentType a /\
        Amendment_GetCongress a' = Amendment_GetCongress a /\
        Amendment_GetSession a' = Amendment_GetSession a /\
        Amendment_GetTitle a' = Amendment_GetTitle a /\
        Amendment_GetStage a' = Amendment_GetStage a /\
        Amendment_GetChamber a' = Amendment_GetChamber a /\
        Amendment_IsPublic a' = Amendment_IsPublic a /\
        Amendment_GetCitations a' = Amendment_GetCitations a /\
        Amendment_GetAmendmentDegree a' = Amendment_GetAmendmentDegree a /\
        Amendment_GetCreator a' = Amendment_GetCreator a /\
        Amendment_GetPublisher a' = Amendment_GetPublisher a /\
        Amendment_GetLanguage a' = Amendment_GetLanguage a /\
        Amendment_GetRights a' = Amendment_GetRights a /\
        Amendment_GetProcessedBy a' = Amendment_GetProcessedBy a /\
        Amendment_GetProcessedDate a' = Amendment_GetProcessedDate a /\
        Amendment_GetActions a' = map Action_without_XMLName (Amendment_GetActions a)).
Proof.
  split; [ | split; [ | split ] ].
  - intros b Hvalid _. exists (Bill_without_XMLName b). split.
    + rewrite cleared_Bill.
      exact (every_value_round_trips _ (TStruct "Bill") (well_typed_Bill b) Hvalid).
    + destruct b as [n s1 s2 s3 s4 s5 s6 s7 meta preface main em].
      repeat split; same_answer.
  - intros r Hvalid _. exists (Resolution_without_XMLName r). split.
    + rewrite cleared_Resolution.
      exact (every_value_round_trips _ (TStruct "Resolution")
               (well_typed_Resolution r) Hvalid).
    + destruct r as [n s1 s2 s3 s4 s5 s6 s7 meta preface main em].
      repeat split; same_answer.
  - intros e Hvalid _. exists (EngrossedAmendment_without_XMLName e). split.
    + rewrite cleared_EngrossedAmendment.
      exact (every_value_round_trips _ (TStruct "EngrossedAmendment")
               (well_typed_EngrossedAmendment e) Hvalid).
    + destruct e as [n s1 s2 s3 s4 s5 style s6 s7 meta preface main sig endorsement].
      repeat split; same_answer.
  - intros a Hvalid _. exists (Amendment_without_XMLName a). split.
    + rewrite cleared_Amendment.
      exact (every_value_round_trips _ (TStruct "Amendment")
               (well_typed_Amendment a) Hvalid).
    + destruct a as [n s1 s2 s3 s4 s5 s6 s7 meta preface main].
      repeat split; same_answer.
Qed.

(** The sample bill: number 32 of the 114th Congress before and after. *)
Lemma accessors_survive_the_json_round_trip_witness :
  exists b' : Bill,
    BillFromJSON (ToJSON "Bill" (reflect_Bill sample_bill)) = Some (reflect_Bill b') /\
    Bill_GetDocumentNumber b' = "32" /\
    Bill_GetCongress b' = "114".
Proof.
  destruct (proj1 accessors_survive_the_json_round_trip sample_bill)
    as [b' [Hdecoded [Hnumber [_ [Hcongress _]]]]].
  - vm_compute. reflexivity.
  - vm_compute. reflexivity.
  - exists b'. split; [ exact Hdecoded | ].
    split; [ rewrite Hnumber | rewrite Hcongress ]; reflexivity.
Defined.

(** The accessors of a sponsor, a cosponsor, a committee and a section do
    not read the element name. *)
Lemma element_accessors_without_XMLName :
  (forall x : Sponsor, Sponsor_GetID (Sponsor_without_XMLName x) = Sponsor_GetID x) /\
  (forall x : Sponsor, Sponsor_GetName (Sponsor_without_XMLName x) = Sponsor_GetName x) /\
  (forall x : Cosponsor, Cosponsor_GetID (Cosponsor_without_XMLName x) = Cosponsor_GetID x) /\
  (forall x : Cosponsor, Cosponsor_GetName (Cosponsor_without_XMLName x) = Cosponsor_GetName x) /\
  (forall x : Committee, Committee_GetID (Committee_without_XMLName x) = Committee_GetID x) /\
  (forall x : Committee, Committee_GetName (Committee_without_XMLName x) = Committee_GetName x) /\
  (forall x : Section, Section_GetID (Section_without_XMLName x) = Section_GetID x) /\
  (forall x : Section, Section_GetIdentifier (Section_without_XMLName x) = Section_GetIdentifier x) /\
  (forall x : Section, Section_GetNum (Section_without_XMLName x) = Section_GetNum x) /\
  (forall x : Section, Section_GetNumValue (Section_without_XMLName x) = Section_GetNumValue x) /\
  (forall x : Section, Section_GetHeading (Section_without_XMLName x) = Section_GetHeading x) /\
  (forall x : Section, Section_GetContent (Section_without_XMLName x) = Section_GetContent x) /\
  (forall x : Section, Section_GetChapeau (Section_without_XMLName x) = Section_GetChapeau x).
Proof.
  repeat split; intros x; destruct x;
    match goal with
    | |- ?f _ = _ => unfold f
    end;
    cbn -[map];
    repeat match goal with
           | |- context [option_map _ ?o] =>
               is_var o; destruct o as [inner | ]; [ destruct inner | ]
           end;
    reflexivity.
Qed.

Lemma map_after_cleared (A B : Type) (f : A -> B) (without : A -> A) (l l' : list A) :
  (forall x, f (without x) = f x) -> l' = map without l -> map f l' = map f l.
Proof.
  intros Hf ->. rewrite map_map. apply map_ext. exact Hf.
Qed.

Ltac element_answers :=
  repeat split;
  match goal with
  | |- map ?f (?get ?x') = map ?f (?get ?x) =>
      eapply (map_after_cleared _ _ f _ (get x) (get x')); cycle 1;
      [ same_answer | intros y; apply element_accessors_without_XMLName ]
  end.

(** X19: what the members of a document answer after the JSON round
    trip.  For every bill and every resolution whose strings are valid
    UTF-8 and for which [ToJSON] returns no error (its JSON nests at most
    10000 objects and arrays deep), the document that the matching
    [FromJSON] function returns for the JSON of the document has the same
    sponsors, cosponsors,
    committees and sections as far as their accessors tell: [GetID] and
    [GetName] of each sponsor, cosponsor and committee, and [GetID],
    [GetIdentifier], [GetNum], [GetNumValue], [GetHeading], [GetContent]
    and [GetChapeau] of each section, in order, are those of the
    original. *)
Theorem members_answer_alike_after_the_json_round_trip :
  (forall b : Bill,
      valid_strings (reflect_Bill b) = true ->
      ToJSON_error "Bill" (reflect_Bill b) = None ->
      exists b' : Bill,
        BillFromJSON (ToJSON "Bill" (reflect_Bill b)) = Some (reflect_Bill b') /\
        map Sponsor_GetID (Bill_GetSponsors b') = map Sponsor_GetID (Bill_GetSponsors b) /\
        map Sponsor_GetName (Bill_GetSponsors b') = map Sponsor_GetName (Bill_GetSponsors b) /\
        map Cosponsor_GetID (Bill_GetCosponsors b') = map Cosponsor_GetID (Bill_GetCosponsors b) /\
        map Cosponsor_GetName (Bill_GetCosponsors b') = map Cosponsor_GetName (Bill_GetCosponsors b) /\
        map Committee_GetID (Bill_GetCommittees b') = map Committee_GetID (Bill_GetCommittees b) /\
        map Committee_GetName (Bill_GetCommittees b') = map Committee_GetName (Bill_GetCommittees b) /\
        map Section_GetID (Bill_GetSections b') = map Section_GetID (Bill_GetSections b) /\
        map Section_GetIdentifier (Bill_GetSections b') = map Section_GetIdentifier (Bill_GetSections b) /\
        map Section_GetNum (Bill_GetSections b') = map Section_GetNum (Bill_GetSections b) /\
        map Section_GetNumValue (Bill_GetSections b') = map Section_GetNumValue (Bill_GetSections b) /\
        map Section_GetHeading (Bill_GetSections b') = map Section_GetHeading (Bill_GetSections b) /\
        map Section_GetContent (Bill_GetSections b') = map Section_GetContent (Bill_GetSections b) /\
        map Section_GetChapeau (Bill_GetSections b') = map Section_GetChapeau (Bill_GetSections b)) /\
  (forall r : Resolution,
      valid_strings (reflect_Resolution r) = true ->
      ToJSON_error "Resolution" (reflect_Resolution r) = None ->
      exists r' : Resolution,
        ResolutionFromJSON (ToJSON "Resolution" (reflect_Resolution r)) = Some (reflect_Resolution r') /\
        map Sponsor_GetID (Resolution_GetSponsors r') = map Sponsor_GetID (Resolution_GetSponsors r) /\
        map Sponsor_GetName (Resolution_GetSponsors r') = map Sponsor_GetName (Resolution_GetSponsors r) /\
        map Cosponsor_GetID (Resolution_GetCosponsors r') = map Cosponsor_GetID (Resolution_GetCosponsors r) /\
        map Cosponsor_GetName (Resolution_GetCosponsors r') = map Cosponsor_GetName (Resolution_GetCosponsors r) /\
        map Committee_GetID (Resolution_GetCommittees r') = map Committee_GetID (Resolution_GetCommittees r) /\
        map Committee_GetName (Resolution_GetCommittees r') = map Committee_GetName (Resolution_GetCommittees r) /\
        map Section_GetID (Resolution_GetSections r') = map Section_GetID (Resolution_GetSections r) /\
        map Section_GetIdentifier (Resolution_GetSections r') = map Section_GetIdentifier (Resolution_GetSections r) /\
        map Section_GetNum (Resolution_GetSections r') = map Section_GetNum (Resolution_GetSections r) /\
        map Section_GetNumValue (Resolution_GetSections r') = map Section_GetNumValue (Resolution_GetSections r) /\
        map Section_GetHeading (Resolution_GetSections r') = map Section_GetHeading (Resolution_GetSections r) /\
        map Section_GetContent (Resolution_GetSections r') = map Section_GetContent (Resolution_GetSections r) /\
        map Section_GetChapeau (Resolution_GetSections r') = map Section_GetChapeau (Resolution_GetSections r)).
Proof.
  split.
  - intros b Hvalid _. exists (Bill_without_XMLName b). split.
    + rewrite cleared_Bill.
      exact (every_value_round_trips _ (TStruct "Bill") (well_typed_Bill b) Hvalid).
    + destruct b as [n s1 s2 s3 s4 s5 s6 s7 meta preface main em].
      element_answers.
  - intros r Hvalid _. exists (Resolution_without_XMLName r). split.
    + rewrite cleared_Resolution.
      exact (every_value_round_trips _ (TStruct "Resolution")
               (well_typed_Resolution r) Hvalid).
    + destruct r as [n s1 s2 s3 s4 s5 s6 s7 meta preface main em].
      element_answers.
Qed.

(** The one section of the sample bill is still section 1, under its
    heading. *)
Lemma members_answer_alike_after_the_json_round_trip_witness :
  exists b' : Bill,
    BillFromJSON (ToJSON "Bill" (reflect_Bill sample_bill)) = Some (reflect_Bill b') /\
    map Section_GetNumValue (Bill_GetSections b') = ["1"] /\
    map Section_GetHeading (Bill_GetSections b') = ["Short title"].
Proof.
  destruct (proj1 members_answer_alike_after_the_json_round_trip sample_bill)
    as [b' [Hdecoded H]].
  - vm_compute. reflexivity.
  - vm_compute. reflexivity.
  - exists b'. split; [ exact Hdecoded | ].
    destruct H as [_ [_ [_ [_ [_ [_ [_ [_ [_ [Hvalue [Hheading _]]]]]]]]]]].
    split; [ rewrite Hvalue | rewrite Hheading ]; reflexivity.
Defined.

(** ** JSON keys and letter case *)

(** In every struct the keys stay distinct after case folding. *)
Lemma declarations_fold_distinct :
  forallb (fun d => distinct (map encoding_json.foldName (keys (snd d))))
          declarations = true.
Proof. vm_compute. reflexivity. Qed.

Lemma fields_of_fold_distinct (name : string) :
  distinct (map encoding_json.foldName (keys (fields_of name))) = true.
Proof.
  unfold fields_of.
  pose proof declarations_fold_distinct as H.
  induction declarations as [ | [n fs] l IH]; simpl in *.
  - reflexivity.
  - apply andb_prop in H. destruct H as [H1 H2].
    destruct (String.eqb n name); [ exact H1 | exact (IH H2) ].
Qed.

Lemma distinct_app_not_in_tail (l1 l2 : list string) (k : string) :
  distinct (l1 ++ k :: l2) = true -> ~ In k l2.
Proof.
  induction l1 as [ | x l1 IH]; simpl; intros H.
  - apply andb_prop in H. destruct H as [Hk _].
    apply negb_true_iff in Hk. intros Hin.
    assert (E : existsb (String.eqb k) l2 = true).
    { apply existsb_exists. exists k. split; [ exact Hin | apply String.eqb_refl ]. }
    congruence.
  - apply andb_prop in H. exact (IH (proj2 H)).
Qed.

Lemma find_key_nowhere (test : string -> bool) (fs : list field) :
  (forall k, In k (keys fs) -> test k = false) ->
  forall i, encoding_json.find_key test fs i = None.
Proof.
  induction fs as [ | g fs IH]; intros Hno i; [ reflexivity | ].
  cbn [encoding_json.find_key]. cbn [keys] in Hno.
  destruct (encoding_json.key_of g) as [kg | ].
  - rewrite (Hno kg (or_introl eq_refl)).
    apply IH. intros k Hk. apply Hno. right. exact Hk.
  - apply IH. exact Hno.
Qed.

(** A key that folds like the key of a field finds that field. *)
Lemma find_field_folded (fs1 : list field) (f : field) (fs2 : list field)
      (k key : string) :
  distinct (map encoding_json.foldName (keys (fs1 ++ f :: fs2))) = true ->
  encoding_json.key_of f = Some k ->
  encoding_json.foldName key = encoding_json.foldName k ->
  encoding_json.find_field (fs1 ++ f :: fs2) key = Some (length fs1, f).
Proof.
  intros Hd Hk Hfold.
  rewrite keys_app in Hd. cbn [keys] in Hd. rewrite Hk in Hd.
  rewrite map_app in Hd. cbn [map] in Hd.
  pose proof (distinct_app_not_in _ _ _ Hd) as Hbefore.
  pose proof (distinct_app_not_in_tail _ _ _ Hd) as Hafter.
  assert (Hfolded : forall k0, In k0 (keys fs1) ->
                               String.eqb (encoding_json.foldName k0)
                                          (encoding_json.foldName key) = false).
  { intros k0 Hin. apply String.eqb_neq. intros E.
    apply Hbefore. rewrite <- Hfold, <- E. apply in_map. exact Hin. }
  unfold encoding_json.find_field.
  destruct (String.eqb_spec key k) as [-> | Hne].
  - rewrite (find_key_here (String.eqb k) fs1 f fs2 k Hk (String.eqb_refl k)).
    + reflexivity.
    + intros k0 Hin. apply String.eqb_neq. intros <-.
      pose proof (Hfolded k Hin) as E. rewrite String.eqb_refl in E. discriminate E.
  - rewrite (find_key_nowhere (String.eqb key)).
    + rewrite (find_key_here _ fs1 f fs2 k Hk).
      * reflexivity.
      * rewrite Hfold. apply String.eqb_refl.
      * exact Hfolded.
    + intros k0 Hin. apply String.eqb_neq. intros <-.
      rewrite keys_app in Hin. cbn [keys] in Hin. rewrite Hk in Hin.
      apply in_app_or in Hin. destruct Hin as [Hin | [E | Hin]].
      * pose proof (Hfolded key Hin) as E. rewrite String.eqb_refl in E.
        discriminate E.
      * exact (Hne (eq_sym E)).
      * apply Hafter. rewrite <- Hfold. apply in_map. exact Hin.
Qed.

Lemma find_field_any_case (name : string) (f : field) (k key : string) :
  In f (fields_of name) ->
  encoding_json.key_of f = Some k ->
  encoding_json.foldName key = encoding_json.foldName k ->
  encoding_json.find_field (fields_of name) key
  = encoding_json.find_field (fields_of name) k.
Proof.
  intros Hin Hk Hfold.
  pose proof (fields_of_fold_distinct name) as Hd.
  destruct (in_split _ _ Hin) as [fs1 [fs2 E]]. rewrite E in *.
  rewrite (find_field_folded fs1 f fs2 k key Hd Hk Hfold).
  rewrite (find_field_folded fs1 f fs2 k k Hd Hk eq_refl).
  reflexivity.
Qed.

Lemma unmarshal_members_same_field (fs : list field) (k key : string) (j : json)
      (after : list (string * json)) :
  encoding_json.find_field fs key = encoding_json.find_field fs k ->
  forall (before : list (string * json)) (vs : list value),
    unmarshal_members fs (before ++ (key, j) :: after) vs
    = unmarshal_members fs (before ++ (k, j) :: after) vs.
Proof.
  intros Hsame. induction before as [ | [k0 j0] before IH]; intros vs.
  - cbn [app unmarshal_members]. rewrite Hsame. reflexivity.
  - cbn [app unmarshal_members].
    destruct (encoding_json.find_field fs k0) as [[i f] | ]; [ | apply IH ].
    destruct (encoding_json.unmarshal (field_type f) j0
                                      (nth i vs (zero_field (field_type f))));
      [ apply IH | reflexivity ].
Qed.

(** X20: the keys of a document are matched without regard to letter
    case.  For each of the four [FromJSON] functions and every key [k] of
    the document type, a member written with a key that differs from [k]
    only by case folding (the ASCII letters, and the two letters U+017F
    and U+212A that fold to [s] and [k]) is decoded as the member with
    key [k]: the result is the same, whatever the value and wherever the
    member stands.  No two keys of a struct of the package fold to the
    same text, so the field is never in doubt. *)
Theorem FromJSON_matches_keys_in_any_case
        (f : field) (k key : string) (j : json) (before after : list (string * json)) :
  encoding_json.key_of f = Some k ->
  encoding_json.foldName key = encoding_json.foldName k ->
  (In f (fields_of "Bill") ->
   BillFromJSON (JObject (before ++ (key, j) :: after))
   = BillFromJSON (JObject (before ++ (k, j) :: after))) /\
  (In f (fields_of "Resolution") ->
   ResolutionFromJSON (JObject (before ++ (key, j) :: after))
   = ResolutionFromJSON (JObject (before ++ (k, j) :: after))) /\
  (In f (fields_of "EngrossedAmendment") ->
   EngrossedAmendmentFromJSON (JObject (before ++ (key, j) :: after))
   = EngrossedAmendmentFromJSON (JObject (before ++ (k, j) :: after))) /\
  (In f (fields_of "Amendment") ->
   AmendmentFromJSON (JObject (before ++ (key, j) :: after))
   = AmendmentFromJSON (JObject (before ++ (k, j) :: after))).
Proof.
  intros Hk Hfold.
  unfold BillFromJSON, ResolutionFromJSON, EngrossedAmendmentFromJSON,
    AmendmentFromJSON.
  repeat split; intros Hin; rewrite !unmarshal_struct;
    rewrite (unmarshal_members_same_field _ k key j after
               (find_field_any_case _ f k key Hin Hk Hfold));
    reflexivity.
Qed.

(** [XMLNS] for [xmlns]. *)
Lemma FromJSON_matches_keys_in_any_case_witness :
  BillFromJSON (JObject ([] ++ ("XMLNS", JString "urn:x") :: [("meta", JNull)]))
  = BillFromJSON (JObject ([] ++ ("xmlns", JString "urn:x") :: [("meta", JNull)])).
Proof.
  apply (proj1 (FromJSON_matches_keys_in_any_case
                  (fld "XMLNS" TString "xmlns,attr" "xmlns")
                  "xmlns" "XMLNS" (JString "urn:x") [] [("meta", JNull)]
                  eq_refl eq_refl)).
  vm_compute. tauto.
Defined.

(** ** The element name a decoded struct records *)

(** In a declaration the name field, if any, comes first and is an
    [xml.Name]. *)
Definition name_first (fs : list field) : bool :=
  match fs with
  | [] => true
  | f0 :: rest =>
      forallb (fun f => negb (encoding_xml.is_XMLName f)) rest
      && (negb (encoding_xml.is_XMLName f0)
          || match field_type f0 with
             | TName => true
             | _ => false
             end)
  end.

Lemma declarations_name_first :
  forallb (fun d => name_first (snd d)) declarations = true.
Proof. vm_compute. reflexivity. Qed.

Lemma fields_of_name_first (name : string) : name_first (fields_of name) = true.
Proof.
  unfold fields_of.
  pose proof declarations_name_first as H.
  induction declarations as [ | [n fs] l IH]; simpl in *.
  - reflexivity.
  - apply andb_prop in H. destruct H as [H1 H2].
    destruct (String.eqb n name); [ exact H1 | exact (IH H2) ].
Qed.

Lemma first_field_index (test : field -> bool) (fs : list field) :
  forall (k i : nat) (f : field),
    decoder.first_field test fs k = Some (i, f) -> k <= i.
Proof.
  induction fs as [ | g fs IH]; intros k i f H; [ discriminate H | ].
  cbn [decoder.first_field] in H.
  destruct (test g).
  - injection H as <- _. lia.
  - pose proof (IH (S k) i f H). lia.
Qed.

Lemma matches_not_XMLName (mode : xmlmode) (name : xml.Name) (f : field) :
  encoding_xml.is_XMLName f = true -> decoder.matches mode name f = false.
Proof.
  intros H. unfold decoder.matches, decoder.fills. rewrite H. reflexivity.
Qed.

Lemma fills_not_XMLName (mode : xmlmode) (f : field) :
  encoding_xml.is_XMLName f = true -> decoder.fills mode f = false.
Proof.
  intros H. unfold decoder.fills. rewrite H. reflexivity.
Qed.

Section NameKept.

Variables (f0 : field) (rest : list field) (x : value).

Hypothesis f0_is_name : encoding_xml.is_XMLName f0 = true.

(** A list of field values whose first, the name, is [x]. *)
Definition named_by (vs : list value) : Prop := exists xs, vs = x :: xs.

Lemma set_nth_keeps_name (test : field -> bool) (i : nat) (f : field)
      (v : value) (vs : list value) :
  test f0 = false ->
  decoder.first_field test (f0 :: rest) 0 = Some (i, f) ->
  named_by vs -> named_by (encoding_json.set_nth i v vs).
Proof.
  intros Htest Hfirst [xs ->].
  cbn [decoder.first_field] in Hfirst. rewrite Htest in Hfirst.
  pose proof (first_field_index _ _ _ _ _ Hfirst) as Hi.
  destruct i as [ | i]; [ lia | ].
  cbn [encoding_json.set_nth]. eexists. reflexivity.
Qed.

Lemma store_attr_keeps_name (name : xml.Name) (v : string) (vs : list value) :
  named_by vs -> named_by (decoder.store_attr name v (f0 :: rest) vs).
Proof.
  intros [xs ->]. cbn [decoder.store_attr].
  rewrite (matches_not_XMLName fAttr name f0 f0_is_name).
  eexists. reflexivity.
Qed.

Lemma attrs_keep_name (attrs : list (xml.Name * string)) :
  forall vs : list value,
    named_by vs ->
    named_by (fold_left (fun vs a => decoder.store_attr (fst a) (snd a) (f0 :: rest) vs)
                        attrs vs).
Proof.
  induction attrs as [ | a attrs IH]; intros vs H; [ exact H | ].
  cbn [fold_left]. apply IH, store_attr_keeps_name, H.
Qed.

Lemma children_keep_name (depth : N) (cs : list xmlnode) :
  forall vs vs' : list value,
    named_by vs ->
    children_into depth (f0 :: rest) cs vs = Some vs' ->
    named_by vs'.
Proof.
  induction cs as [ | c cs IH]; intros vs vs' Hvs H.
  - injection H as <-. exact Hvs.
  - destruct c as [child a k | s]; cbn [children_into] in H;
      [ | exact (IH vs vs' Hvs H) ].
    destruct (decoder.first_field (decoder.matches fElement child) (f0 :: rest) 0)
      as [[i f] | ] eqn:E; [ | exact (IH vs vs' Hvs H) ].
    destruct (decoder.unmarshal (field_type f) (depth + 1) (Element child a k)
                                (nth i vs (zero_field (field_type f))))
      as [v | ]; [ | discriminate H ].
    refine (IH _ vs' _ H).
    exact (set_nth_keeps_name _ i f v vs
             (matches_not_XMLName fElement child f0 f0_is_name) E Hvs).
Qed.

Lemma chardata_keeps_name (data : string) (vs : list value) :
  named_by vs -> named_by (decoder.store_chardata data (f0 :: rest) vs).
Proof.
  intros Hvs. unfold decoder.store_chardata.
  destruct (decoder.first_field (decoder.fills fCharData) (f0 :: rest) 0)
    as [[i f] | ] eqn:E; [ | exact Hvs ].
  destruct (field_type f); try exact Hvs.
  exact (set_nth_keeps_name _ i f _ vs (fills_not_XMLName fCharData f0 f0_is_name)
           E Hvs).
Qed.

End NameKept.

(** X21: a struct decoded from an element records the element's name in
    its [XMLName], name space and local name as the element bears them.
    For every struct of the package that has the field [XMLName] and
    every element, when decoding the element into the zero struct
    succeeds, the first field of the result, [XMLName], holds the name of
    the element.  (This is the one field [ToJSON] leaves out.) *)
Theorem decoder_records_the_element_name
        (n : string) (depth : N) (name : xml.Name)
        (attrs : list (xml.Name * string)) (children : list xmlnode) (v : value) :
  own_name n <> None ->
  decoder.unmarshal (TStruct n) depth (Element name attrs children) (zero_struct n)
  = Some v ->
  exists rest : list value, v = VStruct (VName name :: rest).
Proof.
  intros Hown H.
  pose proof (fields_of_name_first n) as Hfirst.
  unfold own_name in Hown.
  rewrite unmarshal_struct_Element in H.
  destruct (decoder.maxUnmarshalDepth <=? depth)%N; [ discriminate H | ].
  unfold structure, encoding_json.struct_values, zero_struct in H.
  destruct (fields_of n) as [ | f0 rest]; [ contradiction Hown; reflexivity | ].
  cbn [name_first] in Hfirst. apply andb_prop in Hfirst.
  destruct Hfirst as [Hrest Hf0].
  destruct (encoding_xml.is_XMLName f0) eqn:Hx.
  - cbn [negb orb] in Hf0.
    unfold decoder.record_name in H. cbn [decoder.first_field] in H.
    rewrite Hx in H.
    destruct (negb (String.eqb (encoding_xml.xml_tag_name f0) "")
              && negb (String.eqb (encoding_xml.xml_tag_name f0) (xml.Local name)));
      [ discriminate H | ].
    destruct (negb (String.eqb (xml_xmlns (xml_tag f0)) "")
              && negb (String.eqb (xml_xmlns (xml_tag f0)) (xml.Space name)));
      [ discriminate H | ].
    destruct (field_type f0); try discriminate Hf0.
    cbn [map encoding_json.set_nth] in H.
    match type of H with
    | option_map _ match children_into ?d ?fs ?cs ?vs with _ => _ end = _ =>
        destruct (children_into d fs cs vs) as [vs' | ] eqn:E; [ | discriminate H ];
        assert (Hvs : named_by (VName name) vs)
          by (apply (attrs_keep_name f0 rest (VName name) Hx);
              eexists; reflexivity)
    end.
    pose proof (children_keep_name f0 rest (VName name) Hx _ _ _ _ Hvs E) as Hvs'.
    destruct (chardata_keeps_name f0 rest (VName name) Hx
                                  (decoder.chardata children) vs' Hvs') as [xs Exs].
    cbn [option_map] in H. injection H as <-. rewrite Exs.
    exists xs. reflexivity.
  - exfalso. apply Hown. cbn [decoder.first_field]. rewrite Hx.
    clear - Hrest. generalize 1.
    induction rest as [ | g rest IH]; intros k; [ reflexivity | ].
    cbn [forallb] in Hrest. apply andb_prop in Hrest. destruct Hrest as [Hg Hrest].
    cbn [decoder.first_field]. apply negb_true_iff in Hg. rewrite Hg.
    exact (IH Hrest (S k)).
Qed.

(** A [bill] element of the USLM name space, decoded: the name is kept,
    name space included. *)
Lemma decoder_records_the_element_name_witness :
  exists rest : list value,
    VStruct [VName (uslm_name "bill"); VString "urn:x"; VString ""; VString "";
             VString ""; VString ""; VString ""; VString ""; VPtr None; VPtr None;
             VPtr None; VString ""]
    = VStruct (VName (uslm_name "bill") :: rest).
Proof.
  apply (decoder_records_the_element_name
           "Bill" 0 (uslm_name "bill") [(xml.mkName "" "xmlns", "urn:x")] []).
  - vm_compute. discriminate.
  - vm_compute. reflexivity.
Defined.
